(** * CQUDB storage kernel: buffer pool manager and B+tree index handle

    A shallow embedding of [src/storage/buffer_pool_manager.cpp] and
    [src/index/ix_index_handle.cpp].  Stateful C++ code is written in a
    small state-and-exception monad; a [Page*] or an [IxNodeHandle*] is the
    index of the frame it points into, so two handles on one page alias. *)

From Stdlib Require Import ZArith Lia Bool.
From stdpp Require Import gmultiset.
From stdpp Require Import base tactics option list gmap sorting.

#[global] Set Warnings "-clear-no-such-hyp".

Local Open Scope Z_scope.

(** ** Identifiers *)

Abbreviation page_id_t := Z.
Abbreviation frame_id_t := nat.

Definition INVALID_PAGE_ID : page_id_t := -1.

Record PageId := mkPageId { fd : Z; page_no : page_id_t }.

#[global] Instance PageId_eq_dec : EqDecision PageId.
Proof. solve_decision. Defined.

#[global] Instance PageId_countable : Countable PageId.
Proof.
  apply (inj_countable' (λ p, (fd p, page_no p)) (λ q, mkPageId q.1 q.2)).
  by intros [].
Defined.

(** ** Exceptions and the state monad

    [AssertionFailed] is a failed [assert], tagged with the function
    that holds it; [NullPage] is a dereference of the null [Page*] that
    [new_page] returns on exhaustion; [IOError] is the disk manager's
    failure; [OutOfBounds] is a read of an array slot outside the live part
    of the array, whose content the embedding does not track; [OutOfFuel] is
    only produced by the fuel of the loops.

    [Throw e s] keeps the state [s] in which [e] was raised: the objects as
    a caller that catches a C++ exception ([IOError],
    [IndexEntryNotFoundError]) finds them. *)

Inductive AssertSite : Set :=
| InInsertPairs
| InErasePair
| InFetchNode
| InFindChild
| InInternalLookup
| InRemoveOnlyChild
| InMaintainParent
| InEraseLeaf.

#[global] Instance AssertSite_eq_dec : EqDecision AssertSite.
Proof. solve_decision. Defined.

Inductive Error : Set :=
| AssertionFailed (site : AssertSite)
| NullPage
| IOError
| OutOfBounds
| IndexEntryNotFoundError
| OutOfFuel.

#[global] Instance Error_eq_dec : EqDecision Error.
Proof. solve_decision. Defined.

Inductive Result (St A : Type) : Type :=
| Ok (a : A) (s : St)
| Throw (e : Error) (s : St).

Arguments Ok {St A} a s.
Arguments Throw {St A} e s.

Definition M (St A : Type) : Type := St → Result St A.

Definition ret {St A} (a : A) : M St A := λ s, Ok a s.

Definition bind {St A B} (m : M St A) (k : A → M St B) : M St B :=
  λ s, match m s with
       | Ok a s' => k a s'
       | Throw e s' => Throw e s'
       end.

Definition throw {St A} (e : Error) : M St A := λ s, Throw e s.
Definition get {St} : M St St := λ s, Ok s s.
Definition put {St} (s : St) : M St unit := λ _, Ok tt s.
Definition modify {St} (f : St → St) : M St unit := λ s, Ok tt (f s).
Definition gets {St A} (f : St → A) : M St A := λ s, Ok (f s) s.

Definition assert {St} (site : AssertSite) (b : bool) : M St unit :=
  if b then ret tt else throw (AssertionFailed site).

Notation "'let*' x ':=' m 'in' k" := (bind m (λ x, k))
  (at level 10, x pattern, m at level 100, k at level 200).
Notation "m ;; k" := (bind m (λ _, k))
  (at level 100, k at level 200, right associativity).

(** The class of page contents: [blank] is a page of zero bytes, what
    [Page::reset_memory] leaves in the frame. *)
Class Blank (D : Type) := blank : D.

(** ** The disk manager and the replacer *)

Section BufferPool.
Context {Data : Type} `{!Blank Data}.

(** Modelled from the spec: the disk manager is an external collaborator
    (section 6).  [read_page] and [write_page] move one page,
    [allocate_page] hands out the next page number of the file and
    [set_fd2pageno] tells it which one that is.  A read of a page that the
    file does not hold is the disk manager's failure, [IOError]. *)
Record DiskManager := mkDisk {
  disk_pages : gmap PageId Data;
  fd2pageno : gmap Z page_id_t
}.

Definition next_page_no (d : DiskManager) (f : Z) : page_id_t :=
  default 0 (fd2pageno d !! f).

Definition disk_write_page (p : PageId) (buf : Data) (d : DiskManager) : DiskManager :=
  mkDisk (<[p := buf]> (disk_pages d)) (fd2pageno d).

Definition disk_allocate_page (f : Z) (d : DiskManager) : page_id_t * DiskManager :=
  (next_page_no d f,
   mkDisk (disk_pages d) (<[f := next_page_no d f + 1]> (fd2pageno d))).

Definition disk_set_fd2pageno (f : Z) (n : page_id_t) (d : DiskManager) : DiskManager :=
  mkDisk (disk_pages d) (<[f := n]> (fd2pageno d)).

(** The pages of a file: page [i] of file [f] is stored under [(f, i)]. *)
Definition file_pages (fl : Z * list Data) : list (PageId * Data) :=
  imap (λ i x, (mkPageId fl.1 (Z.of_nat i), x)) fl.2.

(** Modelled from the spec: the disk manager over opened files (section 6).
    A file is a sequence of pages, and [set_fd2pageno] has told the
    allocator to go on after the last page of each file, so that
    [allocate_page] returns a fresh page number. *)
Definition disk_of_files (files : gmap Z (list Data)) : DiskManager :=
  mkDisk (list_to_map (map_to_list files ≫= file_pages))
         ((λ l, Z.of_nat (length l)) <$> files).

(** Modelled from the spec: the replacer (section 4.1) is an LRU list of
    the evictable frames, the least recently unpinned one first. *)
Abbreviation Replacer := (list frame_id_t).

Definition replacer_victim (r : Replacer) : option frame_id_t * Replacer :=
  match r with
  | [] => (None, [])
  | f :: r' => (Some f, r')
  end.

Definition replacer_pin (f : frame_id_t) (r : Replacer) : Replacer :=
  filter (λ g, g ≠ f) r.

Definition replacer_unpin (f : frame_id_t) (r : Replacer) : Replacer :=
  if decide (f ∈ r) then r else r ++ [f].

(** ** Frames and the pool *)

(** [pin_count_] is an [int] in the source.  It is counted in [Z] here, so
    the embedding follows the source as long as no frame holds [2^31 - 1]
    pins at once. *)
Record Page := mkPage {
  id_ : PageId;
  data_ : Data;
  is_dirty_ : bool;
  pin_count_ : Z
}.

Record BufferPoolManager := mkBpm {
  pages_ : list Page;
  page_table_ : gmap PageId frame_id_t;
  free_list_ : list frame_id_t;
  replacer_ : Replacer;
  disk_manager_ : DiskManager
}.

Definition set_pages (f : list Page → list Page) (b : BufferPoolManager) :=
  mkBpm (f (pages_ b)) (page_table_ b) (free_list_ b) (replacer_ b) (disk_manager_ b).
Definition set_page_table (f : gmap PageId frame_id_t → gmap PageId frame_id_t)
    (b : BufferPoolManager) :=
  mkBpm (pages_ b) (f (page_table_ b)) (free_list_ b) (replacer_ b) (disk_manager_ b).
Definition set_free_list (f : list frame_id_t → list frame_id_t) (b : BufferPoolManager) :=
  mkBpm (pages_ b) (page_table_ b) (f (free_list_ b)) (replacer_ b) (disk_manager_ b).
Definition set_replacer (f : Replacer → Replacer) (b : BufferPoolManager) :=
  mkBpm (pages_ b) (page_table_ b) (free_list_ b) (f (replacer_ b)) (disk_manager_ b).
Definition set_disk (f : DiskManager → DiskManager) (b : BufferPoolManager) :=
  mkBpm (pages_ b) (page_table_ b) (free_list_ b) (replacer_ b) (f (disk_manager_ b)).

(** [pages_ + fid]: the frame a [Page*] points to. *)
Definition page_at (fid : frame_id_t) : M BufferPoolManager Page :=
  λ b, match pages_ b !! fid with
       | Some p => Ok p b
       | None => Throw OutOfBounds b
       end.

Definition store_page (fid : frame_id_t) (p : Page) : M BufferPoolManager unit :=
  modify (set_pages (λ l, <[fid := p]> l)).

(** The pool as its constructor leaves it: every frame free, unpinned,
    clean and holding no page. *)
Definition empty_page : Page := mkPage (mkPageId 0 INVALID_PAGE_ID) blank false 0.

Definition bpm_init (pool_size : nat) (d : DiskManager) : BufferPoolManager :=
  mkBpm (replicate pool_size empty_page) ∅ (seq 0 pool_size) [] d.

(** ** Operations of [BufferPoolManager] *)

Definition find_victim_page : M BufferPoolManager (option frame_id_t) :=
  let* b := get in
  match free_list_ b with
  | f :: rest =>
      put (set_free_list (λ _, rest) b) ;;
      ret (Some f)
  | [] =>
      let '(v, r) := replacer_victim (replacer_ b) in
      put (set_replacer (λ _, r) b) ;;
      ret v
  end.

Definition update_page (fid : frame_id_t) (new_page_id : PageId)
    (new_frame_id : frame_id_t) : M BufferPoolManager unit :=
  let* page := page_at fid in
  let old_id := id_ page in
  (if is_dirty_ page && negb (page_no old_id =? INVALID_PAGE_ID)
   then modify (set_disk (disk_write_page old_id (data_ page)))
   else ret tt) ;;
  (if negb (page_no old_id =? INVALID_PAGE_ID)
   then modify (set_page_table (delete old_id))
   else ret tt) ;;
  store_page fid (mkPage new_page_id blank false 0) ;;
  modify (set_page_table (λ t, <[new_page_id := new_frame_id]> t)).

Definition read_page (page_id : PageId) : M BufferPoolManager Data :=
  λ b, match disk_pages (disk_manager_ b) !! page_id with
       | Some d => Ok d b
       | None => Throw IOError b
       end.

Definition fetch_page (page_id : PageId) : M BufferPoolManager (option frame_id_t) :=
  let* b := get in
  match page_table_ b !! page_id with
  | Some fid =>
      let* page := page_at fid in
      store_page fid (mkPage (id_ page) (data_ page) (is_dirty_ page) (pin_count_ page + 1)) ;;
      modify (set_replacer (replacer_pin fid)) ;;
      ret (Some fid)
  | None =>
      let* v := find_victim_page in
      match v with
      | None => ret None
      | Some victim =>
          update_page victim page_id victim ;;
          let* d := read_page page_id in
          let* page := page_at victim in
          store_page victim (mkPage (id_ page) d (is_dirty_ page) 1) ;;
          modify (set_replacer (replacer_pin victim)) ;;
          ret (Some victim)
      end
  end.

Definition unpin_page (page_id : PageId) (is_dirty : bool) : M BufferPoolManager bool :=
  let* b := get in
  match page_table_ b !! page_id with
  | None => ret false
  | Some fid =>
      let* page := page_at fid in
      if pin_count_ page <=? 0 then ret false
      else
        let pc := pin_count_ page - 1 in
        (if pc =? 0 then modify (set_replacer (replacer_unpin fid)) else ret tt) ;;
        store_page fid (mkPage (id_ page) (data_ page)
                          (if is_dirty then true else is_dirty_ page) pc) ;;
        ret true
  end.

Definition flush_page (page_id : PageId) : M BufferPoolManager bool :=
  let* b := get in
  match page_table_ b !! page_id with
  | None => ret false
  | Some fid =>
      let* page := page_at fid in
      modify (set_disk (disk_write_page page_id (data_ page))) ;;
      store_page fid (mkPage (id_ page) (data_ page) false (pin_count_ page)) ;;
      ret true
  end.

(** [new_page] takes the file of [*page_id] and returns the frame with the
    page id written back through the pointer. *)
Definition new_page (f : Z) : M BufferPoolManager (option (frame_id_t * PageId)) :=
  let* v := find_victim_page in
  match v with
  | None => ret None
  | Some victim =>
      let* b := get in
      let '(n, d) := disk_allocate_page f (disk_manager_ b) in
      put (set_disk (λ _, d) b) ;;
      let new_id := mkPageId f n in
      update_page victim new_id victim ;;
      let* page := page_at victim in
      store_page victim (mkPage (id_ page) (data_ page) true 1) ;;
      modify (set_replacer (replacer_pin victim)) ;;
      ret (Some (victim, new_id))
  end.

Definition delete_page (page_id : PageId) : M BufferPoolManager bool :=
  let* b := get in
  match page_table_ b !! page_id with
  | None => ret true
  | Some fid =>
      let* page := page_at fid in
      if 0 <? pin_count_ page then ret false
      else
        modify (set_replacer (replacer_pin fid)) ;;
        (if is_dirty_ page
         then modify (set_disk (disk_write_page page_id (data_ page)))
         else ret tt) ;;
        modify (set_page_table (delete page_id)) ;;
        store_page fid (mkPage (mkPageId (fd page_id) INVALID_PAGE_ID) blank false 0) ;;
        modify (set_free_list (λ l, l ++ [fid])) ;;
        ret true
  end.

(** The loop of [flush_all_pages] over the entries of the page table. *)
Fixpoint flush_entries (f : Z) (es : list (PageId * frame_id_t)) : M BufferPoolManager unit :=
  match es with
  | [] => ret tt
  | (pid, fid) :: es' =>
      (if fd pid =? f then
         let* page := page_at fid in
         modify (set_disk (disk_write_page pid (data_ page))) ;;
         store_page fid (mkPage (id_ page) (data_ page) false (pin_count_ page))
       else ret tt) ;;
      flush_entries f es'
  end.

Definition flush_all_pages (f : Z) : M BufferPoolManager unit :=
  let* b := get in
  flush_entries f (map_to_list (page_table_ b)).

End BufferPool.

Arguments DiskManager : clear implicits.
Arguments Page : clear implicits.
Arguments BufferPoolManager : clear implicits.

(** ** B+tree node pages *)

Definition IX_NO_PAGE : page_id_t := -1.

Record Rid := mkRid { rid_page_no : page_id_t; slot_no : Z }.

#[global] Instance Rid_eq_dec : EqDecision Rid.
Proof. solve_decision. Defined.

Record Iid := mkIid { iid_page_no : page_id_t; iid_slot_no : Z }.

(** What the index is built with and what [ix_index_handle.cpp] takes from
    its headers: the key type with byte equality ([memcmp]), the comparison
    [ix_compare] under the column types of the file header, the constant
    [binary_search] and the page number of the leaf header page. *)
Class IxParams (Key : Type) := {
  key_eq_dec :: EqDecision Key;
  ix_compare : Key → Key → Z;
  binary_search : bool;
  IX_LEAF_HEADER_PAGE : page_id_t
}.

(** Modelled from the spec: [ix_compare] orders keys lexicographically over
    typed columns (section 4.3); for integer and fixed-string columns this
    is a strict total order that calls two keys equal exactly when their
    bytes are. *)
Class IxParamsLaws (Key : Type) `{!IxParams Key} := {
  ix_compare_eq : ∀ a b : Key, ix_compare a b = 0 ↔ a = b;
  ix_compare_lt_gt : ∀ a b : Key, ix_compare a b < 0 ↔ 0 < ix_compare b a;
  ix_compare_trans : ∀ a b c : Key,
    ix_compare a b < 0 → ix_compare b c < 0 → ix_compare a c < 0
}.

Section Index.
Context {Key : Type} `{!IxParams Key}.

(** The page of a node: the fields of [IxPageHdr] and the first [num_key]
    slots of the key and rid arrays, as one list of pairs. *)
Record Node := mkNode {
  is_leaf : bool;
  parent : page_id_t;
  prev_leaf : page_id_t;
  next_leaf : page_id_t;
  pairs : list (Key * Rid)
}.

#[global] Instance Node_blank : Blank Node := mkNode false 0 0 0 [].

Definition num_key (n : Node) : Z := Z.of_nat (length (pairs n)).
Definition node_keys (n : Node) : list Key := (pairs n).*1.

Definition set_is_leaf (b : bool) (n : Node) :=
  mkNode b (parent n) (prev_leaf n) (next_leaf n) (pairs n).
Definition set_parent (p : page_id_t) (n : Node) :=
  mkNode (is_leaf n) p (prev_leaf n) (next_leaf n) (pairs n).
Definition set_prev (p : page_id_t) (n : Node) :=
  mkNode (is_leaf n) (parent n) p (next_leaf n) (pairs n).
Definition set_next (p : page_id_t) (n : Node) :=
  mkNode (is_leaf n) (parent n) (prev_leaf n) p (pairs n).
Definition set_pairs (l : list (Key * Rid)) (n : Node) :=
  mkNode (is_leaf n) (parent n) (prev_leaf n) (next_leaf n) l.

(** *** Search inside a node: [IxNodeHandle::lower_bound], [upper_bound] *)

(** The [for] loops of the linear scans, started at slot [i]. *)
Fixpoint lower_scan (keys : list Key) (target : Key) (i : Z) : Z :=
  match keys with
  | [] => i
  | k :: keys' => if 0 <=? ix_compare k target then i else lower_scan keys' target (i + 1)
  end.

Fixpoint upper_scan (keys : list Key) (target : Key) (i : Z) : Z :=
  match keys with
  | [] => i
  | k :: keys' => if 0 <? ix_compare k target then i else upper_scan keys' target (i + 1)
  end.

(** The [while (l < r)] loops of the binary searches; [go_right cmp] says
    when the loop moves [l] past [mid].  The interval halves, so
    [r - l] rounds are enough; a slot read out of range stops the loop. *)
Fixpoint bisect (go_right : Z → bool) (keys : list Key) (target : Key)
    (fuel : nat) (l r : Z) : Z :=
  match fuel with
  | O => l
  | S fuel' =>
      if l <? r then
        let mid := (l + r) / 2 in
        match keys !! Z.to_nat mid with
        | Some k =>
            if go_right (ix_compare k target)
            then bisect go_right keys target fuel' (mid + 1) r
            else bisect go_right keys target fuel' l mid
        | None => l
        end
      else l
  end.

Definition lower_bound_with (bin : bool) (keys : list Key) (target : Key) : Z :=
  let n := Z.of_nat (length keys) in
  if bin then bisect (λ c, c <? 0) keys target (length keys) 0 n
  else lower_scan keys target 0.

Definition upper_bound_with (bin : bool) (keys : list Key) (target : Key) : Z :=
  let n := Z.of_nat (length keys) in
  if bin then bisect (λ c, c <=? 0) keys target (length keys) 0 n
  else upper_scan keys target 0.

Definition lower_bound (n : Node) (target : Key) : Z :=
  lower_bound_with binary_search (node_keys n) target.

Definition upper_bound (n : Node) (target : Key) : Z :=
  upper_bound_with binary_search (node_keys n) target.

End Index.

Arguments Node : clear implicits.

(** ** The index handle *)

Record IxFileHdr := mkFileHdr {
  root_page_ : page_id_t;
  first_leaf_ : page_id_t;
  last_leaf_ : page_id_t;
  num_pages_ : Z;
  max_size_ : Z
}.

Definition set_root_page (p : page_id_t) (h : IxFileHdr) :=
  mkFileHdr p (first_leaf_ h) (last_leaf_ h) (num_pages_ h) (max_size_ h).
Definition set_first_leaf (p : page_id_t) (h : IxFileHdr) :=
  mkFileHdr (root_page_ h) p (last_leaf_ h) (num_pages_ h) (max_size_ h).
Definition set_last_leaf (p : page_id_t) (h : IxFileHdr) :=
  mkFileHdr (root_page_ h) (first_leaf_ h) p (num_pages_ h) (max_size_ h).
Definition set_num_pages (n : Z) (h : IxFileHdr) :=
  mkFileHdr (root_page_ h) (first_leaf_ h) (last_leaf_ h) n (max_size_ h).

(** An [IxNodeHandle*] is the frame its [page] points to. *)
Abbreviation IxNodeHandle := frame_id_t.

Section IndexHandle.
Context {Key : Type} `{!IxParams Key}.

Abbreviation Pool := (BufferPoolManager (Node Key)).

Record IxIndexHandle := mkIx {
  file_hdr_ : IxFileHdr;
  buffer_pool_manager_ : Pool;
  fd_ : Z
}.

(** A call into the buffer pool manager. *)
Definition bpm {A} (m : M Pool A) : M IxIndexHandle A :=
  λ ix, match m (buffer_pool_manager_ ix) with
        | Ok a b => Ok a (mkIx (file_hdr_ ix) b (fd_ ix))
        | Throw e b => Throw e (mkIx (file_hdr_ ix) b (fd_ ix))
        end.

Definition set_hdr (f : IxFileHdr → IxFileHdr) : M IxIndexHandle unit :=
  modify (λ ix, mkIx (f (file_hdr_ ix)) (buffer_pool_manager_ ix) (fd_ ix)).

Fixpoint for_each {A} (l : list A) (body : A → M IxIndexHandle unit) : M IxIndexHandle unit :=
  match l with
  | [] => ret tt
  | a :: l' => body a ;; for_each l' body
  end.

(** *** Accessors of [IxNodeHandle] *)

Definition node_of (h : IxNodeHandle) : M IxIndexHandle (Node Key) :=
  let* p := bpm (page_at h) in ret (data_ p).

Definition update_node (h : IxNodeHandle) (f : Node Key → Node Key) : M IxIndexHandle unit :=
  bpm (let* p := page_at h in
       store_page h (mkPage (id_ p) (f (data_ p)) (is_dirty_ p) (pin_count_ p))).

Definition get_page_id (h : IxNodeHandle) : M IxIndexHandle PageId :=
  let* p := bpm (page_at h) in ret (id_ p).

Definition get_page_no (h : IxNodeHandle) : M IxIndexHandle page_id_t :=
  let* p := bpm (page_at h) in ret (page_no (id_ p)).

Definition get_size (h : IxNodeHandle) : M IxIndexHandle Z :=
  let* nd := node_of h in ret (num_key nd).

Definition get_max_size : M IxIndexHandle Z := gets (λ ix, max_size_ (file_hdr_ ix)).

(** Modelled from the spec: [min_size = ceil(max_size / 2)] (section 3). *)
Definition min_size_of (max_size : Z) : Z := (max_size + 1) / 2.

Definition get_min_size : M IxIndexHandle Z :=
  gets (λ ix, min_size_of (max_size_ (file_hdr_ ix))).

(** Slot [i] of the key or rid array.  The arrays are unchecked pointers
    into the page: a read below slot 0 or at [num_key] and above gives
    bytes of the page that are no pair of the node.  The embedding keeps
    the pairs only, and marks such a read with [OutOfBounds]. *)
Definition slot {A} (l : list A) (i : Z) : M IxIndexHandle A :=
  if i <? 0 then throw OutOfBounds
  else match l !! Z.to_nat i with
       | Some a => ret a
       | None => throw OutOfBounds
       end.

Definition get_key (h : IxNodeHandle) (i : Z) : M IxIndexHandle Key :=
  let* nd := node_of h in
  let* kv := slot (pairs nd) i in ret kv.1.

Definition get_rid (h : IxNodeHandle) (i : Z) : M IxIndexHandle Rid :=
  let* nd := node_of h in
  let* kv := slot (pairs nd) i in ret kv.2.

Definition value_at (h : IxNodeHandle) (i : Z) : M IxIndexHandle page_id_t :=
  let* r := get_rid h i in ret (rid_page_no r).

Definition set_key (h : IxNodeHandle) (i : Z) (key : Key) : M IxIndexHandle unit :=
  let* nd := node_of h in
  let* kv := slot (pairs nd) i in
  update_node h (set_pairs (<[Z.to_nat i := (key, kv.2)]> (pairs nd))).

(** [buffer_pool_manager_->unpin_page(node->get_page_id(), dirty)] *)
Definition unpin_node (h : IxNodeHandle) (dirty : bool) : M IxIndexHandle bool :=
  let* pid := get_page_id h in
  bpm (unpin_page pid dirty).

(** *** Methods of [IxNodeHandle] *)

Definition internal_lookup (h : IxNodeHandle) (key : Key) : M IxIndexHandle page_id_t :=
  let* nd := node_of h in
  assert InInternalLookup (negb (is_leaf nd)) ;;
  let idx := upper_bound nd key in
  let child_idx := if idx =? 0 then 0 else idx - 1 in
  value_at h child_idx.

(** [insert_pairs(pos, key, rid, n)]: the [n] pairs at [key] and [rid] are
    the list [src]. *)
Definition insert_pairs (h : IxNodeHandle) (pos : Z) (src : list (Key * Rid))
    : M IxIndexHandle unit :=
  let* nd := node_of h in
  let* mx := get_max_size in
  assert InInsertPairs ((0 <=? pos) && (pos <=? num_key nd)) ;;
  assert InInsertPairs (num_key nd + Z.of_nat (length src) <=? mx) ;;
  update_node h (λ nd, set_pairs (take (Z.to_nat pos) (pairs nd) ++ src
                                   ++ drop (Z.to_nat pos) (pairs nd)) nd).

(** Modelled from the spec: [insert_pair] is the single-entry case of
    [insert_pairs] (section 9). *)
Definition insert_pair (h : IxNodeHandle) (pos : Z) (key : Key) (rid : Rid)
    : M IxIndexHandle unit :=
  insert_pairs h pos [(key, rid)].

Definition node_insert (h : IxNodeHandle) (key : Key) (value : Rid) : M IxIndexHandle Z :=
  let* nd := node_of h in
  let pos := lower_bound nd key in
  match pairs nd !! Z.to_nat pos with
  | Some (k, _) =>
      if ix_compare k key =? 0 then get_size h
      else insert_pair h pos key value ;; get_size h
  | None => insert_pair h pos key value ;; get_size h
  end.

Definition erase_pair (h : IxNodeHandle) (pos : Z) : M IxIndexHandle unit :=
  let* nd := node_of h in
  assert InErasePair ((0 <=? pos) && (pos <? num_key nd)) ;;
  update_node h (λ nd, set_pairs (take (Z.to_nat pos) (pairs nd)
                                   ++ drop (S (Z.to_nat pos)) (pairs nd)) nd).

Definition node_remove (h : IxNodeHandle) (key : Key) : M IxIndexHandle Z :=
  let* nd := node_of h in
  let pos := lower_bound nd key in
  match pairs nd !! Z.to_nat pos with
  | Some (k, _) =>
      if ix_compare k key =? 0 then erase_pair h pos ;; get_size h
      else get_size h
  | None => get_size h
  end.

(** Modelled from the spec: [find_child] is a linear search for the page
    number of [child] among the children of the node (section 4.3), and
    asserts that it is found. *)
Fixpoint find_index (l : list (Key * Rid)) (p : page_id_t) (i : Z) : option Z :=
  match l with
  | [] => None
  | kv :: l' => if rid_page_no kv.2 =? p then Some i else find_index l' p (i + 1)
  end.

Definition find_child (h child : IxNodeHandle) : M IxIndexHandle Z :=
  let* nd := node_of h in
  let* p := get_page_no child in
  match find_index (pairs nd) p 0 with
  | Some i => ret i
  | None => throw (AssertionFailed InFindChild)
  end.

(** Modelled from the spec: the root's only child is taken out of the
    root when it is promoted (section 4.4, adjust_root). *)
Definition remove_and_return_only_child (h : IxNodeHandle) : M IxIndexHandle page_id_t :=
  let* sz := get_size h in
  assert InRemoveOnlyChild (sz =? 1) ;;
  let* child_page_no := value_at h 0 in
  erase_pair h 0 ;;
  let* sz' := get_size h in
  assert InRemoveOnlyChild (sz' =? 0) ;;
  ret child_page_no.

(** *** Methods of [IxIndexHandle] *)

Definition fetch_node (page_no : page_id_t) : M IxIndexHandle IxNodeHandle :=
  let* f := gets fd_ in
  let* page := bpm (fetch_page (mkPageId f page_no)) in
  match page with
  | Some h => ret h
  | None => throw (AssertionFailed InFetchNode)
  end.

(** [create_node] neither tests nor uses the page that [new_page] returns:
    on a null page it still returns a handle, and the next statement of its
    two callers, [split] and [insert_into_parent], writes the page header
    through it.  [NullPage] stands for that write; it is raised here, with
    [num_pages_] counted up already, since the handle of the embedding is
    the frame of the page and there is none. *)
Definition create_node : M IxIndexHandle IxNodeHandle :=
  set_hdr (λ h, set_num_pages (num_pages_ h + 1) h) ;;
  let* f := gets fd_ in
  let* page := bpm (new_page f) in
  match page with
  | Some (h, _) => ret h
  | None => throw NullPage
  end.

Definition update_root_page_no (p : page_id_t) : M IxIndexHandle unit :=
  set_hdr (set_root_page p).

Fixpoint descend (fuel : nat) (node : IxNodeHandle) (key : Key)
    : M IxIndexHandle IxNodeHandle :=
  match fuel with
  | O => throw OutOfFuel
  | S fuel' =>
      let* nd := node_of node in
      if is_leaf nd then ret node
      else
        let* child := internal_lookup node key in
        unpin_node node false ;;
        let* node' := fetch_node child in
        descend fuel' node' key
  end.

Definition find_leaf_page (fuel : nat) (key : Key) : M IxIndexHandle (option IxNodeHandle) :=
  let* root := gets (λ ix, root_page_ (file_hdr_ ix)) in
  if root =? IX_NO_PAGE then ret None
  else
    let* node := fetch_node root in
    let* leaf := descend fuel node key in
    ret (Some leaf).

(** The [while] loop of [get_value] over the slots from [pos] on. *)
Fixpoint matching (l : list (Key * Rid)) (key : Key) : list Rid :=
  match l with
  | [] => []
  | kv :: l' => if ix_compare kv.1 key =? 0 then kv.2 :: matching l' key else []
  end.

Definition get_value (fuel : nat) (key : Key) : M IxIndexHandle (bool * list Rid) :=
  let* leaf := find_leaf_page fuel key in
  match leaf with
  | None => ret (false, [])
  | Some leaf =>
      let* nd := node_of leaf in
      let pos := lower_bound nd key in
      let result := matching (drop (Z.to_nat pos) (pairs nd)) key in
      unpin_node leaf false ;;
      ret (match result with [] => false | _ => true end, result)
  end.

Definition maintain_child (node : IxNodeHandle) (child_idx : Z) : M IxIndexHandle unit :=
  let* nd := node_of node in
  if is_leaf nd then ret tt
  else
    let* child_page_no := value_at node child_idx in
    let* child := fetch_node child_page_no in
    let* p := get_page_no node in
    update_node child (set_parent p) ;;
    unpin_node child true ;;
    ret tt.

Fixpoint maintain_parent (fuel : nat) (curr : IxNodeHandle) : M IxIndexHandle unit :=
  match fuel with
  | O => throw OutOfFuel
  | S fuel' =>
      let* nd := node_of curr in
      if parent nd =? IX_NO_PAGE then ret tt
      else
        let* parent_h := fetch_node (parent nd) in
        let* rank := find_child parent_h curr in
        let* parent_key := get_key parent_h rank in
        let* child_first_key := get_key curr 0 in
        if decide (parent_key = child_first_key) then
          let* ok := unpin_node parent_h true in
          assert InMaintainParent ok
        else
          set_key parent_h rank child_first_key ;;
          let* ok := unpin_node parent_h true in
          assert InMaintainParent ok ;;
          maintain_parent fuel' parent_h
  end.

Definition index_range (from to : Z) : list Z :=
  (λ i, from + Z.of_nat i) <$> seq 0 (Z.to_nat (to - from)).

Definition split (node : IxNodeHandle) : M IxIndexHandle IxNodeHandle :=
  let* new_node := create_node in
  let* nd := node_of node in
  update_node new_node (λ _, mkNode (is_leaf nd) (parent nd) IX_NO_PAGE IX_NO_PAGE []) ;;
  let* nd := node_of node in
  let total := num_key nd in
  let mid := total / 2 in
  insert_pairs new_node 0 (drop (Z.to_nat mid) (pairs nd)) ;;
  update_node node (λ nd, set_pairs (take (Z.to_nat mid) (pairs nd)) nd) ;;
  let* nn := node_of new_node in
  (if is_leaf nn then
     let* node_no := get_page_no node in
     let* new_no := get_page_no new_node in
     update_node new_node (set_prev node_no) ;;
     let* nd := node_of node in
     update_node new_node (set_next (next_leaf nd)) ;;
     update_node node (set_next new_no) ;;
     let* nn := node_of new_node in
     (if next_leaf nn =? IX_NO_PAGE then ret tt
      else
        let* next := fetch_node (next_leaf nn) in
        update_node next (set_prev new_no) ;;
        unpin_node next true ;;
        ret tt) ;;
     let* last := gets (λ ix, last_leaf_ (file_hdr_ ix)) in
     let* nn := node_of new_node in
     if (last =? node_no) || (next_leaf nn =? IX_LEAF_HEADER_PAGE)
     then set_hdr (set_last_leaf new_no)
     else ret tt
   else
     let* sz := get_size new_node in
     for_each (index_range 0 sz) (maintain_child new_node)) ;;
  ret new_node.

Fixpoint insert_into_parent (fuel : nat) (old_node : IxNodeHandle) (key : Key)
    (new_node : IxNodeHandle) : M IxIndexHandle unit :=
  match fuel with
  | O => throw OutOfFuel
  | S fuel' =>
      let* od := node_of old_node in
      if parent od =? IX_NO_PAGE then
        let* new_root := create_node in
        update_node new_root (λ _, mkNode false IX_NO_PAGE IX_NO_PAGE IX_NO_PAGE []) ;;
        let* old_no := get_page_no old_node in
        let* k0 := get_key old_node 0 in
        insert_pair new_root 0 k0 (mkRid old_no 0) ;;
        let* new_no := get_page_no new_node in
        insert_pair new_root 1 key (mkRid new_no 0) ;;
        let* root_no := get_page_no new_root in
        update_node old_node (set_parent root_no) ;;
        update_node new_node (set_parent root_no) ;;
        update_root_page_no root_no ;;
        let* old_no := get_page_no old_node in
        set_hdr (λ h, set_first_leaf
                        (if first_leaf_ h =? IX_NO_PAGE then old_no else first_leaf_ h) h) ;;
        unpin_node new_root true ;;
        ret tt
      else
        let* parent_h := fetch_node (parent od) in
        let* idx := find_child parent_h old_node in
        let pos := idx + 1 in
        let* new_no := get_page_no new_node in
        insert_pair parent_h pos key (mkRid new_no 0) ;;
        let* parent_no := get_page_no parent_h in
        update_node new_node (set_parent parent_no) ;;
        let* sz := get_size parent_h in
        let* mx := get_max_size in
        (if mx <=? sz then
           let* parent_new := split parent_h in
           let* k := get_key parent_new 0 in
           insert_into_parent fuel' parent_h k parent_new ;;
           unpin_node parent_new true ;;
           ret tt
         else ret tt) ;;
        unpin_node parent_h true ;;
        ret tt
  end.

Definition insert_entry (fuel : nat) (key : Key) (value : Rid) : M IxIndexHandle page_id_t :=
  let* leaf := find_leaf_page fuel key in
  match leaf with
  | None => ret IX_NO_PAGE
  | Some leaf =>
      let* before := get_size leaf in
      let* after := node_insert leaf key value in
      if after =? before then
        unpin_node leaf false ;;
        get_page_no leaf
      else
        let* sz := get_size leaf in
        (if 0 <? sz then maintain_parent fuel leaf else ret tt) ;;
        let* ret_page := get_page_no leaf in
        let* sz := get_size leaf in
        let* mx := get_max_size in
        let* ret_page :=
          (if mx <=? sz then
             let* new_leaf := split leaf in
             let* k0 := get_key new_leaf 0 in
             let* ret_page :=
               (if 0 <=? ix_compare key k0 then get_page_no new_leaf else ret ret_page) in
             insert_into_parent fuel leaf k0 new_leaf ;;
             unpin_node new_leaf true ;;
             ret ret_page
           else ret ret_page) in
        let* nd := node_of leaf in
        let* leaf_no := get_page_no leaf in
        let* last := gets (λ ix, last_leaf_ (file_hdr_ ix)) in
        (if (next_leaf nd =? IX_LEAF_HEADER_PAGE) || (leaf_no =? last) then
           set_hdr (λ h, set_last_leaf
                           (if last_leaf_ h =? IX_NO_PAGE then leaf_no else last_leaf_ h) h)
         else ret tt) ;;
        unpin_node leaf true ;;
        ret ret_page
  end.

Definition adjust_root (old_root_node : IxNodeHandle) : M IxIndexHandle bool :=
  let* nd := node_of old_root_node in
  if negb (is_leaf nd) && (num_key nd =? 1) then
    let* child_page_no := remove_and_return_only_child old_root_node in
    update_root_page_no child_page_no ;;
    let* child := fetch_node child_page_no in
    update_node child (set_parent IX_NO_PAGE) ;;
    unpin_node child true ;;
    ret true
  else if is_leaf nd && (num_key nd =? 0) then
    update_root_page_no IX_NO_PAGE ;;
    set_hdr (set_first_leaf IX_NO_PAGE) ;;
    set_hdr (set_last_leaf IX_NO_PAGE) ;;
    ret true
  else ret false.

Definition redistribute (neighbor_node node parent_h : IxNodeHandle) (index : Z)
    : M IxIndexHandle unit :=
  if index =? 0 then
    let* tmp_key := get_key neighbor_node 0 in
    let* tmp_rid := get_rid neighbor_node 0 in
    erase_pair neighbor_node 0 ;;
    let* sz := get_size node in
    insert_pair node sz tmp_key tmp_rid ;;
    let* nd := node_of node in
    (if is_leaf nd then ret tt
     else let* sz := get_size node in maintain_child node (sz - 1)) ;;
    let* k := get_key neighbor_node 0 in
    set_key parent_h (index + 1) k
  else
    let* nsz := get_size neighbor_node in
    let move_idx := nsz - 1 in
    let* tmp_key := get_key neighbor_node move_idx in
    let* tmp_rid := get_rid neighbor_node move_idx in
    erase_pair neighbor_node move_idx ;;
    insert_pair node 0 tmp_key tmp_rid ;;
    let* nd := node_of node in
    (if is_leaf nd then ret tt else maintain_child node 0) ;;
    let* k := get_key node 0 in
    set_key parent_h index k.

(** [coalesce] swaps [*neighbor_node] and [*node] through its pointer
    arguments; the handles come back with the result. *)
Definition coalesce (neighbor_node node parent_h : IxNodeHandle) (index : Z)
    : M IxIndexHandle (IxNodeHandle * IxNodeHandle * bool) :=
  let '(neighbor_node, node, index) :=
    if index =? 0 then (node, neighbor_node, 1) else (neighbor_node, node, index) in
  let left := neighbor_node in
  let right := node in
  let* left_origin := get_size left in
  let* rd := node_of right in
  insert_pairs left left_origin (pairs rd) ;;
  let* ld := node_of left in
  (if negb (is_leaf ld) then
     let* sz := get_size left in
     for_each (index_range left_origin sz) (maintain_child left)
   else
     let* rd := node_of right in
     update_node left (set_next (next_leaf rd)) ;;
     let* rd := node_of right in
     (if next_leaf rd =? IX_NO_PAGE then ret tt
      else
        let* next := fetch_node (next_leaf rd) in
        let* left_no := get_page_no left in
        update_node next (set_prev left_no) ;;
        unpin_node next true ;;
        ret tt) ;;
     let* right_no := get_page_no right in
     let* left_no := get_page_no left in
     set_hdr (λ h, if last_leaf_ h =? right_no then set_last_leaf left_no h else h) ;;
     set_hdr (λ h, if first_leaf_ h =? right_no then set_first_leaf left_no h else h)) ;;
  erase_pair parent_h index ;;
  update_node right (set_pairs []) ;;
  let* pd := node_of parent_h in
  let* mn := get_min_size in
  let delete_parent :=
    if parent pd =? IX_NO_PAGE then num_key pd <=? 1 else num_key pd <? mn in
  ret (neighbor_node, node, delete_parent).

Fixpoint coalesce_or_redistribute (fuel : nat) (node : IxNodeHandle) : M IxIndexHandle bool :=
  match fuel with
  | O => throw OutOfFuel
  | S fuel' =>
      let* nd := node_of node in
      if parent nd =? IX_NO_PAGE then
        let* del_root := adjust_root node in
        unpin_node node true ;;
        ret del_root
      else
        let* mn := get_min_size in
        if mn <=? num_key nd then
          unpin_node node true ;;
          ret false
        else
          let* parent_h := fetch_node (parent nd) in
          let* node_idx := find_child parent_h node in
          let neighbor_idx := if 0 <? node_idx then node_idx - 1 else node_idx + 1 in
          let* neighbor_no := value_at parent_h neighbor_idx in
          let* neighbor := fetch_node neighbor_no in
          let* sz := get_size node in
          let* nsz := get_size neighbor in
          if mn * 2 <=? sz + nsz then
            redistribute neighbor node parent_h node_idx ;;
            unpin_node neighbor true ;;
            unpin_node parent_h true ;;
            unpin_node node true ;;
            ret false
          else
            let* (neighbor, node, delete_parent) :=
              coalesce neighbor node parent_h node_idx in
            if (delete_parent : bool) then
              unpin_node neighbor true ;;
              unpin_node node true ;;
              coalesce_or_redistribute fuel' parent_h
            else
              unpin_node neighbor true ;;
              unpin_node parent_h true ;;
              unpin_node node true ;;
              ret false
  end.

(** [transaction] says whether the [Transaction*] is non-null; the
    transaction manager itself is an external collaborator. *)
Definition delete_entry (fuel : nat) (key : Key) (transaction : bool) : M IxIndexHandle bool :=
  let* leaf := find_leaf_page fuel key in
  match leaf with
  | None => ret false
  | Some leaf =>
      let* before := get_size leaf in
      node_remove leaf key ;;
      let* sz := get_size leaf in
      if sz =? before then
        unpin_node leaf false ;;
        ret false
      else
        (if 0 <? sz then maintain_parent fuel leaf else ret tt) ;;
        let* need_delete := coalesce_or_redistribute fuel leaf in
        (if need_delete && transaction then
           let* pid := get_page_id leaf in
           let* page := bpm (fetch_page pid) in
           match page with
           | None => throw NullPage
           | Some pg => unpin_node pg false ;; ret tt
           end
         else ret tt) ;;
        ret true
  end.

Definition IxIndexHandle_get_rid (iid : Iid) : M IxIndexHandle Rid :=
  let* node := fetch_node (iid_page_no iid) in
  let* sz := get_size node in
  if sz <=? iid_slot_no iid then throw IndexEntryNotFoundError
  else
    unpin_node node false ;;
    get_rid node (iid_slot_no iid).

End IndexHandle.

Arguments IxIndexHandle : clear implicits.

(** ** Lookups in a leaf, the leaf list and the scan positions *)

Section IndexScan.
Context {Key : Type} `{!IxParams Key}.

Abbreviation Ix := (IxIndexHandle Key).

(** [IxNodeHandle::leaf_lookup]: the result is the rid that the C++ code
    passes back through [value] when it returns true. *)
Definition leaf_lookup (h : IxNodeHandle) (key : Key) : M Ix (option Rid) :=
  let* nd := node_of h in
  let pos := lower_bound nd key in
  let* sz := get_size h in
  if pos =? sz then ret None
  else
    let* k := get_key h pos in
    if negb (ix_compare k key =? 0) then ret None
    else
      let* r := get_rid h pos in
      ret (Some r).

Definition leaf_end : M Ix Iid :=
  let* last := gets (λ ix, last_leaf_ (file_hdr_ ix)) in
  let* node := fetch_node last in
  let* sz := get_size node in
  unpin_node node false ;;
  ret (mkIid last sz).

Definition leaf_begin : M Ix Iid :=
  let* first := gets (λ ix, first_leaf_ (file_hdr_ ix)) in
  ret (mkIid first 0).

(** The [while (true)] loop of [IxIndexHandle::lower_bound] and
    [upper_bound] along the leaf list; [bound] is the search inside a
    leaf. *)
Fixpoint bound_scan (bound : Node Key → Key → Z) (fuel : nat) (leaf : IxNodeHandle)
    (key : Key) : M Ix Iid :=
  match fuel with
  | O => throw OutOfFuel
  | S fuel' =>
      let* nd := node_of leaf in
      let pos := bound nd key in
      let* sz := get_size leaf in
      if pos <? sz then
        let* leaf_no := get_page_no leaf in
        unpin_node leaf false ;;
        ret (mkIid leaf_no pos)
      else
        let* nd := node_of leaf in
        let next := next_leaf nd in
        unpin_node leaf false ;;
        if (next =? IX_LEAF_HEADER_PAGE) || (next =? IX_NO_PAGE) then leaf_end
        else
          let* leaf' := fetch_node next in
          bound_scan bound fuel' leaf' key
  end.

Definition IxIndexHandle_lower_bound (fuel : nat) (key : Key) : M Ix Iid :=
  let* root := gets (λ ix, root_page_ (file_hdr_ ix)) in
  if root =? IX_NO_PAGE then ret (mkIid (-1) (-1))
  else
    let* leaf := find_leaf_page fuel key in
    match leaf with
    | None => ret (mkIid (-1) (-1))
    | Some leaf => bound_scan lower_bound fuel leaf key
    end.

Definition IxIndexHandle_upper_bound (fuel : nat) (key : Key) : M Ix Iid :=
  let* root := gets (λ ix, root_page_ (file_hdr_ ix)) in
  if root =? IX_NO_PAGE then ret (mkIid (-1) (-1))
  else
    let* leaf := find_leaf_page fuel key in
    match leaf with
    | None => ret (mkIid (-1) (-1))
    | Some leaf => bound_scan upper_bound fuel leaf key
    end.

Definition erase_leaf (leaf : IxNodeHandle) : M Ix unit :=
  let* nd := node_of leaf in
  assert InEraseLeaf (is_leaf nd) ;;
  let* prev := fetch_node (prev_leaf nd) in
  let* nd := node_of leaf in
  update_node prev (set_next (next_leaf nd)) ;;
  unpin_node prev true ;;
  let* nd := node_of leaf in
  let* next := fetch_node (next_leaf nd) in
  let* nd := node_of leaf in
  update_node next (set_prev (prev_leaf nd)) ;;
  unpin_node next true ;;
  ret tt.

Definition release_node_handle (node : IxNodeHandle) : M Ix unit :=
  set_hdr (λ h, set_num_pages (num_pages_ h - 1) h).

End IndexScan.

(** ** A concrete index: one integer column *)

Definition int_compare (a b : Z) : Z :=
  match a ?= b with
  | Lt => -1
  | Eq => 0
  | Gt => 1
  end.

Definition int_params (bin : bool) : IxParams Z :=
  {| ix_compare := int_compare; binary_search := bin; IX_LEAF_HEADER_PAGE := 1 |}.

Lemma int_params_laws bin : @IxParamsLaws Z (int_params bin).
Proof.
  split; simpl; unfold int_compare; intros a b.
  - destruct (Z.compare_spec a b); split; intros; try lia; congruence.
  - destruct (Z.compare_spec a b), (Z.compare_spec b a); lia.
  - intros c. destruct (Z.compare_spec a b), (Z.compare_spec b c), (Z.compare_spec a c); lia.
Qed.

(** * Search inside a node *)

Section NodeSearch.
Context {Key : Type} `{!IxParams Key}.

Definition strictly_increasing (keys : list Key) : Prop :=
  ∀ (i j : nat) ki kj,
    keys !! i = Some ki → keys !! j = Some kj → (i < j)%nat → ix_compare ki kj < 0.

(** [r] is the least index of [keys] whose key satisfies [P], or the length
    of [keys] when no key does. *)
Definition least_index (P : Key → Prop) (keys : list Key) (r : Z) : Prop :=
  0 ≤ r ≤ Z.of_nat (length keys) ∧
  (∀ (i : nat) k, keys !! i = Some k → Z.of_nat i < r → ¬ P k) ∧
  (r < Z.of_nat (length keys) → ∃ k, keys !! Z.to_nat r = Some k ∧ P k).

Lemma least_index_unique P keys r1 r2 :
  least_index P keys r1 → least_index P keys r2 → r1 = r2.
Proof.
  intros (Hb1 & Hlt1 & Hat1) (Hb2 & Hlt2 & Hat2).
  destruct (Z.lt_trichotomy r1 r2) as [Hlt | [-> | Hlt]]; [| done |].
  - destruct Hat1 as (k & Hk & HP); [lia |].
    exfalso. apply (Hlt2 (Z.to_nat r1) k Hk); [lia | done].
  - destruct Hat2 as (k & Hk & HP); [lia |].
    exfalso. apply (Hlt1 (Z.to_nat r2) k Hk); [lia | done].
Qed.

(** The linear scans stop at the first key that passes the test. *)
Lemma lower_scan_least keys target i :
  0 ≤ i →
  least_index (λ k, 0 ≤ ix_compare k target) keys (lower_scan keys target i - i).
Proof.
  revert i. induction keys as [| k keys IH]; intros i Hi; simpl.
  - replace (i - i) with 0 by lia. split; [simpl; lia |]. split; [| simpl; lia].
    intros j k' Hk'. by rewrite lookup_nil in Hk'.
  - destruct (Z.leb_spec 0 (ix_compare k target)) as [Hk | Hk].
    + replace (i - i) with 0 by lia. split; [simpl length; lia |]. split; [lia |].
      intros _. exists k. done.
    + destruct (IH (i + 1)) as (Hb & Hlt & Hat); [lia |].
      split; [simpl length; lia |]. split.
      * intros [| j] k' Hk' Hj; simpl in Hk'.
        { injection Hk' as <-. lia. }
        apply (Hlt j k' Hk'). lia.
      * simpl length. intros Hr. destruct Hat as (k' & Hk' & HP); [lia |].
        exists k'. split; [| done].
        replace (Z.to_nat (lower_scan keys target (i + 1) - i))
          with (S (Z.to_nat (lower_scan keys target (i + 1) - (i + 1)))) by lia.
        done.
Qed.

Lemma upper_scan_least keys target i :
  0 ≤ i →
  least_index (λ k, 0 < ix_compare k target) keys (upper_scan keys target i - i).
Proof.
  revert i. induction keys as [| k keys IH]; intros i Hi; simpl.
  - replace (i - i) with 0 by lia. split; [simpl; lia |]. split; [| simpl; lia].
    intros j k' Hk'. by rewrite lookup_nil in Hk'.
  - destruct (Z.ltb_spec 0 (ix_compare k target)) as [Hk | Hk].
    + replace (i - i) with 0 by lia. split; [simpl length; lia |]. split; [lia |].
      intros _. exists k. done.
    + destruct (IH (i + 1)) as (Hb & Hlt & Hat); [lia |].
      split; [simpl length; lia |]. split.
      * intros [| j] k' Hk' Hj; simpl in Hk'.
        { injection Hk' as <-. lia. }
        apply (Hlt j k' Hk'). lia.
      * simpl length. intros Hr. destruct Hat as (k' & Hk' & HP); [lia |].
        exists k'. split; [| done].
        replace (Z.to_nat (upper_scan keys target (i + 1) - i))
          with (S (Z.to_nat (upper_scan keys target (i + 1) - (i + 1)))) by lia.
        done.
Qed.

(** The binary search keeps the answer between [l] and [r] as long as the
    test is monotone along the keys. *)
Lemma bisect_least (go_right : Z → bool) keys target fuel l r :
  (∀ (i j : nat) ki kj, keys !! i = Some ki → keys !! j = Some kj → (i ≤ j)%nat →
     go_right (ix_compare kj target) = true → go_right (ix_compare ki target) = true) →
  0 ≤ l ≤ r → r ≤ Z.of_nat (length keys) → r - l ≤ Z.of_nat fuel →
  (∀ (i : nat) k, keys !! i = Some k → Z.of_nat i < l → go_right (ix_compare k target) = true) →
  (∀ (i : nat) k, keys !! i = Some k → r ≤ Z.of_nat i → go_right (ix_compare k target) = false) →
  least_index (λ k, go_right (ix_compare k target) = false) keys
    (bisect go_right keys target fuel l r).
Proof.
  intros Hmono. revert l r.
  induction fuel as [| fuel IH]; intros l r Hlr Hrn Hfuel Hl Hr; simpl.
  - assert (l = r) as -> by lia. split; [lia |]. split.
    + intros i k Hk Hi. rewrite (Hl i k Hk Hi). done.
    + intros Hlt. destruct (lookup_lt_is_Some_2 keys (Z.to_nat r)) as [k Hk]; [lia |].
      exists k. split; [done |]. apply (Hr _ _ Hk). lia.
  - destruct (Z.ltb_spec l r) as [Hlt | Hge].
    + assert (l ≤ (l + r) / 2 < r) as Hmid.
      { split; [apply Z.div_le_lower_bound; lia | apply Z.div_lt_upper_bound; lia]. }
      destruct (lookup_lt_is_Some_2 keys (Z.to_nat ((l + r) / 2))) as [k Hk]; [lia |].
      rewrite Hk.
      destruct (go_right (ix_compare k target)) eqn:Hg.
      * apply IH; [lia | lia | lia | | done].
        intros i k' Hk' Hi. apply (Hmono i (Z.to_nat ((l + r) / 2)) k' k); [done | done | lia | done].
      * apply IH; [lia | lia | lia | done |].
        intros i k' Hk' Hi.
        destruct (go_right (ix_compare k' target)) eqn:Hg'; [| done].
        rewrite (Hmono (Z.to_nat ((l + r) / 2)) i k k') in Hg; [done | done | done | lia | done].
    + assert (l = r) as -> by lia. split; [lia |]. split.
      * intros i k Hk Hi. rewrite (Hl i k Hk Hi). done.
      * intros Hlt. destruct (lookup_lt_is_Some_2 keys (Z.to_nat r)) as [k Hk]; [lia |].
        exists k. split; [done |]. apply (Hr _ _ Hk). lia.
Qed.

Lemma least_index_iff (P Q : Key → Prop) keys r :
  (∀ k, P k ↔ Q k) → least_index P keys r → least_index Q keys r.
Proof.
  intros HPQ (Hb & Hlt & Hat). split; [done |]. split.
  - intros i k Hk Hi HQ. apply (Hlt i k Hk Hi). by apply HPQ.
  - intros Hr. destruct (Hat Hr) as (k & Hk & HP). exists k. split; [done |]. by apply HPQ.
Qed.

Context `{!IxParamsLaws Key}.

Lemma lower_test_monotone keys target :
  strictly_increasing keys →
  ∀ (i j : nat) ki kj, keys !! i = Some ki → keys !! j = Some kj → (i ≤ j)%nat →
    (ix_compare kj target <? 0) = true → (ix_compare ki target <? 0) = true.
Proof.
  intros Hinc i j ki kj Hi Hj Hij Hlt.
  apply Z.ltb_lt in Hlt. apply Z.ltb_lt.
  destruct (decide (i = j)) as [-> | Hne].
  - congruence.
  - apply (ix_compare_trans ki kj target); [| done].
    apply (Hinc i j); [done | done | lia].
Qed.

Lemma upper_test_monotone keys target :
  strictly_increasing keys →
  ∀ (i j : nat) ki kj, keys !! i = Some ki → keys !! j = Some kj → (i ≤ j)%nat →
    (ix_compare kj target <=? 0) = true → (ix_compare ki target <=? 0) = true.
Proof.
  intros Hinc i j ki kj Hi Hj Hij Hle.
  apply Z.leb_le in Hle. apply Z.leb_le.
  destruct (decide (i = j)) as [-> | Hne].
  - assert (ki = kj) as -> by congruence. done.
  - assert (ix_compare ki kj < 0) as Hlt by (apply (Hinc i j); [done | done | lia]).
    destruct (decide (ix_compare kj target = 0)) as [Heq | Hneq].
    + apply ix_compare_eq in Heq as ->. lia.
    + assert (ix_compare ki target < 0); [| lia].
      apply (ix_compare_trans ki kj target); [done | lia].
Qed.

Lemma lower_bound_with_least bin keys target :
  strictly_increasing keys →
  least_index (λ k, 0 ≤ ix_compare k target) keys (lower_bound_with bin keys target).
Proof.
  intros Hinc. unfold lower_bound_with. destruct bin.
  - apply (least_index_iff (λ k, (ix_compare k target <? 0) = false)).
    { intros k. rewrite Z.ltb_ge. done. }
    apply bisect_least; [by apply lower_test_monotone | lia | lia | lia | lia |].
    intros i k Hk Hi. apply lookup_lt_Some in Hk. lia.
  - pose proof (lower_scan_least keys target 0) as H. rewrite Z.sub_0_r in H. by apply H.
Qed.

Lemma upper_bound_with_least bin keys target :
  strictly_increasing keys →
  least_index (λ k, 0 < ix_compare k target) keys (upper_bound_with bin keys target).
Proof.
  intros Hinc. unfold upper_bound_with. destruct bin.
  - apply (least_index_iff (λ k, (ix_compare k target <=? 0) = false)).
    { intros k. rewrite Z.leb_gt. done. }
    apply bisect_least; [by apply upper_test_monotone | lia | lia | lia | lia |].
    intros i k Hk Hi. apply lookup_lt_Some in Hk. lia.
  - pose proof (upper_scan_least keys target 0) as H. rewrite Z.sub_0_r in H. by apply H.
Qed.

(** C5.  In a node whose keys are strictly increasing under [ix_compare],
    [lower_bound] returns the least slot in [0, num_key] whose key is at
    least the target and [upper_bound] the least slot whose key is greater
    than the target, whatever [binary_search] is; and for both the binary
    search and the linear scan return the same slot. *)
Theorem node_bounds_correct (nd : Node Key) (target : Key) :
  strictly_increasing (node_keys nd) →
  least_index (λ k, 0 ≤ ix_compare k target) (node_keys nd) (lower_bound nd target) ∧
  least_index (λ k, 0 < ix_compare k target) (node_keys nd) (upper_bound nd target) ∧
  lower_bound_with true (node_keys nd) target = lower_bound_with false (node_keys nd) target ∧
  upper_bound_with true (node_keys nd) target = upper_bound_with false (node_keys nd) target.
Proof.
  intros Hinc. unfold lower_bound, upper_bound.
  split; [by apply lower_bound_with_least |].
  split; [by apply upper_bound_with_least |].
  split.
  - eapply least_index_unique; by apply lower_bound_with_least.
  - eapply least_index_unique; by apply upper_bound_with_least.
Qed.

End NodeSearch.

Lemma node_bounds_correct_witness :
  let nd := mkNode true IX_NO_PAGE 1 1 [(10, mkRid 10 0); (20, mkRid 20 0); (30, mkRid 30 0)] in
  @strictly_increasing Z (int_params true) (node_keys nd) ∧
  @lower_bound Z (int_params true) nd 15 = 1 ∧
  @upper_bound Z (int_params true) nd 20 = 2 ∧
  @lower_bound_with Z (int_params true) false (node_keys nd) 15 = 1.
Proof.
  intros nd.
  assert (@strictly_increasing Z (int_params true) (node_keys nd)) as Hinc.
  { intros i j ki kj Hi Hj Hij.
    destruct i as [| [| [| i]]], j as [| [| [| j]]]; simpl in *; simplify_eq; try lia; done. }
  split; [exact Hinc |].
  pose proof (@node_bounds_correct Z (int_params true) (int_params_laws true) nd 15 Hinc) as H15.
  pose proof (@node_bounds_correct Z (int_params true) (int_params_laws true) nd 20 Hinc) as H20.
  destruct H15 as (_ & _ & Heq & _).
  split; [reflexivity |]. split; [reflexivity |].
  rewrite <- Heq. reflexivity.
Defined.

(** * The buffer pool manager *)

Section BufferPoolFacts.
Context {Data : Type} `{!Blank Data}.

Abbreviation Bpm := (BufferPoolManager Data).

(** Running a computation: unfold the monad. *)
Lemma bind_ok {St A B} (m : M St A) (k : A → M St B) s a s' :
  m s = Ok a s' → bind m k s = k a s'.
Proof. unfold bind. by intros ->. Qed.

Lemma bind_throw {St A B} (m : M St A) (k : A → M St B) s e s' :
  m s = Throw e s' → bind m k s = Throw e s'.
Proof. unfold bind. by intros ->. Qed.

Lemma ret_bind {St A B} (a : A) (k : A → M St B) s : bind (ret a) k s = k a s.
Proof. done. Qed.

Lemma bind_assoc {St A B C} (m : M St A) (k : A → M St B) (k' : B → M St C) s :
  bind (bind m k) k' s = bind m (λ a, bind (k a) k') s.
Proof. unfold bind. by destruct (m s). Qed.

Lemma bind_inv {St A B} (m : M St A) (k : A → M St B) s b s'' :
  bind m k s = Ok b s'' → ∃ a s', m s = Ok a s' ∧ k a s' = Ok b s''.
Proof. unfold bind. destruct (m s) as [a s' |]; [eauto | done]. Qed.

Lemma page_at_ok (b : Bpm) fid pg : pages_ b !! fid = Some pg → page_at fid b = Ok pg b.
Proof. unfold page_at. by intros ->. Qed.

Lemma page_at_inv (b b' : Bpm) fid pg :
  page_at fid b = Ok pg b' → pages_ b !! fid = Some pg ∧ b' = b.
Proof. unfold page_at. destruct (pages_ b !! fid); naive_solver. Qed.

(** ** [unpin_page] *)

(** The pin count recorded for a page: that of its frame, and none when the
    page is not resident. *)
Definition pin_count_of (b : Bpm) (p : PageId) : Z :=
  match page_table_ b !! p with
  | Some fid => match pages_ b !! fid with
                | Some pg => pin_count_ pg
                | None => 0
                end
  | None => 0
  end.

(** The three ways through [unpin_page], for the proofs about the callers. *)
Lemma unpin_page_cases (b : Bpm) (page_id : PageId) (is_dirty : bool) :
  (page_table_ b !! page_id = None → unpin_page page_id is_dirty b = Ok false b) ∧
  (∀ fid pg, page_table_ b !! page_id = Some fid → pages_ b !! fid = Some pg →
     pin_count_ pg ≤ 0 → unpin_page page_id is_dirty b = Ok false b) ∧
  (∀ fid pg, page_table_ b !! page_id = Some fid → pages_ b !! fid = Some pg →
     0 < pin_count_ pg →
     ∃ b', unpin_page page_id is_dirty b = Ok true b' ∧
       pages_ b' = <[fid := mkPage (id_ pg) (data_ pg)
                              (is_dirty || is_dirty_ pg) (pin_count_ pg - 1)]> (pages_ b) ∧
       (∀ g, g ∈ replacer_ b' ↔ g ∈ replacer_ b ∨ (g = fid ∧ pin_count_ pg - 1 = 0)) ∧
       page_table_ b' = page_table_ b ∧
       free_list_ b' = free_list_ b ∧
       disk_manager_ b' = disk_manager_ b).
Proof.
  unfold unpin_page, bind, get.
  split; [by intros -> |]. split.
  - intros fid pg -> Hpg Hpin. rewrite (page_at_ok _ _ _ Hpg).
    destruct (Z.leb_spec (pin_count_ pg) 0); [done | lia].
  - intros fid pg -> Hpg Hpin. rewrite (page_at_ok _ _ _ Hpg).
    destruct (Z.leb_spec (pin_count_ pg) 0); [lia |].
    destruct (pin_count_ pg - 1 =? 0) eqn:Hz; simpl.
    + eexists. split; [reflexivity |]. simpl.
      split; [by destruct is_dirty |]. split; [| done].
      intros g. unfold replacer_unpin. apply Z.eqb_eq in Hz.
      destruct (decide (fid ∈ replacer_ b)) as [Hin | Hnin].
      * split; [auto | intros [? | [-> _]]; done].
      * rewrite elem_of_app, list_elem_of_singleton. tauto.
    + eexists. split; [reflexivity |]. simpl.
      split; [by destruct is_dirty |]. split; [| done].
      intros g. apply Z.eqb_neq in Hz. tauto.
Qed.

(** C6.  [unpin_page] returns false and leaves the pool as it is when the
    page is not resident or its frame has [pin_count <= 0].  Otherwise it
    returns true; the frame keeps its page and its bytes, its pin count is
    one less, its dirty flag is set when [is_dirty] is true and otherwise
    kept (never cleared); the frame is added to the evictable frames of the
    replacer exactly when the count reaches 0, and nothing else changes. *)
Theorem unpin_page_spec (b : Bpm) (page_id : PageId) (is_dirty : bool) :
  (page_table_ b !! page_id = None → unpin_page page_id is_dirty b = Ok false b) ∧
  (∀ fid pg, page_table_ b !! page_id = Some fid → pages_ b !! fid = Some pg →
     pin_count_ pg ≤ 0 → unpin_page page_id is_dirty b = Ok false b) ∧
  (∀ fid pg, page_table_ b !! page_id = Some fid → pages_ b !! fid = Some pg →
     0 < pin_count_ pg →
     ∃ b', unpin_page page_id is_dirty b = Ok true b' ∧
       pages_ b' = <[fid := mkPage (id_ pg) (data_ pg)
                              (is_dirty || is_dirty_ pg) (pin_count_ pg - 1)]> (pages_ b) ∧
       (∀ g, g ∈ replacer_ b' ↔ g ∈ replacer_ b ∨ (g = fid ∧ pin_count_ pg - 1 = 0)) ∧
       page_table_ b' = page_table_ b ∧
       free_list_ b' = free_list_ b ∧
       disk_manager_ b' = disk_manager_ b).
Proof.
  unfold unpin_page, bind, get.
  split; [by intros -> |]. split.
  - intros fid pg -> Hpg Hpin. rewrite (page_at_ok _ _ _ Hpg).
    destruct (Z.leb_spec (pin_count_ pg) 0); [done | lia].
  - intros fid pg -> Hpg Hpin. rewrite (page_at_ok _ _ _ Hpg).
    destruct (Z.leb_spec (pin_count_ pg) 0); [lia |].
    destruct (pin_count_ pg - 1 =? 0) eqn:Hz; simpl.
    + eexists. split; [reflexivity |]. simpl.
      split; [by destruct is_dirty |]. split; [| done].
      intros g. unfold replacer_unpin. apply Z.eqb_eq in Hz.
      destruct (decide (fid ∈ replacer_ b)) as [Hin | Hnin].
      * split; [auto | intros [? | [-> _]]; done].
      * rewrite elem_of_app, list_elem_of_singleton. tauto.
    + eexists. split; [reflexivity |]. simpl.
      split; [by destruct is_dirty |]. split; [| done].
      intros g. apply Z.eqb_neq in Hz. tauto.
Qed.

(** ** Page table and frames *)

Ltac minv :=
  repeat match goal with
  | H : bind _ _ _ = Ok _ _ |- _ =>
      let a := fresh "a" in let s := fresh "s" in let E := fresh "E" in
      apply bind_inv in H as (a & s & E & H)
  | H : ret _ _ = Ok _ _ |- _ => unfold ret in H
  | H : get _ = Ok _ _ |- _ => unfold get in H
  | H : put _ _ = Ok _ _ |- _ => unfold put in H
  | H : modify _ _ = Ok _ _ |- _ => unfold modify in H
  | H : gets _ _ = Ok _ _ |- _ => unfold gets in H
  | H : store_page _ _ _ = Ok _ _ |- _ => unfold store_page in H
  | H : throw _ _ = Ok _ _ |- _ => discriminate H
  | H : Throw _ _ = Ok _ _ |- _ => discriminate H
  | H : page_at _ _ = Ok _ _ |- _ => apply page_at_inv in H as [H ?]
  | H : Ok _ _ = Ok _ _ |- _ => injection H as ?; subst
  | x : unit |- _ => destruct x
  end.

Definition holds (b : Bpm) (f : frame_id_t) (p : PageId) : Prop :=
  ∃ pg, pages_ b !! f = Some pg ∧ id_ pg = p.

Lemma holds_ids (b : Bpm) f p : holds b f p ↔ (id_ <$> pages_ b) !! f = Some p.
Proof.
  unfold holds. rewrite list_lookup_fmap.
  destruct (pages_ b !! f) as [pg |]; simpl.
  - split.
    + intros (pg' & Heq & <-). by injection Heq as <-.
    + intros Heq. injection Heq as <-. eauto.
  - split.
    + intros (pg' & Heq & _). discriminate Heq.
    + intros Heq. discriminate Heq.
Qed.

(** The page table and the frames agree on the valid page ids, and the page
    table has no other keys. *)
Record table_inv (b : Bpm) : Prop := {
  ti_table_frame : ∀ p f, page_table_ b !! p = Some f → holds b f p;
  ti_frame_table : ∀ f p, holds b f p → page_no p ≠ INVALID_PAGE_ID →
                          page_table_ b !! p = Some f;
  ti_valid : ∀ p f, page_table_ b !! p = Some f → page_no p ≠ INVALID_PAGE_ID
}.

(** Every page in the pool or on the disk has a page number that the disk
    manager has already handed out for its file. *)
Definition allocated (d : DiskManager Data) (p : PageId) : Prop :=
  0 ≤ page_no p < next_page_no d (fd p).

Definition alloc_inv (b : Bpm) : Prop :=
  ∀ p, is_Some (page_table_ b !! p) ∨ is_Some (disk_pages (disk_manager_ b) !! p) →
       allocated (disk_manager_ b) p.

Definition disk_alloc_ok (d : DiskManager Data) : Prop :=
  ∀ p, is_Some (disk_pages d !! p) → allocated d p.

Lemma disk_of_files_alloc_ok (files : gmap Z (list Data)) :
  disk_alloc_ok (disk_of_files files).
Proof.
  intros p [x Hx]. simpl in Hx. apply elem_of_list_to_map_2 in Hx.
  apply list_elem_of_bind in Hx as ([f l] & Hin & Hfl).
  apply elem_of_lookup_imap in Hin as (i & y & Heq & Hi). simpl in Heq, Hi.
  injection Heq as -> ->. apply elem_of_map_to_list in Hfl.
  unfold allocated, next_page_no. simpl. rewrite lookup_fmap, Hfl. simpl.
  apply lookup_lt_Some in Hi. lia.
Qed.

Lemma disk_of_files_next_page_no (files : gmap Z (list Data)) (f : Z) :
  0 ≤ next_page_no (disk_of_files files) f.
Proof.
  unfold next_page_no. simpl. rewrite lookup_fmap.
  destruct (files !! f); simpl; lia.
Qed.

Lemma table_inv_same (b b' : Bpm) :
  id_ <$> pages_ b' = id_ <$> pages_ b → page_table_ b' = page_table_ b →
  table_inv b → table_inv b'.
Proof.
  intros Hids Ht [H1 H2 H3].
  assert (∀ f p, holds b' f p ↔ holds b f p) as Hh.
  { intros f p. by rewrite !holds_ids, Hids. }
  split.
  - intros p f Hp. rewrite Ht in Hp. apply Hh. by apply H1.
  - intros f p Hf Hv. rewrite Ht. apply H2; [by apply Hh | done].
  - intros p f Hp. rewrite Ht in Hp. by eapply H3.
Qed.

Lemma fmap_id_insert_same (l : list (Page Data)) f pg pg' :
  l !! f = Some pg → id_ pg' = id_ pg → id_ <$> <[f := pg']> l = id_ <$> l.
Proof.
  intros Hl Hid. rewrite list_fmap_insert, Hid.
  apply list_insert_id. by rewrite list_lookup_fmap, Hl.
Qed.

(** What [update_page] leaves behind. *)
Lemma update_page_ok (b : Bpm) fid new_id pg :
  pages_ b !! fid = Some pg →
  update_page fid new_id fid b =
    Ok tt (mkBpm (<[fid := mkPage new_id blank false 0]> (pages_ b))
             (<[new_id := fid]>
                (if negb (page_no (id_ pg) =? INVALID_PAGE_ID)
                 then delete (id_ pg) (page_table_ b) else page_table_ b))
             (free_list_ b) (replacer_ b)
             (if is_dirty_ pg && negb (page_no (id_ pg) =? INVALID_PAGE_ID)
              then disk_write_page (id_ pg) (data_ pg) (disk_manager_ b)
              else disk_manager_ b)).
Proof.
  intros Hpg. unfold update_page, bind. rewrite (page_at_ok _ _ _ Hpg).
  destruct (is_dirty_ pg), (page_no (id_ pg) =? INVALID_PAGE_ID); reflexivity.
Qed.

Lemma update_page_table_inv (b : Bpm) fid new_id pg :
  pages_ b !! fid = Some pg →
  page_table_ b !! new_id = None →
  page_no new_id ≠ INVALID_PAGE_ID →
  table_inv b →
  ∀ b', update_page fid new_id fid b = Ok tt b' → table_inv b'.
Proof.
  intros Hpg Hnew Hvalid [H1 H2 H3] b' Hup. rewrite (update_page_ok _ _ _ _ Hpg) in Hup.
  injection Hup as <-.
  set (t := if negb (page_no (id_ pg) =? INVALID_PAGE_ID)
            then delete (id_ pg) (page_table_ b) else page_table_ b).
  assert (∀ p f, t !! p = Some f → page_table_ b !! p = Some f ∧ f ≠ fid) as Hsub.
  { intros p f Hp. assert (page_table_ b !! p = Some f ∧ p ≠ id_ pg) as [Hp' Hne].
    { unfold t in Hp. destruct (page_no (id_ pg) =? INVALID_PAGE_ID) eqn:Hv; simpl in Hp.
      - split; [done |]. intros ->. apply Z.eqb_eq in Hv. by apply (H3 _ _ Hp).
      - apply lookup_delete_Some in Hp. by destruct Hp. }
    split; [done |]. intros ->.
    destruct (H1 p fid Hp') as (pg' & Hpg' & Hid). congruence. }
  assert (∀ p f, page_table_ b !! p = Some f → f ≠ fid → t !! p = Some f) as Hsup.
  { intros p f Hp Hf. unfold t. destruct (negb _); [| done].
    apply lookup_delete_Some. split; [| done]. intros <-.
    destruct (H1 _ _ Hp) as (pg' & Hpg' & Hid).
    apply Hf. assert (page_table_ b !! id_ pg = Some fid) as Hfid.
    { apply H2; [by exists pg | by eapply H3]. }
    congruence. }
  assert (fid < length (pages_ b))%nat as Hlen by (by eapply lookup_lt_Some).
  split; simpl.
  - intros p f Hp. unfold holds; simpl.
    destruct (decide (new_id = p)) as [-> | Hne].
    + rewrite lookup_insert_eq in Hp. injection Hp as <-.
      eexists. split; [by apply list_lookup_insert_eq | done].
    + rewrite lookup_insert_ne in Hp by done.
      destruct (Hsub _ _ Hp) as [Hp' Hf].
      destruct (H1 p f Hp') as (pg' & Hpg' & Hid).
      exists pg'. split; [by rewrite list_lookup_insert_ne | done].
  - intros f p (pg' & Hpg' & Hid) Hv. simpl in Hpg'.
    destruct (decide (f = fid)) as [-> | Hf].
    + rewrite list_lookup_insert_eq in Hpg' by done. injection Hpg' as <-.
      simpl in Hid. subst p. apply lookup_insert_eq.
    + rewrite list_lookup_insert_ne in Hpg' by done.
      assert (page_table_ b !! p = Some f) as Hp by (apply H2; [by exists pg' | done]).
      rewrite lookup_insert_ne by congruence. by apply Hsup.
  - intros p f Hp.
    destruct (decide (new_id = p)) as [-> | Hne]; [done |].
    rewrite lookup_insert_ne in Hp by done.
    destruct (Hsub _ _ Hp) as [Hp' _]. by eapply H3.
Qed.

Definition pool_inv (b : Bpm) : Prop :=
  table_inv b ∧ alloc_inv b ∧ ∀ f, 0 ≤ next_page_no (disk_manager_ b) f.

(** A step that moves no page: the frames keep their page ids, the page
    table and the allocator are as before, and the disk gains at most pages
    that are resident. *)
Definition keeps_pages (b b' : Bpm) : Prop :=
  id_ <$> pages_ b' = id_ <$> pages_ b ∧
  page_table_ b' = page_table_ b ∧
  fd2pageno (disk_manager_ b') = fd2pageno (disk_manager_ b) ∧
  ∀ p, is_Some (disk_pages (disk_manager_ b') !! p) →
       is_Some (disk_pages (disk_manager_ b) !! p) ∨ is_Some (page_table_ b !! p).

Lemma keeps_pages_refl b : keeps_pages b b.
Proof. unfold keeps_pages. auto. Qed.

Lemma keeps_pages_trans b1 b2 b3 :
  keeps_pages b1 b2 → keeps_pages b2 b3 → keeps_pages b1 b3.
Proof.
  intros (Hi1 & Ht1 & Hc1 & Hd1) (Hi2 & Ht2 & Hc2 & Hd2).
  split; [congruence |]. split; [congruence |]. split; [congruence |].
  intros p Hp. destruct (Hd2 p Hp) as [H | H].
  - by apply Hd1.
  - right. by rewrite <- Ht1.
Qed.

Lemma keeps_pages_inv b b' : keeps_pages b b' → pool_inv b → pool_inv b'.
Proof.
  intros (Hi & Ht & Hc & Hd) (Htab & Hall & Hnn).
  assert (∀ f, next_page_no (disk_manager_ b') f = next_page_no (disk_manager_ b) f) as Hn.
  { intros f. unfold next_page_no. by rewrite Hc. }
  split; [by eapply table_inv_same |]. split.
  - intros p Hp. unfold allocated. rewrite Hn. apply Hall.
    destruct Hp as [Hp | Hp]; [left; by rewrite <- Ht |].
    destruct (Hd p Hp); auto.
  - intros f. rewrite Hn. apply Hnn.
Qed.

Lemma keeps_pages_store (b : Bpm) fid pg pg' :
  pages_ b !! fid = Some pg → id_ pg' = id_ pg →
  keeps_pages b (set_pages (λ l, <[fid := pg']> l) b).
Proof.
  intros Hpg Hid. split; [by eapply fmap_id_insert_same |]. simpl. auto.
Qed.

Lemma keeps_pages_write (b : Bpm) p buf :
  is_Some (page_table_ b !! p) →
  keeps_pages b (set_disk (disk_write_page p buf) b).
Proof.
  intros Hp. split; [done |]. split; [done |]. split; [done |]. simpl.
  intros q Hq. destruct (decide (p = q)) as [-> | Hne]; [by right |].
  rewrite lookup_insert_ne in Hq by done. by left.
Qed.

Lemma keeps_pages_replacer (b : Bpm) f : keeps_pages b (set_replacer f b).
Proof. unfold keeps_pages. simpl. auto. Qed.

Lemma keeps_pages_free_list (b : Bpm) f : keeps_pages b (set_free_list f b).
Proof. unfold keeps_pages. simpl. auto. Qed.

Ltac mrun H :=
  unfold bind, get, put, modify, gets, ret, throw, store_page, page_at in H; simpl in H.

Ltac ok_inj H := injection H as ?; subst.

Lemma find_victim_page_keeps (b b' : Bpm) v :
  find_victim_page b = Ok v b' → keeps_pages b b'.
Proof.
  unfold find_victim_page. intros H. mrun H.
  destruct (free_list_ b) as [| f rest].
  - destruct (replacer_ b) as [| g r]; simpl in H; ok_inj H; apply keeps_pages_replacer.
  - ok_inj H. apply keeps_pages_free_list.
Qed.

Lemma unpin_page_keeps (b b' : Bpm) p d r :
  unpin_page p d b = Ok r b' → keeps_pages b b'.
Proof.
  unfold unpin_page. intros H. mrun H.
  destruct (page_table_ b !! p) as [fid |]; [| ok_inj H; apply keeps_pages_refl].
  destruct (pages_ b !! fid) as [pg |] eqn:Hpg; [| done].
  destruct (pin_count_ pg <=? 0); [ok_inj H; apply keeps_pages_refl |].
  destruct (pin_count_ pg - 1 =? 0); simpl in H; ok_inj H.
  - eapply keeps_pages_trans; [apply keeps_pages_replacer |].
    by eapply (keeps_pages_store (set_replacer _ b)).
  - by eapply keeps_pages_store.
Qed.

Lemma flush_page_keeps (b b' : Bpm) p r :
  flush_page p b = Ok r b' → keeps_pages b b'.
Proof.
  unfold flush_page. intros H. mrun H.
  destruct (page_table_ b !! p) as [fid |] eqn:Hp; [| ok_inj H; apply keeps_pages_refl].
  destruct (pages_ b !! fid) as [pg |] eqn:Hpg; [| done].
  ok_inj H.
  eapply keeps_pages_trans; [by apply keeps_pages_write |].
  by eapply (keeps_pages_store (set_disk _ b)).
Qed.

Lemma flush_entries_keeps f es (b b' : Bpm) :
  (∀ pid fid, (pid, fid) ∈ es → page_table_ b !! pid = Some fid) →
  flush_entries f es b = Ok tt b' → keeps_pages b b'.
Proof.
  revert b. induction es as [| [pid fid] es IH]; intros b Hes H; simpl in H.
  - mrun H. ok_inj H. apply keeps_pages_refl.
  - apply bind_inv in H as ([] & b1 & H1 & H).
    assert (keeps_pages b b1) as Hk.
    { destruct (fd pid =? f); mrun H1; [| ok_inj H1; apply keeps_pages_refl].
      destruct (pages_ b !! fid) as [pg |] eqn:Hpg; [| done]. ok_inj H1.
      eapply keeps_pages_trans;
        [apply keeps_pages_write | by eapply (keeps_pages_store (set_disk _ b))].
      rewrite (Hes pid fid); [done | left]. }
    eapply keeps_pages_trans; [exact Hk |]. apply IH; [| done].
    intros pid' fid' Hin. destruct Hk as (_ & -> & _). apply Hes. by right.
Qed.

Lemma flush_all_pages_keeps f (b b' : Bpm) :
  flush_all_pages f b = Ok tt b' → keeps_pages b b'.
Proof.
  unfold flush_all_pages. intros H. apply bind_inv in H as (b0 & b1 & H0 & H).
  mrun H0. ok_inj H0.
  eapply flush_entries_keeps; [| done].
  intros pid fid Hin. by apply elem_of_map_to_list in Hin.
Qed.

Lemma find_victim_page_frame (b b' : Bpm) v :
  find_victim_page b = Ok (Some v) b' → v ∈ free_list_ b ∨ v ∈ replacer_ b.
Proof.
  unfold find_victim_page. intros H. mrun H.
  destruct (free_list_ b) as [| f rest].
  - destruct (replacer_ b) as [| g r]; simpl in H; [done |]. ok_inj H. right. left.
  - ok_inj H. left. left.
Qed.

Lemma update_page_pool_inv (b b' : Bpm) fid new_id :
  pool_inv b → page_table_ b !! new_id = None →
  allocated (disk_manager_ b) new_id →
  update_page fid new_id fid b = Ok tt b' → pool_inv b'.
Proof.
  intros (Htab & Hall & Hnn) Hnew Halloc Hup.
  pose proof Hup as Hup'. unfold update_page in Hup'.
  apply bind_inv in Hup' as (pg & b5 & Hpg & _). apply page_at_inv in Hpg as [Hpg ->].
  pose proof Hup as Hup'. rewrite (update_page_ok _ _ _ _ Hpg) in Hup'.
  split; [| split].
  - eapply (update_page_table_inv b); [done | done | | done | done].
    unfold allocated, INVALID_PAGE_ID in *. lia.
  - injection Hup' as <-. intros q Hq. simpl in *.
    assert (allocated (disk_manager_ b) q) as Hq'.
    { destruct Hq as [Hq | Hq].
      - destruct (decide (new_id = q)) as [<- | Hne]; [done |].
        rewrite lookup_insert_ne in Hq by done. apply Hall. left.
        destruct (negb _); [| done].
        destruct Hq as [x Hx]. apply lookup_delete_Some in Hx as [_ Hx]. eauto.
      - destruct (is_dirty_ pg && negb (page_no (id_ pg) =? INVALID_PAGE_ID)) eqn:Hw;
          [| apply Hall; by right].
        simpl in Hq. destruct (decide (id_ pg = q)) as [<- | Hne].
        + apply andb_true_iff in Hw as [_ Hw]. apply negb_true_iff, Z.eqb_neq in Hw.
          apply Hall. left.
          rewrite (ti_frame_table _ Htab fid (id_ pg)); [done | by exists pg | done].
        + rewrite lookup_insert_ne in Hq by done. apply Hall. by right. }
    by destruct (is_dirty_ pg && negb (page_no (id_ pg) =? INVALID_PAGE_ID)).
  - injection Hup' as <-. simpl.
    by destruct (is_dirty_ pg && negb (page_no (id_ pg) =? INVALID_PAGE_ID)).
Qed.

(** The disk after [update_page] holds what it held, and the page the
    frame gave up when that one was dirty. *)
Lemma update_page_disk (b b' : Bpm) fid new_id q :
  table_inv b →
  update_page fid new_id fid b = Ok tt b' →
  is_Some (disk_pages (disk_manager_ b') !! q) →
  is_Some (disk_pages (disk_manager_ b) !! q) ∨ is_Some (page_table_ b !! q).
Proof.
  intros Htab Hup Hq.
  pose proof Hup as Hup'. unfold update_page in Hup'.
  apply bind_inv in Hup' as (pg & b5 & Hpg & _). apply page_at_inv in Hpg as [Hpg ->].
  rewrite (update_page_ok _ _ _ _ Hpg) in Hup. injection Hup as <-. simpl in Hq.
  destruct (is_dirty_ pg && negb (page_no (id_ pg) =? INVALID_PAGE_ID)) eqn:Hw; [| by left].
  simpl in Hq. destruct (decide (id_ pg = q)) as [<- | Hne].
  - apply andb_true_iff in Hw as [_ Hw]. apply negb_true_iff, Z.eqb_neq in Hw.
    right. rewrite (ti_frame_table _ Htab fid (id_ pg)); [done | by exists pg | done].
  - rewrite lookup_insert_ne in Hq by done. by left.
Qed.

Lemma update_page_frame (b b' : Bpm) fid new_id :
  update_page fid new_id fid b = Ok tt b' →
  pages_ b' !! fid = Some (mkPage new_id blank false 0).
Proof.
  intros Hup. pose proof Hup as Hup'. unfold update_page in Hup'.
  apply bind_inv in Hup' as (pg & b5 & Hpg & _). apply page_at_inv in Hpg as [Hpg ->].
  rewrite (update_page_ok _ _ _ _ Hpg) in Hup. injection Hup as <-. simpl.
  apply list_lookup_insert_eq. by eapply lookup_lt_Some.
Qed.

Lemma fetch_page_inv (b b' : Bpm) p r :
  pool_inv b → fetch_page p b = Ok r b' → pool_inv b'.
Proof.
  intros Hinv H. unfold fetch_page in H.
  apply bind_inv in H as (b0 & b1 & H0 & H). mrun H0. ok_inj H0.
  destruct (page_table_ b1 !! p) as [fid |] eqn:Hp.
  - mrun H. destruct (pages_ b1 !! fid) as [pg |] eqn:Hpg; [| done]. ok_inj H.
    eapply keeps_pages_inv; [| exact Hinv].
    split; [by apply (fmap_id_insert_same _ _ pg) | simpl; auto].
  - apply bind_inv in H as (v & b2 & Hv & H).
    apply find_victim_page_keeps in Hv.
    pose proof (keeps_pages_inv _ _ Hv Hinv) as Hinv2.
    destruct v as [victim |]; [| mrun H; by ok_inj H].
    apply bind_inv in H as ([] & b3 & Hup & H).
    apply bind_inv in H as (d & b4 & Hrd & H).
    unfold read_page in Hrd.
    destruct (disk_pages (disk_manager_ b3) !! p) as [d' |] eqn:Hd; [| done]. ok_inj Hrd.
    pose proof (update_page_frame _ _ _ _ Hup) as Hpg'.
    mrun H. rewrite Hpg' in H. ok_inj H.
    assert (page_table_ b2 !! p = None) as Hp2.
    { destruct Hv as (_ & -> & _). done. }
    assert (allocated (disk_manager_ b2) p) as Halloc.
    { destruct Hinv2 as (Htab & Hall & _). apply Hall.
      destruct (update_page_disk _ _ _ _ p Htab Hup) as [Hq | Hq]; [by eauto | by right |].
      rewrite Hp2 in Hq. by destruct Hq. }
    pose proof (update_page_pool_inv _ _ _ _ Hinv2 Hp2 Halloc Hup) as Hinv4.
    eapply keeps_pages_inv; [| exact Hinv4].
    split; [by eapply fmap_id_insert_same | simpl; auto].
Qed.

Lemma new_page_inv (b b' : Bpm) f r :
  pool_inv b → new_page f b = Ok r b' → pool_inv b'.
Proof.
  intros Hinv H. unfold new_page in H.
  apply bind_inv in H as (v & b2 & Hv & H).
  apply find_victim_page_keeps in Hv.
  pose proof (keeps_pages_inv _ _ Hv Hinv) as (Htab & Hall & Hnn).
  destruct v as [victim |]; [| mrun H; ok_inj H; done].
  apply bind_inv in H as (b0 & b3 & H0 & H). mrun H0. ok_inj H0.
  unfold disk_allocate_page in H.
  apply bind_inv in H as ([] & b4 & Hput & H). mrun Hput. ok_inj Hput.
  apply bind_inv in H as ([] & b5 & Hup & H).
  pose proof (update_page_frame _ _ _ _ Hup) as Hpg'.
  mrun H. rewrite Hpg' in H. ok_inj H.
  set (n := next_page_no (disk_manager_ b3) f) in *.
  assert (∀ g, next_page_no (disk_manager_ b3) g ≤
               next_page_no (mkDisk (disk_pages (disk_manager_ b3))
                                    (<[f := n + 1]> (fd2pageno (disk_manager_ b3)))) g) as Hmono.
  { intros g. unfold next_page_no at 2. simpl.
    destruct (decide (f = g)) as [<- | Hne].
    - rewrite lookup_insert_eq. simpl. fold n. lia.
    - rewrite lookup_insert_ne by done. done. }
  assert (pool_inv (set_disk (λ _, mkDisk (disk_pages (disk_manager_ b3))
                                    (<[f := n + 1]> (fd2pageno (disk_manager_ b3)))) b3))
    as Hinv3.
  { split; [by apply (table_inv_same b3) |]. split.
    - intros q Hq. simpl in *. specialize (Hall q Hq). specialize (Hmono (fd q)).
      unfold allocated in *. simpl. lia.
    - intros g. simpl. specialize (Hnn g). specialize (Hmono g). lia. }
  assert (pool_inv b5) as Hinv5.
  { eapply update_page_pool_inv; [exact Hinv3 | | | exact Hup]; simpl.
    - destruct (page_table_ b3 !! mkPageId f n) as [x |] eqn:Hx; [| done].
      destruct (Hall (mkPageId f n)) as [_ Hlt]; [left; eauto |]. simpl in Hlt.
      fold n in Hlt. lia.
    - unfold allocated, next_page_no. simpl. rewrite lookup_insert_eq. simpl.
      specialize (Hnn f). fold n in Hnn. lia. }
  eapply keeps_pages_inv; [| exact Hinv5].
  split; [by eapply fmap_id_insert_same | simpl; auto].
Qed.

Lemma delete_page_inv (b b' : Bpm) p r :
  pool_inv b → delete_page p b = Ok r b' → pool_inv b'.
Proof.
  intros (Htab & Hall & Hnn) H. unfold delete_page in H. mrun H.
  destruct (page_table_ b !! p) as [fid |] eqn:Hp; [| by ok_inj H].
  destruct (pages_ b !! fid) as [pg |] eqn:Hpg; [| done].
  destruct (0 <? pin_count_ pg); [by ok_inj H |].
  assert (fid < length (pages_ b))%nat as Hlen by (by eapply lookup_lt_Some).
  assert (id_ pg = p) as Hid.
  { destruct (ti_table_frame _ Htab p fid Hp) as (pg' & Hpg' & Hid). congruence. }
  assert (∀ (d : DiskManager Data) b0,
    fd2pageno d = fd2pageno (disk_manager_ b) →
    (∀ q, is_Some (disk_pages d !! q) →
          is_Some (disk_pages (disk_manager_ b) !! q) ∨ is_Some (page_table_ b !! q)) →
    b0 = mkBpm (<[fid := mkPage (mkPageId (fd p) INVALID_PAGE_ID) blank false 0]> (pages_ b))
           (delete p (page_table_ b)) (free_list_ b ++ [fid])
           (replacer_pin fid (replacer_ b)) d →
    pool_inv b0) as Hgen.
  { intros d b0 Hc Hd ->.
    assert (∀ g, next_page_no d g = next_page_no (disk_manager_ b) g) as Hn.
    { intros g. unfold next_page_no. by rewrite Hc. }
    split; [| split]; simpl.
    - split; simpl.
      + intros q f Hq. apply lookup_delete_Some in Hq as [Hne Hq].
        destruct (ti_table_frame _ Htab q f Hq) as (pg' & Hpg' & Hid').
        exists pg'. split; [| done]. simpl.
        rewrite list_lookup_insert_ne; [done |]. intros <-. congruence.
      + intros f q (pg' & Hpg' & Hid') Hv. simpl in Hpg'.
        destruct (decide (f = fid)) as [-> | Hf].
        * rewrite list_lookup_insert_eq in Hpg' by done. injection Hpg' as <-.
          simpl in Hid'. subst q. done.
        * rewrite list_lookup_insert_ne in Hpg' by done.
          apply lookup_delete_Some. split.
          -- intros <-. apply Hf.
             assert (page_table_ b !! p = Some f) as Hp';
               [apply (ti_frame_table _ Htab); [by exists pg' | done] | congruence].
          -- apply (ti_frame_table _ Htab); [by exists pg' | done].
      + intros q f Hq. apply lookup_delete_Some in Hq as [_ Hq]. by eapply ti_valid.
    - intros q Hq. unfold allocated. simpl. rewrite Hn. apply Hall.
      destruct Hq as [Hq | Hq]; simpl in Hq.
      + left. destruct Hq as [x Hx].
        apply lookup_delete_Some in Hx as [_ Hx]. eauto.
      + destruct (Hd q Hq); auto.
    - intros g. rewrite Hn. apply Hnn. }
  destruct (is_dirty_ pg); simpl in H; ok_inj H.
  - eapply Hgen; [| | reflexivity]; simpl; [done |].
    intros q Hq. destruct (decide (id_ pg = q)) as [<- | Hne]; [right; eauto |].
    rewrite lookup_insert_ne in Hq by done. by left.
  - eapply Hgen; [| | reflexivity]; simpl; [done | by left].
Qed.

(** ** Sequences of operations *)

Inductive BpmOp : Type :=
| FetchPage (p : PageId)
| UnpinPage (p : PageId) (is_dirty : bool)
| FlushPage (p : PageId)
| NewPage (f : Z)
| DeletePage (p : PageId)
| FlushAllPages (f : Z).

Definition run_op (o : BpmOp) : M Bpm unit :=
  match o with
  | FetchPage p => fetch_page p ;; ret tt
  | UnpinPage p d => unpin_page p d ;; ret tt
  | FlushPage p => flush_page p ;; ret tt
  | NewPage f => new_page f ;; ret tt
  | DeletePage p => delete_page p ;; ret tt
  | FlushAllPages f => flush_all_pages f
  end.

Fixpoint run_ops (ops : list BpmOp) : M Bpm unit :=
  match ops with
  | [] => ret tt
  | o :: ops' => run_op o ;; run_ops ops'
  end.

Lemma run_op_inv (o : BpmOp) (b b' : Bpm) :
  pool_inv b → run_op o b = Ok tt b' → pool_inv b'.
Proof.
  intros Hinv H. destruct o; simpl in H.
  - apply bind_inv in H as (r & b1 & H1 & H). mrun H. ok_inj H. by eapply fetch_page_inv.
  - apply bind_inv in H as (r & b1 & H1 & H). mrun H. ok_inj H.
    eapply keeps_pages_inv; [by eapply unpin_page_keeps | done].
  - apply bind_inv in H as (r & b1 & H1 & H). mrun H. ok_inj H.
    eapply keeps_pages_inv; [by eapply flush_page_keeps | done].
  - apply bind_inv in H as (r & b1 & H1 & H). mrun H. ok_inj H. by eapply new_page_inv.
  - apply bind_inv in H as (r & b1 & H1 & H). mrun H. ok_inj H. by eapply delete_page_inv.
  - eapply keeps_pages_inv; [by eapply flush_all_pages_keeps | done].
Qed.

Lemma run_ops_inv (ops : list BpmOp) (b b' : Bpm) :
  pool_inv b → run_ops ops b = Ok tt b' → pool_inv b'.
Proof.
  revert b. induction ops as [| o ops IH]; intros b Hinv H; simpl in H.
  - mrun H. by ok_inj H.
  - apply bind_inv in H as ([] & b1 & H1 & H).
    eapply IH; [| exact H]. by eapply run_op_inv.
Qed.

Lemma bpm_init_inv (pool_size : nat) (d : DiskManager Data) :
  disk_alloc_ok d → (∀ f, 0 ≤ next_page_no d f) → pool_inv (bpm_init pool_size d).
Proof.
  intros Hd Hnn. split; [| split]; simpl; [| | done].
  - split; simpl.
    + intros p f Hp. by rewrite lookup_empty in Hp.
    + intros f p (pg & Hpg & Hid) Hv. simpl in Hpg.
      apply lookup_replicate in Hpg as [-> _]. simpl in Hid. by subst p.
    + intros p f Hp. by rewrite lookup_empty in Hp.
  - intros p [Hp | Hp]; simpl in Hp; [| by apply Hd].
    rewrite lookup_empty in Hp. by destruct Hp.
Qed.

(** What the invariant says about one valid page id: it is a key of the
    page table exactly when a frame records it, the page table maps it to
    that frame, and no second frame records it. *)
Definition frames_match_table (b : Bpm) : Prop :=
  ∀ p, page_no p ≠ INVALID_PAGE_ID →
    (is_Some (page_table_ b !! p) ↔ ∃ f, holds b f p) ∧
    (∀ f, page_table_ b !! p = Some f → holds b f p) ∧
    (∀ f1 f2, holds b f1 p → holds b f2 p → f1 = f2).

Lemma table_inv_frames_match (b : Bpm) : table_inv b → frames_match_table b.
Proof.
  intros [H1 H2 H3] p Hv. split; [| split].
  - split.
    + intros [f Hf]. exists f. by apply H1.
    + intros [f Hf]. exists f. by apply H2.
  - intros f. apply H1.
  - intros f1 f2 Hf1 Hf2.
    apply H2 in Hf1; [| done]. apply H2 in Hf2; [| done]. congruence.
Qed.

(** C3, as amended.  After every sequence of [fetch_page], [unpin_page],
    [flush_page], [new_page], [delete_page] and [flush_all_pages] calls in
    which every call returns, run on the pool as it is constructed over
    opened files: a valid page id is a key of the page table exactly when
    some frame records it, the page table maps it to that frame, and no two
    frames record the same valid page id. *)
Theorem page_table_matches_frames (pool_size : nat) (files : gmap Z (list Data))
    (ops : list BpmOp) (b : Bpm) :
  run_ops ops (bpm_init pool_size (disk_of_files files)) = Ok tt b →
  frames_match_table b.
Proof.
  intros Hrun. apply table_inv_frames_match.
  eapply run_ops_inv in Hrun; [by destruct Hrun |].
  apply bpm_init_inv; [apply disk_of_files_alloc_ok | apply disk_of_files_next_page_no].
Qed.

(** ** Capacity of the pool *)








(** ** Pins, free frames and evictable frames *)

(** The frames are split in three: the free ones hold no page, the
    evictable ones hold a page nobody pins, the others are pinned.  Only a
    free or an evictable frame is ever chosen as a victim. *)
Record pool_wf (b : Bpm) : Prop := {
  wf_inv : pool_inv b;
  wf_pin : ∀ f pg, pages_ b !! f = Some pg → 0 ≤ pin_count_ pg;
  wf_free : ∀ f, f ∈ free_list_ b →
     ∃ pg, pages_ b !! f = Some pg ∧ pin_count_ pg = 0 ∧ page_no (id_ pg) = INVALID_PAGE_ID;
  wf_replacer : ∀ f, f ∈ replacer_ b →
     ∃ pg, pages_ b !! f = Some pg ∧ pin_count_ pg = 0 ∧ page_no (id_ pg) ≠ INVALID_PAGE_ID;
  wf_listed : ∀ f pg, pages_ b !! f = Some pg → pin_count_ pg = 0 →
     f ∈ free_list_ b ∨ f ∈ replacer_ b;
  wf_free_nodup : NoDup (free_list_ b);
  wf_replacer_nodup : NoDup (replacer_ b)
}.

(** The pool between the choice of a victim [v] and its installation: [v]
    is in neither list, and is the only unpinned frame that is not. *)
Record pool_wf_but (v : frame_id_t) (b : Bpm) : Prop := {
  wb_inv : pool_inv b;
  wb_pin : ∀ f pg, pages_ b !! f = Some pg → 0 ≤ pin_count_ pg;
  wb_free : ∀ f, f ∈ free_list_ b →
     ∃ pg, pages_ b !! f = Some pg ∧ pin_count_ pg = 0 ∧ page_no (id_ pg) = INVALID_PAGE_ID;
  wb_replacer : ∀ f, f ∈ replacer_ b →
     ∃ pg, pages_ b !! f = Some pg ∧ pin_count_ pg = 0 ∧ page_no (id_ pg) ≠ INVALID_PAGE_ID;
  wb_listed : ∀ f pg, pages_ b !! f = Some pg → pin_count_ pg = 0 → f ≠ v →
     f ∈ free_list_ b ∨ f ∈ replacer_ b;
  wb_free_nodup : NoDup (free_list_ b);
  wb_replacer_nodup : NoDup (replacer_ b);
  wb_victim : ∃ pg, pages_ b !! v = Some pg ∧ pin_count_ pg = 0;
  wb_not_free : v ∉ free_list_ b;
  wb_not_replacer : v ∉ replacer_ b
}.

Lemma elem_of_replacer_pin f g (r : list frame_id_t) :
  g ∈ replacer_pin f r ↔ g ∈ r ∧ g ≠ f.
Proof. unfold replacer_pin. by rewrite list_elem_of_filter, (comm and). Qed.

Lemma NoDup_replacer_pin f (r : list frame_id_t) : NoDup r → NoDup (replacer_pin f r).
Proof. apply NoDup_filter. Qed.

Lemma replacer_pin_absent f (r : list frame_id_t) : f ∉ r → replacer_pin f r = r.
Proof.
  intros Hf. unfold replacer_pin. induction r as [| g r IH]; [done |].
  rewrite filter_cons. apply not_elem_of_cons in Hf as [Hne Hf].
  rewrite decide_True by done. f_equal. by apply IH.
Qed.

Lemma find_victim_page_wf (b b' : Bpm) v :
  pool_wf b → find_victim_page b = Ok (Some v) b' →
  pool_wf_but v b' ∧ pages_ b' = pages_ b ∧ page_table_ b' = page_table_ b ∧
  disk_manager_ b' = disk_manager_ b.
Proof.
  intros [Hinv Hpin Hfree Hrep Hlisted Hnf Hnr] H.
  pose proof (find_victim_page_keeps _ _ _ H) as Hk.
  unfold find_victim_page in H. mrun H.
  destruct (free_list_ b) as [| f rest] eqn:Hfl.
  - destruct (replacer_ b) as [| g r] eqn:Hrl; simpl in H; [done |]. ok_inj H.
    apply NoDup_cons in Hnr as [Hg Hnr].
    split; [| done]. split; simpl; try done.
    + by eapply keeps_pages_inv.
    + rewrite Hfl. intros f Hf. by apply elem_of_nil in Hf.
    + intros f Hf. apply Hrep. by right.
    + rewrite Hfl. intros f pg Hpg Hz Hne.
      destruct (Hlisted f pg Hpg Hz) as [Hf | Hf]; [by apply elem_of_nil in Hf |].
      right. apply elem_of_cons in Hf as [-> | Hf]; [done | done].
    + rewrite Hfl. constructor.
    + destruct (Hrep v) as (pg & Hpg & Hz & _); [left | eauto].
    + rewrite Hfl. apply not_elem_of_nil.
  - ok_inj H. apply NoDup_cons in Hnf as [Hv Hnf].
    split; [| done]. split; simpl; try done.
    + by eapply keeps_pages_inv.
    + intros f Hf. apply Hfree. by right.
    + intros f pg Hpg Hz Hne.
      destruct (Hlisted f pg Hpg Hz) as [Hf | Hf]; [| by right].
      left. apply elem_of_cons in Hf as [-> | Hf]; [done | done].
    + destruct (Hfree v) as (pg & Hpg & Hz & _); [left | eauto].
    + intros Hv'. destruct (Hfree v) as (pg & Hpg & _ & Hi); [left |].
      destruct (Hrep v Hv') as (pg' & Hpg' & _ & Hi'). congruence.
Qed.

Definition evict_table (pg : Page Data) (t : gmap PageId frame_id_t) :=
  if negb (page_no (id_ pg) =? INVALID_PAGE_ID) then delete (id_ pg) t else t.

Definition evict_disk (pg : Page Data) (d : DiskManager Data) :=
  if is_dirty_ pg && negb (page_no (id_ pg) =? INVALID_PAGE_ID)
  then disk_write_page (id_ pg) (data_ pg) d else d.

(** The pool after page [new_id] is installed in the victim [v] with one
    pin: the tail of [fetch_page] and of [new_page]. *)
Definition installed (b : Bpm) (v : frame_id_t) (pg : Page Data) (new_id : PageId)
    (buf : Data) (dirty : bool) : Bpm :=
  mkBpm (<[v := mkPage new_id buf dirty 1]> (pages_ b))
        (<[new_id := v]> (evict_table pg (page_table_ b)))
        (free_list_ b) (replacer_pin v (replacer_ b))
        (evict_disk pg (disk_manager_ b)).

Lemma installed_wf (b : Bpm) v pg new_id buf dirty :
  pool_wf_but v b → pages_ b !! v = Some pg →
  page_table_ b !! new_id = None → allocated (disk_manager_ b) new_id →
  pool_wf (installed b v pg new_id buf dirty).
Proof.
  intros [Hinv Hpin Hfree Hrep Hlisted Hnf Hnr Hvic Hvf Hvr] Hpg Hnew Halloc.
  assert (v < length (pages_ b))%nat as Hlen by (by eapply lookup_lt_Some).
  assert (pool_inv (installed b v pg new_id buf dirty)) as Hinv'.
  { eapply (keeps_pages_inv (mkBpm (<[v := mkPage new_id blank false 0]> (pages_ b))
              (<[new_id := v]> (evict_table pg (page_table_ b)))
              (free_list_ b) (replacer_ b) (evict_disk pg (disk_manager_ b)))).
    - unfold keeps_pages, installed. simpl. split; [| auto].
      by rewrite !list_fmap_insert.
    - eapply update_page_pool_inv; [exact Hinv | done | done |].
      by rewrite (update_page_ok _ _ _ pg). }
  split; simpl; try done.
  - intros f pg' Hpg'. destruct (decide (f = v)) as [-> | Hne].
    + rewrite list_lookup_insert_eq in Hpg' by done. injection Hpg' as <-. simpl. lia.
    + rewrite list_lookup_insert_ne in Hpg' by done. by eapply Hpin.
  - intros f Hf. assert (f ≠ v) as Hne by congruence.
    rewrite list_lookup_insert_ne by done. by apply Hfree.
  - intros f Hf. apply elem_of_replacer_pin in Hf as [Hf Hne].
    rewrite list_lookup_insert_ne by done. by apply Hrep.
  - intros f pg' Hpg' Hz. destruct (decide (f = v)) as [-> | Hne].
    + rewrite list_lookup_insert_eq in Hpg' by done. injection Hpg' as <-. simpl in Hz. lia.
    + rewrite list_lookup_insert_ne in Hpg' by done.
      destruct (Hlisted f pg' Hpg' Hz Hne) as [Hf | Hf]; [by left | right].
      by apply elem_of_replacer_pin.
  - by apply NoDup_replacer_pin.
Qed.

(** [fetch_page] of a resident page. *)
Lemma fetch_page_hit (b : Bpm) p f pg :
  page_table_ b !! p = Some f → pages_ b !! f = Some pg →
  fetch_page p b =
    Ok (Some f) (mkBpm (<[f := mkPage (id_ pg) (data_ pg) (is_dirty_ pg) (pin_count_ pg + 1)]>
                          (pages_ b))
                   (page_table_ b) (free_list_ b) (replacer_pin f (replacer_ b))
                   (disk_manager_ b)).
Proof.
  intros Hp Hpg. unfold fetch_page, bind, get. rewrite Hp, (page_at_ok _ _ _ Hpg). done.
Qed.

(** [fetch_page] of a page that is not resident, once a victim is found. *)
Lemma fetch_page_miss (b b1 : Bpm) p v pg buf :
  page_table_ b !! p = None →
  find_victim_page b = Ok (Some v) b1 →
  pages_ b1 !! v = Some pg →
  disk_pages (evict_disk pg (disk_manager_ b1)) !! p = Some buf →
  fetch_page p b = Ok (Some v) (installed b1 v pg p buf false).
Proof.
  intros Hp Hv Hpg Hbuf. unfold fetch_page, bind at 1, get. rewrite Hp.
  rewrite (bind_ok _ _ _ _ _ Hv).
  rewrite (bind_ok _ _ _ _ _ (update_page_ok _ _ _ _ Hpg)).
  unfold bind, read_page. simpl. fold (evict_disk pg (disk_manager_ b1)). rewrite Hbuf.
  unfold page_at. simpl.
  rewrite list_lookup_insert_eq by (by eapply lookup_lt_Some). simpl.
  unfold ret, installed, evict_table, set_replacer, set_pages. simpl.
  by rewrite list_insert_insert_eq.
Qed.

Lemma installed_pin_count_of (b : Bpm) v pg new_id buf dirty q :
  pool_wf_but v b → pages_ b !! v = Some pg → pin_count_ pg = 0 →
  page_table_ b !! new_id = None →
  pin_count_of (installed b v pg new_id buf dirty) q =
  pin_count_of b q + (if decide (q = new_id) then 1 else 0).
Proof.
  intros Hwb Hpg Hz Hnew.
  assert (v < length (pages_ b))%nat as Hlen by (by eapply lookup_lt_Some).
  unfold pin_count_of. simpl.
  destruct (decide (q = new_id)) as [-> | Hne].
  - rewrite lookup_insert_eq, list_lookup_insert_eq, Hnew by done. done.
  - rewrite lookup_insert_ne by done.
    destruct (wb_inv _ _ Hwb) as (Htab & _).
    destruct (page_table_ b !! q) as [g |] eqn:Hq.
    + destruct (ti_table_frame _ Htab q g Hq) as (pg' & Hpg' & Hid').
      destruct (decide (g = v)) as [-> | Hg].
      * assert (pg' = pg) as -> by congruence.
        assert (evict_table pg (page_table_ b) !! q = None) as ->.
        { unfold evict_table. rewrite Hid'.
          assert (page_no q ≠ INVALID_PAGE_ID) as Hvq by (by eapply ti_valid).
          apply Z.eqb_neq in Hvq. rewrite Hvq. simpl. apply lookup_delete_eq. }
        rewrite Hpg'. lia.
      * assert (evict_table pg (page_table_ b) !! q = Some g) as ->.
        { unfold evict_table. destruct (negb _); [| done].
          rewrite lookup_delete_ne; [done |]. intros <-.
          apply Hg. assert (page_table_ b !! id_ pg = Some v) as Hx; [| congruence].
          apply (ti_frame_table _ Htab); [by exists pg |]. by eapply ti_valid. }
        rewrite list_lookup_insert_ne by done. lia.
    + assert (evict_table pg (page_table_ b) !! q = None) as ->; [| lia].
      unfold evict_table. destruct (negb _); [| done].
      apply lookup_delete_None. by right.
Qed.

Lemma pool_wf_holds_table (b : Bpm) f pg :
  pool_wf b → pages_ b !! f = Some pg → page_no (id_ pg) ≠ INVALID_PAGE_ID →
  page_table_ b !! id_ pg = Some f.
Proof.
  intros Hwf Hpg Hv. destruct (wf_inv _ Hwf) as (Htab & _).
  apply (ti_frame_table _ Htab); [by exists pg | done].
Qed.

Lemma pool_wf_table_holds (b : Bpm) p f :
  pool_wf b → page_table_ b !! p = Some f →
  ∃ pg, pages_ b !! f = Some pg ∧ id_ pg = p ∧ page_no p ≠ INVALID_PAGE_ID.
Proof.
  intros Hwf Hp. destruct (wf_inv _ Hwf) as (Htab & _).
  destruct (ti_table_frame _ Htab p f Hp) as (pg & Hpg & Hid).
  exists pg. split; [done |]. split; [done |]. by eapply ti_valid.
Qed.

(** What a successful [fetch_page] does, seen from its caller. *)
Lemma fetch_page_spec (b b' : Bpm) p f :
  pool_wf b → fetch_page p b = Ok (Some f) b' →
  pool_wf b' ∧
  page_table_ b' !! p = Some f ∧
  (∃ pg', pages_ b' !! f = Some pg' ∧ id_ pg' = p ∧ 0 < pin_count_ pg') ∧
  (∀ g, g ≠ f → pages_ b' !! g = pages_ b !! g) ∧
  (∀ pg, pages_ b !! f = Some pg → 0 < pin_count_ pg →
     pages_ b' !! f = Some (mkPage (id_ pg) (data_ pg) (is_dirty_ pg) (pin_count_ pg + 1))) ∧
  (∀ q, pin_count_of b' q = pin_count_of b q + (if decide (q = p) then 1 else 0)) ∧
  fd2pageno (disk_manager_ b') = fd2pageno (disk_manager_ b).
Proof.
  intros Hwf H.
  destruct (page_table_ b !! p) as [f0 |] eqn:Hp.
  - (* resident *)
    destruct (pool_wf_table_holds _ _ _ Hwf Hp) as (pg & Hpg & Hid & Hvalid).
    rewrite (fetch_page_hit _ _ _ _ Hp Hpg) in H. injection H as <- <-.
    assert (f0 < length (pages_ b))%nat as Hlen by (by eapply lookup_lt_Some).
    destruct Hwf as [Hinv Hpin Hfree Hrep Hlisted Hnf Hnr].
    split; [| split; [| split; [| split; [| split; [| split]]]]]; simpl; try done.
    + split; simpl; try done.
      * eapply keeps_pages_inv; [| exact Hinv]. unfold keeps_pages. simpl.
        split; [by apply (fmap_id_insert_same _ _ pg) | auto].
      * intros g pg' Hpg'. destruct (decide (g = f0)) as [-> | Hne].
        -- rewrite list_lookup_insert_eq in Hpg' by done. injection Hpg' as <-. simpl.
           specialize (Hpin _ _ Hpg). lia.
        -- rewrite list_lookup_insert_ne in Hpg' by done. by eapply Hpin.
      * intros g Hg. destruct (Hfree g Hg) as (pg' & Hpg' & Hz & Hi).
        assert (g ≠ f0) as Hne by (intros ->; congruence).
        rewrite list_lookup_insert_ne by done. eauto.
      * intros g Hg. apply elem_of_replacer_pin in Hg as [Hg Hne].
        rewrite list_lookup_insert_ne by done. by apply Hrep.
      * intros g pg' Hpg' Hz. destruct (decide (g = f0)) as [-> | Hne].
        -- rewrite list_lookup_insert_eq in Hpg' by done. injection Hpg' as <-. simpl in Hz.
           specialize (Hpin _ _ Hpg). lia.
        -- rewrite list_lookup_insert_ne in Hpg' by done.
           destruct (Hlisted g pg' Hpg' Hz) as [? | ?]; [by left | right].
           by apply elem_of_replacer_pin.
      * by apply NoDup_replacer_pin.
    + eexists. split; [by apply list_lookup_insert_eq |]. simpl. split; [done |].
      specialize (Hpin _ _ Hpg). lia.
    + intros g Hne. by rewrite list_lookup_insert_ne.
    + intros pg' Hpg' _. rewrite list_lookup_insert_eq by done. congruence.
    + intros q. unfold pin_count_of. simpl.
      destruct (decide (q = p)) as [-> | Hne].
      * rewrite Hp, list_lookup_insert_eq, Hpg by done. done.
      * destruct (page_table_ b !! q) as [g |] eqn:Hq; [| lia].
        assert (g ≠ f0) as Hg.
        { intros ->. destruct Hinv as (Htab & _).
          destruct (ti_table_frame _ Htab q f0 Hq) as (pg' & Hpg' & Hid'). congruence. }
        rewrite list_lookup_insert_ne by done. lia.
  - (* not resident *)
    pose proof H as H0. unfold fetch_page, bind at 1, get in H0. rewrite Hp in H0.
    apply bind_inv in H0 as (v & b1 & Hv & H0).
    destruct v as [v |]; [| by mrun H0].
    destruct (find_victim_page_wf _ _ _ Hwf Hv) as (Hwb & Hpages & Htable & Hdisk).
    destruct (wb_victim _ _ Hwb) as (pg & Hpg & Hz).
    apply bind_inv in H0 as ([] & b2 & Hup & H0).
    rewrite (update_page_ok _ _ _ _ Hpg) in Hup. injection Hup as <-.
    apply bind_inv in H0 as (buf & b3 & Hrd & _). unfold read_page in Hrd. simpl in Hrd.
    fold (evict_disk pg (disk_manager_ b1)) in Hrd.
    destruct (disk_pages (evict_disk pg (disk_manager_ b1)) !! p) as [buf' |] eqn:Hbuf;
      [| done]. injection Hrd as <- _.
    assert (page_table_ b1 !! p = None) as Hp1 by (by rewrite Htable).
    rewrite (fetch_page_miss _ _ _ _ _ _ Hp Hv Hpg Hbuf) in H. injection H as <- <-.
    assert (v < length (pages_ b1))%nat as Hlen by (by eapply lookup_lt_Some).
    assert (allocated (disk_manager_ b1) p) as Halloc.
    { destruct (wb_inv _ _ Hwb) as (Htab & Hall & _). apply Hall.
      unfold evict_disk in Hbuf.
      destruct (is_dirty_ pg && negb (page_no (id_ pg) =? INVALID_PAGE_ID)) eqn:Hw;
        [| right; eauto].
      simpl in Hbuf. destruct (decide (id_ pg = p)) as [<- | Hne].
      - apply andb_true_iff in Hw as [_ Hw]. apply negb_true_iff, Z.eqb_neq in Hw.
        rewrite (ti_frame_table _ Htab v (id_ pg)) in Hp1; [done | by exists pg | done].
      - rewrite lookup_insert_ne in Hbuf by done. right. eauto. }
    split; [| split; [| split; [| split; [| split; [| split]]]]]; simpl.
    + by apply installed_wf.
    + apply lookup_insert_eq.
    + eexists. split; [by apply list_lookup_insert_eq |]. simpl. split; [done | lia].
    + intros g Hne. rewrite list_lookup_insert_ne by done. by rewrite Hpages.
    + intros pg' Hpg' Hpos. rewrite <- Hpages, Hpg in Hpg'. injection Hpg' as <-. lia.
    + intros q. rewrite (installed_pin_count_of b1 v pg p buf' false q Hwb Hpg Hz Hp1).
      unfold pin_count_of. by rewrite Htable, Hpages.
    + rewrite <- Hdisk. unfold evict_disk. by destruct (_ && _).
Qed.

(** [new_page] with a victim [v] whose frame holds [pg]. *)
Lemma new_page_ok (b b1 : Bpm) f v pg :
  find_victim_page b = Ok (Some v) b1 →
  pages_ b1 !! v = Some pg →
  let n := next_page_no (disk_manager_ b1) f in
  let d := mkDisk (disk_pages (disk_manager_ b1)) (<[f := n + 1]> (fd2pageno (disk_manager_ b1))) in
  new_page f b =
    Ok (Some (v, mkPageId f n))
       (installed (set_disk (λ _, d) b1) v pg (mkPageId f n) blank true).
Proof.
  intros Hv Hpg n d. unfold new_page.
  rewrite (bind_ok _ _ _ _ _ Hv). unfold bind at 1, get. unfold disk_allocate_page.
  unfold bind at 1, put.
  assert (pages_ (set_disk (λ _, d) b1) !! v = Some pg) as Hpg' by done.
  rewrite (bind_ok _ _ _ _ _ (update_page_ok _ _ _ _ Hpg')).
  unfold bind, page_at. simpl.
  rewrite list_lookup_insert_eq by (by eapply lookup_lt_Some). simpl.
  unfold ret, installed, evict_table, evict_disk, set_replacer, set_pages. simpl.
  by rewrite list_insert_insert_eq.
Qed.

(** What a successful [new_page] does, seen from its caller. *)
Lemma new_page_spec (b b' : Bpm) f h pid :
  pool_wf b → new_page f b = Ok (Some (h, pid)) b' →
  pool_wf b' ∧
  pid = mkPageId f (next_page_no (disk_manager_ b) f) ∧
  page_table_ b !! pid = None ∧
  page_table_ b' !! pid = Some h ∧
  pages_ b' !! h = Some (mkPage pid blank true 1) ∧
  (∀ g, g ≠ h → pages_ b' !! g = pages_ b !! g) ∧
  (∃ pg, pages_ b !! h = Some pg ∧ pin_count_ pg = 0) ∧
  (∀ q, pin_count_of b' q = pin_count_of b q + (if decide (q = pid) then 1 else 0)).
Proof.
  intros Hwf H.
  pose proof H as H0. unfold new_page in H0.
  apply bind_inv in H0 as (v & b1 & Hv & H0).
  destruct v as [v |]; [| by mrun H0]. clear H0.
  destruct (find_victim_page_wf _ _ _ Hwf Hv) as (Hwb & Hpages & Htable & Hdisk).
  destruct (wb_victim _ _ Hwb) as (pg & Hpg & Hz).
  rewrite (new_page_ok _ _ _ _ _ Hv Hpg) in H. injection H as <- <- <-.
  set (n := next_page_no (disk_manager_ b1) f).
  set (d := mkDisk (disk_pages (disk_manager_ b1))
                   (<[f := n + 1]> (fd2pageno (disk_manager_ b1)))).
  assert (v < length (pages_ b1))%nat as Hlen by (by eapply lookup_lt_Some).
  destruct (wb_inv _ _ Hwb) as (Htab & Hall & Hnn).
  assert (∀ g, next_page_no (disk_manager_ b1) g ≤ next_page_no d g) as Hmono.
  { intros g. unfold next_page_no at 2, d. simpl.
    destruct (decide (f = g)) as [<- | Hne].
    - rewrite lookup_insert_eq. simpl. fold n. lia.
    - rewrite lookup_insert_ne by done. done. }
  assert (page_table_ b1 !! mkPageId f n = None) as Hnew.
  { destruct (page_table_ b1 !! mkPageId f n) as [x |] eqn:Hx; [| done].
    destruct (Hall (mkPageId f n)) as [_ Hlt]; [left; eauto |]. simpl in Hlt.
    fold n in Hlt. lia. }
  assert (pool_wf_but v (set_disk (λ _, d) b1)) as Hwb'.
  { destruct Hwb as [Hinv Hpin Hfree Hrep Hlisted Hnf Hnr Hvic Hvf Hvr].
    split; simpl; try done.
    split; [by apply (table_inv_same b1) |]. split.
    - intros q Hq. simpl in *. specialize (Hall q Hq). specialize (Hmono (fd q)).
      unfold allocated in *. lia.
    - intros g. simpl. specialize (Hnn g). specialize (Hmono g). lia. }
  split; [| split; [| split; [| split; [| split; [| split; [| split]]]]]].
  - apply installed_wf; [done | done | done |].
    unfold allocated, next_page_no, d. simpl. rewrite lookup_insert_eq. simpl.
    specialize (Hnn f). fold n in Hnn. lia.
  - unfold n. by rewrite Hdisk.
  - by rewrite <- Htable.
  - simpl. apply lookup_insert_eq.
  - simpl. by apply list_lookup_insert_eq.
  - intros g Hne. simpl. rewrite list_lookup_insert_ne by done. by rewrite Hpages.
  - exists pg. by rewrite <- Hpages.
  - intros q. rewrite (installed_pin_count_of _ v pg _ _ _ q Hwb'); [| done | done | done].
    unfold pin_count_of. simpl. by rewrite Htable, Hpages.
Qed.

(** What [unpin_page] does to a well-formed pool. *)
Lemma unpin_page_wf (b b' : Bpm) p d r :
  pool_wf b → unpin_page p d b = Ok r b' →
  pool_wf b' ∧
  (r = true ↔ 0 < pin_count_of b p) ∧
  (∀ q, pin_count_of b' q =
        pin_count_of b q - (if decide (q = p) then (if r then 1 else 0) else 0)) ∧
  page_table_ b' = page_table_ b ∧
  disk_manager_ b' = disk_manager_ b ∧
  (∀ g, page_table_ b !! p ≠ Some g → pages_ b' !! g = pages_ b !! g) ∧
  (∀ g pg, page_table_ b !! p = Some g → pages_ b !! g = Some pg →
     pages_ b' !! g =
       Some (if r then mkPage (id_ pg) (data_ pg) (d || is_dirty_ pg) (pin_count_ pg - 1)
             else pg)).
Proof.
  intros Hwf H.
  destruct (unpin_page_cases b p d) as (H1 & H2 & H3).
  destruct (page_table_ b !! p) as [f |] eqn:Hp.
  - destruct (pool_wf_table_holds _ _ _ Hwf Hp) as (pg & Hpg & Hid & Hvalid).
    assert (pin_count_of b p = pin_count_ pg) as Hpc.
    { unfold pin_count_of. by rewrite Hp, Hpg. }
    destruct (Z.le_gt_cases (pin_count_ pg) 0) as [Hle | Hgt].
    + rewrite (H2 f pg eq_refl Hpg Hle) in H. injection H as <- <-.
      split; [done |]. split; [split; [done | lia] |].
      split; [intros q; destruct (decide (q = p)); lia |].
      split; [done |]. split; [done |]. split; [done |].
      intros g pg' Hg Hpg'. congruence.
    + destruct (H3 f pg eq_refl Hpg Hgt) as (b1 & Hb1 & Hpages & Hrepl & Htab & Hfl & Hdisk).
      rewrite Hb1 in H. injection H as <- <-.
      assert (f < length (pages_ b))%nat as Hlen by (by eapply lookup_lt_Some).
      split; [| split; [split; [lia | done] |]].
      * destruct Hwf as [Hinv Hpin Hfree Hrep Hlisted Hnf Hnr].
        split.
        -- eapply keeps_pages_inv; [by eapply unpin_page_keeps | done].
        -- rewrite Hpages. intros g pg' Hpg'. destruct (decide (g = f)) as [-> | Hne].
           ++ rewrite list_lookup_insert_eq in Hpg' by done. injection Hpg' as <-. simpl. lia.
           ++ rewrite list_lookup_insert_ne in Hpg' by done. by eapply Hpin.
        -- rewrite Hfl, Hpages. intros g Hg. destruct (Hfree g Hg) as (pg' & Hpg' & Hz & Hi).
           assert (g ≠ f) as Hne by (intros ->; congruence).
           rewrite list_lookup_insert_ne by done. eauto.
        -- rewrite Hpages. intros g Hg. apply Hrepl in Hg as [Hg | [-> Hz]].
           ++ destruct (Hrep g Hg) as (pg' & Hpg' & Hz & Hi).
              assert (g ≠ f) as Hne by (intros ->; assert (pg' = pg) by congruence; subst; lia).
              rewrite list_lookup_insert_ne by done. eauto.
           ++ rewrite list_lookup_insert_eq by done. eexists. split; [done |]. simpl.
              split; [done | congruence].
        -- rewrite Hpages, Hfl. intros g pg' Hpg' Hz. destruct (decide (g = f)) as [-> | Hne].
           ++ rewrite list_lookup_insert_eq in Hpg' by done. injection Hpg' as <-. simpl in Hz.
              right. apply Hrepl. by right.
           ++ rewrite list_lookup_insert_ne in Hpg' by done.
              destruct (Hlisted g pg' Hpg' Hz) as [? | ?]; [by left | right].
              apply Hrepl. by left.
        -- by rewrite Hfl.
        -- unfold unpin_page, bind, get in Hb1. rewrite Hp, (page_at_ok _ _ _ Hpg) in Hb1.
           destruct (Z.leb_spec (pin_count_ pg) 0); [lia |].
           destruct (pin_count_ pg - 1 =? 0); simpl in Hb1; injection Hb1 as <-; simpl;
             [| done].
           unfold replacer_unpin. destruct (decide (f ∈ replacer_ b)); [done |].
           apply NoDup_app. split; [done |]. split; [| apply NoDup_singleton].
           intros x Hx Hx'. apply list_elem_of_singleton in Hx' as ->. done.
      * split; [| split; [done | split; [done | split]]].
        -- intros q. unfold pin_count_of. rewrite Htab, Hpages.
           destruct (decide (q = p)) as [-> | Hne].
           ++ rewrite Hp, list_lookup_insert_eq, Hpg by done. done.
           ++ destruct (page_table_ b !! q) as [g |] eqn:Hq; [| lia].
              assert (g ≠ f) as Hg.
              { intros ->. destruct (wf_inv _ Hwf) as (Htab' & _).
                destruct (ti_table_frame _ Htab' q f Hq) as (pg' & Hpg' & Hid'). congruence. }
              rewrite list_lookup_insert_ne by done. lia.
        -- intros g Hg. rewrite Hpages. rewrite list_lookup_insert_ne; [done | congruence].
        -- intros g pg' Hg Hpg'. injection Hg as <-. rewrite Hpages.
           rewrite list_lookup_insert_eq by done. congruence.
  - rewrite (H1 eq_refl) in H. injection H as <- <-.
    assert (pin_count_of b p = 0) as Hpc by (unfold pin_count_of; by rewrite Hp).
    split; [done |]. split; [split; [done | lia] |].
    split; [intros q; destruct (decide (q = p)); lia |].
    split; [done |]. split; [done |]. split; [done |]. intros g pg' Hg. done.
Qed.

Lemma bpm_init_wf (pool_size : nat) (d : DiskManager Data) :
  disk_alloc_ok d → (∀ f, 0 ≤ next_page_no d f) → pool_wf (bpm_init pool_size d).
Proof.
  intros Hd Hnn. split; simpl.
  - by apply bpm_init_inv.
  - intros f pg Hpg. apply lookup_replicate in Hpg as [-> _]. done.
  - intros f Hf. apply elem_of_seq in Hf. exists empty_page.
    split; [apply lookup_replicate; split; [done | lia] | done].
  - intros f Hf. by apply elem_of_nil in Hf.
  - intros f pg Hpg _. apply lookup_replicate in Hpg as [_ Hlt]. left.
    apply elem_of_seq. lia.
  - apply NoDup_seq.
  - constructor.
Qed.

(** ** What a page holds *)

(** The bytes of a page as the next [fetch_page] finds them: those of its
    frame when it is resident, those on the disk otherwise. *)
Definition page_content (b : Bpm) (p : PageId) : option Data :=
  match page_table_ b !! p with
  | Some f => data_ <$> pages_ b !! f
  | None => disk_pages (disk_manager_ b) !! p
  end.

Definition dirty_of (b : Bpm) (p : PageId) : bool :=
  match page_table_ b !! p with
  | Some f => match pages_ b !! f with
              | Some pg => is_dirty_ pg
              | None => false
              end
  | None => false
  end.

(** [fetch_page p] finds a frame: [p] is resident, or a frame is free or
    evictable. *)
Definition has_room (b : Bpm) (p : PageId) : Prop :=
  is_Some (page_table_ b !! p) ∨ free_list_ b ≠ [] ∨ replacer_ b ≠ [].

Lemma find_victim_page_some (b : Bpm) :
  free_list_ b ≠ [] ∨ replacer_ b ≠ [] → ∃ v b', find_victim_page b = Ok (Some v) b'.
Proof.
  intros H. unfold find_victim_page, bind, get, put, ret.
  destruct (free_list_ b) as [| f rest]; [| eauto].
  destruct (replacer_ b) as [| g r]; [naive_solver | simpl; eauto].
Qed.

Lemma fetch_page_content (b : Bpm) p d :
  pool_wf b → page_content b p = Some d → has_room b p →
  ∃ f b', fetch_page p b = Ok (Some f) b' ∧
    page_table_ b' !! p = Some f ∧
    pages_ b' !! f = Some (mkPage p d (dirty_of b p) (pin_count_of b p + 1)).
Proof.
  intros Hwf Hc Hroom. unfold page_content, dirty_of, pin_count_of in *.
  destruct (page_table_ b !! p) as [f |] eqn:Ht.
  - destruct (pages_ b !! f) as [pg |] eqn:Hpg; [| done]. injection Hc as <-.
    destruct (pool_wf_table_holds _ _ _ Hwf Ht) as (pg' & Hpg' & Hid & _).
    assert (pg' = pg) as -> by congruence.
    exists f. eexists. split; [by apply (fetch_page_hit _ _ _ pg) |]. simpl.
    split; [done |]. rewrite list_lookup_insert_eq by (by eapply lookup_lt_Some).
    by rewrite Hid.
  - destruct Hroom as [[f Hf] | Hroom]; [congruence |].
    destruct (find_victim_page_some b Hroom) as (v & b1 & Hv).
    destruct (find_victim_page_wf _ _ _ Hwf Hv) as (Hwb & Hpages & Htab & Hdisk).
    destruct (wb_victim _ _ Hwb) as (pg & Hpg & Hzero).
    assert (disk_pages (evict_disk pg (disk_manager_ b1)) !! p = Some d) as Hread.
    { unfold evict_disk.
      destruct (is_dirty_ pg && negb (page_no (id_ pg) =? INVALID_PAGE_ID)) eqn:Hdv;
        [| by rewrite Hdisk].
      apply andb_prop in Hdv as [_ Hvalid]. apply negb_true_iff, Z.eqb_neq in Hvalid.
      simpl. rewrite lookup_insert_ne; [by rewrite Hdisk |].
      intros Heq. rewrite Hpages in Hpg.
      pose proof (pool_wf_holds_table _ _ _ Hwf Hpg Hvalid) as Hin. congruence. }
    exists v. eexists. split; [by eapply fetch_page_miss; [done | done | done | done] |].
    simpl. split; [by rewrite lookup_insert_eq |].
    rewrite list_lookup_insert_eq by (by eapply lookup_lt_Some). done.
Qed.

(** ** Pages that survive eviction *)

(** A clean frame has the bytes its page has on the disk, so evicting it
    loses nothing.  The pages of [D] are excepted: they are pinned, their
    bytes were changed in the frame, and they are still to be marked
    dirty. *)
Definition coherent (D : gset PageId) (b : Bpm) : Prop :=
  ∀ p f pg, page_table_ b !! p = Some f → pages_ b !! f = Some pg →
    is_dirty_ pg = false → p ∉ D → disk_pages (disk_manager_ b) !! p = Some (data_ pg).

(** The number of frames [find_victim_page] can choose from. *)
Definition room (b : Bpm) : nat := (length (free_list_ b) + length (replacer_ b))%nat.

(** The frame the next [find_victim_page] takes. *)
Definition next_victim (b : Bpm) : option frame_id_t :=
  match free_list_ b with
  | f :: _ => Some f
  | [] => head (replacer_ b)
  end.

Record pool_ok (D : gset PageId) (b : Bpm) : Prop := {
  ok_wf : pool_wf b;
  ok_coherent : coherent D b;
  ok_debt : ∀ p, p ∈ D → 0 < pin_count_of b p
}.

Lemma room_has_room (b : Bpm) p : (0 < room b)%nat → has_room b p.
Proof.
  unfold room. intros H. right.
  destruct (free_list_ b); [| by left]. destruct (replacer_ b); [simpl in H; lia | by right].
Qed.

Lemma next_victim_room (b : Bpm) : is_Some (next_victim b) ↔ (0 < room b)%nat.
Proof.
  unfold next_victim, room. destruct (free_list_ b); simpl.
  - destruct (replacer_ b); simpl; split; intros H; try lia; try by eexists.
    by destruct H.
  - split; [lia | by eexists].
Qed.

Lemma find_victim_page_next (b : Bpm) :
  find_victim_page b =
    Ok (next_victim b)
       (match free_list_ b with
        | _ :: rest => set_free_list (λ _, rest) b
        | [] => set_replacer (λ _, tail (replacer_ b)) b
        end).
Proof.
  unfold find_victim_page, next_victim, bind, get, put, ret.
  destruct (free_list_ b); [| done]. by destruct (replacer_ b).
Qed.

Lemma find_victim_page_room (b b' : Bpm) v :
  find_victim_page b = Ok (Some v) b' → room b = S (room b').
Proof.
  unfold find_victim_page, room. intros H. mrun H.
  destruct (free_list_ b) as [| f rest] eqn:Hfl.
  - destruct (replacer_ b) as [| g r] eqn:Hr; simpl in H; [done |].
    ok_inj H. simpl. by rewrite Hfl.
  - ok_inj H. simpl. done.
Qed.

Lemma length_replacer_pin_in f (r : list frame_id_t) :
  NoDup r → f ∈ r → S (length (replacer_pin f r)) = length r.
Proof.
  unfold replacer_pin. induction r as [| g r IH]; intros Hnd Hf; [by apply elem_of_nil in Hf |].
  apply NoDup_cons in Hnd as [Hg Hnd]. rewrite filter_cons.
  destruct (decide (g ≠ f)) as [Hne | Heq].
  - simpl. f_equal. apply IH; [done |]. apply elem_of_cons in Hf as [-> | Hf]; done.
  - assert (g = f) as -> by (by destruct (decide (g = f))).
    fold (replacer_pin f r). by rewrite replacer_pin_absent.
Qed.

Lemma pin_count_of_nonneg (b : Bpm) p : pool_wf b → 0 ≤ pin_count_of b p.
Proof.
  intros Hwf. unfold pin_count_of. destruct (page_table_ b !! p) as [g |]; [| done].
  destruct (pages_ b !! g) as [pg |] eqn:Hg; [| done]. exact (wf_pin _ Hwf _ _ Hg).
Qed.

Lemma installed_page_content (D : gset PageId) (b : Bpm) v pg p buf dirty q :
  pool_wf_but v b → coherent D b → (∀ p, p ∈ D → 0 < pin_count_of b p) →
  pages_ b !! v = Some pg → pin_count_ pg = 0 →
  page_table_ b !! p = None →
  page_content (installed b v pg p buf dirty) q =
    if decide (q = p) then Some buf else page_content b q.
Proof.
  intros Hwb Hco Hdebt Hpg Hz Hp. destruct (wb_inv _ _ Hwb) as ([Htf Hft Hval] & _).
  assert (v < length (pages_ b))%nat as Hlen by (by eapply lookup_lt_Some).
  unfold page_content, installed. simpl.
  destruct (decide (q = p)) as [-> | Hqp].
  { rewrite lookup_insert_eq, list_lookup_insert_eq by done. done. }
  rewrite lookup_insert_ne by done.
  assert (∀ q' g, page_table_ b !! q' = Some g → g = v → id_ pg = q') as Hown.
  { intros q' g Hg ->. destruct (Htf _ _ Hg) as (pg' & Hpg' & Hid). congruence. }
  unfold evict_table, evict_disk.
  destruct (Z.eqb_spec (page_no (id_ pg)) INVALID_PAGE_ID) as [Hinv | Hvalid]; simpl.
  - rewrite andb_false_r.
    destruct (page_table_ b !! q) as [g |] eqn:Hq; [| done].
    rewrite list_lookup_insert_ne; [done |]. intros Heq. subst g.
    apply (Hval _ _ Hq). by rewrite <- (Hown q v Hq eq_refl).
  - rewrite andb_true_r.
    pose proof (Hft v (id_ pg) (ex_intro _ pg (conj Hpg eq_refl)) Hvalid) as Htv.
    destruct (decide (q = id_ pg)) as [-> | Hne].
    + rewrite lookup_delete_eq, Htv, Hpg. simpl.
      destruct (is_dirty_ pg) eqn:Hd; simpl.
      * by rewrite lookup_insert_eq.
      * apply (Hco _ _ _ Htv Hpg Hd). intros HD. apply Hdebt in HD.
        unfold pin_count_of in HD. rewrite Htv, Hpg in HD. lia.
    + rewrite lookup_delete_ne by done.
      destruct (page_table_ b !! q) as [g |] eqn:Hq.
      * rewrite list_lookup_insert_ne; [done |]. intros Heq. subst g.
        by rewrite (Hown q v Hq eq_refl) in Hne.
      * destruct (is_dirty_ pg); simpl; [by rewrite lookup_insert_ne |done].
Qed.

Lemma installed_coherent (D : gset PageId) (b : Bpm) v pg p buf dirty :
  pool_wf_but v b → coherent D b → pages_ b !! v = Some pg →
  page_table_ b !! p = None →
  dirty = true ∨ disk_pages (evict_disk pg (disk_manager_ b)) !! p = Some buf →
  coherent D (installed b v pg p buf dirty).
Proof.
  intros Hwb Hco Hpg Hp Hnew q g pg'. unfold installed. simpl. intros Hq Hg Hclean HD.
  destruct (wb_inv _ _ Hwb) as ([Htf Hft Hval] & _).
  assert (v < length (pages_ b))%nat as Hlen by (by eapply lookup_lt_Some).
  destruct (decide (q = p)) as [-> | Hqp].
  { rewrite lookup_insert_eq in Hq. injection Hq as <-.
    rewrite list_lookup_insert_eq in Hg by done. injection Hg as <-. simpl in *.
    destruct Hnew as [-> | Hnew]; done. }
  rewrite lookup_insert_ne in Hq by done.
  assert (page_table_ b !! q = Some g ∧ q ≠ id_ pg) as [Hq' Hne].
  { unfold evict_table in Hq.
    destruct (negb (page_no (id_ pg) =? INVALID_PAGE_ID)) eqn:Hvalid.
    - destruct (decide (q = id_ pg)) as [-> | Hne]; [by rewrite lookup_delete_eq in Hq |].
      by rewrite lookup_delete_ne in Hq.
    - split; [done |]. intros ->. apply negb_false_iff, Z.eqb_eq in Hvalid.
      by apply (Hval _ _ Hq). }
  assert (g ≠ v) as Hgv.
  { intros ->. destruct (Htf _ _ Hq') as (pg0 & Hpg0 & Hid). congruence. }
  rewrite list_lookup_insert_ne in Hg by done.
  unfold evict_disk.
  destruct (is_dirty_ pg && negb (page_no (id_ pg) =? INVALID_PAGE_ID)); simpl.
  - rewrite lookup_insert_ne by done. by eapply Hco.
  - by eapply Hco.
Qed.

Lemma coherent_same (D : gset PageId) (b b' : Bpm) :
  pages_ b' = pages_ b → page_table_ b' = page_table_ b →
  disk_manager_ b' = disk_manager_ b → coherent D b → coherent D b'.
Proof. unfold coherent. intros -> -> ->. done. Qed.

(** [fetch_page] of a page the pool holds or can read, when the page is
    pinned already or a frame can be taken: the page is pinned once more,
    no page changes its bytes, and a frame is used up exactly when the page
    was not pinned before. *)
Lemma fetch_page_ok (D : gset PageId) (b : Bpm) p d :
  pool_ok D b → page_content b p = Some d →
  0 < pin_count_of b p ∨ (0 < room b)%nat →
  ∃ f b', fetch_page p b = Ok (Some f) b' ∧ pool_ok D b' ∧
    (∀ q, page_content b' q = page_content b q) ∧
    page_table_ b' !! p = Some f ∧
    pages_ b' !! f = Some (mkPage p d (dirty_of b p) (pin_count_of b p + 1)) ∧
    (∀ g, g ≠ f → pages_ b' !! g = pages_ b !! g) ∧
    (page_table_ b !! p = Some f ∨ page_table_ b !! p = None ∧ next_victim b = Some f) ∧
    (∀ q, pin_count_of b' q = pin_count_of b q + (if decide (q = p) then 1 else 0)) ∧
    room b' = (room b - (if decide (pin_count_of b p = 0%Z) then 1 else 0))%nat ∧
    length (pages_ b') = length (pages_ b) ∧
    fd2pageno (disk_manager_ b') = fd2pageno (disk_manager_ b).
Proof.
  intros [Hwf Hco Hdebt] Hc Hroom.
  assert (has_room b p) as Hhr.
  { destruct Hroom as [Hpin | Hroom]; [| by apply room_has_room].
    left. unfold pin_count_of in Hpin. destruct (page_table_ b !! p); [eauto | lia]. }
  destruct (fetch_page_content _ _ _ Hwf Hc Hhr) as (f & b' & Hrun & Ht' & Hf').
  destruct (fetch_page_spec _ _ _ _ Hwf Hrun) as (Hwf' & _ & _ & Hother & _ & Hcount & Hfd).
  assert (∀ q, q ∈ D → 0 < pin_count_of b' q) as Hdebt'.
  { intros q Hq. rewrite Hcount. specialize (Hdebt q Hq). destruct (decide (q = p)); lia. }
  exists f, b'. split; [done |].
  destruct (page_table_ b !! p) as [f0 |] eqn:Hp.
  - destruct (pool_wf_table_holds _ _ _ Hwf Hp) as (pg & Hpg & Hid & Hvalid).
    assert (pin_count_of b p = pin_count_ pg) as Hpc by (unfold pin_count_of; by rewrite Hp, Hpg).
    pose proof (wf_pin _ Hwf _ _ Hpg) as Hnn.
    assert (f0 < length (pages_ b))%nat as Hlen by (by eapply lookup_lt_Some).
    rewrite (fetch_page_hit _ _ _ _ Hp Hpg) in Hrun. injection Hrun as <- <-.
    split; [split; [done | | done] |].
    { intros q g pg'. simpl. intros Hq Hg Hclean HD.
      destruct (decide (g = f0)) as [-> | Hne].
      - rewrite list_lookup_insert_eq in Hg by done. injection Hg as <-. simpl in *.
        by apply (Hco q f0 pg).
      - rewrite list_lookup_insert_ne in Hg by done. by eapply Hco. }
    split.
    { intros q. unfold page_content. simpl. destruct (page_table_ b !! q) as [g |]; [| done].
      destruct (decide (g = f0)) as [-> | Hne].
      - rewrite list_lookup_insert_eq, Hpg by done. done.
      - by rewrite list_lookup_insert_ne. }
    split; [done |]. split; [done |]. split; [done |].
    split; [by left |]. split; [done |].
    split; [| split; [simpl; by rewrite length_insert | done]].
    unfold room. simpl. rewrite Hpc.
    destruct (decide (pin_count_ pg = 0)) as [Hz | Hnz].
    + destruct (wf_listed _ Hwf _ _ Hpg Hz) as [Hfree | Hrep].
      * destruct (wf_free _ Hwf _ Hfree) as (pg' & Hpg' & _ & Hi). congruence.
      * pose proof (length_replacer_pin_in _ _ (wf_replacer_nodup _ Hwf) Hrep). lia.
    + rewrite replacer_pin_absent; [lia |]. intros Hrep.
      destruct (wf_replacer _ Hwf _ Hrep) as (pg' & Hpg' & Hz & _). congruence.
  - destruct Hroom as [Hpin | Hroom]; [unfold pin_count_of in Hpin; rewrite Hp in Hpin; lia |].
    apply next_victim_room in Hroom as [v Hnv].
    pose proof (find_victim_page_next b) as Hv. rewrite Hnv in Hv.
    set (b1 := match free_list_ b with
               | _ :: rest => set_free_list (λ _, rest) b
               | [] => set_replacer (λ _, tail (replacer_ b)) b
               end) in *.
    destruct (find_victim_page_wf _ _ _ Hwf Hv) as (Hwb & Hpages & Htab & Hdisk).
    destruct (wb_victim _ _ Hwb) as (pg & Hpg & Hz).
    assert (coherent D b1) as Hco1 by (by apply (coherent_same D b)).
    assert (∀ q, q ∈ D → 0 < pin_count_of b1 q) as Hdebt1.
    { intros q Hq. unfold pin_count_of. rewrite Htab, Hpages. by apply Hdebt. }
    assert (page_table_ b1 !! p = None) as Hp1 by (by rewrite Htab).
    assert (disk_pages (evict_disk pg (disk_manager_ b1)) !! p = Some d) as Hread.
    { unfold page_content in Hc. rewrite Hp in Hc.
      unfold evict_disk.
      destruct (is_dirty_ pg && negb (page_no (id_ pg) =? INVALID_PAGE_ID)) eqn:Hdv;
        [| by rewrite Hdisk].
      apply andb_prop in Hdv as [_ Hvalid]. apply negb_true_iff, Z.eqb_neq in Hvalid.
      simpl. rewrite lookup_insert_ne; [by rewrite Hdisk |].
      intros Heq. destruct (wb_inv _ _ Hwb) as ([_ Hft _] & _).
      pose proof (Hft v (id_ pg) (ex_intro _ pg (conj Hpg eq_refl)) Hvalid) as Hin.
      rewrite Heq in Hin. congruence. }
    rewrite (fetch_page_miss _ _ _ _ _ _ Hp Hv Hpg Hread) in Hrun. injection Hrun as <- <-.
    assert (pin_count_of b p = 0) as Hpc by (unfold pin_count_of; by rewrite Hp).
    assert (∀ q, page_content b1 q = page_content b q) as Hsame.
    { intros q. unfold page_content. by rewrite Htab, Hpages, Hdisk. }
    split; [split; [done | apply installed_coherent; auto | done] |].
    split.
    { intros q.
      rewrite (installed_page_content D b1 v pg p d false q Hwb Hco1 Hdebt1 Hpg Hz Hp1).
      destruct (decide (q = p)) as [-> | Hq]; [| apply Hsame].
      by rewrite Hc. }
    split; [done |]. split; [done |]. split; [done |].
    split; [by right |]. split; [done |].
    split; [| split; [simpl; by rewrite length_insert, Hpages | done]].
    rewrite Hpc. rewrite decide_True by done.
    rewrite (find_victim_page_room _ _ _ Hv). unfold room, installed. simpl.
    rewrite (replacer_pin_absent v); [lia |]. exact (wb_not_replacer _ _ Hwb).
Qed.

Lemma unpin_page_run (b : Bpm) p d f pg :
  page_table_ b !! p = Some f → pages_ b !! f = Some pg → 0 < pin_count_ pg →
  unpin_page p d b =
    Ok true (mkBpm (<[f := mkPage (id_ pg) (data_ pg) (d || is_dirty_ pg) (pin_count_ pg - 1)]>
                      (pages_ b))
               (page_table_ b) (free_list_ b)
               (if pin_count_ pg - 1 =? 0 then replacer_unpin f (replacer_ b) else replacer_ b)
               (disk_manager_ b)).
Proof.
  intros Hp Hpg Hpos. unfold unpin_page, bind, get. rewrite Hp, (page_at_ok _ _ _ Hpg).
  destruct (Z.leb_spec (pin_count_ pg) 0); [lia |].
  by destruct (pin_count_ pg - 1 =? 0), d.
Qed.

(** [unpin_page] of a pinned page.  A page that was changed in its frame
    leaves the pages to be marked dirty when it is marked dirty; it cannot
    be unpinned for good before that. *)
Lemma unpin_page_ok (D : gset PageId) (b : Bpm) p d :
  pool_ok D b → 0 < pin_count_of b p →
  d = true ∨ p ∉ D ∨ 1 < pin_count_of b p →
  ∃ f pg b', page_table_ b !! p = Some f ∧ pages_ b !! f = Some pg ∧ id_ pg = p ∧
    unpin_page p d b = Ok true b' ∧ pool_ok (if d then D ∖ {[p]} else D) b' ∧
    (∀ q, page_content b' q = page_content b q) ∧
    pages_ b' = <[f := mkPage p (data_ pg) (d || is_dirty_ pg) (pin_count_ pg - 1)]> (pages_ b) ∧
    page_table_ b' = page_table_ b ∧ disk_manager_ b' = disk_manager_ b ∧
    (∀ q, pin_count_of b' q = pin_count_of b q - (if decide (q = p) then 1 else 0)) ∧
    room b' = (room b + (if decide (pin_count_of b p = 1%Z) then 1 else 0))%nat ∧
    (∀ v, next_victim b = Some v → next_victim b' = Some v).
Proof.
  intros [Hwf Hco Hdebt] Hpin Hsafe.
  destruct (page_table_ b !! p) as [f |] eqn:Hp;
    [| unfold pin_count_of in Hpin; rewrite Hp in Hpin; lia].
  destruct (pool_wf_table_holds _ _ _ Hwf Hp) as (pg & Hpg & Hid & Hvalid).
  assert (pin_count_of b p = pin_count_ pg) as Hpc by (unfold pin_count_of; by rewrite Hp, Hpg).
  rewrite Hpc in Hpin. rewrite Hpc in Hsafe.
  assert (f < length (pages_ b))%nat as Hlen by (by eapply lookup_lt_Some).
  pose proof (unpin_page_run b p d f pg Hp Hpg Hpin) as Hrun.
  destruct (unpin_page_wf _ _ _ _ _ Hwf Hrun) as (Hwf' & _ & Hcount & _).
  exists f, pg. eexists. split; [done |]. split; [done |]. split; [done |].
  split; [exact Hrun |]. simpl.
  split; [split; [done | |] |].
  { intros q g pg'. simpl. intros Hq Hg Hclean HD.
    destruct (decide (g = f)) as [-> | Hne].
    - rewrite list_lookup_insert_eq in Hg by done. injection Hg as <-. simpl in *.
      assert (q = p) as ->.
      { destruct (pool_wf_table_holds _ _ _ Hwf Hq) as (pg' & Hpg' & Hid' & _). congruence. }
      destruct d; [done |]. simpl in Hclean. by apply (Hco p f pg).
    - rewrite list_lookup_insert_ne in Hg by done. apply (Hco q g pg'); [done .. |].
      intros HDq. apply HD. destruct d; [| done].
      apply elem_of_difference. split; [done |]. apply not_elem_of_singleton.
      intros ->. congruence. }
  { intros q Hq. rewrite Hcount.
    assert (q ∈ D) as HqD by (destruct d; [by apply elem_of_difference in Hq as [? _] | done]).
    specialize (Hdebt q HqD). destruct (decide (q = p)) as [-> | Hne]; [| lia].
    rewrite Hpc in *. destruct d.
    - apply elem_of_difference in Hq as [_ Hq]. by apply not_elem_of_singleton in Hq.
    - destruct Hsafe as [? | [? | ?]]; [done | done | lia]. }
  split.
  { intros q. unfold page_content. simpl. destruct (page_table_ b !! q) as [g |]; [| done].
    destruct (decide (g = f)) as [-> | Hne].
    - rewrite list_lookup_insert_eq, Hpg by done. done.
    - by rewrite list_lookup_insert_ne. }
  split; [by rewrite Hid |]. split; [done |]. split; [done |].
  split.
  { intros q. rewrite Hcount. destruct (decide (q = p)); lia. }
  split.
  - unfold room. simpl. rewrite Hpc.
    destruct (decide (pin_count_ pg = 1)) as [H1 | Hn1].
    + rewrite H1. simpl. unfold replacer_unpin.
      destruct (decide (f ∈ replacer_ b)) as [Hin | Hnin].
      * destruct (wf_replacer _ Hwf _ Hin) as (pg' & Hpg' & Hz & _).
        assert (pg' = pg) as -> by congruence. lia.
      * rewrite length_app. simpl. lia.
    + destruct (Z.eqb_spec (pin_count_ pg - 1) 0); [lia |]. lia.
  - intros v. unfold next_victim. simpl. destruct (free_list_ b); [| done].
    destruct (pin_count_ pg - 1 =? 0); [| done].
    unfold replacer_unpin. destruct (decide (f ∈ replacer_ b)); [done |].
    destruct (replacer_ b); [done |]. done.
Qed.

(** [new_page] when a frame can be taken: the new page is the next one of
    the file, it is blank, dirty and pinned once, and no other page changes
    its bytes. *)
Lemma new_page_fresh (D : gset PageId) (b : Bpm) fl :
  pool_ok D b → (0 < room b)%nat →
  ∃ h b', new_page fl b = Ok (Some (h, mkPageId fl (next_page_no (disk_manager_ b) fl))) b' ∧
    pool_ok D b' ∧
    page_content b (mkPageId fl (next_page_no (disk_manager_ b) fl)) = None ∧
    (∀ q, page_content b' q =
          if decide (q = mkPageId fl (next_page_no (disk_manager_ b) fl)) then Some blank
          else page_content b q) ∧
    page_table_ b' !! mkPageId fl (next_page_no (disk_manager_ b) fl) = Some h ∧
    pages_ b' !! h = Some (mkPage (mkPageId fl (next_page_no (disk_manager_ b) fl)) blank true 1) ∧
    (∀ g, g ≠ h → pages_ b' !! g = pages_ b !! g) ∧
    next_victim b = Some h ∧
    (∀ q, pin_count_of b' q = pin_count_of b q +
          (if decide (q = mkPageId fl (next_page_no (disk_manager_ b) fl)) then 1 else 0)) ∧
    room b = S (room b') ∧
    length (pages_ b') = length (pages_ b) ∧
    (∀ g, next_page_no (disk_manager_ b') g =
          if decide (g = fl) then next_page_no (disk_manager_ b) fl + 1
          else next_page_no (disk_manager_ b) g).
Proof.
  intros [Hwf Hco Hdebt] Hroom.
  set (pid := mkPageId fl (next_page_no (disk_manager_ b) fl)).
  apply next_victim_room in Hroom as [v Hnv].
  pose proof (find_victim_page_next b) as Hv. rewrite Hnv in Hv.
  set (b1 := match free_list_ b with
             | _ :: rest => set_free_list (λ _, rest) b
             | [] => set_replacer (λ _, tail (replacer_ b)) b
             end) in *.
  destruct (find_victim_page_wf _ _ _ Hwf Hv) as (Hwb & Hpages & Htab & Hdisk).
  destruct (wb_victim _ _ Hwb) as (pg & Hpg & Hz).
  pose proof (new_page_ok _ _ fl _ _ Hv Hpg) as Hrun. simpl in Hrun.
  rewrite Hdisk in Hrun. fold pid in Hrun.
  destruct (new_page_spec _ _ _ _ _ Hwf Hrun)
    as (Hwf' & _ & Hfresh & Ht' & Hh' & Hother & Hold & Hcount).
  set (d1 := mkDisk (disk_pages (disk_manager_ b))
               (<[fl := next_page_no (disk_manager_ b) fl + 1]> (fd2pageno (disk_manager_ b)))) in *.
  set (b2 := set_disk (λ _, d1) b1) in *.
  assert (pool_wf_but v b2) as Hwb2.
  { destruct Hwb as [Hinv ? ? ? ? ? ? ? ? ?]. split; try done.
    destruct Hinv as (Hti & Hal & Hnn). split; [| split].
    - by apply (table_inv_same b1).
    - intros q Hq. unfold b2 in Hq. simpl in Hq. unfold alloc_inv in Hal.
      rewrite Hdisk in Hal.
      assert (allocated (disk_manager_ b) q) as [Hq0 Hq1].
      { apply Hal. destruct Hq as [Hq | Hq]; [by left | by right]. }
      unfold allocated, next_page_no. simpl. unfold next_page_no in Hq1.
      destruct (decide (fl = fd q)) as [-> | Hfq].
      + rewrite lookup_insert_eq. simpl. unfold next_page_no. lia.
      + rewrite lookup_insert_ne by done. lia.
    - intros g. unfold next_page_no. simpl. rewrite Hdisk in Hnn.
      destruct (decide (fl = g)) as [-> | Hfq].
      + rewrite lookup_insert_eq. simpl. specialize (Hnn g). lia.
      + rewrite lookup_insert_ne by done. apply Hnn. }
  assert (coherent D b2) as Hco2.
  { intros q g pg'. unfold b2. simpl. rewrite Hpages, Htab. apply Hco. }
  assert (∀ q, q ∈ D → 0 < pin_count_of b2 q) as Hdebt2.
  { intros q Hq. unfold pin_count_of, b2. simpl. rewrite Htab, Hpages. by apply Hdebt. }
  assert (page_table_ b2 !! pid = None) as Hp2 by (unfold b2; simpl; by rewrite Htab).
  assert (pages_ b2 !! v = Some pg) as Hpg2 by done.
  assert (page_content b pid = None) as Hnone.
  { unfold page_content. rewrite Hfresh.
    destruct (disk_pages (disk_manager_ b) !! pid) eqn:Hd; [| done].
    destruct (wf_inv _ Hwf) as (_ & Hal & _).
    destruct (Hal pid) as [_ Hlt]; [right; eauto |]. simpl in Hlt. lia. }
  exists v. eexists. split; [exact Hrun |].
  split.
  { split; [done | apply installed_coherent; auto |].
    intros q Hq. rewrite Hcount. specialize (Hdebt q Hq). destruct (decide (q = pid)); lia. }
  split; [done |]. split.
  { intros q.
    rewrite (installed_page_content D b2 v pg pid blank true q Hwb2 Hco2 Hdebt2 Hpg2 Hz Hp2).
    destruct (decide (q = pid)); [done |].
    unfold page_content, b2. simpl. by rewrite Htab, Hpages. }
  split; [done |]. split; [done |]. split; [done |]. split; [done |]. split; [done |].
  split.
  { rewrite (find_victim_page_room _ _ _ Hv). unfold room, installed. simpl.
    rewrite (replacer_pin_absent v); [done |]. exact (wb_not_replacer _ _ Hwb). }
  split; [simpl; by rewrite length_insert, Hpages |].
  intros g. unfold installed, evict_disk, next_page_no. simpl.
  assert (fd2pageno (if is_dirty_ pg && negb (page_no (id_ pg) =? INVALID_PAGE_ID)
                     then disk_write_page (id_ pg) (data_ pg) d1 else d1)
          = fd2pageno d1) as -> by (by destruct (_ && _)).
  simpl. destruct (decide (g = fl)) as [-> | Hg].
  - by rewrite lookup_insert_eq.
  - by rewrite lookup_insert_ne.
Qed.

Lemma page_content_data_only_ne (b : Bpm) g pg buf q :
  pool_wf b → pages_ b !! g = Some pg → q ≠ id_ pg →
  page_content (set_pages (λ l, <[g := mkPage (id_ pg) buf (is_dirty_ pg) (pin_count_ pg)]> l) b) q
  = page_content b q.
Proof.
  intros Hwf Hg Hne. unfold page_content. simpl.
  destruct (page_table_ b !! q) as [f |] eqn:Ht; [| done].
  destruct (pool_wf_table_holds _ _ _ Hwf Ht) as (pg' & Hpg' & Hid & _).
  rewrite list_lookup_insert_ne; [done |]. intros <-. congruence.
Qed.

(** ** Steps that touch only the bytes of the frames *)

Definition page_meta (pg : Page Data) : PageId * bool * Z :=
  (id_ pg, is_dirty_ pg, pin_count_ pg).

(** [b'] is [b] up to the bytes in the frames. *)
Definition data_only (b b' : Bpm) : Prop :=
  page_meta <$> pages_ b' = page_meta <$> pages_ b ∧
  page_table_ b' = page_table_ b ∧
  free_list_ b' = free_list_ b ∧
  replacer_ b' = replacer_ b ∧
  disk_manager_ b' = disk_manager_ b.

Lemma data_only_refl b : data_only b b.
Proof. by unfold data_only. Qed.

Lemma data_only_trans b1 b2 b3 : data_only b1 b2 → data_only b2 b3 → data_only b1 b3.
Proof. unfold data_only. intros (? & ? & ? & ? & ?) (? & ? & ? & ? & ?). repeat split; congruence. Qed.

Lemma data_only_lookup (b b' : Bpm) g pg' :
  data_only b b' → pages_ b' !! g = Some pg' →
  ∃ pg, pages_ b !! g = Some pg ∧ page_meta pg = page_meta pg'.
Proof.
  intros (Hm & _) Hg.
  assert ((page_meta <$> pages_ b) !! g = Some (page_meta pg')) as Hl.
  { rewrite <- Hm, list_lookup_fmap, Hg. done. }
  rewrite list_lookup_fmap in Hl. destruct (pages_ b !! g) as [pg |]; [| done].
  exists pg. split; [done |]. simpl in Hl. congruence.
Qed.

Lemma data_only_sym b b' : data_only b b' → data_only b' b.
Proof. unfold data_only. intros (? & ? & ? & ? & ?). repeat split; congruence. Qed.

Lemma data_only_store (b : Bpm) g pg buf :
  pages_ b !! g = Some pg →
  data_only b (set_pages (λ l, <[g := mkPage (id_ pg) buf (is_dirty_ pg) (pin_count_ pg)]> l) b).
Proof.
  intros Hg. split; [| done]. simpl. rewrite list_fmap_insert.
  apply list_insert_id. by rewrite list_lookup_fmap, Hg.
Qed.

Lemma data_only_pin_count_of b b' q : data_only b b' → pin_count_of b' q = pin_count_of b q.
Proof.
  intros Hd. unfold pin_count_of. destruct Hd as (Hm & -> & _).
  destruct (page_table_ b !! q) as [g |]; [| done].
  assert ((page_meta <$> pages_ b') !! g = (page_meta <$> pages_ b) !! g) as Hl by (by rewrite Hm).
  rewrite !list_lookup_fmap in Hl.
  destruct (pages_ b' !! g), (pages_ b !! g); simpl in Hl; try done. by injection Hl.
Qed.

Lemma data_only_wf b b' : data_only b b' → pool_wf b → pool_wf b'.
Proof.
  intros Hd [Hinv Hpin Hfree Hrep Hlisted Hnf Hnr].
  pose proof Hd as (Hm & Ht & Hf & Hr & Hdm).
  assert (∀ g pg', pages_ b' !! g = Some pg' →
            ∃ pg, pages_ b !! g = Some pg ∧ page_meta pg = page_meta pg') as Hfw.
  { intros g pg'. by apply data_only_lookup. }
  assert (∀ g pg, pages_ b !! g = Some pg →
            ∃ pg', pages_ b' !! g = Some pg' ∧ page_meta pg' = page_meta pg) as Hbw.
  { intros g pg. apply data_only_lookup. by apply data_only_sym. }
  split.
  - eapply keeps_pages_inv; [| exact Hinv]. split; [| rewrite Ht, Hdm; auto].
    assert (id_ <$> pages_ b' = (λ m, m.1.1) <$> (page_meta <$> pages_ b')) as ->
      by (by rewrite <- list_fmap_compose).
    rewrite Hm, <- list_fmap_compose. done.
  - intros g pg' Hg. destruct (Hfw g pg' Hg) as (pg & Hg0 & [= _ _ <-]). by eapply Hpin.
  - rewrite Hf. intros g Hg. destruct (Hfree g Hg) as (pg & Hgp & Hz & Hi).
    destruct (Hbw g pg Hgp) as (pg' & Hg' & [= Hid _ Hpc]).
    exists pg'. split; [done |]. split; congruence.
  - rewrite Hr. intros g Hg. destruct (Hrep g Hg) as (pg & Hgp & Hz & Hi).
    destruct (Hbw g pg Hgp) as (pg' & Hg' & [= Hid _ Hpc]).
    exists pg'. split; [done |]. split; congruence.
  - rewrite Hf, Hr. intros g pg' Hg Hz.
    destruct (Hfw g pg' Hg) as (pg & Hg0 & [= _ _ Hpc]). eapply Hlisted; [done | congruence].
  - by rewrite Hf.
  - by rewrite Hr.
Qed.

(** The two ways [fetch_page] fails: no frame can be taken, or the page
    is not on the disk. *)
Lemma fetch_page_no_room (b : Bpm) p :
  page_table_ b !! p = None → room b = 0%nat →
  ∃ b', fetch_page p b = Ok None b'.
Proof.
  intros Hp Hroom. unfold fetch_page, bind at 1, get. rewrite Hp.
  rewrite (bind_ok _ _ _ _ _ (find_victim_page_next b)).
  assert (next_victim b = None) as ->.
  { destruct (next_victim b) eqn:Hnv; [| done].
    assert (0 < room b)%nat by (apply next_victim_room; eauto). lia. }
  eauto.
Qed.

Lemma fetch_page_absent (D : gset PageId) (b : Bpm) p :
  pool_ok D b → page_content b p = None → (0 < room b)%nat →
  ∃ b', fetch_page p b = Throw IOError b'.
Proof.
  intros [Hwf Hco Hdebt] Hc Hroom.
  assert (page_table_ b !! p = None) as Hp.
  { unfold page_content in Hc. destruct (page_table_ b !! p) as [g |] eqn:Hg; [| done].
    destruct (pool_wf_table_holds _ _ _ Hwf Hg) as (pg & Hpg & _). by rewrite Hpg in Hc. }
  unfold page_content in Hc. rewrite Hp in Hc.
  apply next_victim_room in Hroom as [v Hnv].
  pose proof (find_victim_page_next b) as Hv. rewrite Hnv in Hv.
  destruct (find_victim_page_wf _ _ _ Hwf Hv) as (Hwb & Hpages & Htab & Hdisk).
  destruct (wb_victim _ _ Hwb) as (pg & Hpg & Hz).
  unfold fetch_page, bind at 1, get. rewrite Hp.
  rewrite (bind_ok _ _ _ _ _ Hv), (bind_ok _ _ _ _ _ (update_page_ok _ _ _ _ Hpg)).
  unfold bind, read_page. simpl. rewrite Hdisk.
  destruct (is_dirty_ pg && negb (page_no (id_ pg) =? INVALID_PAGE_ID)) eqn:Hdv;
    [| rewrite Hc; eauto].
  apply andb_prop in Hdv as [_ Hvalid]. apply negb_true_iff, Z.eqb_neq in Hvalid.
  simpl. rewrite lookup_insert_ne; [rewrite Hc; eauto |].
  intros Heq. destruct (wb_inv _ _ Hwb) as ([_ Hft _] & _).
  pose proof (Hft v (id_ pg) (ex_intro _ pg (conj Hpg eq_refl)) Hvalid) as Hin.
  rewrite Heq, Htab in Hin. congruence.
Qed.

Lemma new_page_no_room (b : Bpm) fl :
  room b = 0%nat → ∃ b', new_page fl b = Ok None b'.
Proof.
  intros Hroom. unfold new_page.
  rewrite (bind_ok _ _ _ _ _ (find_victim_page_next b)).
  assert (next_victim b = None) as ->.
  { destruct (next_victim b) eqn:Hnv; [| done].
    assert (0 < room b)%nat by (apply next_victim_room; eauto). lia. }
  eauto.
Qed.

(** A change of the bytes of a pinned frame: its page is to be marked
    dirty. *)
Lemma store_data_ok (D : gset PageId) (b : Bpm) f pg nd :
  pool_ok D b → pages_ b !! f = Some pg → 0 < pin_count_ pg →
  page_no (id_ pg) ≠ INVALID_PAGE_ID →
  pool_ok (D ∪ {[id_ pg]})
    (set_pages (λ l, <[f := mkPage (id_ pg) nd (is_dirty_ pg) (pin_count_ pg)]> l) b) ∧
  ∀ q, page_content
         (set_pages (λ l, <[f := mkPage (id_ pg) nd (is_dirty_ pg) (pin_count_ pg)]> l) b) q =
       if decide (q = id_ pg) then Some nd else page_content b q.
Proof.
  intros [Hwf Hco Hdebt] Hpg Hpin Hvalid.
  assert (f < length (pages_ b))%nat as Hlen by (by eapply lookup_lt_Some).
  pose proof (pool_wf_holds_table _ _ _ Hwf Hpg Hvalid) as Htab.
  pose proof (data_only_store b f pg nd Hpg) as Hdo.
  split; [split |].
  - by eapply data_only_wf.
  - intros q g pg'. simpl. intros Hq Hg Hclean HD.
    apply not_elem_of_union in HD as [HD Hne]. apply not_elem_of_singleton in Hne.
    destruct (decide (g = f)) as [-> | Hgf].
    + destruct (pool_wf_table_holds _ _ _ Hwf Hq) as (pg0 & Hpg0 & Hid0 & _). congruence.
    + rewrite list_lookup_insert_ne in Hg by done. by eapply Hco.
  - intros q Hq. rewrite (data_only_pin_count_of _ _ q Hdo).
    apply elem_of_union in Hq as [Hq | Hq]; [by apply Hdebt |].
    apply elem_of_singleton in Hq as ->. unfold pin_count_of. by rewrite Htab, Hpg.
  - intros q. unfold page_content. simpl.
    destruct (decide (q = id_ pg)) as [-> | Hne].
    + rewrite Htab, list_lookup_insert_eq by done. done.
    + destruct (page_table_ b !! q) as [g |] eqn:Hq; [| done].
      rewrite list_lookup_insert_ne; [done |]. intros <-.
      destruct (pool_wf_table_holds _ _ _ Hwf Hq) as (pg0 & Hpg0 & Hid0 & _). congruence.
Qed.

(** ** [flush_page], [delete_page], [flush_all_pages] *)

Lemma flush_page_miss (b : Bpm) p :
  page_table_ b !! p = None → flush_page p b = Ok false b.
Proof. intros Hp. unfold flush_page, bind, get. by rewrite Hp. Qed.

Lemma flush_page_hit (b : Bpm) p f pg :
  page_table_ b !! p = Some f → pages_ b !! f = Some pg →
  flush_page p b =
    Ok true (mkBpm (<[f := mkPage (id_ pg) (data_ pg) false (pin_count_ pg)]> (pages_ b))
               (page_table_ b) (free_list_ b) (replacer_ b)
               (disk_write_page p (data_ pg) (disk_manager_ b))).
Proof.
  intros Hp Hpg. unfold flush_page, bind, get. rewrite Hp, (page_at_ok _ _ _ Hpg). done.
Qed.

(** The lists and the pin counts decide whether a pool is well formed;
    the bytes and the dirty flags do not. *)
Lemma pool_wf_same_pins (b b' : Bpm) :
  pool_inv b' →
  (λ pg, (id_ pg, pin_count_ pg)) <$> pages_ b' = (λ pg, (id_ pg, pin_count_ pg)) <$> pages_ b →
  free_list_ b' = free_list_ b → replacer_ b' = replacer_ b →
  pool_wf b → pool_wf b'.
Proof.
  intros Hinv Hm Hfl Hrl [_ Hpin Hfree Hrep Hlisted Hnf Hnr].
  assert (∀ g pg', pages_ b' !! g = Some pg' →
            ∃ pg, pages_ b !! g = Some pg ∧ id_ pg = id_ pg' ∧ pin_count_ pg = pin_count_ pg')
    as Hfw.
  { intros g pg' Hg.
    assert (((λ pg, (id_ pg, pin_count_ pg)) <$> pages_ b) !! g = Some (id_ pg', pin_count_ pg'))
      as Hl by (by rewrite <- Hm, list_lookup_fmap, Hg).
    rewrite list_lookup_fmap in Hl. destruct (pages_ b !! g) as [pg |]; [| done].
    exists pg. simpl in Hl. injection Hl as ? ?. done. }
  assert (∀ g pg, pages_ b !! g = Some pg →
            ∃ pg', pages_ b' !! g = Some pg' ∧ id_ pg' = id_ pg ∧ pin_count_ pg' = pin_count_ pg)
    as Hbw.
  { intros g pg Hg.
    assert (((λ pg, (id_ pg, pin_count_ pg)) <$> pages_ b') !! g = Some (id_ pg, pin_count_ pg))
      as Hl by (by rewrite Hm, list_lookup_fmap, Hg).
    rewrite list_lookup_fmap in Hl. destruct (pages_ b' !! g) as [pg' |]; [| done].
    exists pg'. simpl in Hl. injection Hl as ? ?. done. }
  split; try done.
  - intros g pg' Hg. destruct (Hfw g pg' Hg) as (pg & Hpg & _ & <-). by eapply Hpin.
  - rewrite Hfl. intros g Hg. destruct (Hfree g Hg) as (pg & Hpg & Hz & Hi).
    destruct (Hbw g pg Hpg) as (pg' & Hpg' & Hid & Hpc). exists pg'. rewrite Hid, Hpc. done.
  - rewrite Hrl. intros g Hg. destruct (Hrep g Hg) as (pg & Hpg & Hz & Hi).
    destruct (Hbw g pg Hpg) as (pg' & Hpg' & Hid & Hpc). exists pg'. rewrite Hid, Hpc. done.
  - rewrite Hfl, Hrl. intros g pg' Hg Hz. destruct (Hfw g pg' Hg) as (pg & Hpg & _ & Hpc).
    apply (Hlisted g pg Hpg). lia.
  - by rewrite Hfl.
  - by rewrite Hrl.
Qed.

Lemma flush_page_wf (b b' : Bpm) p r :
  pool_wf b → flush_page p b = Ok r b' → pool_wf b'.
Proof.
  intros Hwf H. pose proof (keeps_pages_inv _ _ (flush_page_keeps _ _ _ _ H) (wf_inv _ Hwf)) as Hinv.
  destruct (page_table_ b !! p) as [f |] eqn:Hp.
  - destruct (pool_wf_table_holds _ _ _ Hwf Hp) as (pg & Hpg & _).
    rewrite (flush_page_hit _ _ _ _ Hp Hpg) in H. injection H as <- <-.
    apply (pool_wf_same_pins b); try done. simpl. rewrite list_fmap_insert.
    apply list_insert_id. by rewrite list_lookup_fmap, Hpg.
  - rewrite (flush_page_miss _ _ Hp) in H. by injection H as <- <-.
Qed.

Lemma delete_page_miss (b : Bpm) p :
  page_table_ b !! p = None → delete_page p b = Ok true b.
Proof. intros Hp. unfold delete_page, bind, get. by rewrite Hp. Qed.

Lemma delete_page_pinned (b : Bpm) p f pg :
  page_table_ b !! p = Some f → pages_ b !! f = Some pg → 0 < pin_count_ pg →
  delete_page p b = Ok false b.
Proof.
  intros Hp Hpg Hpin. unfold delete_page, bind, get. rewrite Hp, (page_at_ok _ _ _ Hpg).
  destruct (Z.ltb_spec 0 (pin_count_ pg)); [done | lia].
Qed.

Lemma delete_page_unpinned (b : Bpm) p f pg :
  page_table_ b !! p = Some f → pages_ b !! f = Some pg → pin_count_ pg ≤ 0 →
  delete_page p b =
    Ok true (mkBpm (<[f := mkPage (mkPageId (fd p) INVALID_PAGE_ID) blank false 0]> (pages_ b))
               (delete p (page_table_ b)) (free_list_ b ++ [f])
               (replacer_pin f (replacer_ b))
               (if is_dirty_ pg then disk_write_page p (data_ pg) (disk_manager_ b)
                else disk_manager_ b)).
Proof.
  intros Hp Hpg Hpin. unfold delete_page, bind, get. rewrite Hp, (page_at_ok _ _ _ Hpg).
  destruct (Z.ltb_spec 0 (pin_count_ pg)); [lia |]. by destruct (is_dirty_ pg).
Qed.

Lemma delete_page_wf (b b' : Bpm) p r :
  pool_wf b → delete_page p b = Ok r b' → pool_wf b'.
Proof.
  intros Hwf H. pose proof (delete_page_inv _ _ _ _ (wf_inv _ Hwf) H) as Hinv.
  destruct (page_table_ b !! p) as [f |] eqn:Hp;
    [| rewrite (delete_page_miss _ _ Hp) in H; by injection H as <- <-].
  destruct (pool_wf_table_holds _ _ _ Hwf Hp) as (pg & Hpg & Hid & Hvalid).
  destruct (Z.lt_ge_cases 0 (pin_count_ pg)) as [Hpos | Hle];
    [rewrite (delete_page_pinned _ _ _ _ Hp Hpg Hpos) in H; by injection H as <- <- |].
  rewrite (delete_page_unpinned _ _ _ _ Hp Hpg Hle) in H. injection H as <- <-.
  assert (f < length (pages_ b))%nat as Hlen by (by eapply lookup_lt_Some).
  destruct Hwf as [_ Hpin Hfree Hrep Hlisted Hnf Hnr].
  assert (f ∉ free_list_ b) as Hnotfree.
  { intros Hin. destruct (Hfree f Hin) as (pg' & Hpg' & _ & Hi). congruence. }
  split; simpl; try done.
  - intros g pg' Hg. destruct (decide (g = f)) as [-> | Hne].
    + rewrite list_lookup_insert_eq in Hg by done. by injection Hg as <-.
    + rewrite list_lookup_insert_ne in Hg by done. by eapply Hpin.
  - intros g Hg. apply elem_of_app in Hg as [Hg | Hg].
    + assert (g ≠ f) as Hne by congruence.
      rewrite list_lookup_insert_ne by done. by apply Hfree.
    + apply list_elem_of_singleton in Hg as ->.
      rewrite list_lookup_insert_eq by done. eexists. done.
  - intros g Hg. apply elem_of_replacer_pin in Hg as [Hg Hne].
    rewrite list_lookup_insert_ne by done. by apply Hrep.
  - intros g pg' Hg Hz. destruct (decide (g = f)) as [-> | Hne].
    + left. apply elem_of_app. right. by apply list_elem_of_singleton.
    + rewrite list_lookup_insert_ne in Hg by done.
      destruct (Hlisted g pg' Hg Hz) as [? | ?].
      * left. apply elem_of_app. by left.
      * right. by apply elem_of_replacer_pin.
  - apply NoDup_app. split; [done |]. split; [| apply NoDup_singleton].
    intros x Hx Hx'. apply list_elem_of_singleton in Hx' as ->. done.
  - by apply NoDup_replacer_pin.
Qed.

Lemma flush_entries_wf f es (b b' : Bpm) :
  (∀ pid fid, (pid, fid) ∈ es → page_table_ b !! pid = Some fid) →
  pool_wf b → flush_entries f es b = Ok tt b' → pool_wf b'.
Proof.
  revert b. induction es as [| [pid fid] es IH]; intros b Hes Hwf H; simpl in H.
  - mrun H. by ok_inj H.
  - apply bind_inv in H as ([] & b1 & H1 & H).
    assert (pool_wf b1 ∧ page_table_ b1 = page_table_ b) as [Hwf1 Ht1].
    { destruct (fd pid =? f); [| mrun H1; by ok_inj H1].
      assert (page_table_ b !! pid = Some fid) as Hp by (apply Hes; left).
      destruct (pool_wf_table_holds _ _ _ Hwf Hp) as (pg & Hpg & _).
      unfold bind, modify, store_page in H1. rewrite (page_at_ok _ _ _ Hpg) in H1.
      injection H1 as <-. split; [| done].
      eapply (flush_page_wf b _ pid true); [exact Hwf |].
      by rewrite (flush_page_hit _ _ _ _ Hp Hpg). }
    apply (IH b1); [| done | done].
    intros pid' fid' Hin. rewrite Ht1. apply Hes. by right.
Qed.

Lemma flush_all_pages_wf f (b b' : Bpm) :
  pool_wf b → flush_all_pages f b = Ok tt b' → pool_wf b'.
Proof.
  unfold flush_all_pages. intros Hwf H. apply bind_inv in H as (b0 & b1 & H0 & H).
  mrun H0. ok_inj H0. eapply flush_entries_wf; [| done | done].
  intros pid fid Hin. by apply elem_of_map_to_list in Hin.
Qed.

Lemma run_op_wf (o : BpmOp) (b b' : Bpm) :
  pool_wf b → run_op o b = Ok tt b' → pool_wf b'.
Proof.
  intros Hwf H. destruct o; simpl in H.
  - apply bind_inv in H as (r & b1 & H1 & H). mrun H. ok_inj H.
    destruct r as [g |]; [by destruct (fetch_page_spec _ _ _ _ Hwf H1) |].
    assert (b' = b) as ->; [| done].
    unfold fetch_page in H1. apply bind_inv in H1 as (b0 & b2 & H0 & H1). mrun H0. ok_inj H0.
    destruct (page_table_ b2 !! p) as [fid |] eqn:Hp.
    + mrun H1. destruct (pages_ b2 !! fid); [by ok_inj H1 | done].
    + apply bind_inv in H1 as (v & b3 & Hv & H1). destruct v as [v |].
      * apply bind_inv in H1 as ([] & b4 & _ & H1). apply bind_inv in H1 as (d & b5 & _ & H1).
        apply bind_inv in H1 as (pg & b6 & _ & H1). mrun H1. by ok_inj H1.
      * mrun H1. ok_inj H1. rewrite find_victim_page_next in Hv.
        injection Hv as Hnv <-. unfold next_victim in Hnv.
        destruct (free_list_ b2) as [| x l] eqn:Hfl; [| done].
        destruct (replacer_ b2) as [| x l] eqn:Hrl; [| done].
        destruct b2. simpl in *. by subst.
  - apply bind_inv in H as (r & b1 & H1 & H). mrun H. ok_inj H.
    by destruct (unpin_page_wf _ _ _ _ _ Hwf H1).
  - apply bind_inv in H as (r & b1 & H1 & H). mrun H. ok_inj H. by eapply flush_page_wf.
  - apply bind_inv in H as (r & b1 & H1 & H). mrun H. ok_inj H.
    destruct r as [[g pid] |]; [by destruct (new_page_spec _ _ _ _ _ Hwf H1) |].
    assert (b' = b) as ->; [| done].
    unfold new_page in H1. apply bind_inv in H1 as (v & b3 & Hv & H1). destruct v as [v |].
    + apply bind_inv in H1 as (b4 & b5 & _ & H1). unfold disk_allocate_page in H1.
      apply bind_inv in H1 as ([] & b6 & _ & H1). apply bind_inv in H1 as ([] & b7 & _ & H1).
      apply bind_inv in H1 as (pg & b8 & _ & H1). apply bind_inv in H1 as ([] & b9 & _ & H1).
      apply bind_inv in H1 as ([] & b10 & _ & H1). done.
    + mrun H1. ok_inj H1. rewrite find_victim_page_next in Hv.
      injection Hv as Hnv <-. unfold next_victim in Hnv.
      destruct (free_list_ b) as [| x l] eqn:Hfl; [| done].
      destruct (replacer_ b) as [| x l] eqn:Hrl; [| done].
      destruct b. simpl in *. by subst.
  - apply bind_inv in H as (r & b1 & H1 & H). mrun H. ok_inj H. by eapply delete_page_wf.
  - by eapply flush_all_pages_wf.
Qed.

Lemma run_ops_wf (ops : list BpmOp) (b b' : Bpm) :
  pool_wf b → run_ops ops b = Ok tt b' → pool_wf b'.
Proof.
  revert b. induction ops as [| o ops IH]; intros b Hwf H; simpl in H.
  - mrun H. by ok_inj H.
  - apply bind_inv in H as ([] & b1 & H1 & H).
    eapply IH; [| exact H]. by eapply run_op_wf.
Qed.

Lemma unpin_page_refused (b : Bpm) p d :
  pool_wf b → pin_count_of b p = 0 → unpin_page p d b = Ok false b.
Proof.
  intros Hwf Hz. unfold unpin_page, bind, get. unfold pin_count_of in Hz.
  destruct (page_table_ b !! p) as [g |] eqn:Hp; [| done].
  destruct (pool_wf_table_holds _ _ _ Hwf Hp) as (pg & Hpg & _).
  rewrite Hpg in Hz. rewrite (page_at_ok _ _ _ Hpg).
  destruct (Z.leb_spec (pin_count_ pg) 0); [done | lia].
Qed.

(** ** The pool as a transparent cache *)

Lemma fetch_page_none_same (b b' : Bpm) p : fetch_page p b = Ok None b' → b' = b.
Proof.
  intros H1. unfold fetch_page in H1. apply bind_inv in H1 as (b0 & b2 & H0 & H1).
  mrun H0. ok_inj H0.
  destruct (page_table_ b2 !! p) as [fid |] eqn:Hp.
  - mrun H1. destruct (pages_ b2 !! fid); [by ok_inj H1 | done].
  - apply bind_inv in H1 as (v & b3 & Hv & H1). destruct v as [v |].
    + apply bind_inv in H1 as ([] & b4 & _ & H1). apply bind_inv in H1 as (d & b5 & _ & H1).
      apply bind_inv in H1 as (pg & b6 & _ & H1). mrun H1. by ok_inj H1.
    + mrun H1. ok_inj H1. rewrite find_victim_page_next in Hv.
      injection Hv as Hnv <-. unfold next_victim in Hnv.
      destruct (free_list_ b2) as [| x l] eqn:Hfl; [| done].
      destruct (replacer_ b2) as [| x l] eqn:Hrl; [| done].
      destruct b2. simpl in *. by subst.
Qed.

Lemma unpinned_resident_room (b : Bpm) p f :
  pool_wf b → page_table_ b !! p = Some f → pin_count_of b p = 0 → (0 < room b)%nat.
Proof.
  intros Hwf Hp Hz. destruct (pool_wf_table_holds _ _ _ Hwf Hp) as (pg & Hpg & Hid & Hvalid).
  unfold pin_count_of in Hz. rewrite Hp, Hpg in Hz.
  unfold room. destruct (wf_listed _ Hwf _ _ Hpg Hz) as [Hin | Hin].
  - destruct (free_list_ b); [by apply elem_of_nil in Hin | simpl; lia].
  - destruct (replacer_ b); [by apply elem_of_nil in Hin | simpl; lia].
Qed.

(** A [fetch_page] that returns a frame found the page in the pool or on
    the disk, and found the page pinned or a frame to take. *)
Lemma fetch_page_some_inv (D : gset PageId) (b b' : Bpm) p f :
  pool_ok D b → fetch_page p b = Ok (Some f) b' →
  (∃ d, page_content b p = Some d) ∧ (0 < pin_count_of b p ∨ (0 < room b)%nat).
Proof.
  intros Hok H. pose proof (ok_wf _ _ Hok) as Hwf.
  assert (0 < pin_count_of b p ∨ (0 < room b)%nat) as Hroom.
  { destruct (Nat.eq_dec (room b) 0%nat) as [Hz | ?]; [| right; lia].
    pose proof (pin_count_of_nonneg b p Hwf) as Hnn.
    destruct (Z.eq_dec (pin_count_of b p) 0) as [Hpz | ?]; [| left; lia].
    destruct (page_table_ b !! p) as [g |] eqn:Hp.
    - right. by eapply unpinned_resident_room.
    - destruct (fetch_page_no_room b p Hp Hz) as (b2 & H2). congruence. }
  split; [| done].
  destruct (page_content b p) as [d |] eqn:Hc; [eauto |].
  destruct Hroom as [Hpin | Hroom].
  - unfold page_content in Hc. unfold pin_count_of in Hpin.
    destruct (page_table_ b !! p) as [g |]; [| lia].
    destruct (pages_ b !! g); [done | lia].
  - destruct (fetch_page_absent D b p Hok Hc Hroom) as (b2 & H2). congruence.
Qed.

Lemma new_page_some_inv (b b' : Bpm) fl r : new_page fl b = Ok (Some r) b' → (0 < room b)%nat.
Proof.
  intros H. destruct (Nat.eq_dec (room b) 0%nat) as [Hz | ?]; [| lia].
  destruct (new_page_no_room b fl Hz) as (b2 & H2). congruence.
Qed.

Lemma new_page_none_same (b b' : Bpm) fl : new_page fl b = Ok None b' → b' = b.
Proof.
  intros H1. unfold new_page in H1. apply bind_inv in H1 as (v & b3 & Hv & H1).
  destruct v as [v |].
  - apply bind_inv in H1 as (b4 & b5 & _ & H1). unfold disk_allocate_page in H1.
    apply bind_inv in H1 as ([] & b6 & _ & H1). apply bind_inv in H1 as ([] & b7 & _ & H1).
    apply bind_inv in H1 as (pg & b8 & _ & H1). apply bind_inv in H1 as ([] & b9 & _ & H1).
    apply bind_inv in H1 as ([] & b10 & _ & H1). done.
  - mrun H1. ok_inj H1. rewrite find_victim_page_next in Hv.
    injection Hv as Hnv <-. unfold next_victim in Hnv.
    destruct (free_list_ b) as [| x l] eqn:Hfl; [| done].
    destruct (replacer_ b) as [| x l] eqn:Hrl; [| done].
    destruct b. simpl in *. by subst.
Qed.

Lemma pool_ok_proper (D D' : gset PageId) (b : Bpm) : D = D' → pool_ok D b → pool_ok D' b.
Proof. by intros ->. Qed.

Lemma flush_page_ok (D : gset PageId) (b b' : Bpm) p r :
  pool_ok D b → flush_page p b = Ok r b' →
  pool_ok D b' ∧ (∀ q, page_content b' q = page_content b q) ∧
  (∀ q, pin_count_of b' q = pin_count_of b q) ∧ page_table_ b' = page_table_ b.
Proof.
  intros [Hwf Hco Hdebt] H. pose proof (flush_page_wf _ _ _ _ Hwf H) as Hwf'.
  destruct (page_table_ b !! p) as [f |] eqn:Hp;
    [| rewrite (flush_page_miss _ _ Hp) in H; by injection H as <- <-].
  destruct (pool_wf_table_holds _ _ _ Hwf Hp) as (pg & Hpg & Hid & Hvalid).
  rewrite (flush_page_hit _ _ _ _ Hp Hpg) in H. injection H as <- <-.
  assert (f < length (pages_ b))%nat as Hlen by (by eapply lookup_lt_Some).
  assert (∀ q g, page_table_ b !! q = Some g → g = f → q = p) as Hown.
  { intros q g Hq ->. destruct (pool_wf_table_holds _ _ _ Hwf Hq) as (pg' & Hpg' & Hid' & _).
    congruence. }
  assert (∀ q, pin_count_of
             (mkBpm (<[f := mkPage (id_ pg) (data_ pg) false (pin_count_ pg)]> (pages_ b))
                (page_table_ b) (free_list_ b) (replacer_ b)
                (disk_write_page p (data_ pg) (disk_manager_ b))) q = pin_count_of b q) as Hpc.
  { intros q. unfold pin_count_of. simpl. destruct (page_table_ b !! q) as [g |] eqn:Hq; [| done].
    destruct (decide (g = f)) as [-> | Hne].
    - by rewrite list_lookup_insert_eq, Hpg.
    - by rewrite list_lookup_insert_ne. }
  split; [split; [done | |] |].
  - intros q g pg'. simpl. intros Hq Hg Hclean HD.
    destruct (decide (g = f)) as [-> | Hne].
    + rewrite (Hown q f Hq eq_refl). rewrite list_lookup_insert_eq in Hg by done.
      injection Hg as <-. simpl. by rewrite lookup_insert_eq.
    + rewrite list_lookup_insert_ne in Hg by done.
      rewrite lookup_insert_ne; [by eapply Hco |]. intros <-. congruence.
  - intros q Hq. rewrite Hpc. by apply Hdebt.
  - split; [| done]. intros q. unfold page_content. simpl.
    destruct (page_table_ b !! q) as [g |] eqn:Hq.
    + destruct (decide (g = f)) as [-> | Hne].
      * by rewrite list_lookup_insert_eq, Hpg.
      * by rewrite list_lookup_insert_ne.
    + rewrite lookup_insert_ne; [done |]. intros <-. congruence.
Qed.

Lemma delete_page_ok (D : gset PageId) (b b' : Bpm) p r :
  pool_ok D b → delete_page p b = Ok r b' →
  pool_ok D b' ∧ (∀ q, page_content b' q = page_content b q).
Proof.
  intros [Hwf Hco Hdebt] H. pose proof (delete_page_wf _ _ _ _ Hwf H) as Hwf'.
  destruct (page_table_ b !! p) as [f |] eqn:Hp;
    [| rewrite (delete_page_miss _ _ Hp) in H; by injection H as <- <-].
  destruct (pool_wf_table_holds _ _ _ Hwf Hp) as (pg & Hpg & Hid & Hvalid).
  destruct (Z.lt_ge_cases 0 (pin_count_ pg)) as [Hpos | Hle];
    [rewrite (delete_page_pinned _ _ _ _ Hp Hpg Hpos) in H; by injection H as <- <- |].
  rewrite (delete_page_unpinned _ _ _ _ Hp Hpg Hle) in H. injection H as <- <-.
  assert (f < length (pages_ b))%nat as Hlen by (by eapply lookup_lt_Some).
  assert (∀ q g, page_table_ b !! q = Some g → g = f → q = p) as Hown.
  { intros q g Hq ->. destruct (pool_wf_table_holds _ _ _ Hwf Hq) as (pg' & Hpg' & Hid' & _).
    congruence. }
  assert (p ∉ D) as HpD.
  { intros Hin. apply Hdebt in Hin. unfold pin_count_of in Hin. rewrite Hp, Hpg in Hin. lia. }
  assert (disk_pages (if is_dirty_ pg then disk_write_page p (data_ pg) (disk_manager_ b)
                      else disk_manager_ b) !! p = Some (data_ pg)) as Hdisk.
  { destruct (is_dirty_ pg) eqn:Hd; simpl; [by rewrite lookup_insert_eq |].
    by apply (Hco p f pg). }
  assert (∀ q, q ≠ p →
            disk_pages (if is_dirty_ pg then disk_write_page p (data_ pg) (disk_manager_ b)
                        else disk_manager_ b) !! q = disk_pages (disk_manager_ b) !! q) as Hdisk'.
  { intros q Hne. destruct (is_dirty_ pg); simpl; [by rewrite lookup_insert_ne | done]. }
  split; [split; [done | |] |].
  - intros q g pg'. simpl. intros Hq Hg Hclean HD.
    apply lookup_delete_Some in Hq as [Hne Hq].
    assert (g ≠ f) as Hgf by (intros ->; apply Hne; symmetry; by eapply Hown).
    rewrite list_lookup_insert_ne in Hg by done.
    rewrite Hdisk' by done. by eapply Hco.
  - intros q Hq. specialize (Hdebt q Hq). unfold pin_count_of in *. simpl.
    assert (q ≠ p) as Hne by (intros ->; done).
    rewrite lookup_delete_ne by done.
    destruct (page_table_ b !! q) as [g |] eqn:Hg; [| done].
    assert (g ≠ f) as Hgf by (intros ->; apply Hne; by eapply Hown).
    by rewrite list_lookup_insert_ne.
  - intros q. unfold page_content. simpl. destruct (decide (q = p)) as [-> | Hne].
    + by rewrite lookup_delete_eq, Hp, Hpg, Hdisk.
    + rewrite lookup_delete_ne by done.
      destruct (page_table_ b !! q) as [g |] eqn:Hg; [| by apply Hdisk'].
      assert (g ≠ f) as Hgf by (intros ->; apply Hne; by eapply Hown).
      by rewrite list_lookup_insert_ne.
Qed.

Lemma flush_entries_ok (D : gset PageId) f es (b b' : Bpm) :
  (∀ pid fid, (pid, fid) ∈ es → page_table_ b !! pid = Some fid) →
  pool_ok D b → flush_entries f es b = Ok tt b' →
  pool_ok D b' ∧ (∀ q, page_content b' q = page_content b q) ∧
  (∀ q, pin_count_of b' q = pin_count_of b q) ∧ page_table_ b' = page_table_ b.
Proof.
  revert b. induction es as [| [pid fid] es IH]; intros b Hes Hok H; simpl in H.
  - mrun H. by ok_inj H.
  - apply bind_inv in H as ([] & b1 & H1 & H).
    assert (pool_ok D b1 ∧ (∀ q, page_content b1 q = page_content b q) ∧
            (∀ q, pin_count_of b1 q = pin_count_of b q) ∧ page_table_ b1 = page_table_ b)
      as (Hok1 & Hc1 & Hp1 & Ht1).
    { destruct (fd pid =? f); [| mrun H1; by ok_inj H1].
      assert (page_table_ b !! pid = Some fid) as Hp by (apply Hes; left).
      destruct (pool_wf_table_holds _ _ _ (ok_wf _ _ Hok) Hp) as (pg & Hpg & _).
      unfold bind, modify, store_page in H1. rewrite (page_at_ok _ _ _ Hpg) in H1.
      injection H1 as <-.
      apply (flush_page_ok D b _ pid true Hok). by rewrite (flush_page_hit _ _ _ _ Hp Hpg). }
    destruct (IH b1) as (Hok' & Hc' & Hp' & Ht'); [| done | done |].
    { intros pid' fid' Hin. rewrite Ht1. apply Hes. by right. }
    split; [done |]. split; [intros q; by rewrite Hc' |].
    split; [intros q; by rewrite Hp' | congruence].
Qed.

Lemma flush_all_pages_ok (D : gset PageId) f (b b' : Bpm) :
  pool_ok D b → flush_all_pages f b = Ok tt b' →
  pool_ok D b' ∧ (∀ q, page_content b' q = page_content b q) ∧
  (∀ q, pin_count_of b' q = pin_count_of b q) ∧ page_table_ b' = page_table_ b.
Proof.
  unfold flush_all_pages. intros Hok H. apply bind_inv in H as (b0 & b1 & H0 & H).
  mrun H0. ok_inj H0. eapply flush_entries_ok; [| done | done].
  intros pid fid Hin. by apply elem_of_map_to_list in Hin.
Qed.

(** No operation of the pool changes the bytes of a page that the pool or
    the disk holds, as long as no changed page waits to be marked dirty. *)
Lemma run_op_keeps_content (o : BpmOp) (b b' : Bpm) :
  pool_ok ∅ b → run_op o b = Ok tt b' →
  pool_ok ∅ b' ∧ ∀ q d, page_content b q = Some d → page_content b' q = Some d.
Proof.
  intros Hok H. destruct o; simpl in H.
  - apply bind_inv in H as (r & b1 & H1 & H). mrun H. ok_inj H.
    destruct r as [g |]; [| by rewrite (fetch_page_none_same _ _ _ H1)].
    destruct (fetch_page_some_inv ∅ _ _ _ _ Hok H1) as [[d Hd] Hroom].
    destruct (fetch_page_ok ∅ _ _ _ Hok Hd Hroom) as (g' & b2 & H2 & Hok2 & Hc2 & _).
    rewrite H1 in H2. injection H2 as <- <-. split; [done |]. intros q d'. by rewrite Hc2.
  - apply bind_inv in H as (r & b1 & H1 & H). mrun H. ok_inj H.
    pose proof (pin_count_of_nonneg b p (ok_wf _ _ Hok)) as Hnn.
    destruct (Z.eq_dec (pin_count_of b p) 0) as [Hz | Hnz].
    + rewrite (unpin_page_refused _ _ _ (ok_wf _ _ Hok) Hz) in H1. by injection H1 as <- <-.
    + destruct (unpin_page_ok ∅ b p is_dirty Hok) as (g & pg & b2 & _ & _ & _ & H2 & Hok2 & Hc2 & _);
        [lia | right; left; set_solver |].
      rewrite H1 in H2. injection H2 as -> ->. split.
      * eapply pool_ok_proper; [| exact Hok2]. destruct is_dirty; set_solver.
      * intros q d'. by rewrite Hc2.
  - apply bind_inv in H as (r & b1 & H1 & H). mrun H. ok_inj H.
    destruct (flush_page_ok ∅ _ _ _ _ Hok H1) as (Hok' & Hc' & _). split; [done |].
    intros q d'. by rewrite Hc'.
  - apply bind_inv in H as (r & b1 & H1 & H). mrun H. ok_inj H.
    destruct r as [[g pid'] |]; [| by rewrite (new_page_none_same _ _ _ H1)].
    pose proof (new_page_some_inv _ _ _ _ H1) as Hroom.
    destruct (new_page_fresh ∅ b f Hok Hroom) as (g' & b2 & H2 & Hok2 & Hnone & Hc2 & _).
    rewrite H1 in H2. injection H2 as <- -> <-. split; [done |].
    intros q d' Hq. rewrite Hc2. destruct (decide _) as [-> | ?]; [congruence | done].
  - apply bind_inv in H as (r & b1 & H1 & H). mrun H. ok_inj H.
    destruct (delete_page_ok ∅ _ _ _ _ Hok H1) as (Hok' & Hc'). split; [done |].
    intros q d'. by rewrite Hc'.
  - destruct (flush_all_pages_ok ∅ _ _ _ Hok H) as (Hok' & Hc' & _). split; [done |].
    intros q d'. by rewrite Hc'.
Qed.

Lemma run_ops_keeps_content (ops : list BpmOp) (b b' : Bpm) :
  pool_ok ∅ b → run_ops ops b = Ok tt b' →
  pool_ok ∅ b' ∧ ∀ q d, page_content b q = Some d → page_content b' q = Some d.
Proof.
  revert b. induction ops as [| o ops IH]; intros b Hok H; simpl in H.
  - mrun H. by ok_inj H.
  - apply bind_inv in H as ([] & b1 & H1 & H).
    destruct (run_op_keeps_content _ _ _ Hok H1) as [Hok1 Hc1].
    destruct (IH _ Hok1 H) as [Hok' Hc']. split; [done |]. intros q d Hq. by apply Hc', Hc1.
Qed.

Lemma bpm_init_ok (pool_size : nat) (d : DiskManager Data) :
  disk_alloc_ok d → (∀ f, 0 ≤ next_page_no d f) → pool_ok ∅ (bpm_init pool_size d).
Proof.
  intros Hd Hnn. split; [by apply bpm_init_wf | |].
  - intros p f pg Hp. simpl in Hp. by rewrite lookup_empty in Hp.
  - intros p Hp. by apply elem_of_empty in Hp.
Qed.

(** ** What a user of the pool can rely on *)

(** X1.  In a run of pool operations in which every call returns, started
    on the pool as it is constructed over opened files, the free list and
    the replacer hold unpinned frames only: a frame of the free list has pin
    count 0 and holds no page, a frame of the replacer has pin count 0 and
    holds a page, and no frame is listed twice.  So the frame that
    [find_victim_page] takes has pin count 0. *)
Theorem victims_are_unpinned (pool_size : nat) (files : gmap Z (list Data))
    (ops : list BpmOp) (b : Bpm) :
  run_ops ops (bpm_init pool_size (disk_of_files files)) = Ok tt b →
  (∀ f, f ∈ free_list_ b →
     ∃ pg, pages_ b !! f = Some pg ∧ pin_count_ pg = 0 ∧
           page_no (id_ pg) = INVALID_PAGE_ID) ∧
  (∀ f, f ∈ replacer_ b →
     ∃ pg, pages_ b !! f = Some pg ∧ pin_count_ pg = 0 ∧
           page_no (id_ pg) ≠ INVALID_PAGE_ID) ∧
  NoDup (free_list_ b ++ replacer_ b) ∧
  (∀ v b', find_victim_page b = Ok (Some v) b' →
     ∃ pg, pages_ b !! v = Some pg ∧ pin_count_ pg = 0).
Proof.
  intros Hrun.
  assert (pool_wf (bpm_init pool_size (disk_of_files files))) as Hwf0
    by (apply bpm_init_wf; [apply disk_of_files_alloc_ok | apply disk_of_files_next_page_no]).
  pose proof (run_ops_wf _ _ _ Hwf0 Hrun) as [_ _ Hfree Hrep _ Hnf Hnr].
  split; [done |]. split; [done |]. split.
  - apply NoDup_app. split; [done |]. split; [| done].
    intros f Hf Hr. destruct (Hfree f Hf) as (pg & Hpg & _ & Hi).
    destruct (Hrep f Hr) as (pg' & Hpg' & _ & Hi'). congruence.
  - intros v b' Hv. apply find_victim_page_frame in Hv as [Hin | Hin].
    + destruct (Hfree v Hin) as (pg & Hpg & Hz & _). eauto.
    + destruct (Hrep v Hin) as (pg & Hpg & Hz & _). eauto.
Qed.

(** X2.  The pool is a transparent cache: from a state in which every
    clean frame agrees with the disk, whatever sequence of [fetch_page],
    [unpin_page], [flush_page], [new_page], [delete_page] and
    [flush_all_pages] runs, a page that was in the pool or on the disk still
    has its bytes, and a [fetch_page] that returns a frame for it returns
    those bytes, also after the page was evicted or deleted from the pool in
    between. *)
Theorem pool_keeps_the_bytes_of_pages (ops : list BpmOp) (b b' : Bpm) (q : PageId)
    (x : Data) :
  pool_ok ∅ b → run_ops ops b = Ok tt b' → page_content b q = Some x →
  page_content b' q = Some x ∧
  ∀ f b'', fetch_page q b' = Ok (Some f) b'' →
    ∃ pg, pages_ b'' !! f = Some pg ∧ id_ pg = q ∧ data_ pg = x.
Proof.
  intros Hok Hrun Hq. destruct (run_ops_keeps_content _ _ _ Hok Hrun) as [Hok' Hc].
  split; [by apply Hc |]. intros f b'' Hf.
  destruct (fetch_page_some_inv ∅ _ _ _ _ Hok' Hf) as [_ Hroom].
  destruct (fetch_page_ok ∅ _ _ _ Hok' (Hc _ _ Hq) Hroom) as (f' & b2 & H2 & _ & _ & _ & Hpg & _).
  rewrite Hf in H2. injection H2 as <- <-. eauto.
Qed.

(** X3.  Bytes written into the frame of a pinned page are kept once the
    page is unpinned with [is_dirty = true]: whatever pool operations follow
    (the frame may be evicted and reused), a later [fetch_page] of the page
    returns the written bytes. *)
Theorem dirty_page_survives (b : Bpm) (p : PageId) (f : frame_id_t) (pg : Page Data)
    (buf : Data) (ops : list BpmOp) :
  pool_ok ∅ b → page_table_ b !! p = Some f → pages_ b !! f = Some pg →
  0 < pin_count_ pg →
  ∃ b1, unpin_page p true
          (set_pages (λ l, <[f := mkPage (id_ pg) buf (is_dirty_ pg) (pin_count_ pg)]> l) b)
        = Ok true b1 ∧
    ∀ b2 f' b3, run_ops ops b1 = Ok tt b2 → fetch_page p b2 = Ok (Some f') b3 →
      ∃ pg', pages_ b3 !! f' = Some pg' ∧ id_ pg' = p ∧ data_ pg' = buf.
Proof.
  intros Hok Hp Hpg Hpin.
  destruct (pool_wf_table_holds _ _ _ (ok_wf _ _ Hok) Hp) as (pg0 & Hpg0 & Hid & Hvalid).
  assert (pg0 = pg) as -> by congruence.
  assert (page_no (id_ pg) ≠ INVALID_PAGE_ID) as Hv by (by rewrite Hid).
  destruct (store_data_ok ∅ b f pg buf Hok Hpg Hpin Hv) as [Hok1 Hc1].
  set (b0 := set_pages (λ l, <[f := mkPage (id_ pg) buf (is_dirty_ pg) (pin_count_ pg)]> l) b)
    in *.
  assert (pin_count_of b0 p = pin_count_ pg) as Hpc.
  { unfold pin_count_of, b0. simpl. rewrite Hp.
    rewrite list_lookup_insert_eq by (by eapply lookup_lt_Some). done. }
  destruct (unpin_page_ok _ b0 p true Hok1)
    as (g & pg1 & b1 & _ & _ & _ & Hrun & Hok2 & Hc2 & _); [lia | by left |].
  exists b1. split; [done |]. intros b2 f' b3 Hops Hfetch.
  assert (pool_ok ∅ b1) as Hok2'.
  { eapply pool_ok_proper; [| exact Hok2]. rewrite Hid. set_solver. }
  assert (page_content b1 p = Some buf) as Hcp.
  { rewrite Hc2, Hc1, Hid. by rewrite decide_True. }
  destruct (run_ops_keeps_content _ _ _ Hok2' Hops) as [Hok3 Hc3].
  destruct (fetch_page_some_inv ∅ _ _ _ _ Hok3 Hfetch) as [_ Hroom].
  destruct (fetch_page_ok ∅ _ _ _ Hok3 (Hc3 _ _ Hcp) Hroom)
    as (f2 & b4 & H4 & _ & _ & _ & Hpg4 & _).
  rewrite Hfetch in H4. injection H4 as <- <-. eauto.
Qed.

(** X4.  [fetch_page] returns null exactly when the page is not in the pool
    and every frame is pinned; the pool is then left as it is. *)
Theorem fetch_page_null_iff (b : Bpm) (p : PageId) :
  pool_wf b →
  ((∃ b', fetch_page p b = Ok None b') ↔
   page_table_ b !! p = None ∧ ∀ f pg, pages_ b !! f = Some pg → 0 < pin_count_ pg) ∧
  (∀ b', fetch_page p b = Ok None b' → b' = b).
Proof.
  intros Hwf. split; [| intros b'; apply fetch_page_none_same].
  assert (room b = 0%nat ↔ ∀ f pg, pages_ b !! f = Some pg → 0 < pin_count_ pg) as Hfull.
  { split.
    - intros Hz f pg Hpg. pose proof (wf_pin _ Hwf _ _ Hpg) as Hnn.
      destruct (Z.eq_dec (pin_count_ pg) 0) as [Hpz | ?]; [| lia].
      unfold room in Hz.
      destruct (wf_listed _ Hwf _ _ Hpg Hpz) as [Hin | Hin];
        [destruct (free_list_ b) | destruct (replacer_ b)];
        first [by apply elem_of_nil in Hin | simpl in Hz; lia].
    - intros Hall. destruct (next_victim b) as [v |] eqn:Hv.
      + pose proof (find_victim_page_next b) as Hfv. rewrite Hv in Hfv.
        apply find_victim_page_frame in Hfv as [Hin | Hin].
        * destruct (wf_free _ Hwf _ Hin) as (pg & Hpg & Hz & _). specialize (Hall _ _ Hpg). lia.
        * destruct (wf_replacer _ Hwf _ Hin) as (pg & Hpg & Hz & _).
          specialize (Hall _ _ Hpg). lia.
      + destruct (Nat.eq_dec (room b) 0%nat) as [? | Hne]; [done |].
        assert (is_Some (next_victim b)) as [? ?] by (apply next_victim_room; lia). congruence. }
  split.
  - intros [b' H]. destruct (page_table_ b !! p) as [g |] eqn:Hp.
    + destruct (pool_wf_table_holds _ _ _ Hwf Hp) as (pg & Hpg & _).
      rewrite (fetch_page_hit _ _ _ _ Hp Hpg) in H. done.
    + split; [done |]. apply Hfull.
      destruct (Nat.eq_dec (room b) 0%nat) as [? | Hne]; [done |].
      assert (is_Some (next_victim b)) as [v Hv] by (apply next_victim_room; lia).
      pose proof (find_victim_page_next b) as Hfv. rewrite Hv in Hfv.
      destruct (find_victim_page_wf _ _ _ Hwf Hfv) as (Hwb & _).
      destruct (wb_victim _ _ Hwb) as (pg & Hpg & _).
      unfold fetch_page, bind at 1, get in H. rewrite Hp in H.
      rewrite (bind_ok _ _ _ _ _ Hfv), (bind_ok _ _ _ _ _ (update_page_ok _ _ _ _ Hpg)) in H.
      apply bind_inv in H as (x & b5 & _ & H). apply bind_inv in H as (pg' & b6 & _ & H).
      mrun H. by ok_inj H.
  - intros [Hp Hall]. apply fetch_page_no_room; [done | by apply Hfull].
Qed.

(** X25.  A [fetch_page] whose page the disk manager cannot read.  The
    page is not resident and the file does not hold it, and a frame can be
    taken: [fetch_page] takes the next victim out of the free list or the
    replacer, gives it the page id and enters it in the page table, and then
    [read_page] throws.  The exception leaves the frame blank, clean, with
    pin count 0 and in neither list; the other frames are as before. *)
Theorem fetch_page_read_fails (D : gset PageId) (b : Bpm) (p : PageId) (v : frame_id_t) :
  pool_ok D b → page_content b p = None → next_victim b = Some v →
  ∃ b', fetch_page p b = Throw IOError b' ∧
    page_table_ b' !! p = Some v ∧
    pages_ b' !! v = Some (mkPage p blank false 0) ∧
    (v ∉ free_list_ b') ∧ (v ∉ replacer_ b') ∧
    (∀ g, g ≠ v → pages_ b' !! g = pages_ b !! g).
Proof.
  intros [Hwf Hco Hdebt] Hc Hnv.
  assert (page_table_ b !! p = None) as Hp.
  { unfold page_content in Hc. destruct (page_table_ b !! p) as [g |] eqn:Hg; [| done].
    destruct (pool_wf_table_holds _ _ _ Hwf Hg) as (pg & Hpg & _). by rewrite Hpg in Hc. }
  unfold page_content in Hc. rewrite Hp in Hc.
  pose proof (find_victim_page_next b) as Hv. rewrite Hnv in Hv.
  destruct (find_victim_page_wf _ _ _ Hwf Hv) as (Hwb & Hpages & Htab & Hdisk).
  destruct (wb_victim _ _ Hwb) as (pg & Hpg & Hz).
  assert (v < length (pages_ b))%nat as Hlen by (rewrite <- Hpages; by eapply lookup_lt_Some).
  eexists. split.
  { unfold fetch_page, bind at 1, get. rewrite Hp.
    rewrite (bind_ok _ _ _ _ _ Hv), (bind_ok _ _ _ _ _ (update_page_ok _ _ _ _ Hpg)).
    unfold bind, read_page. simpl. rewrite Hdisk.
    assert (disk_pages (if is_dirty_ pg && negb (page_no (id_ pg) =? INVALID_PAGE_ID)
                        then disk_write_page (id_ pg) (data_ pg) (disk_manager_ b)
                        else disk_manager_ b) !! p = None) as ->; [| reflexivity].
    destruct (is_dirty_ pg && negb (page_no (id_ pg) =? INVALID_PAGE_ID)) eqn:Hdv; [| done].
    apply andb_prop in Hdv as [_ Hvalid]. apply negb_true_iff, Z.eqb_neq in Hvalid.
    simpl. rewrite lookup_insert_ne; [done |].
    intros Heq. destruct (wb_inv _ _ Hwb) as ([_ Hft _] & _).
    pose proof (Hft v (id_ pg) (ex_intro _ pg (conj Hpg eq_refl)) Hvalid) as Hin.
    rewrite Heq, Htab in Hin. congruence. }
  simpl. split; [by rewrite lookup_insert_eq |].
  split; [rewrite Hpages; by apply list_lookup_insert_eq |].
  split; [exact (wb_not_free _ _ Hwb) |]. split; [exact (wb_not_replacer _ _ Hwb) |].
  intros g Hg. rewrite Hpages. by apply list_lookup_insert_ne.
Qed.

(** X5.  A pinned page is never evicted: [fetch_page] of another page and
    [new_page] leave it in its frame, with its bytes, flag and pin count. *)
Theorem pinned_page_stays (b : Bpm) (p : PageId) (g : frame_id_t) (pg : Page Data) :
  pool_wf b → page_table_ b !! p = Some g → pages_ b !! g = Some pg → 0 < pin_count_ pg →
  (∀ q f b', q ≠ p → fetch_page q b = Ok (Some f) b' →
     page_table_ b' !! p = Some g ∧ pages_ b' !! g = Some pg) ∧
  (∀ fl f q b', new_page fl b = Ok (Some (f, q)) b' →
     page_table_ b' !! p = Some g ∧ pages_ b' !! g = Some pg).
Proof.
  intros Hwf Hp Hpg Hpin.
  destruct (pool_wf_table_holds _ _ _ Hwf Hp) as (pg0 & Hpg0 & Hid & Hvalid).
  assert (pg0 = pg) as -> by congruence.
  split.
  - intros q f b' Hne H.
    destruct (fetch_page_spec _ _ _ _ Hwf H)
      as (Hwf' & Ht' & (pg' & Hpg' & Hid' & _) & Hother & Hsame & _).
    assert (g ≠ f) as Hgf.
    { intros ->. rewrite (Hsame pg Hpg Hpin) in Hpg'. injection Hpg' as <-.
      simpl in Hid'. congruence. }
    assert (pages_ b' !! g = Some pg) as Hg' by (by rewrite Hother).
    split; [| done]. rewrite <- Hid. apply pool_wf_holds_table; [done | done |]. by rewrite Hid.
  - intros fl f q b' H.
    destruct (new_page_spec _ _ _ _ _ Hwf H) as (Hwf' & _ & _ & _ & _ & Hother & (pg' & Hpg' & Hz) & _).
    assert (g ≠ f) as Hgf by (intros ->; assert (pg' = pg) by congruence; subst; lia).
    assert (pages_ b' !! g = Some pg) as Hg' by (by rewrite Hother).
    split; [| done]. rewrite <- Hid. apply pool_wf_holds_table; [done | done |]. by rewrite Hid.
Qed.





(** X7.  [flush_page] returns false and changes nothing when the page is
    not in the pool.  Otherwise it returns true whatever the pin count of the
    page: the bytes of its frame are on the disk afterwards, the frame is
    clean and keeps its bytes and its pin count, and nothing else changes. *)
Theorem flush_page_writes_back (b : Bpm) (p : PageId) :
  pool_wf b →
  (page_table_ b !! p = None → flush_page p b = Ok false b) ∧
  (∀ f, page_table_ b !! p = Some f →
     ∃ pg b', pages_ b !! f = Some pg ∧ flush_page p b = Ok true b' ∧ pool_wf b' ∧
       pages_ b' !! f = Some (mkPage p (data_ pg) false (pin_count_ pg)) ∧
       (∀ g, g ≠ f → pages_ b' !! g = pages_ b !! g) ∧
       disk_pages (disk_manager_ b') !! p = Some (data_ pg) ∧
       (∀ q, q ≠ p → disk_pages (disk_manager_ b') !! q = disk_pages (disk_manager_ b) !! q) ∧
       page_table_ b' = page_table_ b ∧ free_list_ b' = free_list_ b ∧
       replacer_ b' = replacer_ b ∧
       (∀ q, page_content b' q = page_content b q)).
Proof.
  intros Hwf. split; [apply flush_page_miss |]. intros f Hp.
  destruct (pool_wf_table_holds _ _ _ Hwf Hp) as (pg & Hpg & Hid & Hvalid).
  pose proof (flush_page_hit _ _ _ _ Hp Hpg) as H.
  eexists pg, _. split; [done |]. split; [exact H |].
  split; [by eapply flush_page_wf |]. simpl.
  assert (f < length (pages_ b))%nat as Hlen by (by eapply lookup_lt_Some).
  split; [by rewrite list_lookup_insert_eq, Hid |].
  split; [by intros g Hg; rewrite list_lookup_insert_ne |].
  split; [by rewrite lookup_insert_eq |].
  split; [by intros q Hq; rewrite lookup_insert_ne |].
  split; [done |]. split; [done |]. split; [done |].
  intros q. unfold page_content. simpl.
  destruct (page_table_ b !! q) as [g |] eqn:Hq.
  - destruct (decide (g = f)) as [-> | Hne].
    + by rewrite list_lookup_insert_eq, Hpg.
    + by rewrite list_lookup_insert_ne.
  - rewrite lookup_insert_ne; [done |]. intros <-. congruence.
Qed.

(** X8.  [delete_page] refuses (returns false, changes nothing) exactly
    when the page is pinned.  Otherwise it returns true and the page is no
    longer in the pool; its frame, if it had one, is appended to the free
    list and taken out of the replacer.  The page is not removed from the
    disk: a dirty page is written back first, so every page has the bytes it
    had, and the other pages keep their frames and pin counts. *)
Theorem delete_page_frees_frame_keeps_bytes (D : gset PageId) (b : Bpm) (p : PageId) :
  pool_ok D b →
  ∃ r b', delete_page p b = Ok r b' ∧ pool_ok D b' ∧
    (r = false ↔ 0 < pin_count_of b p) ∧
    (r = false → b' = b) ∧
    (r = true → page_table_ b' !! p = None ∧
       ∀ f, page_table_ b !! p = Some f →
         free_list_ b' = free_list_ b ++ [f] ∧ f ∉ replacer_ b') ∧
    (∀ q, page_content b' q = page_content b q) ∧
    (∀ q, q ≠ p → page_table_ b' !! q = page_table_ b !! q ∧
                  pin_count_of b' q = pin_count_of b q).
Proof.
  intros Hok. pose proof (ok_wf _ _ Hok) as Hwf.
  assert (∀ r b', delete_page p b = Ok r b' →
            pool_ok D b' ∧ ∀ q, page_content b' q = page_content b q) as Hkeep
    by (intros r b' H; by eapply delete_page_ok).
  destruct (page_table_ b !! p) as [f |] eqn:Hp.
  - destruct (pool_wf_table_holds _ _ _ Hwf Hp) as (pg & Hpg & Hid & Hvalid).
    assert (pin_count_of b p = pin_count_ pg) as Hpc
      by (unfold pin_count_of; by rewrite Hp, Hpg).
    destruct (Z_lt_le_dec 0 (pin_count_ pg)) as [Hpin | Hpin].
    + pose proof (delete_page_pinned _ _ _ _ Hp Hpg Hpin) as H.
      exists false, b. split; [done |]. split; [done |].
      split; [split; [lia | done] |]. by repeat split.
    + pose proof (delete_page_unpinned _ _ _ _ Hp Hpg Hpin) as H.
      destruct (Hkeep _ _ H) as [Hok' Hc].
      eexists true, _. split; [exact H |]. split; [done |].
      split; [split; [done | lia] |]. split; [done |].
      split; [| split; [done |]].
      * intros _. simpl. split; [by rewrite lookup_delete_eq |].
        intros g Hg. injection Hg as <-. split; [done |].
        rewrite elem_of_replacer_pin. tauto.
      * intros q Hq. simpl. rewrite lookup_delete_ne by done. split; [done |].
        unfold pin_count_of. simpl. rewrite lookup_delete_ne by done.
        destruct (page_table_ b !! q) as [g |] eqn:Hg; [| done].
        destruct (pool_wf_table_holds _ _ _ Hwf Hg) as (pg' & Hpg' & Hid' & _).
        assert (g ≠ f) as Hne by (intros ->; congruence).
        by rewrite list_lookup_insert_ne.
  - pose proof (delete_page_miss _ _ Hp) as H.
    exists true, b. split; [done |]. split; [done |].
    assert (pin_count_of b p = 0) as Hpc by (unfold pin_count_of; by rewrite Hp).
    split; [split; [done | lia] |]. split; [done |]. split; [| by split].
    intros _. split; [done |]. intros f Hf. congruence.
Qed.

Definition cleaned (pg : Page Data) : Page Data :=
  mkPage (id_ pg) (data_ pg) false (pin_count_ pg).

Lemma flush_entries_frames f es (b b' : Bpm) :
  (∀ pid fid, (pid, fid) ∈ es → page_table_ b !! pid = Some fid) →
  pool_wf b → flush_entries f es b = Ok tt b' →
  (∀ g pg, pages_ b !! g = Some pg →
     pages_ b' !! g =
       Some (if decide ((id_ pg, g) ∈ es ∧ fd (id_ pg) = f) then cleaned pg else pg)) ∧
  (∀ p, disk_pages (disk_manager_ b') !! p =
        if decide (p ∈ es.*1 ∧ fd p = f) then page_content b p
        else disk_pages (disk_manager_ b) !! p) ∧
  page_table_ b' = page_table_ b ∧ free_list_ b' = free_list_ b ∧
  replacer_ b' = replacer_ b.
Proof.
  revert b. induction es as [| [pid fid] es IH]; intros b Hes Hwf H; simpl in H.
  - mrun H. ok_inj H. split; [| split; [| done]].
    + intros g pg Hpg. rewrite decide_False; [done |]. intros [Hin _]. by apply elem_of_nil in Hin.
    + intros p. rewrite decide_False; [done |]. intros [Hin _]. by apply elem_of_nil in Hin.
  - apply bind_inv in H as ([] & b1 & H1 & H).
    assert (page_table_ b !! pid = Some fid) as Hp by (apply Hes; by left).
    destruct (pool_wf_table_holds _ _ _ Hwf Hp) as (pg0 & Hpg0 & Hid0 & Hvalid).
    assert (fid < length (pages_ b))%nat as Hlen by (by eapply lookup_lt_Some).
    destruct (fd pid =? f) eqn:Hfd.
    + apply Z.eqb_eq in Hfd.
      unfold bind, modify, store_page, modify in H1. rewrite (page_at_ok _ _ _ Hpg0) in H1.
      simpl in H1. injection H1 as <-.
      pose proof (flush_page_hit _ _ _ _ Hp Hpg0) as Hfl.
      pose proof (flush_page_wf _ _ _ _ Hwf Hfl) as Hwf1.
      edestruct IH as (Hfr & Hdk & Ht & Hfree & Hrep); [| exact Hwf1 | exact H |];
        [intros ? ? ?; simpl; apply Hes; by right |].
      simpl in *. split; [| split; [| done]].
      * intros g pg Hpg. destruct (decide (g = fid)) as [-> | Hne].
        -- assert (pg = pg0) as -> by congruence.
           rewrite (Hfr fid (cleaned pg0)) by (by rewrite list_lookup_insert_eq).
           rewrite (decide_True (P := (id_ pg0, fid) ∈ (pid, fid) :: es ∧ _))
             by (split; [rewrite Hid0; by left | congruence]).
           by destruct (decide _).
        -- rewrite (Hfr g pg) by (by rewrite list_lookup_insert_ne).
           f_equal. apply decide_ext. rewrite elem_of_cons. split; [tauto |].
           intros [[Heq | Hin] ?]; [congruence | done].
      * intros p. rewrite Hdk.
        assert (page_content (mkBpm (<[fid := mkPage (id_ pg0) (data_ pg0) false
                  (pin_count_ pg0)]> (pages_ b)) (page_table_ b) (free_list_ b) (replacer_ b)
                  (disk_write_page pid (data_ pg0) (disk_manager_ b))) p = page_content b p)
          as Hpc.
        { unfold page_content. simpl. destruct (page_table_ b !! p) as [g |] eqn:Hg.
          - destruct (decide (g = fid)) as [-> | Hne].
            + by rewrite list_lookup_insert_eq, Hpg0.
            + by rewrite list_lookup_insert_ne.
          - rewrite lookup_insert_ne; [done |]. intros <-. congruence. }
        rewrite Hpc. change (((pid, fid) :: es).*1) with (pid :: es.*1). destruct (decide (p = pid)) as [-> | Hne].
        -- rewrite (decide_True (P := pid ∈ pid :: _ ∧ _)) by (split; [by left | done]).
           assert (page_content b pid = Some (data_ pg0)) as Hc
             by (unfold page_content; by rewrite Hp, Hpg0).
           destruct (decide _); [done |]. by rewrite lookup_insert_eq.
        -- rewrite lookup_insert_ne by done. apply decide_ext. rewrite elem_of_cons. tauto.
    + apply Z.eqb_neq in Hfd. mrun H1. ok_inj H1.
      edestruct IH as (Hfr & Hdk & Ht & Hfree & Hrep); [| exact Hwf | exact H |].
      { intros ? ? ?. apply Hes. by right. }
      split; [| split; [| done]].
      * intros g pg Hpg. rewrite (Hfr g pg Hpg). f_equal. apply decide_ext.
        rewrite elem_of_cons. split; [tauto |].
        intros [[Heq | Hin] ?]; [congruence | done].
      * intros p. rewrite Hdk, fmap_cons. simpl. apply decide_ext.
        rewrite elem_of_cons. split; [tauto |]. intros [[-> | Hin] ?]; [done | done].
Qed.

(** X9.  [flush_all_pages fd] writes every page of file [fd] that is in
    the pool to the disk and marks its frame clean, whatever its pin count;
    afterwards the disk holds, for every page of [fd], the bytes the pool
    showed for it.  Frames of other files, the pages of other files on disk,
    the page table, the free list and the replacer are not touched, and no
    frame changes its page, bytes or pin count. *)
Theorem flush_all_pages_writes_file (f : Z) (b : Bpm) :
  pool_wf b →
  ∃ b', flush_all_pages f b = Ok tt b' ∧ pool_wf b' ∧
    (∀ g pg, pages_ b !! g = Some pg →
       pages_ b' !! g =
         Some (if decide (page_table_ b !! id_ pg = Some g ∧ fd (id_ pg) = f)
               then mkPage (id_ pg) (data_ pg) false (pin_count_ pg) else pg)) ∧
    (∀ p, disk_pages (disk_manager_ b') !! p =
          if decide (fd p = f) then page_content b p
          else disk_pages (disk_manager_ b) !! p) ∧
    page_table_ b' = page_table_ b ∧ free_list_ b' = free_list_ b ∧
    replacer_ b' = replacer_ b.
Proof.
  intros Hwf.
  assert (∀ es b0, (∀ pid fid, (pid, fid) ∈ es → page_table_ b0 !! pid = Some fid) →
            pool_wf b0 → ∃ b', flush_entries f es b0 = Ok tt b') as Hrun.
  { induction es as [| [pid fid] es IH]; intros b0 Hes Hwf0; simpl; [by eexists |].
    assert (page_table_ b0 !! pid = Some fid) as Hp by (apply Hes; by left).
    destruct (pool_wf_table_holds _ _ _ Hwf0 Hp) as (pg0 & Hpg0 & _).
    destruct (fd pid =? f) eqn:Hfd.
    - pose proof (flush_page_hit _ _ _ _ Hp Hpg0) as Hfl.
      pose proof (flush_page_wf _ _ _ _ Hwf0 Hfl) as Hwf1.
      edestruct IH as [b' Hb']; [| exact Hwf1 |]; [intros ? ? ?; apply Hes; by right |].
      exists b'. unfold bind at 1. unfold bind at 1. rewrite (page_at_ok _ _ _ Hpg0).
      unfold bind, modify, store_page, modify. simpl. exact Hb'.
    - edestruct IH as [b' Hb']; [| exact Hwf0 |]; [intros ? ? ?; apply Hes; by right |].
      exists b'. by rewrite ret_bind. }
  assert (∀ pid fid, (pid, fid) ∈ map_to_list (page_table_ b) →
            page_table_ b !! pid = Some fid) as Hes
    by (intros pid fid; by rewrite elem_of_map_to_list).
  destruct (Hrun _ _ Hes Hwf) as [b' Hb'].
  assert (flush_all_pages f b = Ok tt b') as Hall by (unfold flush_all_pages, bind, get; done).
  exists b'. split; [done |]. split; [by eapply flush_all_pages_wf |].
  destruct (flush_entries_frames _ _ _ _ Hes Hwf Hb') as (Hfr & Hdk & Ht & Hfree & Hrep).
  split; [| split; [| done]].
  - intros g pg Hpg. rewrite (Hfr g pg Hpg). f_equal. unfold cleaned.
    apply decide_ext. by rewrite elem_of_map_to_list.
  - intros p. rewrite Hdk. destruct (decide (fd p = f)) as [Hfd | Hfd].
    + destruct (page_table_ b !! p) as [g |] eqn:Hg.
      * rewrite decide_True; [done |]. split; [| done].
        apply list_elem_of_fmap. exists (p, g). split; [done |]. by apply elem_of_map_to_list.
      * rewrite decide_False; [unfold page_content; by rewrite Hg |].
        intros [Hin _]. apply list_elem_of_fmap in Hin as ([p' g'] & -> & Hin).
        apply elem_of_map_to_list in Hin. simpl in Hg. congruence.
    + rewrite decide_False; [done | tauto].
Qed.

End BufferPoolFacts.

(** * Weakest preconditions

    [wp E m s Q]: from state [s] the computation [m] returns a value and a
    state that satisfy [Q], or stops with an exception that [E] allows. *)

Definition wp {St A} (E : Error → Prop) (m : M St A) (s : St) (Q : A → St → Prop) : Prop :=
  match m s with
  | Ok a s' => Q a s'
  | Throw e _ => E e
  end.

Lemma wp_ret {St A} E (a : A) (s : St) Q : Q a s → wp E (ret a) s Q.
Proof. done. Qed.

Lemma wp_bind {St A B} E (m : M St A) (k : A → M St B) s Q :
  wp E m s (λ a s', wp E (k a) s' Q) → wp E (bind m k) s Q.
Proof. unfold wp, bind. by destruct (m s). Qed.

Lemma wp_mono {St A} E (m : M St A) s (Q Q' : A → St → Prop) :
  wp E m s Q → (∀ a s', Q a s' → Q' a s') → wp E m s Q'.
Proof. unfold wp. destruct (m s); auto. Qed.

Lemma wp_throw {St A} (E : Error → Prop) e (s : St) (Q : A → St → Prop) :
  E e → wp E (throw e) s Q.
Proof. done. Qed.

Lemma wp_get {St} E (s : St) Q : Q s s → wp E get s Q.
Proof. done. Qed.

Lemma wp_gets {St A} E (f : St → A) (s : St) Q : Q (f s) s → wp E (gets f) s Q.
Proof. done. Qed.

Lemma wp_modify {St} E (f : St → St) (s : St) Q : Q tt (f s) → wp E (modify f) s Q.
Proof. done. Qed.

Lemma wp_assert {St} (E : Error → Prop) site (c : bool) (s : St) Q :
  (c = false → E (AssertionFailed site)) → (c = true → Q tt s) → wp E (assert site c) s Q.
Proof. destruct c; unfold wp, assert; simpl; auto. Qed.

Lemma wp_ok {St A} E (m : M St A) s Q a s' : wp E m s Q → m s = Ok a s' → Q a s'.
Proof. unfold wp. intros H Heq. by rewrite Heq in H. Qed.

Lemma wp_run {St A} (E : Error → Prop) (m : M St A) s (Q : A → St → Prop) :
  (∀ e s', m s = Throw e s' → E e) → (∀ a s', m s = Ok a s' → Q a s') → wp E m s Q.
Proof. unfold wp. destruct (m s); eauto. Qed.

Lemma wp_weaken {St A} (E E' : Error → Prop) (m : M St A) s Q :
  (∀ e, E e → E' e) → wp E m s Q → wp E' m s Q.
Proof. unfold wp. destruct (m s); auto. Qed.

(** * Pins held by the index handle *)

Section Pins.
Context {Key : Type} `{!IxParams Key}.

Abbreviation IxState := (IxIndexHandle Key).

Definition pool (s : IxState) : BufferPoolManager (Node Key) := buffer_pool_manager_ s.

Lemma bpm_inv {A} (m : M (BufferPoolManager (Node Key)) A) (s s' : IxState) a :
  bpm m s = Ok a s' →
  ∃ b', m (pool s) = Ok a b' ∧ s' = mkIx (file_hdr_ s) b' (fd_ s).
Proof.
  unfold bpm, pool. destruct (m (buffer_pool_manager_ s)) as [a' b' |]; [| done].
  intros [= <- <-]. eauto.
Qed.

Lemma bpm_ok {A} (m : M (BufferPoolManager (Node Key)) A) (s : IxState) a b' :
  m (pool s) = Ok a b' → bpm m s = Ok a (mkIx (file_hdr_ s) b' (fd_ s)).
Proof. unfold bpm, pool. by intros ->. Qed.

(** The frame of a handle. *)
Definition frame (s : IxState) (h : IxNodeHandle) : option (Page (Node Key)) :=
  pages_ (pool s) !! h.

(** The pins the running operation holds: [L] has one copy of a frame for
    every handle on it that is still to be unpinned, and [pin0] is the pin
    count each page had when the operation started. *)
Record ledger (pin0 : PageId → Z) (L : gmultiset frame_id_t) (s : IxState) : Prop := {
  lg_wf : pool_wf (pool s);
  lg_pin : ∀ g pg, frame s g = Some pg → page_no (id_ pg) ≠ INVALID_PAGE_ID →
           pin_count_ pg = pin0 (id_ pg) + Z.of_nat (multiplicity g L);
  lg_held : ∀ g, g ∈ L →
           ∃ pg, frame s g = Some pg ∧ page_no (id_ pg) ≠ INVALID_PAGE_ID;
  lg_pin0 : ∀ q, 0 ≤ pin0 q;
  lg_absent : ∀ q, page_table_ (pool s) !! q = None → pin0 q = 0
}.

Lemma ledger_start (s : IxState) :
  pool_wf (pool s) → ledger (pin_count_of (pool s)) ∅ s.
Proof.
  intros Hwf. split.
  - done.
  - intros g pg Hg Hv. rewrite multiplicity_empty. unfold pin_count_of.
    rewrite (pool_wf_holds_table _ _ _ Hwf Hg Hv). unfold frame in Hg. rewrite Hg. simpl. lia.
  - intros g Hg. by apply gmultiset_elem_of_empty in Hg.
  - intros q. unfold pin_count_of.
    destruct (page_table_ (pool s) !! q) as [g |]; [| done].
    destruct (pages_ (pool s) !! g) as [pg |] eqn:Hg; [| done]. by eapply wf_pin.
  - intros q Hq. unfold pin_count_of. by rewrite Hq.
Qed.

Lemma ledger_pin_count_of pin0 L (s : IxState) q :
  ledger pin0 L s →
  pin_count_of (pool s) q =
  pin0 q + match page_table_ (pool s) !! q with
           | Some g => Z.of_nat (multiplicity g L)
           | None => 0
           end.
Proof.
  intros [Hwf Hpin Hheld Hpin0 Habs]. unfold pin_count_of.
  destruct (page_table_ (pool s) !! q) as [g |] eqn:Hq.
  - destruct (pool_wf_table_holds _ _ _ Hwf Hq) as (pg & Hg & Hid & Hv).
    rewrite Hg. rewrite (Hpin g pg Hg); [by rewrite Hid | by rewrite Hid].
  - rewrite (Habs q Hq). lia.
Qed.

Lemma ledger_end pin0 (s : IxState) q :
  ledger pin0 ∅ s → pin_count_of (pool s) q = pin0 q.
Proof.
  intros Hl. rewrite (ledger_pin_count_of pin0 ∅ s q Hl).
  destruct (page_table_ (pool s) !! q); [rewrite multiplicity_empty |]; lia.
Qed.

Lemma ledger_proper pin0 L L' (s : IxState) : L = L' → ledger pin0 L s → ledger pin0 L' s.
Proof. by intros ->. Qed.

(** A frame that is held is pinned, and the page table leads to it. *)
Lemma ledger_held_frame pin0 L (s : IxState) h :
  ledger pin0 L s → h ∈ L →
  ∃ pg, frame s h = Some pg ∧ page_no (id_ pg) ≠ INVALID_PAGE_ID ∧
        page_table_ (pool s) !! id_ pg = Some h ∧ 0 < pin_count_ pg.
Proof.
  intros [Hwf Hpin Hheld Hpin0 Habs] Hh.
  destruct (Hheld h Hh) as (pg & Hg & Hv). exists pg.
  split; [done |]. split; [done |]. split; [by apply pool_wf_holds_table |].
  rewrite (Hpin h pg Hg Hv). specialize (Hpin0 (id_ pg)).
  rewrite elem_of_multiplicity in Hh. lia.
Qed.

(** A frame with no pin is not held. *)
Lemma ledger_unpinned_not_held pin0 L (s : IxState) h pg :
  ledger pin0 L s → frame s h = Some pg → pin_count_ pg = 0 → h ∉ L.
Proof.
  intros Hl Hg Hz Hh.
  destruct (ledger_held_frame _ _ _ _ Hl Hh) as (pg' & Hg' & _ & _ & Hpos).
  assert (pg' = pg) as -> by congruence. lia.
Qed.

(** [fetch_page], and so [fetch_node], adds a pin to the ledger. *)
Lemma fetch_page_ledger pin0 L (s s' : IxState) p h :
  ledger pin0 L s → bpm (fetch_page p) s = Ok (Some h) s' →
  ledger pin0 (L ⊎ {[+ h +]}) s' ∧
  file_hdr_ s' = file_hdr_ s ∧ fd_ s' = fd_ s ∧
  (∃ pg, frame s' h = Some pg ∧ id_ pg = p) ∧
  (∀ g, g ≠ h → frame s' g = frame s g) ∧
  (h ∈ L → ∃ pg, frame s h = Some pg ∧
      frame s' h = Some (mkPage (id_ pg) (data_ pg) (is_dirty_ pg) (pin_count_ pg + 1))).
Proof.
  intros Hl H. apply bpm_inv in H as (b' & H & ->).
  destruct (fetch_page_spec _ _ _ _ (lg_wf _ _ _ Hl) H)
    as (Hwf' & Htab' & (pg' & Hpg' & Hid' & Hpos') & Hother & Hpinned & Hcount & _).
  assert (page_no p ≠ INVALID_PAGE_ID) as Hvp.
  { destruct (pool_wf_table_holds _ _ _ Hwf' Htab') as (? & _ & _ & ?). done. }
  assert (h ∈ L → ∃ pg, frame s h = Some pg ∧
      pages_ b' !! h = Some (mkPage (id_ pg) (data_ pg) (is_dirty_ pg) (pin_count_ pg + 1)))
    as Hheld_h.
  { intros Hh. destruct (ledger_held_frame _ _ _ _ Hl Hh) as (pg & Hg & _ & _ & Hpos).
    exists pg. split; [done |]. by apply Hpinned. }
  assert (pin_count_ pg' = pin0 p + Z.of_nat (multiplicity h L) + 1) as Hpin_h.
  { assert (pin_count_of b' p = pin_count_ pg') as <-.
    { unfold pin_count_of. by rewrite Htab', Hpg'. }
    rewrite Hcount, decide_True by done.
    rewrite (ledger_pin_count_of _ _ _ p Hl).
    destruct (page_table_ (pool s) !! p) as [g0 |] eqn:Hp0.
    - assert (g0 = h) as ->; [| lia].
      destruct (decide (g0 = h)) as [| Hne]; [done |].
      destruct (pool_wf_table_holds _ _ _ (lg_wf _ _ _ Hl) Hp0) as (pg0 & Hg0 & Hid0 & _).
      rewrite <- (Hother g0 Hne) in Hg0.
      assert (page_table_ b' !! id_ pg0 = Some g0) as Hx
        by (apply (pool_wf_holds_table _ _ _ Hwf' Hg0); congruence).
      congruence.
    - assert (multiplicity h L = 0%nat) as ->; [| lia].
      destruct (decide (h ∈ L)) as [Hh | Hh]; [| by apply not_elem_of_multiplicity].
      destruct (ledger_held_frame _ _ _ _ Hl Hh) as (pg & Hg & Hv & Ht & Hpos).
      rewrite (Hpinned pg Hg Hpos) in Hpg'. injection Hpg' as <-. simpl in Hid'.
      congruence. }
  split; [| split; [done | split; [done | split; [by eauto | split; [done | done]]]]].
  destruct Hl as [Hwf Hpin Hheld Hpin0 Habs]. split; simpl; try done.
  - intros g pg Hg Hv. unfold frame, pool in Hg. simpl in Hg.
    rewrite multiplicity_disj_union, multiplicity_singleton.
    destruct (decide (g = h)) as [-> | Hne].
    + assert (pg = pg') as -> by congruence. rewrite Hid'. lia.
    + rewrite (Hother g Hne) in Hg. rewrite (Hpin g pg Hg Hv). lia.
  - intros g Hg. unfold frame, pool. simpl.
    destruct (decide (g = h)) as [-> | Hne].
    + exists pg'. split; [done |]. by rewrite Hid'.
    + rewrite (Hother g Hne). apply Hheld.
      apply gmultiset_elem_of_disj_union in Hg as [Hg | Hg]; [done |].
      by apply gmultiset_elem_of_singleton in Hg.
  - intros q Hq. unfold pool in Hq. simpl in Hq.
    assert (q ≠ p) as Hne by congruence.
    assert (pin_count_of b' q = 0) as Hz by (unfold pin_count_of; by rewrite Hq).
    rewrite Hcount, decide_False in Hz by done.
    unfold pin_count_of in Hz.
    destruct (page_table_ (pool s) !! q) as [g |] eqn:Hq0; [| by apply Habs].
    destruct (pool_wf_table_holds _ _ _ Hwf Hq0) as (pg & Hg & Hid & Hv).
    rewrite Hg in Hz. rewrite <- Hid in Hv.
    rewrite (Hpin g pg Hg Hv), Hid in Hz. specialize (Hpin0 q). lia.
Qed.

(** ** Quiet steps

    A step is quiet when it may change the file header and the bytes in
    the frames, and nothing else. *)
Definition quiet_step (s s' : IxState) : Prop :=
  data_only (pool s) (pool s') ∧ fd_ s' = fd_ s.

Definition quiet {A} (m : M IxState A) : Prop :=
  ∀ s a s', m s = Ok a s' → quiet_step s s'.

Lemma quiet_step_refl s : quiet_step s s.
Proof. split; [apply data_only_refl | done]. Qed.

Lemma quiet_step_trans s1 s2 s3 : quiet_step s1 s2 → quiet_step s2 s3 → quiet_step s1 s3.
Proof. intros [? ?] [? ?]. split; [by eapply data_only_trans | congruence]. Qed.

Lemma ledger_quiet pin0 L (s s' : IxState) :
  ledger pin0 L s → quiet_step s s' → ledger pin0 L s'.
Proof.
  intros [Hwf Hpin Hheld Hpin0 Habs] [Hd Hfd].
  pose proof Hd as (Hm & Ht & _).
  split; try done.
  - by eapply data_only_wf.
  - intros g pg' Hg Hv. destruct (data_only_lookup _ _ _ _ Hd Hg) as (pg & Hg0 & [= Hid _ Hpc]).
    rewrite <- Hpc, <- Hid. apply Hpin; [done | congruence].
  - intros g Hg. destruct (Hheld g Hg) as (pg & Hg0 & Hv).
    destruct (data_only_lookup _ _ _ _ (data_only_sym _ _ Hd) Hg0) as (pg' & Hg' & [= Hid _ _]).
    exists pg'. split; [done | congruence].
  - intros q Hq. apply Habs. by rewrite <- Ht.
Qed.

Lemma quiet_ret {A} (a : A) : quiet (ret a).
Proof. intros s a' s' [= _ <-]. apply quiet_step_refl. Qed.

Lemma quiet_throw {A} e : quiet (throw e : M IxState A).
Proof. intros s a s' H. done. Qed.

Lemma quiet_bind {A B} (m : M IxState A) (k : A → M IxState B) :
  quiet m → (∀ a, quiet (k a)) → quiet (bind m k).
Proof.
  intros Hm Hk s b s' H. apply bind_inv in H as (a & s1 & H1 & H2).
  eapply quiet_step_trans; [by eapply Hm | by eapply Hk].
Qed.

Lemma quiet_gets {A} (f : IxState → A) : quiet (gets f).
Proof. intros s a s' [= _ <-]. apply quiet_step_refl. Qed.

Lemma quiet_assert site c : quiet (assert site c : M IxState unit).
Proof. destruct c; [apply quiet_ret | apply quiet_throw]. Qed.

Lemma quiet_set_hdr f : quiet (set_hdr f).
Proof. intros s a s' [= _ <-]. split; [apply data_only_refl | done]. Qed.

Lemma quiet_page_at h : quiet (bpm (page_at h)).
Proof.
  intros s a s' H. apply bpm_inv in H as (b' & H & ->). apply page_at_inv in H as [_ ->].
  split; [apply data_only_refl | done].
Qed.

Lemma quiet_update_node h f : quiet (update_node h f).
Proof.
  intros s a s' H. unfold update_node in H. apply bpm_inv in H as (b' & H & ->).
  apply bind_inv in H as (pg & b1 & Hpg & H). apply page_at_inv in Hpg as [Hpg ->].
  unfold store_page, modify in H. injection H as _ <-.
  split; [| done]. unfold pool at 2. simpl. by apply data_only_store.
Qed.

Lemma quiet_slot {A} (l : list A) i : quiet (slot l i).
Proof.
  unfold slot. destruct (i <? 0); [apply quiet_throw |].
  destruct (l !! Z.to_nat i); [apply quiet_ret | apply quiet_throw].
Qed.

Lemma quiet_if {A} (c : bool) (m1 m2 : M IxState A) :
  quiet m1 → quiet m2 → quiet (if c then m1 else m2).
Proof. by destruct c. Qed.

Create HintDb quiet.
#[local] Hint Resolve quiet_ret quiet_throw quiet_gets quiet_assert quiet_set_hdr
  quiet_page_at quiet_update_node quiet_slot : quiet.

Ltac quiet_tac :=
  repeat first
    [ apply quiet_bind; [| intros ?]
    | apply quiet_if
    | progress eauto with quiet
    | match goal with |- quiet (match ?x with _ => _ end) => destruct x end ].

Lemma quiet_node_of h : quiet (node_of h).
Proof. unfold node_of. quiet_tac. Qed.

Lemma quiet_get_page_id h : quiet (get_page_id h).
Proof. unfold get_page_id. quiet_tac. Qed.

Lemma quiet_get_page_no h : quiet (get_page_no h).
Proof. unfold get_page_no. quiet_tac. Qed.

#[local] Hint Resolve quiet_node_of quiet_get_page_id quiet_get_page_no : quiet.

Lemma quiet_get_size h : quiet (get_size h).
Proof. unfold get_size. quiet_tac. Qed.

Lemma quiet_get_max_size : quiet get_max_size.
Proof. unfold get_max_size. quiet_tac. Qed.

Lemma quiet_get_min_size : quiet get_min_size.
Proof. unfold get_min_size. quiet_tac. Qed.

Lemma quiet_get_key h i : quiet (get_key h i).
Proof. unfold get_key. quiet_tac. Qed.

Lemma quiet_get_rid h i : quiet (get_rid h i).
Proof. unfold get_rid. quiet_tac. Qed.

#[local] Hint Resolve quiet_get_size quiet_get_max_size quiet_get_min_size quiet_get_key
  quiet_get_rid : quiet.

Lemma quiet_value_at h i : quiet (value_at h i).
Proof. unfold value_at. quiet_tac. Qed.

Lemma quiet_set_key h i k : quiet (set_key h i k).
Proof. unfold set_key. quiet_tac. Qed.

Lemma quiet_insert_pairs h pos src : quiet (insert_pairs h pos src).
Proof. unfold insert_pairs. quiet_tac. Qed.

Lemma quiet_erase_pair h pos : quiet (erase_pair h pos).
Proof. unfold erase_pair. quiet_tac. Qed.

#[local] Hint Resolve quiet_value_at quiet_set_key quiet_insert_pairs quiet_erase_pair : quiet.

Lemma quiet_insert_pair h pos k r : quiet (insert_pair h pos k r).
Proof. unfold insert_pair. quiet_tac. Qed.

#[local] Hint Resolve quiet_insert_pair : quiet.

Lemma quiet_internal_lookup h k : quiet (internal_lookup h k).
Proof. unfold internal_lookup. quiet_tac. Qed.

Lemma quiet_node_insert h k v : quiet (node_insert h k v).
Proof. unfold node_insert. quiet_tac. Qed.

Lemma quiet_node_remove h k : quiet (node_remove h k).
Proof. unfold node_remove. quiet_tac. Qed.

Lemma quiet_find_child h c : quiet (find_child h c).
Proof. unfold find_child. quiet_tac. Qed.

Lemma quiet_remove_and_return_only_child h : quiet (remove_and_return_only_child h).
Proof. unfold remove_and_return_only_child. quiet_tac. Qed.

Lemma quiet_update_root_page_no p : quiet (update_root_page_no p).
Proof. unfold update_root_page_no. quiet_tac. Qed.

#[local] Hint Resolve quiet_internal_lookup quiet_node_insert quiet_node_remove quiet_find_child
  quiet_remove_and_return_only_child quiet_update_root_page_no : quiet.

(** ** Steps that move a pin *)

Lemma fetch_node_ledger pin0 L (s s' : IxState) p h :
  ledger pin0 L s → fetch_node p s = Ok h s' →
  ledger pin0 (L ⊎ {[+ h +]}) s' ∧
  file_hdr_ s' = file_hdr_ s ∧ fd_ s' = fd_ s ∧
  (∃ pg, frame s' h = Some pg ∧ id_ pg = mkPageId (fd_ s) p) ∧
  (∀ g, g ≠ h → frame s' g = frame s g) ∧
  (h ∈ L → ∃ pg, frame s h = Some pg ∧
      frame s' h = Some (mkPage (id_ pg) (data_ pg) (is_dirty_ pg) (pin_count_ pg + 1))).
Proof.
  intros Hl H. unfold fetch_node in H.
  apply bind_inv in H as (f & s1 & Hf & H). injection Hf as <- <-.
  apply bind_inv in H as (r & s2 & Hr & H).
  destruct r as [h' |]; [| done]. injection H as <- <-.
  by eapply fetch_page_ledger.
Qed.

Lemma unpin_page_ledger pin0 L (s s' : IxState) h pg d r :
  ledger pin0 L s → h ∈ L → frame s h = Some pg →
  bpm (unpin_page (id_ pg) d) s = Ok r s' →
  r = true ∧ ledger pin0 (L ∖ {[+ h +]}) s' ∧
  file_hdr_ s' = file_hdr_ s ∧ fd_ s' = fd_ s ∧
  (∀ g, g ≠ h → frame s' g = frame s g) ∧
  frame s' h = Some (mkPage (id_ pg) (data_ pg) (d || is_dirty_ pg) (pin_count_ pg - 1)).
Proof.
  intros Hl Hh Hg H. apply bpm_inv in H as (b' & H & ->).
  destruct (ledger_held_frame _ _ _ _ Hl Hh) as (pg' & Hg' & Hv & Ht & Hpos).
  assert (pg' = pg) as -> by congruence.
  destruct (unpin_page_wf _ _ _ _ _ (lg_wf _ _ _ Hl) H)
    as (Hwf' & Hr & Hcount & Htab & Hdisk & Hother & Hthis).
  assert (r = true) as ->.
  { apply Hr. unfold pin_count_of. fold (pool s). rewrite Ht. unfold frame in Hg.
    by rewrite Hg. }
  specialize (Hthis h pg Ht Hg). simpl in Hthis.
  split; [done |]. split; [| split; [done | split; [done | split; [| done]]]].
  - destruct Hl as [Hwf Hpin Hheld Hpin0 Habs]. split; simpl; try done.
    + intros g pg0 Hg0 Hv0. unfold frame, pool in Hg0. simpl in Hg0.
      rewrite multiplicity_difference, multiplicity_singleton.
      destruct (decide (g = h)) as [-> | Hne].
      * rewrite Hthis in Hg0. injection Hg0 as <-. simpl. rewrite (Hpin h pg Hg Hv).
        rewrite elem_of_multiplicity in Hh. lia.
      * rewrite (Hother g) in Hg0 by congruence. rewrite (Hpin g pg0 Hg0 Hv0). lia.
    + intros g Hg0. unfold frame, pool. simpl.
      assert (g ∈ L) as HgL by multiset_solver.
      destruct (decide (g = h)) as [-> | Hne].
      * rewrite Hthis. eauto.
      * rewrite (Hother g) by congruence. by apply Hheld.
    + intros q Hq. apply Habs. unfold pool in Hq. simpl in Hq. by rewrite <- Htab.
  - intros g Hne. unfold frame, pool. simpl. apply Hother. congruence.
Qed.

Lemma unpin_node_ledger pin0 L (s s' : IxState) h d r :
  ledger pin0 L s → h ∈ L → unpin_node h d s = Ok r s' →
  r = true ∧ ledger pin0 (L ∖ {[+ h +]}) s' ∧
  file_hdr_ s' = file_hdr_ s ∧ fd_ s' = fd_ s ∧
  (∀ g, g ≠ h → frame s' g = frame s g) ∧
  (∃ pg, frame s h = Some pg ∧
     frame s' h = Some (mkPage (id_ pg) (data_ pg) (d || is_dirty_ pg) (pin_count_ pg - 1))).
Proof.
  intros Hl Hh H. unfold unpin_node in H.
  apply bind_inv in H as (pid & s1 & Hpid & H).
  unfold get_page_id in Hpid. apply bind_inv in Hpid as (pg & s2 & Hpg & Hpid).
  injection Hpid as <- <-.
  apply bpm_inv in Hpg as (b' & Hpg & ->). apply page_at_inv in Hpg as [Hpg ->].
  assert (mkIx (file_hdr_ s) (pool s) (fd_ s) = s) as Hs by (by destruct s).
  rewrite Hs in H.
  destruct (unpin_page_ledger _ _ _ _ _ _ _ _ Hl Hh Hpg H) as (? & ? & ? & ? & ? & ?).
  repeat (split; [done |]). eauto.
Qed.

Lemma create_node_ledger pin0 L (s s' : IxState) h :
  ledger pin0 L s → create_node s = Ok h s' →
  ledger pin0 (L ⊎ {[+ h +]}) s' ∧ fd_ s' = fd_ s ∧
  file_hdr_ s' = set_num_pages (num_pages_ (file_hdr_ s) + 1) (file_hdr_ s) ∧
  (h ∉ L) ∧
  (∀ g, g ≠ h → frame s' g = frame s g) ∧
  frame s' h = Some (mkPage (mkPageId (fd_ s) (next_page_no (disk_manager_ (pool s)) (fd_ s)))
                       blank true 1) ∧
  page_table_ (pool s)
    !! (mkPageId (fd_ s) (next_page_no (disk_manager_ (pool s)) (fd_ s))) = None.
Proof.
  intros Hl H. unfold create_node in H.
  apply bind_inv in H as ([] & s1 & H1 & H). injection H1 as <-.
  apply bind_inv in H as (f & s2 & Hf & H). injection Hf as <- <-.
  apply bind_inv in H as (r & s3 & Hr & H).
  destruct r as [[h' pid] |]; [| done]. injection H as <- <-.
  apply bpm_inv in Hr as (b' & Hr & ->). simpl in *.
  unfold pool in Hr. simpl in Hr. fold (pool s) in Hr.
  destruct (new_page_spec _ _ _ _ _ (lg_wf _ _ _ Hl) Hr)
    as (Hwf' & -> & Hfresh & Htab' & Hpg' & Hother & (pg & Hpg & Hz) & Hcount).
  assert (h' ∉ L) as HhL by (by eapply ledger_unpinned_not_held).
  split; [| by repeat (split; [done |])].
  set (pid := mkPageId (fd_ s) (next_page_no (disk_manager_ (pool s)) (fd_ s))) in *.
  pose proof Hl as [Hwf Hpin Hheld Hpin0 Habs]. split; simpl; try done.
  - intros g pg0 Hg0 Hv0. unfold frame, pool in Hg0. simpl in Hg0.
    rewrite multiplicity_disj_union, multiplicity_singleton.
    destruct (decide (g = h')) as [-> | Hne].
    + rewrite Hpg' in Hg0. injection Hg0 as <-. simpl. rewrite (Habs pid Hfresh).
      apply not_elem_of_multiplicity in HhL. lia.
    + rewrite (Hother g Hne) in Hg0. rewrite (Hpin g pg0 Hg0 Hv0). lia.
  - intros g Hg. unfold frame, pool. simpl.
    destruct (decide (g = h')) as [-> | Hne].
    + rewrite Hpg'. eexists. split; [done |]. simpl.
      destruct (pool_wf_table_holds _ _ _ Hwf' Htab') as (? & _ & _ & ?). done.
    + rewrite (Hother g Hne). apply Hheld.
      apply gmultiset_elem_of_disj_union in Hg as [Hg | Hg]; [done |].
      by apply gmultiset_elem_of_singleton in Hg.
  - intros q Hq. unfold pool in Hq. simpl in Hq.
    assert (q ≠ pid) as Hne by congruence.
    assert (pin_count_of b' q = 0) as Hzq by (unfold pin_count_of; by rewrite Hq).
    rewrite Hcount, decide_False in Hzq by done.
    rewrite (ledger_pin_count_of _ _ _ q Hl) in Hzq. specialize (Hpin0 q).
    destruct (page_table_ (pool s) !! q); lia.
Qed.

(** ** Every function of the index handle gives back the pins it takes

    [wpp] is [wp] with every exception allowed: what holds when the
    function returns. *)

Abbreviation wpp := (wp (λ _, True)).

Lemma wpp_run {A} (m : M IxState A) s (Q : A → IxState → Prop) :
  (∀ a s', m s = Ok a s' → Q a s') → wpp m s Q.
Proof. intros H. by apply wp_run. Qed.

Section Balance.
Context (pin0 : PageId → Z).

Lemma wpp_quiet {A} (m : M IxState A) L s (Q : A → IxState → Prop) :
  quiet m → ledger pin0 L s → (∀ a s', ledger pin0 L s' → Q a s') → wpp m s Q.
Proof.
  intros Hq Hl HQ. apply wpp_run. intros a s' H. apply HQ.
  eapply ledger_quiet; [done | by eapply Hq].
Qed.

Lemma wpp_fetch_node p L s (Q : IxNodeHandle → IxState → Prop) :
  ledger pin0 L s → (∀ h s', ledger pin0 (L ⊎ {[+ h +]}) s' → Q h s') →
  wpp (fetch_node p) s Q.
Proof.
  intros Hl HQ. apply wpp_run. intros h s' H. apply HQ.
  by destruct (fetch_node_ledger _ _ _ _ _ _ Hl H).
Qed.

Lemma wpp_create_node L s (Q : IxNodeHandle → IxState → Prop) :
  ledger pin0 L s → (∀ h s', ledger pin0 (L ⊎ {[+ h +]}) s' → Q h s') →
  wpp create_node s Q.
Proof.
  intros Hl HQ. apply wpp_run. intros h s' H. apply HQ.
  by destruct (create_node_ledger _ _ _ _ _ Hl H).
Qed.

Lemma wpp_unpin_node h d L s (Q : bool → IxState → Prop) :
  ledger pin0 (L ⊎ {[+ h +]}) s → (∀ s', ledger pin0 L s' → Q true s') →
  wpp (unpin_node h d) s Q.
Proof.
  intros Hl HQ. apply wpp_run. intros r s' H.
  assert (h ∈ L ⊎ {[+ h +]}) as Hh by multiset_solver.
  destruct (unpin_node_ledger _ _ _ _ _ _ _ Hl Hh H) as (-> & Hl' & _).
  apply HQ. eapply ledger_proper; [| exact Hl']. multiset_solver.
Qed.

(** Bring the ledger to the shape [L ⊎ {[+ h +]}] that [wpp_unpin_node] takes. *)
Lemma ledger_move L L' s : L' = L → ledger pin0 L s → ledger pin0 L' s.
Proof. by intros ->. Qed.

Ltac wp_quiet :=
  cbv beta in *;
  match goal with
  | Hl : ledger _ _ ?s |- wp _ (bind _ _) ?s _ =>
      apply wp_bind; eapply wpp_quiet; [by eauto with quiet | exact Hl | clear Hl; intros ? ? Hl]
  | Hl : ledger _ _ ?s |- wp _ _ ?s _ =>
      eapply wpp_quiet; [by eauto with quiet | exact Hl | clear Hl; intros ? ? Hl]
  end.

Ltac wp_unpin h :=
  cbv beta in *;
  match goal with
  | Hl : ledger _ ?L ?s |- wp _ (bind (unpin_node h _) _) ?s _ =>
      apply wp_bind; eapply (wpp_unpin_node h _ (L ∖ {[+ h +]}));
      [eapply ledger_move; [| exact Hl]; multiset_solver | clear Hl; intros ? Hl]
  | Hl : ledger _ ?L ?s |- wp _ (unpin_node h _) ?s _ =>
      eapply (wpp_unpin_node h _ (L ∖ {[+ h +]}));
      [eapply ledger_move; [| exact Hl]; multiset_solver | clear Hl; intros ? Hl]
  end.

Ltac wp_fetch :=
  cbv beta in *;
  match goal with
  | Hl : ledger _ _ ?s |- wp _ (bind (fetch_node _) _) ?s _ =>
      apply wp_bind; eapply wpp_fetch_node; [exact Hl | clear Hl; intros ? ? Hl]
  | Hl : ledger _ _ ?s |- wp _ (bind create_node _) ?s _ =>
      apply wp_bind; eapply wpp_create_node; [exact Hl | clear Hl; intros ? ? Hl]
  end.

Ltac wp_if :=
  cbv beta in *;
  match goal with
  | |- wp _ (if ?c then _ else _) _ _ => destruct c
  | |- wp _ (bind (if ?c then _ else _) _) _ _ => destruct c
  end.

Ltac lg :=
  cbv beta in *;
  match goal with
  | Hl : ledger _ _ ?s |- ledger _ _ ?s => eapply ledger_move; [| exact Hl]; multiset_solver
  end.

Ltac wp_done :=
  cbv beta in *;
  match goal with
  | Hl : ledger _ _ ?s |- wp _ (ret _) ?s _ => apply wp_ret; try lg
  end.

Lemma wpp_maintain_child node i L s :
  ledger pin0 L s → wpp (maintain_child node i) s (λ _ s', ledger pin0 L s').
Proof.
  intros Hl. unfold maintain_child. wp_quiet.
  wp_if; [by wp_done |].
  wp_quiet. wp_fetch. wp_quiet. wp_quiet. wp_unpin h. by wp_done.
Qed.

Lemma wpp_for_each {A} (l : list A) (body : A → M IxState unit) L s :
  (∀ a s, ledger pin0 L s → wpp (body a) s (λ _ s', ledger pin0 L s')) →
  ledger pin0 L s → wpp (for_each l body) s (λ _ s', ledger pin0 L s').
Proof.
  intros Hbody. revert s. induction l as [| a l IH]; intros s Hl; simpl.
  - by apply wp_ret.
  - apply wp_bind. eapply wp_mono; [by apply Hbody |]. intros [] z Hz. by apply IH.
Qed.

Lemma wpp_maintain_parent fuel curr L s :
  ledger pin0 L s → wpp (maintain_parent fuel curr) s (λ _ s', ledger pin0 L s').
Proof.
  revert curr s. induction fuel as [| fuel IH]; intros curr s Hl; simpl; [done |].
  wp_quiet. wp_if; [by wp_done |].
  wp_fetch. wp_quiet. wp_quiet. wp_quiet.
  wp_if.
  - wp_unpin h. apply wp_assert; [done |]. intros _. lg.
  - wp_quiet. wp_unpin h. apply wp_bind, wp_assert; [done |]. intros _. apply IH. lg.
Qed.

Lemma wpp_split node L s :
  ledger pin0 L s → wpp (split node) s (λ new_node s', ledger pin0 (L ⊎ {[+ new_node +]}) s').
Proof.
  intros Hl. unfold split. wp_fetch. do 6 wp_quiet.
  apply wp_bind.
  apply (wp_mono _ _ _ (λ _ s', ledger pin0 (L ⊎ {[+ h +]}) s')); [| intros [] z1 Hz1; by wp_done].
  wp_if.
  - do 7 wp_quiet.
    apply wp_bind.
    apply (wp_mono _ _ _ (λ _ s', ledger pin0 (L ⊎ {[+ h +]}) s')).
    + wp_if; [by wp_done |].
      wp_fetch. wp_quiet. wp_unpin h0. by wp_done.
    + intros [] z2 Hz2. do 2 wp_quiet.
      wp_if; [wp_quiet; lg | by wp_done].
  - wp_quiet. apply wpp_for_each; [| done].
    intros i z3 Hz3. by apply wpp_maintain_child.
Qed.

Lemma wpp_insert_into_parent fuel old_node key new_node L s :
  ledger pin0 L s →
  wpp (insert_into_parent fuel old_node key new_node) s (λ _ s', ledger pin0 L s').
Proof.
  revert old_node key new_node L s.
  induction fuel as [| fuel IH]; intros old_node key new_node L s Hl; simpl; [done |].
  wp_quiet. wp_if.
  - wp_fetch. do 12 wp_quiet. wp_unpin h. by wp_done.
  - wp_fetch. do 7 wp_quiet.
    apply wp_bind.
    apply (wp_mono _ _ _ (λ _ s', ledger pin0 (L ⊎ {[+ h +]}) s')).
    + wp_if; [| by wp_done].
      apply wp_bind. eapply wp_mono; [by apply wpp_split |]. intros parent_new z4 Hz4.
      wp_quiet. apply wp_bind. eapply wp_mono; [by apply IH |]. intros [] z5 Hz5.
      wp_unpin parent_new. by wp_done.
    + intros [] z6 Hz6. wp_unpin h. by wp_done.
Qed.

Lemma wpp_descend fuel node key L s :
  ledger pin0 (L ⊎ {[+ node +]}) s →
  wpp (descend fuel node key) s (λ leaf s', ledger pin0 (L ⊎ {[+ leaf +]}) s').
Proof.
  revert node s. induction fuel as [| fuel IH]; intros node s Hl; simpl; [done |].
  wp_quiet. wp_if; [by wp_done |].
  wp_quiet. wp_unpin node. wp_fetch.
  apply IH. lg.
Qed.

Lemma wpp_find_leaf_page fuel key L s :
  ledger pin0 L s →
  wpp (find_leaf_page fuel key) s
    (λ r s', match r with
             | Some leaf => ledger pin0 (L ⊎ {[+ leaf +]}) s'
             | None => ledger pin0 L s'
             end).
Proof.
  intros Hl. unfold find_leaf_page. wp_quiet.
  wp_if; [by wp_done |].
  wp_fetch. apply wp_bind. eapply wp_mono; [by apply wpp_descend |].
  intros leaf z7 Hz7. by apply wp_ret.
Qed.

Lemma wpp_get_value fuel key L s :
  ledger pin0 L s → wpp (get_value fuel key) s (λ _ s', ledger pin0 L s').
Proof.
  intros Hl. unfold get_value.
  apply wp_bind. eapply wp_mono; [by apply wpp_find_leaf_page |].
  intros [leaf |] z8 Hz8; [| by wp_done].
  wp_quiet. wp_unpin leaf. by wp_done.
Qed.

Lemma wpp_insert_entry fuel key value L s :
  ledger pin0 L s → wpp (insert_entry fuel key value) s (λ _ s', ledger pin0 L s').
Proof.
  intros Hl. unfold insert_entry.
  apply wp_bind. eapply wp_mono; [by apply wpp_find_leaf_page |].
  intros [leaf |] z9 Hz9; [| by wp_done].
  do 2 wp_quiet. wp_if.
  - wp_unpin leaf. wp_quiet. lg.
  - wp_quiet.
    apply wp_bind.
    apply (wp_mono _ _ _ (λ _ s', ledger pin0 (L ⊎ {[+ leaf +]}) s')).
    { wp_if; [by apply wpp_maintain_parent | by wp_done]. }
    intros [] z10 Hz10. do 3 wp_quiet.
    apply wp_bind.
    apply (wp_mono _ _ _ (λ _ s', ledger pin0 (L ⊎ {[+ leaf +]}) s')).
    { wp_if; [| by wp_done].
      apply wp_bind. eapply wp_mono; [by apply wpp_split |]. intros new_leaf z11 Hz11.
      wp_quiet. apply wp_bind.
      apply (wp_mono _ _ _ (λ _ s', ledger pin0 (L ⊎ {[+ leaf +]} ⊎ {[+ new_leaf +]}) s')).
      { wp_if; [wp_quiet; lg | by wp_done]. }
      intros ret_page z12 Hz12.
      apply wp_bind. eapply wp_mono; [by apply wpp_insert_into_parent |]. intros [] z13 Hz13.
      wp_unpin new_leaf. by wp_done. }
    intros ret_page z14 Hz14. do 3 wp_quiet.
    apply wp_bind.
    apply (wp_mono _ _ _ (λ _ s', ledger pin0 (L ⊎ {[+ leaf +]}) s')).
    { wp_if; [wp_quiet; lg | by wp_done]. }
    intros [] z15 Hz15. wp_unpin leaf. by wp_done.
Qed.

Lemma wpp_adjust_root node L s :
  ledger pin0 L s → wpp (adjust_root node) s (λ _ s', ledger pin0 L s').
Proof.
  intros Hl. unfold adjust_root. wp_quiet. wp_if.
  - do 2 wp_quiet. wp_fetch. wp_quiet. wp_unpin h. by wp_done.
  - wp_if; [| by wp_done]. do 3 wp_quiet. by wp_done.
Qed.

Lemma wpp_redistribute neighbor node parent_h index L s :
  ledger pin0 L s →
  wpp (redistribute neighbor node parent_h index) s (λ _ s', ledger pin0 L s').
Proof.
  intros Hl. unfold redistribute. wp_if.
  - do 6 wp_quiet. apply wp_bind.
    apply (wp_mono _ _ _ (λ _ s', ledger pin0 L s')).
    + wp_if; [by wp_done |]. wp_quiet. by apply wpp_maintain_child.
    + intros [] z1 Hz1. wp_quiet. wp_quiet. lg.
  - do 6 wp_quiet. apply wp_bind.
    apply (wp_mono _ _ _ (λ _ s', ledger pin0 L s')).
    + wp_if; [by wp_done |]. by apply wpp_maintain_child.
    + intros [] z1 Hz1. wp_quiet. wp_quiet. lg.
Qed.

Lemma wpp_coalesce neighbor node parent_h index L s :
  ledger pin0 L s →
  wpp (coalesce neighbor node parent_h index) s
    (λ r s', ledger pin0 L s' ∧
             ({[+ r.1.1 +]} ⊎ {[+ r.1.2 +]} : gmultiset frame_id_t)
             = {[+ neighbor +]} ⊎ {[+ node +]}).
Proof.
  intros Hl. unfold coalesce.
  assert (∀ nb nd idx,
    ({[+ nb +]} ⊎ {[+ nd +]} : gmultiset frame_id_t) = {[+ neighbor +]} ⊎ {[+ node +]} →
    wpp (let left := nb in
         let right := nd in
         let* left_origin := get_size left in
         let* rd := node_of right in
         insert_pairs left left_origin (pairs rd) ;;
         let* ld := node_of left in
         (if negb (is_leaf ld) then
            let* sz := get_size left in
            for_each (index_range left_origin sz) (maintain_child left)
          else
            let* rd := node_of right in
            update_node left (set_next (next_leaf rd)) ;;
            let* rd := node_of right in
            (if next_leaf rd =? IX_NO_PAGE then ret tt
             else
               let* next := fetch_node (next_leaf rd) in
               let* left_no := get_page_no left in
               update_node next (set_prev left_no) ;;
               unpin_node next true ;;
               ret tt) ;;
            let* right_no := get_page_no right in
            let* left_no := get_page_no left in
            set_hdr (λ h, if last_leaf_ h =? right_no then set_last_leaf left_no h else h) ;;
            set_hdr (λ h, if first_leaf_ h =? right_no then set_first_leaf left_no h else h)) ;;
         erase_pair parent_h idx ;;
         update_node right (set_pairs []) ;;
         let* pd := node_of parent_h in
         let* mn := get_min_size in
         let delete_parent :=
           if parent pd =? IX_NO_PAGE then num_key pd <=? 1 else num_key pd <? mn in
         ret (nb, nd, delete_parent)) s
      (λ r s', ledger pin0 L s' ∧
               ({[+ r.1.1 +]} ⊎ {[+ r.1.2 +]} : gmultiset frame_id_t)
               = {[+ neighbor +]} ⊎ {[+ node +]})) as Hbody.
  { intros nb nd idx Heq. cbv zeta. do 4 wp_quiet. apply wp_bind.
    apply (wp_mono _ _ _ (λ _ s', ledger pin0 L s')).
    - wp_if.
      + wp_quiet. apply wpp_for_each; [| done]. intros i z1 Hz1. by apply wpp_maintain_child.
      + do 3 wp_quiet. apply wp_bind.
        apply (wp_mono _ _ _ (λ _ s', ledger pin0 L s')).
        * wp_if; [by wp_done |]. wp_fetch. do 2 wp_quiet. wp_unpin h. by wp_done.
        * intros [] z2 Hz2. do 3 wp_quiet. wp_quiet. lg.
    - intros [] z3 Hz3. do 4 wp_quiet. apply wp_ret. split; [lg | done]. }
  destruct (index =? 0); apply Hbody; multiset_solver.
Qed.

Lemma wpp_coalesce_or_redistribute fuel node L s :
  ledger pin0 (L ⊎ {[+ node +]}) s →
  wpp (coalesce_or_redistribute fuel node) s (λ _ s', ledger pin0 L s').
Proof.
  revert node L s. induction fuel as [| fuel IH]; intros node L s Hl; simpl; [done |].
  wp_quiet. wp_if.
  - apply wp_bind. eapply wp_mono; [by apply wpp_adjust_root |]. intros r z1 Hz1.
    wp_unpin node. by wp_done.
  - wp_quiet. wp_if.
    + wp_unpin node. by wp_done.
    + wp_fetch. do 2 wp_quiet. wp_fetch. do 2 wp_quiet. wp_if.
      * apply wp_bind. eapply wp_mono; [by apply wpp_redistribute |]. intros [] z2 Hz2.
        wp_unpin h0. wp_unpin h. wp_unpin node. by wp_done.
      * apply wp_bind. eapply wp_mono; [by apply wpp_coalesce |].
        intros [[nb nd] del] z3 [Hz3 Heq]. simpl in Heq.
        assert (ledger pin0 (L ⊎ {[+ h +]} ⊎ {[+ nd +]} ⊎ {[+ nb +]}) z3) as Hz3'.
        { eapply ledger_move; [| exact Hz3].
          rewrite <- (assoc_L (⊎) _ {[+ nd +]}), (comm_L (⊎) {[+ nd +]}), Heq.
          multiset_solver. }
        clear Hz3 Hl Heq.
        destruct del.
        -- wp_unpin nb. wp_unpin nd. apply IH. lg.
        -- wp_unpin nb. wp_unpin h. wp_unpin nd. by wp_done.
Qed.

Lemma wpp_delete_entry fuel key transaction L s :
  ledger pin0 L s → wpp (delete_entry fuel key transaction) s (λ _ s', ledger pin0 L s').
Proof.
  intros Hl. unfold delete_entry.
  apply wp_bind. eapply wp_mono; [by apply wpp_find_leaf_page |].
  intros [leaf |] z1 Hz1; [| by wp_done].
  do 3 wp_quiet. wp_if.
  - wp_unpin leaf. by wp_done.
  - apply wp_bind.
    apply (wp_mono _ _ _ (λ _ s', ledger pin0 (L ⊎ {[+ leaf +]}) s')).
    { wp_if; [by apply wpp_maintain_parent | by wp_done]. }
    intros [] z2 Hz2.
    apply wp_bind. eapply wp_mono; [by apply wpp_coalesce_or_redistribute |].
    intros need_delete z3 Hz3.
    apply wp_bind.
    apply (wp_mono _ _ _ (λ _ s', ledger pin0 L s')); [| intros [] z4 Hz4; by wp_done].
    wp_if; [| by wp_done].
    wp_quiet. apply wp_bind. apply wpp_run. intros [pg |] z5 Hf; [| done].
    destruct (fetch_page_ledger _ _ _ _ _ _ Hz3 Hf) as (Hz5 & _).
    wp_unpin pg. by wp_done.
Qed.

End Balance.

(** C9.  From a state whose buffer pool is well formed (as it is in every
    state the index reaches), [get_value], [insert_entry] and
    [delete_entry] unpin every page they pin: when the operation returns,
    every page has the pin count it had when the operation was entered, and
    the pool is well formed again. *)
Theorem index_operations_restore_pins (s : IxState) :
  pool_wf (pool s) →
  (∀ fuel key r s', get_value fuel key s = Ok r s' →
     pool_wf (pool s') ∧ ∀ q, pin_count_of (pool s') q = pin_count_of (pool s) q) ∧
  (∀ fuel key value r s', insert_entry fuel key value s = Ok r s' →
     pool_wf (pool s') ∧ ∀ q, pin_count_of (pool s') q = pin_count_of (pool s) q) ∧
  (∀ fuel key transaction r s', delete_entry fuel key transaction s = Ok r s' →
     pool_wf (pool s') ∧ ∀ q, pin_count_of (pool s') q = pin_count_of (pool s) q).
Proof.
  intros Hwf. pose proof (ledger_start s Hwf) as Hl.
  split; [| split].
  - intros fuel key r s' H.
    pose proof (wp_ok _ _ _ _ _ _ (wpp_get_value _ fuel key _ _ Hl) H) as Hl'.
    split; [by destruct Hl' |]. intros q. by apply ledger_end.
  - intros fuel key value r s' H.
    pose proof (wp_ok _ _ _ _ _ _ (wpp_insert_entry _ fuel key value _ _ Hl) H) as Hl'.
    split; [by destruct Hl' |]. intros q. by apply ledger_end.
  - intros fuel key transaction r s' H.
    pose proof (wp_ok _ _ _ _ _ _ (wpp_delete_entry _ fuel key transaction _ _ Hl) H) as Hl'.
    split; [by destruct Hl' |]. intros q. by apply ledger_end.
Qed.



(** ** Runs of the node accessors *)

Ltac mnorm := repeat (first [rewrite ret_bind | rewrite bind_assoc]).

(** The index after the bytes of the frame of [h] are set to [nd]. *)
Definition put_node (h : IxNodeHandle) (nd : Node Key) (s : IxState) : IxState :=
  match frame s h with
  | Some pg =>
      mkIx (file_hdr_ s)
           (set_pages (λ l, <[h := mkPage (id_ pg) nd (is_dirty_ pg) (pin_count_ pg)]> l) (pool s))
           (fd_ s)
  | None => s
  end.

Lemma file_hdr_put_node h nd s : file_hdr_ (put_node h nd s) = file_hdr_ s.
Proof. unfold put_node. by destruct (frame s h). Qed.

Lemma fd_put_node h nd s : fd_ (put_node h nd s) = fd_ s.
Proof. unfold put_node. by destruct (frame s h). Qed.

Lemma frame_put_node_eq h nd s pg :
  frame s h = Some pg →
  frame (put_node h nd s) h = Some (mkPage (id_ pg) nd (is_dirty_ pg) (pin_count_ pg)).
Proof.
  intros Hh. unfold put_node. rewrite Hh. unfold frame, pool in *. simpl.
  apply list_lookup_insert_eq. by eapply lookup_lt_Some.
Qed.

Lemma frame_put_node_ne h nd s g : g ≠ h → frame (put_node h nd s) g = frame s g.
Proof.
  intros Hne. unfold put_node. destruct (frame s h) as [pg |]; [| done].
  unfold frame, pool. simpl. by apply list_lookup_insert_ne.
Qed.

Lemma data_only_put_node h nd s : data_only (pool s) (pool (put_node h nd s)).
Proof.
  unfold put_node. destruct (frame s h) as [pg |] eqn:Hh; [| apply data_only_refl].
  by apply (data_only_store _ _ pg).
Qed.

Lemma node_of_run s h pg : frame s h = Some pg → node_of h s = Ok (data_ pg) s.
Proof.
  intros Hh. unfold node_of, bind, bpm, ret. fold (pool s).
  rewrite (page_at_ok _ _ _ Hh). by destruct s.
Qed.

Lemma get_page_id_run s h pg : frame s h = Some pg → get_page_id h s = Ok (id_ pg) s.
Proof.
  intros Hh. unfold get_page_id, bind, bpm, ret. fold (pool s).
  rewrite (page_at_ok _ _ _ Hh). by destruct s.
Qed.

Lemma update_node_run s h f pg :
  frame s h = Some pg → update_node h f s = Ok tt (put_node h (f (data_ pg)) s).
Proof.
  intros Hh. unfold update_node, put_node, bpm, bind. fold (pool s).
  by rewrite Hh, (page_at_ok _ _ _ Hh).
Qed.



(** C7.  [adjust_root] on a handle of the root.  An internal root with
    exactly one entry: the root page number of the header becomes that
    child, the child's parent becomes [IX_NO_PAGE] (the child is fetched,
    changed and unpinned dirty), and the result is true.  A leaf root with
    no entry: root page number, first leaf and last leaf become
    [IX_NO_PAGE] and the result is true.  Any other root: the result is
    false and the state is as before. *)
Theorem adjust_root_spec (s : IxState) (h : IxNodeHandle) (pg : Page (Node Key)) :
  pool_wf (pool s) → frame s h = Some pg →
  (∀ k r cnd,
     is_leaf (data_ pg) = false → pairs (data_ pg) = [(k, r)] →
     mkPageId (fd_ s) (rid_page_no r) ≠ id_ pg →
     page_content (pool s) (mkPageId (fd_ s) (rid_page_no r)) = Some cnd →
     has_room (pool s) (mkPageId (fd_ s) (rid_page_no r)) →
     ∃ s', adjust_root h s = Ok true s' ∧
       file_hdr_ s' = set_root_page (rid_page_no r) (file_hdr_ s) ∧ fd_ s' = fd_ s ∧
       page_content (pool s') (mkPageId (fd_ s) (rid_page_no r))
         = Some (set_parent IX_NO_PAGE cnd) ∧
       dirty_of (pool s') (mkPageId (fd_ s) (rid_page_no r)) = true ∧
       pool_wf (pool s') ∧
       ∀ q, pin_count_of (pool s') q = pin_count_of (pool s) q) ∧
  (is_leaf (data_ pg) = true → num_key (data_ pg) = 0 →
     adjust_root h s =
       Ok true (mkIx (mkFileHdr IX_NO_PAGE IX_NO_PAGE IX_NO_PAGE
                        (num_pages_ (file_hdr_ s)) (max_size_ (file_hdr_ s)))
                     (pool s) (fd_ s))) ∧
  (¬ (is_leaf (data_ pg) = false ∧ num_key (data_ pg) = 1) →
   ¬ (is_leaf (data_ pg) = true ∧ num_key (data_ pg) = 0) →
     adjust_root h s = Ok false s).
Proof.
  intros Hwf Hh. pose proof (node_of_run _ _ _ Hh) as Hnode.
  split; [| split].
  - intros k r cnd Hleaf Hpairs Hne Hc Hroom.
    set (child := mkPageId (fd_ s) (rid_page_no r)) in *.
    set (root' := mkPage (id_ pg) (set_pairs [] (data_ pg)) (is_dirty_ pg) (pin_count_ pg)).
    set (b1 := set_pages (λ l, <[h := root']> l) (pool s)).
    assert (pool_wf b1) as Hwf1
      by (eapply data_only_wf; [by apply (data_only_store _ _ pg) | done]).
    assert (page_content b1 child = Some cnd) as Hc1
      by (unfold b1, root'; by rewrite page_content_data_only_ne).
    assert (has_room b1 child) as Hroom1 by exact Hroom.
    destruct (fetch_page_content _ _ _ Hwf1 Hc1 Hroom1) as (f & b2 & Hfetch & Ht2 & Hf2).
    destruct (fetch_page_spec _ _ _ _ Hwf1 Hfetch) as (Hwf2 & _ & _ & _ & _ & Hcount2 & _).
    set (pg2 := mkPage child cnd (dirty_of b1 child) (pin_count_of b1 child + 1)) in *.
    set (pg3 := mkPage child (set_parent IX_NO_PAGE cnd) (dirty_of b1 child)
                  (pin_count_of b1 child + 1)).
    set (b3 := set_pages (λ l, <[f := pg3]> l) b2).
    assert (data_only b2 b3) as Hd3 by apply (data_only_store _ _ pg2 _ Hf2).
    assert (pool_wf b3) as Hwf3 by (by eapply data_only_wf).
    assert (pages_ b3 !! f = Some pg3) as Hf3
      by (simpl; apply list_lookup_insert_eq; by eapply lookup_lt_Some).
    assert (0 ≤ pin_count_of b1 child) as Hnn.
    { unfold pin_count_of. destruct (page_table_ b1 !! child) as [g |]; [| done].
      destruct (pages_ b1 !! g) as [pg' |] eqn:Hg; [| done]. exact (wf_pin _ Hwf1 _ _ Hg). }
    destruct (unpin_page_cases b3 child true) as (_ & _ & Hun).
    destruct (Hun f pg3 Ht2 Hf3) as (b4 & Hunpin & Hpages4 & _ & Htab4 & _ & _);
      [simpl; lia |].
    destruct (unpin_page_wf _ _ _ _ _ Hwf3 Hunpin) as (Hwf4 & _ & Hcount4 & _).
    exists (mkIx (set_root_page (rid_page_no r) (file_hdr_ s)) b4 (fd_ s)).
    split.
    { set (s1 := mkIx (file_hdr_ s) b1 (fd_ s)).
      set (s1' := mkIx (set_root_page (rid_page_no r) (file_hdr_ s)) b1 (fd_ s)).
      set (s2 := mkIx (set_root_page (rid_page_no r) (file_hdr_ s)) b2 (fd_ s)).
      set (s3 := mkIx (set_root_page (rid_page_no r) (file_hdr_ s)) b3 (fd_ s)).
      assert (frame s1 h = Some root') as Hh1
        by (unfold frame; simpl; apply list_lookup_insert_eq; by eapply lookup_lt_Some).
      assert (erase_pair h 0 s = Ok tt s1) as Herase.
      { unfold erase_pair. rewrite (bind_ok _ _ _ _ _ Hnode).
        unfold num_key. rewrite Hpairs. simpl. rewrite ret_bind.
        rewrite (update_node_run _ _ _ _ Hh). unfold put_node. rewrite Hh.
        by rewrite Hpairs. }
      assert (remove_and_return_only_child h s = Ok (rid_page_no r) s1) as Hrem.
      { unfold remove_and_return_only_child, get_size, value_at, get_rid.
        repeat first [ rewrite ret_bind | rewrite bind_assoc
                     | rewrite (bind_ok _ _ _ _ _ Hnode)
                     | rewrite (bind_ok _ _ _ _ _ Herase)
                     | rewrite (bind_ok _ _ _ _ _ (node_of_run _ _ _ Hh1))
                     | rewrite Hpairs | progress unfold num_key, slot | progress simpl ].
        done. }
      assert (fetch_node (rid_page_no r) s1' = Ok f s2) as Hfn.
      { unfold fetch_node, bind, gets, bpm. simpl. fold child. by rewrite Hfetch. }
      assert (update_node f (set_parent IX_NO_PAGE) s2 = Ok tt s3) as Hup.
      { rewrite (update_node_run _ _ _ pg2) by done. unfold put_node, frame, pool. simpl.
        by rewrite Hf2. }
      assert (unpin_node f true s3 = Ok true
                (mkIx (set_root_page (rid_page_no r) (file_hdr_ s)) b4 (fd_ s))) as Hun4.
      { unfold unpin_node. rewrite (bind_ok _ _ _ _ _ (get_page_id_run s3 f pg3 Hf3)).
        unfold bpm. simpl. by rewrite Hunpin. }
      unfold adjust_root. rewrite (bind_ok _ _ _ _ _ Hnode).
      unfold num_key. rewrite Hleaf, Hpairs. simpl.
      rewrite (bind_ok _ _ _ _ _ Hrem).
      unfold update_root_page_no, set_hdr. unfold bind at 1. unfold modify at 1.
      cbn [file_hdr_ buffer_pool_manager_ fd_]. fold s1'.
      rewrite (bind_ok _ _ _ _ _ Hfn), (bind_ok _ _ _ _ _ Hup), (bind_ok _ _ _ _ _ Hun4).
      done. }
    split; [done |]. split; [done |].
    assert (pages_ b4 !! f = Some (mkPage child (set_parent IX_NO_PAGE cnd) true
                                     (pin_count_of b1 child))) as Hf4.
    { rewrite Hpages4, list_lookup_insert_eq by (by eapply lookup_lt_Some).
      simpl. f_equal. f_equal. lia. }
    unfold page_content, dirty_of, pool. cbn [buffer_pool_manager_].
    rewrite Htab4. change (page_table_ b3) with (page_table_ b2). rewrite Ht2, Hf4.
    split; [done |]. split; [done |]. split; [done |].
    intros q. rewrite Hcount4.
    rewrite (data_only_pin_count_of _ _ q Hd3), Hcount2.
    rewrite (data_only_pin_count_of (pool s) b1 q) by (by apply (data_only_store _ _ pg)).
    fold (pool s). destruct (decide (q = child)); lia.
  - intros Hleaf Hnum. unfold adjust_root. rewrite (bind_ok _ _ _ _ _ Hnode).
    rewrite Hleaf, Hnum. simpl. by destruct s as [[]].
  - intros H1 H2. unfold adjust_root. rewrite (bind_ok _ _ _ _ _ Hnode).
    destruct (is_leaf (data_ pg)); simpl.
    + destruct (Z.eqb_spec (num_key (data_ pg)) 0); [by destruct H2 | done].
    + destruct (Z.eqb_spec (num_key (data_ pg)) 1); [by destruct H1 | done].
Qed.

End Pins.

(** * The pages of the index seen through the pool *)

Section Store.
Context {Key : Type} `{!IxParams Key}.

Abbreviation IxSt := (IxIndexHandle Key).
Abbreviation Store := (gmap page_id_t (Node Key)).

Definition pid (s : IxSt) (p : page_id_t) : PageId := mkPageId (fd_ s) p.

(** The frame of [h] holds page [p] of the index file. *)
Definition handle (s : IxSt) (h : IxNodeHandle) (p : page_id_t) : Prop :=
  ∃ pg, frame s h = Some pg ∧ id_ pg = pid s p ∧ p ≠ INVALID_PAGE_ID.

(** The state of the pool while the index works on it: [σ] is what the
    pages of the file hold, [P] the pins the running operation has taken
    and not yet given back (no one else pins), and [D] the pages it has
    changed in their frames without marking them dirty yet. *)
Record rep (σ : Store) (P : gmultiset page_id_t) (D : gset page_id_t) (s : IxSt) : Prop := {
  rep_ok : ∃ D', pool_ok D' (pool s) ∧ ∀ q, q ∈ D' → fd q = fd_ s ∧ page_no q ∈ D;
  rep_content : ∀ p, page_content (pool s) (pid s p) = σ !! p;
  rep_pins : ∀ q, pin_count_of (pool s) q =
                  if decide (fd q = fd_ s) then Z.of_nat (multiplicity (page_no q) P) else 0
}.

Lemma rep_wf σ P D s : rep σ P D s → pool_wf (pool s).
Proof. intros [(D' & [? _ _] & _) _ _]. done. Qed.

Lemma rep_pin_pid σ P D s p :
  rep σ P D s → pin_count_of (pool s) (pid s p) = Z.of_nat (multiplicity p P).
Proof. intros Hr. rewrite (rep_pins _ _ _ _ Hr). simpl. by rewrite decide_True. Qed.

Lemma rep_mono σ P D D2 s : D ⊆ D2 → rep σ P D s → rep σ P D2 s.
Proof.
  intros Hsub [(D' & Hok & HD') Hc Hp]. split; [| done | done].
  exists D'. split; [done |]. intros q Hq. destruct (HD' q Hq) as [? ?]. split; [done |].
  by apply Hsub.
Qed.

Lemma rep_proper σ P P2 D s : P = P2 → rep σ P D s → rep σ P2 D s.
Proof. by intros ->. Qed.

(** Between operations nothing is pinned, so nothing is left to mark. *)
Lemma rep_rest σ D s : rep σ ∅ D s → rep σ ∅ ∅ s.
Proof.
  intros Hr. pose proof Hr as [(D' & Hok & HD') Hc Hp]. split; [| done | done].
  exists D'. split; [done |]. intros q Hq.
  pose proof (ok_debt _ _ Hok q Hq) as Hpin. rewrite Hp in Hpin.
  destruct (decide (fd q = fd_ s)); [| lia]. rewrite multiplicity_empty in Hpin. lia.
Qed.

Lemma handle_frame σ P D s h p :
  rep σ P D s → handle s h p →
  ∃ pg, frame s h = Some pg ∧ id_ pg = pid s p ∧ p ≠ INVALID_PAGE_ID ∧
    page_table_ (pool s) !! pid s p = Some h ∧ σ !! p = Some (data_ pg) ∧
    pin_count_ pg = Z.of_nat (multiplicity p P).
Proof.
  intros Hr (pg & Hh & Hid & Hv). exists pg. split; [done |]. split; [done |]. split; [done |].
  assert (page_table_ (pool s) !! pid s p = Some h) as Ht.
  { rewrite <- Hid. apply pool_wf_holds_table; [by eapply rep_wf | done |]. by rewrite Hid. }
  split; [done |]. split.
  - rewrite <- (rep_content _ _ _ _ Hr). unfold page_content. rewrite Ht.
    unfold frame in Hh. by rewrite Hh.
  - rewrite <- (rep_pin_pid _ _ _ _ _ Hr). unfold pin_count_of. rewrite Ht.
    unfold frame in Hh. by rewrite Hh.
Qed.

Lemma handle_inj σ P D s h p q :
  rep σ P D s → handle s h p → handle s h q → p = q.
Proof.
  intros Hr (pg & Hh & Hid & _) (pg' & Hh' & Hid' & _).
  assert (pg' = pg) as -> by congruence. rewrite Hid in Hid'. by injection Hid'.
Qed.

Lemma handle_unique σ P D s h g p :
  rep σ P D s → handle s h p → handle s g p → h = g.
Proof.
  intros Hr Hh Hg.
  destruct (handle_frame _ _ _ _ _ _ Hr Hh) as (_ & _ & _ & _ & Ht & _).
  destruct (handle_frame _ _ _ _ _ _ Hr Hg) as (_ & _ & _ & _ & Ht' & _). congruence.
Qed.

Lemma node_of_rep σ P D s h p :
  rep σ P D s → handle s h p → ∃ nd, σ !! p = Some nd ∧ node_of h s = Ok nd s.
Proof.
  intros Hr Hh. destruct (handle_frame _ _ _ _ _ _ Hr Hh) as (pg & Hf & _ & _ & _ & Hs & _).
  exists (data_ pg). split; [done |]. by apply node_of_run.
Qed.

Lemma get_page_no_run s h p : handle s h p → get_page_no h s = Ok p s.
Proof.
  intros (pg & Hh & Hid & _). unfold get_page_no, bind, bpm, ret. fold (pool s).
  unfold frame in Hh. rewrite (page_at_ok _ _ _ Hh), Hid. by destruct s.
Qed.

Lemma get_page_id_handle s h p : handle s h p → get_page_id h s = Ok (pid s p) s.
Proof. intros (pg & Hh & Hid & _). rewrite <- Hid. by apply get_page_id_run. Qed.

Lemma handle_put_node s g nd h p : handle (put_node g nd s) h p ↔ handle s h p.
Proof.
  unfold handle, pid. rewrite fd_put_node.
  destruct (decide (h = g)) as [-> | Hne].
  - destruct (frame s g) as [pg |] eqn:Hg.
    + rewrite (frame_put_node_eq _ _ _ _ Hg). split.
      * intros (pg' & [= <-] & Hid & Hv). exists pg. done.
      * intros (pg' & [= <-] & Hid & Hv). eexists. done.
    + assert (put_node g nd s = s) as -> by (unfold put_node; by rewrite Hg).
      by rewrite Hg.
  - by rewrite frame_put_node_ne.
Qed.

Lemma update_node_rep σ P D s h p nd f :
  rep σ P D s → handle s h p → p ∈ P → σ !! p = Some nd →
  update_node h f s = Ok tt (put_node h (f nd) s) ∧
  rep (<[p := f nd]> σ) P (D ∪ {[p]}) (put_node h (f nd) s).
Proof.
  intros Hr Hh HpP Hnd.
  destruct (handle_frame _ _ _ _ _ _ Hr Hh) as (pg & Hf & Hid & Hv & Ht & Hs & Hpin).
  assert (nd = data_ pg) as -> by congruence.
  split; [by apply update_node_run |].
  destruct Hr as [(D' & Hok & HD') Hc Hp].
  assert (0 < pin_count_ pg) as Hpos.
  { rewrite Hpin. rewrite elem_of_multiplicity in HpP. lia. }
  assert (page_no (id_ pg) ≠ INVALID_PAGE_ID) as Hvalid by (by rewrite Hid).
  destruct (store_data_ok D' (pool s) h pg (f (data_ pg)) Hok Hf Hpos Hvalid) as [Hok' Hc'].
  unfold put_node. rewrite Hf. split; simpl.
  - exists (D' ∪ {[id_ pg]}). split; [done |]. intros q Hq.
    apply elem_of_union in Hq as [Hq | Hq].
    + destruct (HD' q Hq). split; [done |]. apply elem_of_union. by left.
    + apply elem_of_singleton in Hq as ->. rewrite Hid. simpl. split; [done |].
      apply elem_of_union. right. by apply elem_of_singleton.
  - intros q. unfold pool at 1, pid. simpl. fold (pool s). rewrite Hc'.
    fold (pid s q). rewrite Hid. destruct (decide (pid s q = pid s p)) as [Heq | Hne].
    + injection Heq as ->. by rewrite lookup_insert_eq.
    + rewrite lookup_insert_ne by congruence. apply Hc.
  - intros q. unfold pool at 1. simpl. fold (pool s).
    rewrite (data_only_pin_count_of (pool s)); [apply Hp |].
    by apply (data_only_store _ _ pg).
Qed.

Lemma pid_eq s q p : q = pid s p ↔ fd q = fd_ s ∧ page_no q = p.
Proof. unfold pid. destruct q as [f n]. simpl. split; [by intros [= -> ->] | by intros [-> ->]]. Qed.

(** [fetch_node] of a page that is pinned already or finds a frame. *)
Lemma fetch_node_rep σ P D s p nd :
  rep σ P D s → σ !! p = Some nd → p ∈ P ∨ (0 < room (pool s))%nat →
  ∃ h s', fetch_node p s = Ok h s' ∧
    rep σ (P ⊎ {[+ p +]}) D s' ∧
    file_hdr_ s' = file_hdr_ s ∧ fd_ s' = fd_ s ∧
    handle s' h p ∧
    (∀ g, g ≠ h → frame s' g = frame s g) ∧
    (handle s h p ∨ (p ∉ P) ∧ next_victim (pool s) = Some h) ∧
    room (pool s') = (room (pool s) - (if decide (p ∈ P) then 0 else 1))%nat.
Proof.
  intros Hr Hnd Hroom. pose proof Hr as [(D' & Hok & HD') Hc Hp].
  assert (page_content (pool s) (pid s p) = Some nd) as Hcp by (by rewrite Hc).
  assert (pin_count_of (pool s) (pid s p) = Z.of_nat (multiplicity p P)) as Hpp
    by (by eapply rep_pin_pid).
  assert (0 < pin_count_of (pool s) (pid s p) ∨ (0 < room (pool s))%nat) as Hroom'.
  { destruct Hroom as [HpP | ?]; [left | by right].
    rewrite Hpp. rewrite elem_of_multiplicity in HpP. lia. }
  destruct (fetch_page_ok D' _ _ _ Hok Hcp Hroom')
    as (h & b' & Hrun & Hok' & Hc' & Ht' & Hh' & Hother & Hwhere & Hcount & Hroom2 & _).
  exists h, (mkIx (file_hdr_ s) b' (fd_ s)).
  split; [unfold fetch_node, bind, gets; fold (pid s p); by rewrite (bpm_ok _ _ _ _ Hrun) |].
  assert (page_no (pid s p) ≠ INVALID_PAGE_ID) as Hvalid.
  { destruct (pool_wf_table_holds _ _ _ (ok_wf _ _ Hok') Ht') as (? & _ & _ & ?). done. }
  split; [split |].
  - exists D'. split; [done | done].
  - intros q. unfold pool, pid. simpl. rewrite Hc'. apply Hc.
  - intros q. unfold pool. simpl. rewrite Hcount, Hp.
    rewrite multiplicity_disj_union, multiplicity_singleton.
    destruct (decide (q = pid s p)) as [-> | Hne]; simpl.
    + rewrite !decide_True by done. lia.
    + destruct (decide (fd q = fd_ s)) as [Hfd | Hfd]; [| lia].
      rewrite decide_False; [lia |]. intros Heq. apply Hne. by apply pid_eq.
  - split; [done |]. split; [done |]. split.
    { eexists. unfold frame, pool. simpl. split; [exact Hh' |]. done. }
    split; [done |]. split.
    + destruct Hwhere as [Ht | [Ht Hnv]].
      * left. destruct (pool_wf_table_holds _ _ _ (ok_wf _ _ Hok) Ht) as (pg & Hpg & Hid & ?).
        exists pg. done.
      * right. split; [| done]. unfold pin_count_of in Hpp. rewrite Ht in Hpp.
        intros HpP. rewrite elem_of_multiplicity in HpP. lia.
    + unfold pool at 1. simpl. rewrite Hroom2, Hpp.
      destruct (decide (p ∈ P)) as [HpP | HpP].
      * rewrite elem_of_multiplicity in HpP. rewrite decide_False by lia. done.
      * rewrite elem_of_multiplicity in HpP. rewrite decide_True by lia. done.
Qed.

(** [unpin_node] of a handle whose pin the operation holds. *)
Lemma unpin_node_rep σ P D s h p d :
  rep σ P D s → handle s h p → p ∈ P →
  d = true ∨ p ∉ D ∨ (2 ≤ multiplicity p P)%nat →
  ∃ s', unpin_node h d s = Ok true s' ∧
    rep σ (P ∖ {[+ p +]}) (if d then D ∖ {[p]} else D) s' ∧
    file_hdr_ s' = file_hdr_ s ∧ fd_ s' = fd_ s ∧
    (∀ g q, handle s' g q ↔ handle s g q) ∧
    room (pool s') =
      (room (pool s) + (if decide (multiplicity p P = 1%nat) then 1 else 0))%nat ∧
    (∀ v, next_victim (pool s) = Some v → next_victim (pool s') = Some v).
Proof.
  intros Hr Hh HpP Hsafe. pose proof Hr as [(D' & Hok & HD') Hc Hp].
  assert (pin_count_of (pool s) (pid s p) = Z.of_nat (multiplicity p P)) as Hpp
    by (by eapply rep_pin_pid).
  rewrite elem_of_multiplicity in HpP.
  assert (0 < pin_count_of (pool s) (pid s p)) as Hpos by lia.
  assert (d = true ∨ pid s p ∉ D' ∨ 1 < pin_count_of (pool s) (pid s p)) as Hsafe'.
  { destruct Hsafe as [? | [HD | ?]]; [by left | right; left | right; right; lia].
    intros Hin. apply HD' in Hin as [_ Hin]. done. }
  destruct (unpin_page_ok D' _ _ d Hok Hpos Hsafe')
    as (f & pg & b' & Ht & Hpg & Hid & Hrun & Hok' & Hc' & Hpages & Htab & Hdisk & Hcount
        & Hroom & Hnv).
  exists (mkIx (file_hdr_ s) b' (fd_ s)).
  split.
  { unfold unpin_node. rewrite (bind_ok _ _ _ _ _ (get_page_id_handle _ _ _ Hh)).
    by apply bpm_ok. }
  split; [split |].
  - exists (if d then D' ∖ {[pid s p]} else D'). split; [done |]. intros q Hq.
    destruct d; [| by apply HD'].
    apply elem_of_difference in Hq as [Hq Hne]. destruct (HD' q Hq) as [Hfd HqD].
    split; [done |]. apply elem_of_difference. split; [done |].
    apply not_elem_of_singleton. intros Heq. apply Hne, elem_of_singleton. by apply pid_eq.
  - intros q. unfold pool, pid. simpl. rewrite Hc'. apply Hc.
  - intros q. unfold pool. simpl. rewrite Hcount, Hp.
    rewrite multiplicity_difference, multiplicity_singleton.
    destruct (decide (q = pid s p)) as [-> | Hne]; simpl.
    + rewrite !decide_True by done. lia.
    + destruct (decide (fd q = fd_ s)) as [Hfd | Hfd]; [| lia].
      rewrite decide_False; [lia |]. intros Heq. apply Hne. by apply pid_eq.
  - split; [done |]. split; [done |]. split.
    { intros g q. unfold handle, frame, pool, pid. simpl. rewrite Hpages.
      assert (f < length (pages_ (buffer_pool_manager_ s)))%nat by (by eapply lookup_lt_Some).
      destruct (decide (g = f)) as [-> | Hne].
      - rewrite list_lookup_insert_eq by done. fold (pool s). rewrite Hpg. split.
        + intros (pg' & [= <-] & Hid' & Hv). exists pg. simpl in Hid'. rewrite Hid. done.
        + intros (pg' & [= <-] & Hid' & Hv). eexists. split; [done |]. simpl.
          rewrite <- Hid. done.
      - by rewrite list_lookup_insert_ne. }
    split; [| done].
    unfold pool at 1. simpl. rewrite Hroom, Hpp.
    destruct (decide (multiplicity p P = 1%nat)) as [H1 | H1].
    + rewrite decide_True by lia. done.
    + rewrite decide_False by lia. done.
Qed.

(** The page number [create_node] gives to the next new page. *)
Definition next_page (s : IxSt) : page_id_t := next_page_no (disk_manager_ (pool s)) (fd_ s).

Lemma create_node_rep σ P D s :
  rep σ P D s → (0 < room (pool s))%nat →
  ∃ h s', create_node s = Ok h s' ∧
    σ !! next_page s = None ∧ (next_page s ∉ P) ∧ 0 ≤ next_page s ∧
    rep (<[next_page s := blank]> σ) (P ⊎ {[+ next_page s +]}) D s' ∧
    file_hdr_ s' = set_num_pages (num_pages_ (file_hdr_ s) + 1) (file_hdr_ s) ∧
    fd_ s' = fd_ s ∧
    handle s' h (next_page s) ∧
    (∀ g, g ≠ h → frame s' g = frame s g) ∧
    next_victim (pool s) = Some h ∧
    room (pool s) = S (room (pool s')) ∧
    next_page s' = next_page s + 1.
Proof.
  intros Hr Hroom. pose proof Hr as [(D' & Hok & HD') Hc Hp].
  destruct (new_page_fresh D' _ (fd_ s) Hok Hroom)
    as (h & b' & Hrun & Hok' & Hnone & Hc' & Ht' & Hh' & Hother & Hnv & Hcount & Hroom' & _ & Hnext).
  fold (next_page s) in *. fold (pid s (next_page s)) in *.
  exists h, (mkIx (set_num_pages (num_pages_ (file_hdr_ s) + 1) (file_hdr_ s)) b' (fd_ s)).
  split.
  { unfold create_node, set_hdr, bind, modify, gets. simpl.
    unfold bpm. simpl. fold (pool s). by rewrite Hrun. }
  assert (0 ≤ next_page s) as Hnn.
  { destruct (wf_inv _ (ok_wf _ _ Hok)) as (_ & _ & Hnn). apply Hnn. }
  assert (pin_count_of (pool s) (pid s (next_page s)) = 0) as Hz.
  { unfold pin_count_of. unfold page_content in Hnone.
    destruct (page_table_ (pool s) !! pid s (next_page s)) as [g |] eqn:Hg; [| done].
    destruct (pool_wf_table_holds _ _ _ (ok_wf _ _ Hok) Hg) as (pg & Hpg & _).
    by rewrite Hpg in Hnone. }
  split; [by rewrite <- Hc |]. split.
  { rewrite (rep_pin_pid _ _ _ _ _ Hr) in Hz. intros Hin.
    rewrite elem_of_multiplicity in Hin. lia. }
  split; [done |]. split; [split |].
  - exists D'. split; [done | done].
  - intros q. unfold pool, pid. simpl. rewrite Hc'. fold (pid s q).
    destruct (decide (pid s q = pid s (next_page s))) as [Heq | Hne].
    + injection Heq as ->. by rewrite lookup_insert_eq.
    + rewrite lookup_insert_ne by congruence. apply Hc.
  - intros q. unfold pool. simpl. rewrite Hcount, Hp.
    rewrite multiplicity_disj_union, multiplicity_singleton.
    destruct (decide (q = pid s (next_page s))) as [-> | Hne]; simpl.
    + rewrite !decide_True by done. lia.
    + destruct (decide (fd q = fd_ s)) as [Hfd | Hfd]; [| lia].
      rewrite decide_False; [lia |]. intros Heq. apply Hne. by apply pid_eq.
  - split; [done |]. split; [done |]. split.
    { eexists. unfold frame, pool. simpl. split; [exact Hh' |]. simpl. split; [done |].
      unfold INVALID_PAGE_ID. lia. }
    split; [done |]. split; [done |]. split; [done |].
    unfold next_page, pool. simpl. rewrite Hnext. by rewrite decide_True.
Qed.

Lemma rep_set_hdr σ P D s f :
  rep σ P D s → rep σ P D (mkIx (f (file_hdr_ s)) (buffer_pool_manager_ s) (fd_ s)).
Proof. intros [? ? ?]. split; done. Qed.

Lemma handle_set_hdr s f h p :
  handle (mkIx (f (file_hdr_ s)) (buffer_pool_manager_ s) (fd_ s)) h p ↔ handle s h p.
Proof. done. Qed.

Lemma next_victim_unpinned σ P D s v pg :
  rep σ P D s → next_victim (pool s) = Some v → frame s v = Some pg → pin_count_ pg = 0.
Proof.
  intros Hr Hnv Hv. pose proof (rep_wf _ _ _ _ Hr) as Hwf. unfold next_victim in Hnv.
  unfold frame in Hv.
  destruct (free_list_ (pool s)) as [| f l] eqn:Hfl.
  - destruct (replacer_ (pool s)) as [| f l] eqn:Hrl; [done |]. injection Hnv as ->.
    destruct (wf_replacer _ Hwf v) as (pg' & Hpg' & Hz & _); [rewrite Hrl; by left |].
    congruence.
  - injection Hnv as ->.
    destruct (wf_free _ Hwf v) as (pg' & Hpg' & Hz & _); [rewrite Hfl; by left |].
    congruence.
Qed.

(** A handle on a pinned page survives a [fetch_node]. *)
Lemma fetch_keeps_pinned σ P D s s' h p g q :
  rep σ P D s → fd_ s' = fd_ s → handle s' h p →
  (∀ g, g ≠ h → frame s' g = frame s g) →
  handle s h p ∨ (p ∉ P) ∧ next_victim (pool s) = Some h →
  handle s g q → q ∈ P → handle s' g q.
Proof.
  intros Hr Hfd Hh Hother Hwhere Hg HqP.
  destruct (decide (g = h)) as [-> | Hne].
  - destruct Hwhere as [Hold | [_ Hnv]].
    + by rewrite (handle_inj _ _ _ _ _ _ _ Hr Hg Hold).
    + destruct (handle_frame _ _ _ _ _ _ Hr Hg) as (pg & Hf & _ & _ & _ & _ & Hpin).
      rewrite (next_victim_unpinned _ _ _ _ _ _ Hr Hnv Hf) in Hpin.
      rewrite elem_of_multiplicity in HqP. lia.
  - destruct Hg as (pg & Hf & Hid & Hv). exists pg. rewrite (Hother g Hne).
    unfold pid in *. by rewrite Hfd.
Qed.

(** The entry of slot [i], if the node has one. *)
Definition entry {A} (l : list A) (i : Z) : option A :=
  if i <? 0 then None else l !! Z.to_nat i.

(** ** Children that get a new parent *)

Fixpoint reparent (p : page_id_t) (cs : list page_id_t) (σ : Store) : Store :=
  match cs with
  | [] => σ
  | c :: cs' => reparent p cs' (alter (set_parent p) c σ)
  end.

Lemma insert_as_alter (σ : Store) c nd (f : Node Key → Node Key) :
  σ !! c = Some nd → <[c := f nd]> σ = alter f c σ.
Proof.
  intros Hc. apply map_eq. intros q. destruct (decide (q = c)) as [-> | Hne].
  - by rewrite lookup_insert_eq, lookup_alter_eq, Hc.
  - by rewrite lookup_insert_ne, lookup_alter_ne.
Qed.

Lemma lookup_reparent p cs (σ : Store) q :
  reparent p cs σ !! q =
    (if decide (q ∈ cs) then set_parent p else id) <$> σ !! q.
Proof.
  revert σ. induction cs as [| c cs IH]; intros σ; simpl.
  - by destruct (σ !! q).
  - rewrite IH. destruct (decide (q = c)) as [-> | Hne].
    + rewrite lookup_alter_eq. rewrite (decide_True (P := c ∈ c :: cs)) by (by left).
      destruct (σ !! c) as [nd |]; simpl; [| done]. by destruct (decide (c ∈ cs)).
    + rewrite lookup_alter_ne by done.
      destruct (decide (q ∈ cs)) as [Hin | Hnin].
      * by rewrite decide_True by (by right).
      * rewrite decide_False; [done |]. by intros [? | ?]%elem_of_cons.
Qed.

Lemma index_range_cons (lo : Z) (n : nat) :
  index_range lo (lo + Z.of_nat (S n)) = lo :: index_range (lo + 1) (lo + 1 + Z.of_nat n).
Proof.
  unfold index_range.
  replace (Z.to_nat (lo + Z.of_nat (S n) - lo)) with (S n) by lia.
  replace (Z.to_nat (lo + 1 + Z.of_nat n - (lo + 1))) with n by lia.
  simpl. f_equal; [lia |]. rewrite <- fmap_S_seq, <- list_fmap_compose.
  apply list_fmap_ext. intros _ i _. simpl. lia.
Qed.

Lemma index_range_nil (lo : Z) : index_range lo (lo + Z.of_nat 0) = [].
Proof. unfold index_range. by replace (Z.to_nat (lo + Z.of_nat 0 - lo)) with 0%nat by lia. Qed.

(** The pages the entries of slots [lo .. lo + n) point to. *)
Definition children_of (l : list (Key * Rid)) (lo : Z) (n : nat) : list page_id_t :=
  (λ kv, rid_page_no kv.2) <$> take n (drop (Z.to_nat lo) l).

Lemma children_of_cons (l : list (Key * Rid)) lo n kv :
  0 ≤ lo → entry l lo = Some kv →
  children_of l lo (S n) = rid_page_no kv.2 :: children_of l (lo + 1) n.
Proof.
  intros Hlo He. unfold entry in He. destruct (Z.ltb_spec lo 0); [lia |].
  unfold children_of. rewrite (drop_S _ _ _ He). simpl.
  by replace (Z.to_nat (lo + 1)) with (S (Z.to_nat lo)) by lia.
Qed.

Lemma children_of_all (l : list (Key * Rid)) :
  children_of l 0 (length l) = (λ kv, rid_page_no kv.2) <$> l.
Proof. unfold children_of. simpl. by rewrite firstn_all. Qed.

(** ** What [split] makes of the pages *)

Definition split_mid (nd : Node Key) : nat := Z.to_nat (num_key nd / 2).

(** The node that is split keeps the entries before [mid]; a leaf gets
    the new page as its next leaf. *)
Definition split_left (pnew : page_id_t) (nd : Node Key) : Node Key :=
  mkNode (is_leaf nd) (parent nd) (prev_leaf nd)
         (if is_leaf nd then pnew else next_leaf nd)
         (take (split_mid nd) (pairs nd)).

(** The new node takes the entries from [mid] on; a new leaf stands
    between the node that is split and its next leaf. *)
Definition split_right (p : page_id_t) (nd : Node Key) : Node Key :=
  mkNode (is_leaf nd) (parent nd)
         (if is_leaf nd then p else IX_NO_PAGE)
         (if is_leaf nd then next_leaf nd else IX_NO_PAGE)
         (drop (split_mid nd) (pairs nd)).

Definition split_store (p pnew : page_id_t) (nd : Node Key) (σ : Store) : Store :=
  let σ1 := <[p := split_left pnew nd]> (<[pnew := split_right p nd]> σ) in
  if is_leaf nd then
    if next_leaf nd =? IX_NO_PAGE then σ1 else alter (set_prev pnew) (next_leaf nd) σ1
  else reparent pnew ((λ kv, rid_page_no kv.2) <$> drop (split_mid nd) (pairs nd)) σ1.

Definition split_hdr (p pnew : page_id_t) (nd : Node Key) (hdr : IxFileHdr) : IxFileHdr :=
  let h1 := set_num_pages (num_pages_ hdr + 1) hdr in
  if is_leaf nd && ((last_leaf_ hdr =? p) || (next_leaf nd =? IX_LEAF_HEADER_PAGE))
  then set_last_leaf pnew h1 else h1.

Lemma rep_store σ σ' P D s : σ = σ' → rep σ P D s → rep σ' P D s.
Proof. by intros ->. Qed.

(** A handle on a pinned page survives a [create_node]. *)
Lemma create_keeps_pinned σ P D s s' h g q :
  rep σ P D s → fd_ s' = fd_ s →
  (∀ g, g ≠ h → frame s' g = frame s g) → next_victim (pool s) = Some h →
  handle s g q → q ∈ P → handle s' g q.
Proof.
  intros Hr Hfd Hother Hnv Hg HqP.
  destruct (decide (g = h)) as [-> | Hne].
  - destruct (handle_frame _ _ _ _ _ _ Hr Hg) as (pg & Hf & _ & _ & _ & _ & Hpin).
    rewrite (next_victim_unpinned _ _ _ _ _ _ Hr Hnv Hf) in Hpin.
    rewrite elem_of_multiplicity in HqP. lia.
  - destruct Hg as (pg & Hf & Hid & Hv). exists pg. rewrite (Hother g Hne).
    unfold pid in *. by rewrite Hfd.
Qed.

(** ** Rules for the node accessors *)

(** A step that leaves the frames where they are. *)
Definition frames_same (s s' : IxSt) : Prop :=
  fd_ s' = fd_ s ∧ (∀ g q, handle s' g q ↔ handle s g q) ∧
  room (pool s') = room (pool s) ∧ next_victim (pool s') = next_victim (pool s) ∧
  next_page s' = next_page s.

Lemma frames_same_put_node s h nd : frames_same s (put_node h nd s).
Proof.
  split; [apply fd_put_node |]. split; [intros g q; apply handle_put_node |].
  unfold put_node. destruct (frame s h); done.
Qed.

Section Rules.
Context (E : Error → Prop).

Lemma wp_node_of σ P D s h p (Q : Node Key → IxSt → Prop) :
  rep σ P D s → handle s h p → (∀ nd, σ !! p = Some nd → Q nd s) → wp E (node_of h) s Q.
Proof.
  intros Hr Hh HQ. destruct (node_of_rep _ _ _ _ _ _ Hr Hh) as (nd & Hnd & Hrun).
  unfold wp. rewrite Hrun. by apply HQ.
Qed.

Lemma wp_get_page_no s h p (Q : page_id_t → IxSt → Prop) :
  handle s h p → Q p s → wp E (get_page_no h) s Q.
Proof. intros Hh HQ. unfold wp. by rewrite (get_page_no_run _ _ _ Hh). Qed.

Lemma wp_update_node σ P D s h p nd f (Q : unit → IxSt → Prop) :
  rep σ P D s → handle s h p → p ∈ P → σ !! p = Some nd →
  (∀ s', rep (<[p := f nd]> σ) P (D ∪ {[p]}) s' → file_hdr_ s' = file_hdr_ s →
         frames_same s s' → Q tt s') →
  wp E (update_node h f) s Q.
Proof.
  intros Hr Hh HpP Hnd HQ.
  destruct (update_node_rep _ _ _ _ _ _ _ f Hr Hh HpP Hnd) as [Hrun Hr'].
  unfold wp. rewrite Hrun. apply HQ; [done | apply file_hdr_put_node |].
  apply frames_same_put_node.
Qed.

Lemma wp_set_hdr σ P D s f (Q : unit → IxSt → Prop) :
  rep σ P D s →
  (∀ s', rep σ P D s' → file_hdr_ s' = f (file_hdr_ s) → frames_same s s' → Q tt s') →
  wp E (set_hdr f) s Q.
Proof.
  intros Hr HQ. unfold wp, set_hdr, modify. apply HQ; [by apply rep_set_hdr | done |].
  by split.
Qed.

Lemma wp_fetch_node σ P D s p (Q : IxNodeHandle → IxSt → Prop) :
  rep σ P D s →
  is_Some (σ !! p) ∨ E IOError →
  p ∈ P ∨ (0 < room (pool s))%nat ∨ E (AssertionFailed InFetchNode) →
  (∀ h s' nd, σ !! p = Some nd → rep σ (P ⊎ {[+ p +]}) D s' →
     file_hdr_ s' = file_hdr_ s → fd_ s' = fd_ s → handle s' h p →
     (∀ g, g ≠ h → frame s' g = frame s g) →
     handle s h p ∨ (p ∉ P) ∧ next_victim (pool s) = Some h →
     p ∈ P ∨ (0 < room (pool s))%nat →
     room (pool s') = (room (pool s) - (if decide (p ∈ P) then 0 else 1))%nat →
     Q h s') →
  wp E (fetch_node p) s Q.
Proof.
  intros Hr Hsome Hroom HQ. pose proof Hr as [(D' & Hok & HD') Hc Hp].
  destruct (decide (p ∈ P)) as [HpP | HpP].
  - assert (is_Some (σ !! p)) as [nd Hnd].
    { rewrite <- Hc. pose proof (rep_pin_pid _ _ _ _ p Hr) as Hpp.
      rewrite elem_of_multiplicity in HpP. unfold pin_count_of in Hpp. unfold page_content.
      destruct (page_table_ (pool s) !! pid s p) as [g |]; [| lia].
      destruct (pages_ (pool s) !! g); [by eexists | lia]. }
    destruct (fetch_node_rep _ _ _ _ _ _ Hr Hnd (or_introl HpP))
      as (h & s' & Hrun & Hr' & Hh & Hfd & Hhd & Hother & Hwhere & Hrm).
    unfold wp. rewrite Hrun. rewrite decide_True in Hrm by done. eapply HQ; eauto.
  - destruct (Nat.eq_dec (room (pool s)) 0%nat) as [Hz | Hnz].
    + assert (page_table_ (pool s) !! pid s p = None) as Ht.
      { destruct (page_table_ (pool s) !! pid s p) as [g |] eqn:Hg; [| done].
        destruct (pool_wf_table_holds _ _ _ (ok_wf _ _ Hok) Hg) as (pg & Hpg & _ & _).
        pose proof (rep_pin_pid _ _ _ _ p Hr) as Hpp.
        unfold pin_count_of in Hpp. rewrite Hg, Hpg in Hpp.
        rewrite elem_of_multiplicity in HpP.
        destruct (wf_listed _ (ok_wf _ _ Hok) _ _ Hpg) as [Hin | Hin]; [lia | |];
          unfold room in Hz; destruct (free_list_ (pool s)), (replacer_ (pool s));
          simpl in Hz; try lia; by apply elem_of_nil in Hin. }
      destruct (fetch_page_no_room _ _ Ht Hz) as (b' & Hrun).
      unfold wp, fetch_node, bind, gets. fold (pid s p). rewrite (bpm_ok _ _ _ _ Hrun).
      unfold throw. destruct Hroom as [? | [? | ?]]; [done | lia | done].
    + destruct (σ !! p) as [nd |] eqn:Hnd.
      * assert (p ∈ P ∨ (0 < room (pool s))%nat) as Hroom' by (right; lia).
        destruct (fetch_node_rep _ _ _ _ _ _ Hr Hnd Hroom')
          as (h & s' & Hrun & Hr' & Hh & Hfd & Hhd & Hother & Hwhere & Hrm).
        unfold wp. rewrite Hrun. rewrite decide_False in Hrm by done. eapply HQ; eauto.
      * assert (page_content (pool s) (pid s p) = None) as Hcp by (by rewrite Hc).
        unfold wp, fetch_node, bind, gets. fold (pid s p). unfold bpm. fold (pool s).
        destruct (fetch_page_absent D' _ _ Hok Hcp) as (b' & ->); [lia |].
        destruct Hsome as [[? ?] | ?]; done.
Qed.

Lemma wp_unpin_node σ P D s h p d (Q : bool → IxSt → Prop) :
  rep σ P D s → handle s h p → p ∈ P →
  d = true ∨ p ∉ D ∨ (2 ≤ multiplicity p P)%nat →
  (∀ s', rep σ (P ∖ {[+ p +]}) (if d then D ∖ {[p]} else D) s' →
     file_hdr_ s' = file_hdr_ s → fd_ s' = fd_ s →
     (∀ g q, handle s' g q ↔ handle s g q) →
     room (pool s') =
       (room (pool s) + (if decide (multiplicity p P = 1%nat) then 1 else 0))%nat →
     (∀ v, next_victim (pool s) = Some v → next_victim (pool s') = Some v) →
     Q true s') →
  wp E (unpin_node h d) s Q.
Proof.
  intros Hr Hh HpP Hsafe HQ.
  destruct (unpin_node_rep _ _ _ _ _ _ d Hr Hh HpP Hsafe)
    as (s' & Hrun & Hr' & Hhdr & Hfd & Hhs & Hrm & Hnv).
  unfold wp. rewrite Hrun. by apply HQ.
Qed.

Lemma wp_create_node σ P D s (Q : IxNodeHandle → IxSt → Prop) :
  rep σ P D s →
  (0 < room (pool s))%nat ∨ E NullPage →
  (∀ h s', σ !! next_page s = None → next_page s ∉ P → 0 ≤ next_page s →
     rep (<[next_page s := blank]> σ) (P ⊎ {[+ next_page s +]}) D s' →
     file_hdr_ s' = set_num_pages (num_pages_ (file_hdr_ s) + 1) (file_hdr_ s) →
     fd_ s' = fd_ s → handle s' h (next_page s) →
     (∀ g, g ≠ h → frame s' g = frame s g) →
     next_victim (pool s) = Some h →
     room (pool s) = S (room (pool s')) →
     next_page s' = next_page s + 1 →
     Q h s') →
  wp E create_node s Q.
Proof.
  intros Hr Hroom HQ.
  destruct (Nat.eq_dec (room (pool s)) 0%nat) as [Hz | Hnz].
  - destruct (new_page_no_room (pool s) (fd_ s) Hz) as (b' & Hrun).
    unfold wp, create_node, set_hdr, bind, modify, gets, bpm. simpl. fold (pool s).
    rewrite Hrun. unfold throw. destruct Hroom; [lia | done].
  - assert (0 < room (pool s))%nat as Hpos by lia.
    destruct (create_node_rep _ _ _ _ Hr Hpos)
      as (h & s' & Hrun & H1 & H2 & H3 & H4 & H5 & H6 & H7 & H8 & H9 & H10 & H11).
    unfold wp. rewrite Hrun. by apply HQ.
Qed.

Lemma wp_get_size σ P D s h p (Q : Z → IxSt → Prop) :
  rep σ P D s → handle s h p → (∀ nd, σ !! p = Some nd → Q (num_key nd) s) →
  wp E (get_size h) s Q.
Proof.
  intros Hr Hh HQ. unfold get_size. apply wp_bind. eapply wp_node_of; [done | done |].
  intros nd Hnd. apply wp_ret. by apply HQ.
Qed.

Lemma wp_get_max_size s (Q : Z → IxSt → Prop) :
  Q (max_size_ (file_hdr_ s)) s → wp E get_max_size s Q.
Proof. done. Qed.

Lemma wp_get_min_size s (Q : Z → IxSt → Prop) :
  Q (min_size_of (max_size_ (file_hdr_ s))) s → wp E get_min_size s Q.
Proof. done. Qed.

Lemma wp_slot {A} (l : list A) i s (Q : A → IxSt → Prop) :
  match entry l i with Some a => Q a s | None => E OutOfBounds end →
  wp E (slot l i) s Q.
Proof.
  unfold entry, wp, slot. destruct (i <? 0); [done |]. by destruct (l !! Z.to_nat i).
Qed.

Lemma wp_get_key σ P D s h p i (Q : Key → IxSt → Prop) :
  rep σ P D s → handle s h p →
  (∀ nd, σ !! p = Some nd →
     match entry (pairs nd) i with Some kv => Q kv.1 s | None => E OutOfBounds end) →
  wp E (get_key h i) s Q.
Proof.
  intros Hr Hh HQ. unfold get_key. apply wp_bind. eapply wp_node_of; [done | done |].
  intros nd Hnd. apply wp_bind, wp_slot. specialize (HQ nd Hnd).
  destruct (entry (pairs nd) i); [by apply wp_ret | done].
Qed.

Lemma wp_get_rid σ P D s h p i (Q : Rid → IxSt → Prop) :
  rep σ P D s → handle s h p →
  (∀ nd, σ !! p = Some nd →
     match entry (pairs nd) i with Some kv => Q kv.2 s | None => E OutOfBounds end) →
  wp E (get_rid h i) s Q.
Proof.
  intros Hr Hh HQ. unfold get_rid. apply wp_bind. eapply wp_node_of; [done | done |].
  intros nd Hnd. apply wp_bind, wp_slot. specialize (HQ nd Hnd).
  destruct (entry (pairs nd) i); [by apply wp_ret | done].
Qed.

Lemma wp_value_at σ P D s h p i (Q : page_id_t → IxSt → Prop) :
  rep σ P D s → handle s h p →
  (∀ nd, σ !! p = Some nd →
     match entry (pairs nd) i with
     | Some kv => Q (rid_page_no kv.2) s
     | None => E OutOfBounds
     end) →
  wp E (value_at h i) s Q.
Proof.
  intros Hr Hh HQ. unfold value_at. apply wp_bind. eapply wp_get_rid; [done | done |].
  intros nd Hnd. specialize (HQ nd Hnd).
  destruct (entry (pairs nd) i); [by apply wp_ret | done].
Qed.

Lemma wp_insert_pairs σ P D s h p nd pos src (Q : unit → IxSt → Prop) :
  rep σ P D s → handle s h p → p ∈ P → σ !! p = Some nd →
  0 ≤ pos ≤ num_key nd →
  num_key nd + Z.of_nat (length src) ≤ max_size_ (file_hdr_ s) →
  (∀ s', rep (<[p := set_pairs (take (Z.to_nat pos) (pairs nd) ++ src
                                  ++ drop (Z.to_nat pos) (pairs nd)) nd]> σ)
             P (D ∪ {[p]}) s' →
         file_hdr_ s' = file_hdr_ s → frames_same s s' → Q tt s') →
  wp E (insert_pairs h pos src) s Q.
Proof.
  intros Hr Hh HpP Hnd Hpos Hfit HQ. unfold insert_pairs.
  apply wp_bind. eapply wp_node_of; [done | done |]. intros nd' Hnd'.
  assert (nd' = nd) as -> by congruence.
  apply wp_bind, wp_get_max_size.
  apply wp_bind, wp_assert; [intros Hf; apply andb_false_iff in Hf; lia |]. intros _.
  apply wp_bind, wp_assert; [intros Hf; apply Z.leb_gt in Hf; lia |]. intros _.
  by eapply wp_update_node.
Qed.

Lemma wp_erase_pair σ P D s h p nd pos (Q : unit → IxSt → Prop) :
  rep σ P D s → handle s h p → p ∈ P → σ !! p = Some nd →
  0 ≤ pos < num_key nd →
  (∀ s', rep (<[p := set_pairs (take (Z.to_nat pos) (pairs nd)
                                  ++ drop (S (Z.to_nat pos)) (pairs nd)) nd]> σ)
             P (D ∪ {[p]}) s' →
         file_hdr_ s' = file_hdr_ s → frames_same s s' → Q tt s') →
  wp E (erase_pair h pos) s Q.
Proof.
  intros Hr Hh HpP Hnd Hpos HQ. unfold erase_pair.
  apply wp_bind. eapply wp_node_of; [done | done |]. intros nd' Hnd'.
  assert (nd' = nd) as -> by congruence.
  apply wp_bind, wp_assert; [intros Hf; apply andb_false_iff in Hf; lia |]. intros _.
  by eapply wp_update_node.
Qed.

(** [maintain_child]: the child in slot [i] of an internal node gets the
    node as its parent; it is fetched, changed and unpinned dirty. *)
Lemma wp_maintain_child σ P D s node p nd i (Q : unit → IxSt → Prop) :
  rep σ P D s → handle s node p → p ∈ P → σ !! p = Some nd →
  (if is_leaf nd then Q tt s
   else match entry (pairs nd) i with
        | None => E OutOfBounds
        | Some kv =>
            (is_Some (σ !! rid_page_no kv.2) ∨ E IOError) ∧
            (rid_page_no kv.2 ∈ P ∨ (0 < room (pool s))%nat
             ∨ E (AssertionFailed InFetchNode)) ∧
            ∀ s' cd, σ !! rid_page_no kv.2 = Some cd →
              rep (<[rid_page_no kv.2 := set_parent p cd]> σ) P (D ∖ {[rid_page_no kv.2]}) s' →
              file_hdr_ s' = file_hdr_ s → fd_ s' = fd_ s →
              (∀ g q, handle s g q → q ∈ P → handle s' g q) →
              room (pool s') = room (pool s) →
              Q tt s'
        end) →
  wp E (maintain_child node i) s Q.
Proof.
  intros Hr Hh HpP Hnd HQ. unfold maintain_child.
  apply wp_bind. eapply wp_node_of; [done | done |]. intros nd' Hnd'.
  assert (nd' = nd) as -> by congruence.
  destruct (is_leaf nd); [by apply wp_ret |].
  apply wp_bind. eapply wp_value_at; [done | done |]. intros nd' Hnd''.
  assert (nd' = nd) as -> by congruence.
  destruct (entry (pairs nd) i) as [kv |]; [| done].
  destruct HQ as (Hsome & Hroom & HQ). set (c := rid_page_no kv.2) in *.
  apply wp_bind. eapply wp_fetch_node; [done | done | done |].
  intros h s1 cd Hcd Hr1 Hhdr1 Hfd1 Hh1 Hother Hwhere Hprem Hroom1.
  assert (∀ g q, handle s g q → q ∈ P → handle s1 g q) as Hkeep
    by (intros g q; by eapply fetch_keeps_pinned).
  apply wp_bind. eapply wp_get_page_no; [by apply Hkeep |].
  apply wp_bind. eapply (wp_update_node _ _ _ _ h c cd); [done | done | multiset_solver | done |].
  intros s2 Hr2 Hhdr2 (Hfd2 & Hhs2 & Hroom2 & Hnv2 & _).
  apply wp_bind.
  eapply (wp_unpin_node _ _ _ _ h c true); [done | by apply Hhs2 | multiset_solver | by left |].
  intros s3 Hr3 Hhdr3 Hfd3 Hhs3 Hroom3 _. apply wp_ret.
  apply (HQ s3 cd); [done | | congruence | congruence | |].
  - eapply rep_proper; [| eapply rep_mono; [| exact Hr3]]; [multiset_solver | set_solver].
  - intros g q Hg HqP. apply Hhs3, Hhs2. by apply Hkeep.
  - rewrite Hroom3, Hroom2, Hroom1. rewrite multiplicity_disj_union, multiplicity_singleton_eq.
    destruct (decide (c ∈ P)) as [Hc | Hc].
    + rewrite elem_of_multiplicity in Hc. rewrite decide_False by lia. lia.
    + destruct Hprem as [? | Hpos]; [done |].
      rewrite elem_of_multiplicity in Hc. rewrite decide_True by lia. lia.
Qed.

(** The loop of [maintain_child] over the slots [lo .. lo + n) of an
    internal node. *)
Lemma wp_maintain_children (n : nat) σ P D s node p nd lo (Q : unit → IxSt → Prop) :
  rep σ P D s → handle s node p → p ∈ P → σ !! p = Some nd → is_leaf nd = false →
  0 ≤ lo → lo + Z.of_nat n ≤ num_key nd →
  (∀ c, c ∈ children_of (pairs nd) lo n → is_Some (σ !! c)) ∨ E IOError →
  (0 < room (pool s))%nat ∨ E (AssertionFailed InFetchNode) →
  (∀ s', rep (reparent p (children_of (pairs nd) lo n) σ) P D s' →
     file_hdr_ s' = file_hdr_ s → fd_ s' = fd_ s →
     (∀ g q, handle s g q → q ∈ P → handle s' g q) →
     room (pool s') = room (pool s) →
     Q tt s') →
  wp E (for_each (index_range lo (lo + Z.of_nat n)) (maintain_child node)) s Q.
Proof.
  revert σ D s nd lo Q.
  induction n as [| n IH]; intros σ D s nd lo Q Hr Hh HpP Hnd Hint Hlo Hhi Hsome Hroom HQ.
  - rewrite index_range_nil. simpl. apply wp_ret. apply HQ; auto.
  - rewrite index_range_cons. simpl.
    assert (is_Some (entry (pairs nd) lo)) as [kv Hkv].
    { unfold entry. destruct (Z.ltb_spec lo 0); [lia |]. apply lookup_lt_is_Some.
      unfold num_key in Hhi. lia. }
    rewrite (children_of_cons _ _ _ _ Hlo Hkv) in *.
    set (c := rid_page_no kv.2) in *.
    apply wp_bind. eapply wp_maintain_child; [done | done | done | done |].
    rewrite Hint, Hkv. fold c. split; [| split].
    { destruct Hsome as [Hsome | ?]; [left; apply Hsome; by left | by right]. }
    { destruct Hroom as [? | ?]; [right; by left | right; by right]. }
    intros s1 cd Hcd Hr1 Hhdr1 Hfd1 Hkeep1 Hroom1.
    rewrite (insert_as_alter _ _ _ _ Hcd) in Hr1.
    assert (alter (set_parent p) c σ !! p =
            Some (if decide (p = c) then set_parent p nd else nd)) as Hnd1.
    { destruct (decide (p = c)) as [<- | Hne].
      - by rewrite lookup_alter_eq, Hnd.
      - by rewrite lookup_alter_ne. }
    assert (pairs (if decide (p = c) then set_parent p nd else nd) = pairs nd) as Hpairs
      by (by destruct (decide (p = c))).
    eapply (IH _ _ _ _ (lo + 1)); [exact Hr1 | by apply Hkeep1 | done | exact Hnd1 | | lia | | | |].
    + by destruct (decide (p = c)).
    + unfold num_key in *. rewrite Hpairs. lia.
    + rewrite Hpairs. destruct Hsome as [Hsome | ?]; [left | by right].
      intros q Hq. destruct (decide (q = c)) as [-> | Hne].
      * rewrite lookup_alter_eq, Hcd. by eexists.
      * rewrite lookup_alter_ne by done. apply Hsome. by right.
    + rewrite Hroom1. done.
    + rewrite Hpairs. intros s' Hr' Hhdr' Hfd' Hkeep' Hroom'. apply HQ.
      * eapply rep_mono; [| exact Hr']. set_solver.
      * congruence.
      * congruence.
      * intros g q Hg HqP. apply Hkeep'; [by apply Hkeep1 | done].
      * congruence.
Qed.

End Rules.

End Store.

(** * Entries of a node *)

Section NodeOps.
Context {Key : Type} `{!IxParams Key}.

(** ** Running the accessors on a frame *)

Lemma get_size_run (s : IxIndexHandle Key) h pg :
  frame s h = Some pg → get_size h s = Ok (num_key (data_ pg)) s.
Proof. intros Hh. unfold get_size. by rewrite (bind_ok _ _ _ _ _ (node_of_run _ _ _ Hh)). Qed.

Lemma slot_run {A} (l : list A) i a (s : IxIndexHandle Key) :
  0 ≤ i → l !! Z.to_nat i = Some a → slot l i s = Ok a s.
Proof.
  intros Hi Ha. unfold slot. destruct (Z.ltb_spec i 0) as [? | _]; [lia |]. by rewrite Ha.
Qed.

Lemma get_key_run (s : IxIndexHandle Key) h pg i kv :
  frame s h = Some pg → 0 ≤ i → pairs (data_ pg) !! Z.to_nat i = Some kv →
  get_key h i s = Ok kv.1 s.
Proof.
  intros Hh Hi Hkv. unfold get_key.
  by rewrite (bind_ok _ _ _ _ _ (node_of_run _ _ _ Hh)), (bind_ok _ _ _ _ _ (slot_run _ _ _ _ Hi Hkv)).
Qed.

Lemma get_rid_run (s : IxIndexHandle Key) h pg i kv :
  frame s h = Some pg → 0 ≤ i → pairs (data_ pg) !! Z.to_nat i = Some kv →
  get_rid h i s = Ok kv.2 s.
Proof.
  intros Hh Hi Hkv. unfold get_rid.
  by rewrite (bind_ok _ _ _ _ _ (node_of_run _ _ _ Hh)), (bind_ok _ _ _ _ _ (slot_run _ _ _ _ Hi Hkv)).
Qed.

Lemma insert_pairs_run (s : IxIndexHandle Key) h pg pos src :
  frame s h = Some pg → 0 ≤ pos ≤ num_key (data_ pg) →
  insert_pairs h pos src s =
    if num_key (data_ pg) + Z.of_nat (length src) <=? max_size_ (file_hdr_ s)
    then Ok tt (put_node h (set_pairs (take (Z.to_nat pos) (pairs (data_ pg)) ++ src
                                        ++ drop (Z.to_nat pos) (pairs (data_ pg))) (data_ pg)) s)
    else Throw (AssertionFailed InInsertPairs) s.
Proof.
  intros Hh Hpos. unfold insert_pairs.
  rewrite (bind_ok _ _ _ _ _ (node_of_run _ _ _ Hh)).
  unfold get_max_size, gets. unfold bind at 1.
  replace ((0 <=? pos) && (pos <=? num_key (data_ pg))) with true
    by (symmetry; apply andb_true_iff; split; apply Z.leb_le; lia).
  unfold assert at 1. rewrite ret_bind.
  destruct (_ <=? _); unfold assert.
  - rewrite ret_bind. by rewrite (update_node_run _ _ _ _ Hh).
  - done.
Qed.

Lemma erase_pair_run (s : IxIndexHandle Key) h pg pos :
  frame s h = Some pg → 0 ≤ pos < num_key (data_ pg) →
  erase_pair h pos s =
    Ok tt (put_node h (set_pairs (take (Z.to_nat pos) (pairs (data_ pg))
                                    ++ drop (S (Z.to_nat pos)) (pairs (data_ pg))) (data_ pg)) s).
Proof.
  intros Hh Hpos. unfold erase_pair.
  rewrite (bind_ok _ _ _ _ _ (node_of_run _ _ _ Hh)).
  replace ((0 <=? pos) && (pos <? num_key (data_ pg))) with true
    by (symmetry; apply andb_true_iff; split; [apply Z.leb_le | apply Z.ltb_lt]; lia).
  unfold assert. rewrite ret_bind. by rewrite (update_node_run _ _ _ _ Hh).
Qed.

Lemma put_node_same (s : IxIndexHandle Key) h pg :
  frame s h = Some pg → put_node h (data_ pg) s = s.
Proof.
  intros Hh. unfold put_node. rewrite Hh. destruct s as [hdr b f]. unfold frame, pool in Hh.
  simpl in *. f_equal. destruct b as [pages tbl fl rp dk]. unfold set_pages. simpl in *. f_equal.
  apply list_insert_id. by destruct pg.
Qed.

Lemma put_node_put_node (s : IxIndexHandle Key) h nd nd' :
  put_node h nd' (put_node h nd s) = put_node h nd' s.
Proof.
  destruct (frame s h) as [pg |] eqn:Hh.
  - unfold put_node at 1. rewrite (frame_put_node_eq _ _ _ _ Hh). simpl.
    unfold put_node. rewrite Hh. simpl. f_equal. unfold set_pages, pool. simpl. f_equal.
    apply list_insert_insert_eq.
  - unfold put_node at 2. rewrite Hh. done.
Qed.

(** ** Sorted nodes *)

Context `{!IxParamsLaws Key}.

Definition key_lt (a b : Key) : Prop := ix_compare a b < 0.

Lemma key_lt_irrefl a : ¬ key_lt a a.
Proof.
  unfold key_lt. assert (ix_compare a a = 0) by (by apply ix_compare_eq). lia.
Qed.

Lemma strictly_increasing_sorted (keys : list Key) :
  strictly_increasing keys ↔ StronglySorted key_lt keys.
Proof.
  split.
  - induction keys as [| k keys IH]; intros H; [constructor |].
    apply StronglySorted_cons. split.
    + apply Forall_forall. intros x Hx. apply list_elem_of_lookup in Hx as [j Hj].
      apply (H 0%nat (S j)); [done | done | lia].
    + apply IH. intros i j ki kj Hi Hj Hij. apply (H (S i) (S j)); [done | done | lia].
  - induction 1 as [| k keys Hs IH Hall]; intros i j ki kj Hi Hj Hij.
    + by rewrite lookup_nil in Hi.
    + destruct j as [| j]; [lia |]. simpl in Hj. destruct i as [| i]; simpl in Hi.
      * injection Hi as <-. rewrite Forall_forall in Hall. apply Hall.
        by eapply list_elem_of_lookup_2.
      * apply (IH i j); [done | done | lia].
Qed.

(** The slot [lower_bound] returns cuts a sorted node into the entries
    below the key and the entries at or above it. *)
Lemma lower_bound_cut (nd : Node Key) (key : Key) :
  strictly_increasing (node_keys nd) →
  0 ≤ lower_bound nd key ≤ num_key nd ∧
  Forall (λ kv, key_lt kv.1 key) (take (Z.to_nat (lower_bound nd key)) (pairs nd)) ∧
  Forall (λ kv, 0 ≤ ix_compare kv.1 key) (drop (Z.to_nat (lower_bound nd key)) (pairs nd)) ∧
  Forall (λ kv, key_lt key kv.1) (drop (S (Z.to_nat (lower_bound nd key))) (pairs nd)).
Proof.
  intros Hinc.
  destruct (lower_bound_with_least binary_search (node_keys nd) key Hinc) as (Hb & Hlt & Hat).
  fold (lower_bound nd key) in *. set (r := lower_bound nd key) in *.
  assert (Z.of_nat (length (node_keys nd)) = num_key nd) as Hlen
    by (unfold node_keys, num_key; by rewrite length_fmap).
  split; [lia |].
  assert (∀ j kv, pairs nd !! j = Some kv → (Z.to_nat r < j)%nat → key_lt key kv.1) as Hafter.
  { intros j kv Hkv Hj.
    destruct Hat as (k & Hk & Hge); [apply lookup_lt_Some in Hkv; unfold num_key in *; lia |].
    assert (node_keys nd !! j = Some kv.1) as Hkj
      by (unfold node_keys; by rewrite list_lookup_fmap, Hkv).
    pose proof (Hinc _ _ _ _ Hk Hkj Hj) as Hkk.
    destruct (Z.eq_dec (ix_compare k key) 0) as [He | Hne].
    - apply ix_compare_eq in He. by subst k.
    - unfold key_lt. apply (ix_compare_trans key k kv.1); [| done].
      apply ix_compare_lt_gt. lia. }
  split; [| split].
  - apply Forall_forall. intros kv Hkv. apply elem_of_take in Hkv as (i & Hi & Hlti).
    assert (node_keys nd !! i = Some kv.1) as Hki
      by (unfold node_keys; by rewrite list_lookup_fmap, Hi).
    unfold key_lt. specialize (Hlt i _ Hki). lia.
  - apply Forall_forall. intros kv Hkv. apply list_elem_of_lookup in Hkv as [j Hj].
    rewrite lookup_drop in Hj. destruct j as [| j].
    + rewrite Nat.add_0_r in Hj.
      destruct Hat as (k & Hk & Hge); [apply lookup_lt_Some in Hj; unfold num_key in *; lia |].
      unfold node_keys in Hk. rewrite list_lookup_fmap, Hj in Hk. by injection Hk as <-.
    + assert (key_lt key kv.1) as Hk by (eapply Hafter; [done | lia]).
      unfold key_lt in Hk. apply ix_compare_lt_gt in Hk. lia.
  - apply Forall_forall. intros kv Hkv. apply list_elem_of_lookup in Hkv as [j Hj].
    rewrite lookup_drop in Hj. eapply Hafter; [done | lia].
Qed.

(** A sorted node holds [key] exactly when the slot [lower_bound] returns
    holds it. *)
Lemma key_at_lower_bound (nd : Node Key) (key : Key) :
  strictly_increasing (node_keys nd) →
  (key ∈ node_keys nd ↔
   ∃ r, pairs nd !! Z.to_nat (lower_bound nd key) = Some (key, r)) ∧
  (∀ r, (key, r) ∈ pairs nd ↔
        pairs nd !! Z.to_nat (lower_bound nd key) = Some (key, r)).
Proof.
  intros Hinc. destruct (lower_bound_cut nd key Hinc) as (Hb & Hlo & _ & Hhi).
  set (pos := Z.to_nat (lower_bound nd key)) in *.
  assert (∀ r, (key, r) ∈ pairs nd → pairs nd !! pos = Some (key, r)) as Hin.
  { intros r Hr. rewrite <- (take_drop pos (pairs nd)) in Hr.
    apply elem_of_app in Hr as [Hr | Hr].
    - rewrite Forall_forall in Hlo. by destruct (key_lt_irrefl key (Hlo _ Hr)).
    - destruct (pairs nd !! pos) as [kv |] eqn:Hkv.
      + rewrite <- (take_drop_middle _ _ _ Hkv), drop_app_length' in Hr
          by (rewrite length_take; apply lookup_lt_Some in Hkv; lia).
        apply elem_of_cons in Hr as [<- | Hr]; [done |].
        rewrite Forall_forall in Hhi. by destruct (key_lt_irrefl key (Hhi _ Hr)).
      + apply lookup_ge_None in Hkv. rewrite drop_ge in Hr by done.
        by apply elem_of_nil in Hr. }
  split; [split |].
  - intros Hk. unfold node_keys in Hk. apply list_elem_of_fmap in Hk as ([k r] & -> & Hkr).
    exists r. by apply Hin.
  - intros [r Hr]. unfold node_keys. apply list_elem_of_fmap. exists (key, r).
    split; [done |]. by eapply list_elem_of_lookup_2.
  - intros r. split; [apply Hin |]. intros Hr. by eapply list_elem_of_lookup_2.
Qed.

(** The entries of [nd] with [(key, value)] put in at the slot
    [lower_bound] returns, and with the entry of that slot taken out. *)
Definition with_entry (key : Key) (value : Rid) (nd : Node Key) : list (Key * Rid) :=
  take (Z.to_nat (lower_bound nd key)) (pairs nd) ++ [(key, value)]
  ++ drop (Z.to_nat (lower_bound nd key)) (pairs nd).

Definition without_entry (key : Key) (nd : Node Key) : list (Key * Rid) :=
  take (Z.to_nat (lower_bound nd key)) (pairs nd)
  ++ drop (S (Z.to_nat (lower_bound nd key))) (pairs nd).

Lemma node_insert_run (s : IxIndexHandle Key) h pg key value :
  frame s h = Some pg → strictly_increasing (node_keys (data_ pg)) →
  node_insert h key value s =
    if decide (key ∈ node_keys (data_ pg)) then Ok (num_key (data_ pg)) s
    else if num_key (data_ pg) + 1 <=? max_size_ (file_hdr_ s)
         then Ok (num_key (data_ pg) + 1)
                 (put_node h (set_pairs (with_entry key value (data_ pg)) (data_ pg)) s)
         else Throw (AssertionFailed InInsertPairs) s.
Proof.
  intros Hh Hinc. set (nd := data_ pg) in *.
  destruct (lower_bound_cut nd key Hinc) as (Hb & _).
  destruct (key_at_lower_bound nd key Hinc) as [Hkey _].
  assert ((insert_pair h (lower_bound nd key) key value ;; get_size h) s =
          if num_key nd + 1 <=? max_size_ (file_hdr_ s)
          then Ok (num_key nd + 1) (put_node h (set_pairs (with_entry key value nd) nd) s)
          else Throw (AssertionFailed InInsertPairs) s) as Hins.
  { unfold insert_pair, bind at 1. rewrite (insert_pairs_run _ _ _ _ _ Hh Hb). simpl length.
    change (Z.of_nat 1) with 1. destruct (_ <=? _); [| done].
    rewrite (get_size_run _ _ _ (frame_put_node_eq _ _ _ _ Hh)). simpl. f_equal.
    unfold num_key in *. cbn [pairs set_pairs]. rewrite length_app, length_take.
    cbn [length]. rewrite length_drop. fold nd. lia. }
  unfold node_insert. rewrite (bind_ok _ _ _ _ _ (node_of_run _ _ _ Hh)). fold nd.
  destruct (pairs nd !! Z.to_nat (lower_bound nd key)) as [[k r] |] eqn:Hkv.
  - destruct (Z.eqb_spec (ix_compare k key) 0) as [He | Hne].
    + apply ix_compare_eq in He as ->. rewrite decide_True by (apply Hkey; eauto).
      by apply get_size_run.
    + rewrite decide_False; [exact Hins |].
      intros Hin. apply Hkey in Hin as [r' Hr']. injection Hr' as -> ->.
      apply Hne. by apply ix_compare_eq.
  - rewrite decide_False; [exact Hins |].
    intros Hin. apply Hkey in Hin as [r' Hr']. congruence.
Qed.

Lemma node_remove_run (s : IxIndexHandle Key) h pg key :
  frame s h = Some pg → strictly_increasing (node_keys (data_ pg)) →
  node_remove h key s =
    if decide (key ∈ node_keys (data_ pg))
    then Ok (num_key (data_ pg) - 1)
            (put_node h (set_pairs (without_entry key (data_ pg)) (data_ pg)) s)
    else Ok (num_key (data_ pg)) s.
Proof.
  intros Hh Hinc. set (nd := data_ pg) in *.
  destruct (lower_bound_cut nd key Hinc) as (Hb & _).
  destruct (key_at_lower_bound nd key Hinc) as [Hkey _].
  unfold node_remove. rewrite (bind_ok _ _ _ _ _ (node_of_run _ _ _ Hh)). fold nd.
  destruct (pairs nd !! Z.to_nat (lower_bound nd key)) as [[k r] |] eqn:Hkv.
  - destruct (Z.eqb_spec (ix_compare k key) 0) as [He | Hne].
    + apply ix_compare_eq in He as ->. rewrite decide_True by (apply Hkey; eauto).
      pose proof (lookup_lt_Some _ _ _ Hkv) as Hlt.
      assert (0 ≤ lower_bound nd key < num_key nd) as Hpos by (unfold num_key; lia).
      unfold bind at 1. rewrite (erase_pair_run _ _ _ _ Hh Hpos).
      rewrite (get_size_run _ _ _ (frame_put_node_eq _ _ _ _ Hh)). simpl. f_equal.
      unfold num_key in *. cbn [pairs set_pairs]. rewrite length_app, length_take, length_drop.
      fold nd. lia.
    + rewrite decide_False; [by apply get_size_run |].
      intros Hin. apply Hkey in Hin as [r' Hr']. injection Hr' as -> ->.
      apply Hne. by apply ix_compare_eq.
  - rewrite decide_False; [by apply get_size_run |].
    intros Hin. apply Hkey in Hin as [r' Hr']. congruence.
Qed.

Lemma leaf_lookup_run (s : IxIndexHandle Key) h pg key :
  frame s h = Some pg → strictly_increasing (node_keys (data_ pg)) →
  leaf_lookup h key s =
    Ok (match pairs (data_ pg) !! Z.to_nat (lower_bound (data_ pg) key) with
        | Some (k, r) => if decide (k = key) then Some r else None
        | None => None
        end) s.
Proof.
  intros Hh Hinc. set (nd := data_ pg) in *.
  destruct (lower_bound_cut nd key Hinc) as (Hb & _).
  unfold leaf_lookup. rewrite (bind_ok _ _ _ _ _ (node_of_run _ _ _ Hh)). fold nd.
  rewrite (bind_ok _ _ _ _ _ (get_size_run _ _ _ Hh)). fold nd.
  destruct (pairs nd !! Z.to_nat (lower_bound nd key)) as [[k r] |] eqn:Hkv.
  - pose proof (lookup_lt_Some _ _ _ Hkv) as Hlt.
    destruct (Z.eqb_spec (lower_bound nd key) (num_key nd)) as [He | _];
      [unfold num_key in He; lia |].
    assert (0 ≤ lower_bound nd key) as H0 by lia.
    rewrite (bind_ok _ _ _ _ _ (get_key_run _ _ _ _ _ Hh H0 Hkv)). simpl.
    destruct (Z.eqb_spec (ix_compare k key) 0) as [He | Hne]; simpl.
    + apply ix_compare_eq in He as ->. rewrite decide_True by done.
      by rewrite (bind_ok _ _ _ _ _ (get_rid_run _ _ _ _ _ Hh H0 Hkv)).
    + rewrite decide_False; [done |]. intros ->. apply Hne. by apply ix_compare_eq.
  - apply lookup_ge_None in Hkv.
    destruct (Z.eqb_spec (lower_bound nd key) (num_key nd)) as [_ | Hne]; [done |].
    unfold num_key in *. lia.
Qed.

Lemma with_entry_sorted (nd : Node Key) key value :
  strictly_increasing (node_keys nd) → key ∉ node_keys nd →
  strictly_increasing (with_entry key value nd).*1.
Proof.
  intros Hinc Hnot. destruct (lower_bound_cut nd key Hinc) as (_ & Hlo & Hge & _).
  pose proof Hinc as Hs. apply strictly_increasing_sorted in Hs.
  unfold node_keys in Hs.
  rewrite <- (take_drop (Z.to_nat (lower_bound nd key)) (pairs nd)), fmap_app in Hs.
  apply StronglySorted_app in Hs as (Hcross & Hs1 & Hs2).
  apply strictly_increasing_sorted. unfold with_entry. rewrite !fmap_app. simpl.
  rewrite Forall_forall in Hlo. rewrite Forall_forall in Hge.
  assert (∀ x, x ∈ (drop (Z.to_nat (lower_bound nd key)) (pairs nd)).*1 → key_lt key x) as Hhi.
  { intros x Hx. apply list_elem_of_fmap in Hx as (kv & -> & Hkv).
    specialize (Hge _ Hkv). unfold key_lt. apply ix_compare_lt_gt.
    destruct (Z.eq_dec (ix_compare kv.1 key) 0) as [He | Hne]; [| lia].
    apply ix_compare_eq in He. exfalso. apply Hnot. rewrite <- He. unfold node_keys.
    apply list_elem_of_fmap_2.
    rewrite <- (take_drop (Z.to_nat (lower_bound nd key)) (pairs nd)).
    apply elem_of_app. by right. }
  apply StronglySorted_app. split; [| split]; [| done |].
  - intros x1 x2 Hx1 Hx2. apply elem_of_cons in Hx2 as [-> | Hx2].
    + apply list_elem_of_fmap in Hx1 as (kv & -> & Hkv). by apply Hlo.
    + by apply Hcross.
  - apply StronglySorted_cons. split; [| done]. by apply Forall_forall.
Qed.

Lemma without_entry_sorted (nd : Node Key) key :
  strictly_increasing (node_keys nd) → strictly_increasing (without_entry key nd).*1.
Proof.
  intros Hinc. apply strictly_increasing_sorted in Hinc. apply strictly_increasing_sorted.
  unfold node_keys in Hinc. unfold without_entry.
  rewrite <- (take_drop (Z.to_nat (lower_bound nd key)) (pairs nd)), fmap_app in Hinc.
  apply StronglySorted_app in Hinc as (Hcross & Hs1 & Hs2).
  rewrite fmap_app. apply StronglySorted_app.
  assert (∀ x, x ∈ (drop (S (Z.to_nat (lower_bound nd key))) (pairs nd)).*1 →
               x ∈ (drop (Z.to_nat (lower_bound nd key)) (pairs nd)).*1) as Hsub.
  { intros x Hx. apply list_elem_of_fmap in Hx as (kv & -> & Hkv).
    apply list_elem_of_fmap_2. apply list_elem_of_lookup in Hkv as [j Hj].
    rewrite lookup_drop in Hj. apply list_elem_of_lookup. exists (S j).
    rewrite lookup_drop. by rewrite <- Nat.add_succ_comm. }
  split; [| split]; [| done |].
  - intros x1 x2 Hx1 Hx2. apply Hcross; [done | by apply Hsub].
  - destruct (drop (Z.to_nat (lower_bound nd key)) (pairs nd)) as [| kv l] eqn:Hd.
    + assert (drop (S (Z.to_nat (lower_bound nd key))) (pairs nd) = []) as ->; [| constructor].
      apply drop_ge. assert (length (drop (Z.to_nat (lower_bound nd key)) (pairs nd)) = 0%nat)
        as Hl by (by rewrite Hd). rewrite length_drop in Hl. lia.
    + assert (drop (S (Z.to_nat (lower_bound nd key))) (pairs nd) = l) as ->.
      { replace (S (Z.to_nat (lower_bound nd key)))
          with (Z.to_nat (lower_bound nd key) + 1)%nat by lia.
        by rewrite <- drop_drop, Hd. }
      simpl in Hs2. by apply StronglySorted_cons in Hs2 as [_ ?].
Qed.

Lemma elem_of_with_entry (nd : Node Key) key value kv :
  kv ∈ with_entry key value nd ↔ kv = (key, value) ∨ kv ∈ pairs nd.
Proof.
  unfold with_entry. rewrite !elem_of_app, list_elem_of_singleton.
  rewrite <- (take_drop (Z.to_nat (lower_bound nd key)) (pairs nd)) at 3.
  rewrite elem_of_app. tauto.
Qed.

Lemma elem_of_without_entry (nd : Node Key) key kv :
  strictly_increasing (node_keys nd) → key ∈ node_keys nd →
  kv ∈ without_entry key nd ↔ kv ∈ pairs nd ∧ kv.1 ≠ key.
Proof.
  intros Hinc Hin. destruct (lower_bound_cut nd key Hinc) as (_ & Hlo & _ & Hhi).
  destruct (key_at_lower_bound nd key Hinc) as [Hkey _].
  apply Hkey in Hin as [r Hr].
  rewrite Forall_forall in Hlo. rewrite Forall_forall in Hhi.
  unfold without_entry. rewrite <- (take_drop_middle _ _ _ Hr) at 3.
  rewrite !elem_of_app, elem_of_cons. split.
  - intros [H | H].
    + split; [by left |]. intros He. specialize (Hlo _ H). rewrite He in Hlo.
      by apply key_lt_irrefl in Hlo.
    + split; [by right; right |]. intros He. specialize (Hhi _ H). rewrite He in Hhi.
      by apply key_lt_irrefl in Hhi.
  - intros [[H | [-> | H]] Hne]; [by left | done | by right].
Qed.

(** X10.  [IxNodeHandle::insert] on a node with strictly increasing keys:
    when the key is there already nothing changes (the old rid stays) and
    the size comes back; otherwise the pair goes in, the keys stay strictly
    increasing, the other pairs stay, and the size grows by one.  A node that
    is full fails the assertion of [insert_pairs]. *)
Theorem node_insert_sorted (s : IxIndexHandle Key) (h : IxNodeHandle) (pg : Page (Node Key))
    (key : Key) (value : Rid) :
  frame s h = Some pg → strictly_increasing (node_keys (data_ pg)) →
  (key ∈ node_keys (data_ pg) → node_insert h key value s = Ok (num_key (data_ pg)) s) ∧
  (key ∉ node_keys (data_ pg) → max_size_ (file_hdr_ s) ≤ num_key (data_ pg) →
     node_insert h key value s = Throw (AssertionFailed InInsertPairs) s) ∧
  (key ∉ node_keys (data_ pg) → num_key (data_ pg) < max_size_ (file_hdr_ s) →
     ∃ l, node_insert h key value s
          = Ok (num_key (data_ pg) + 1) (put_node h (set_pairs l (data_ pg)) s) ∧
       strictly_increasing l.*1 ∧
       ∀ kv, kv ∈ l ↔ kv = (key, value) ∨ kv ∈ pairs (data_ pg)).
Proof.
  intros Hh Hinc. rewrite (node_insert_run _ _ _ _ _ Hh Hinc).
  split; [| split].
  - intros Hin. by rewrite decide_True.
  - intros Hnot Hfull. rewrite decide_False by done.
    destruct (Z.leb_spec (num_key (data_ pg) + 1) (max_size_ (file_hdr_ s))); [lia | done].
  - intros Hnot Hroom. rewrite decide_False by done.
    destruct (Z.leb_spec (num_key (data_ pg) + 1) (max_size_ (file_hdr_ s))); [| lia].
    exists (with_entry key value (data_ pg)). split; [done |].
    split; [by apply with_entry_sorted | apply elem_of_with_entry].
Qed.

(** X11.  [IxNodeHandle::remove] on a node with strictly increasing keys:
    when the key is not there nothing changes; otherwise exactly the pair
    with this key goes, the keys stay strictly increasing, and the size is
    one less. *)
Theorem node_remove_sorted (s : IxIndexHandle Key) (h : IxNodeHandle) (pg : Page (Node Key))
    (key : Key) :
  frame s h = Some pg → strictly_increasing (node_keys (data_ pg)) →
  (key ∉ node_keys (data_ pg) → node_remove h key s = Ok (num_key (data_ pg)) s) ∧
  (key ∈ node_keys (data_ pg) →
     ∃ l, node_remove h key s
          = Ok (num_key (data_ pg) - 1) (put_node h (set_pairs l (data_ pg)) s) ∧
       strictly_increasing l.*1 ∧
       ∀ kv, kv ∈ l ↔ kv ∈ pairs (data_ pg) ∧ kv.1 ≠ key).
Proof.
  intros Hh Hinc. rewrite (node_remove_run _ _ _ _ Hh Hinc). split.
  - intros Hnot. by rewrite decide_False.
  - intros Hin. rewrite decide_True by done.
    exists (without_entry key (data_ pg)). split; [done |].
    split; [by apply without_entry_sorted |].
    intros kv. by apply elem_of_without_entry.
Qed.

(** What [leaf_lookup] returns, for the proofs about several calls. *)
Lemma leaf_lookup_result (s : IxIndexHandle Key) (h : IxNodeHandle) (pg : Page (Node Key))
    (key : Key) :
  frame s h = Some pg → strictly_increasing (node_keys (data_ pg)) →
  ∃ r, leaf_lookup h key s = Ok r s ∧
    (∀ rid, r = Some rid ↔ (key, rid) ∈ pairs (data_ pg)) ∧
    (r = None ↔ key ∉ node_keys (data_ pg)).
Proof.
  intros Hh Hinc. rewrite (leaf_lookup_run _ _ _ _ Hh Hinc).
  destruct (key_at_lower_bound (data_ pg) key Hinc) as [Hkey Hpair].
  eexists. split; [done |].
  destruct (pairs (data_ pg) !! Z.to_nat (lower_bound (data_ pg) key)) as [[k r] |] eqn:Hkv.
  - destruct (decide (k = key)) as [-> | Hne].
    + split.
      * intros rid. rewrite Hpair. split; congruence.
      * split; [done |]. intros Hnot. exfalso. apply Hnot, Hkey. eauto.
    + split.
      * intros rid. rewrite Hpair. split; [done | congruence].
      * split; [| done]. intros _ Hin. apply Hkey in Hin as [r' Hr']. congruence.
  - split.
    + intros rid. rewrite Hpair. split; done.
    + split; [| done]. intros _ Hin. apply Hkey in Hin as [r' Hr']. congruence.
Qed.

(** X12.  [IxNodeHandle::leaf_lookup] on a node with strictly increasing
    keys changes nothing and returns the rid stored with the key, and none
    exactly when the node has no pair with this key. *)
Theorem leaf_lookup_finds (s : IxIndexHandle Key) (h : IxNodeHandle) (pg : Page (Node Key))
    (key : Key) :
  frame s h = Some pg → strictly_increasing (node_keys (data_ pg)) →
  ∃ r, leaf_lookup h key s = Ok r s ∧
    (∀ rid, r = Some rid ↔ (key, rid) ∈ pairs (data_ pg)) ∧
    (r = None ↔ key ∉ node_keys (data_ pg)).
Proof.
  intros Hh Hinc. rewrite (leaf_lookup_run _ _ _ _ Hh Hinc).
  destruct (key_at_lower_bound (data_ pg) key Hinc) as [Hkey Hpair].
  eexists. split; [done |].
  destruct (pairs (data_ pg) !! Z.to_nat (lower_bound (data_ pg) key)) as [[k r] |] eqn:Hkv.
  - destruct (decide (k = key)) as [-> | Hne].
    + split.
      * intros rid. rewrite Hpair. split; congruence.
      * split; [done |]. intros Hnot. exfalso. apply Hnot, Hkey. eauto.
    + split.
      * intros rid. rewrite Hpair. split; [done | congruence].
      * split; [| done]. intros _ Hin. apply Hkey in Hin as [r' Hr']. congruence.
  - split.
    + intros rid. rewrite Hpair. split; done.
    + split; [| done]. intros _ Hin. apply Hkey in Hin as [r' Hr']. congruence.
Qed.

(** X13.  A pair put into a node by [insert] is found by [leaf_lookup]
    with the rid it was given, the lookups of the other keys answer as
    before, and [remove] of the key gives back the node as it was. *)
Theorem node_insert_lookup_remove (s : IxIndexHandle Key) (h : IxNodeHandle)
    (pg : Page (Node Key)) (key : Key) (value : Rid) :
  frame s h = Some pg → strictly_increasing (node_keys (data_ pg)) →
  key ∉ node_keys (data_ pg) → num_key (data_ pg) < max_size_ (file_hdr_ s) →
  ∃ s1, node_insert h key value s = Ok (num_key (data_ pg) + 1) s1 ∧
    leaf_lookup h key s1 = Ok (Some value) s1 ∧
    (∀ k, k ≠ key → ∃ r, leaf_lookup h k s = Ok r s ∧ leaf_lookup h k s1 = Ok r s1) ∧
    node_remove h key s1 = Ok (num_key (data_ pg)) s.
Proof.
  intros Hh Hinc Hnot Hroom. set (nd := data_ pg) in *.
  set (nd1 := set_pairs (with_entry key value nd) nd).
  exists (put_node h nd1 s).
  pose proof (frame_put_node_eq h nd1 s pg Hh) as Hh1.
  assert (strictly_increasing (node_keys nd1)) as Hinc1 by (by apply with_entry_sorted).
  assert (∀ kv, kv ∈ pairs nd1 ↔ kv = (key, value) ∨ kv ∈ pairs nd) as Hmem
    by (intros kv; apply elem_of_with_entry).
  split; [| split; [| split]].
  - rewrite (node_insert_run _ _ _ _ _ Hh Hinc). rewrite decide_False by done. fold nd.
    destruct (Z.leb_spec (num_key nd + 1) (max_size_ (file_hdr_ s))); [done | lia].
  - destruct (leaf_lookup_result _ _ _ key Hh1 Hinc1) as (r & Hr & Hsome & _).
    rewrite Hr. f_equal. apply Hsome. cbn [data_]. apply Hmem. by left.
  - intros k Hk.
    destruct (leaf_lookup_result _ _ _ k Hh Hinc) as (r & Hr & Hsome & _).
    destruct (leaf_lookup_result _ _ _ k Hh1 Hinc1) as (r1 & Hr1 & Hsome1 & _).
    exists r. split; [done |]. rewrite Hr1. f_equal. apply option_eq. intros rid.
    rewrite Hsome, Hsome1. cbn [data_]. rewrite Hmem. fold nd. split; [| by right].
    intros [Heq | Hin]; [congruence | done].
  - rewrite (node_remove_run _ _ _ _ Hh1 Hinc1). simpl data_.
    assert (key ∈ node_keys nd1) as Hin1.
    { unfold node_keys. apply list_elem_of_fmap. exists (key, value). split; [done |].
      apply Hmem. by left. }
    rewrite decide_True by done.
    destruct (lower_bound_cut nd key Hinc) as (Hb & _).
    set (pos := Z.to_nat (lower_bound nd key)) in *.
    assert (length (take pos (pairs nd)) = pos) as Hlen
      by (rewrite length_take; unfold num_key in Hb; lia).
    assert (pairs nd1 !! pos = Some (key, value)) as Hat.
    { simpl. unfold with_entry. fold pos. by apply list_lookup_middle. }
    assert (Z.to_nat (lower_bound nd1 key) = pos) as Hpos.
    { destruct (key_at_lower_bound nd1 key Hinc1) as [_ Hpair].
      assert (pairs nd1 !! Z.to_nat (lower_bound nd1 key) = Some (key, value)) as Hat1
        by (apply Hpair, Hmem; by left).
      destruct (lt_eq_lt_dec (Z.to_nat (lower_bound nd1 key)) pos) as [[Hlt | ?] | Hlt];
        [| done |]; exfalso; apply (key_lt_irrefl key).
      - apply (Hinc1 (Z.to_nat (lower_bound nd1 key)) pos); [| | done];
          unfold node_keys; rewrite list_lookup_fmap; [by rewrite Hat1 | by rewrite Hat].
      - apply (Hinc1 pos (Z.to_nat (lower_bound nd1 key))); [| | done];
          unfold node_keys; rewrite list_lookup_fmap; [by rewrite Hat | by rewrite Hat1]. }
    assert (without_entry key nd1 = pairs nd) as Hw.
    { unfold without_entry. rewrite Hpos. simpl. unfold with_entry. fold pos.
      rewrite take_app_length' by done.
      rewrite (app_assoc (take pos (pairs nd))).
      rewrite drop_app_length' by (rewrite length_app; simpl; lia).
      apply take_drop. }
    rewrite Hw, put_node_put_node.
    assert (set_pairs (pairs nd) nd1 = nd) as -> by (by destruct nd).
    assert (put_node h nd s = s) as -> by (by apply put_node_same). f_equal.
    unfold num_key. simpl. unfold with_entry. fold pos.
    rewrite !length_app, Hlen, length_drop. cbn [length]. unfold num_key in Hb. lia.
Qed.

Lemma upper_bound_cut (nd : Node Key) (key : Key) :
  strictly_increasing (node_keys nd) →
  0 ≤ upper_bound nd key ≤ num_key nd ∧
  (∀ (i : nat) kv, pairs nd !! i = Some kv → Z.of_nat i < upper_bound nd key →
     ix_compare kv.1 key ≤ 0) ∧
  (∀ (i : nat) kv, pairs nd !! i = Some kv → upper_bound nd key ≤ Z.of_nat i →
     0 < ix_compare kv.1 key).
Proof.
  intros Hinc.
  destruct (upper_bound_with_least binary_search (node_keys nd) key Hinc) as (Hb & Hlt & Hat).
  fold (upper_bound nd key) in *. set (r := upper_bound nd key) in *.
  assert (Z.of_nat (length (node_keys nd)) = num_key nd) as Hlen
    by (unfold node_keys, num_key; by rewrite length_fmap).
  split; [lia |]. split.
  - intros i kv Hkv Hi.
    assert (node_keys nd !! i = Some kv.1) as Hki
      by (unfold node_keys; by rewrite list_lookup_fmap, Hkv).
    specialize (Hlt i _ Hki Hi). lia.
  - intros i kv Hkv Hi.
    destruct Hat as (k & Hk & Hgt); [apply lookup_lt_Some in Hkv; unfold num_key in *; lia |].
    assert (node_keys nd !! i = Some kv.1) as Hki
      by (unfold node_keys; by rewrite list_lookup_fmap, Hkv).
    destruct (decide (Z.to_nat r = i)) as [<- | Hne]; [congruence |].
    assert (key_lt k kv.1) as Hkk by (apply (Hinc (Z.to_nat r) i); [done | done | lia]).
    apply ix_compare_lt_gt. apply (ix_compare_trans key k kv.1); [| done].
    by apply ix_compare_lt_gt.
Qed.

Lemma value_at_run (s : IxIndexHandle Key) h pg i kv :
  frame s h = Some pg → 0 ≤ i → pairs (data_ pg) !! Z.to_nat i = Some kv →
  value_at h i s = Ok (rid_page_no kv.2) s.
Proof.
  intros Hh Hi Hkv. unfold value_at.
  by rewrite (bind_ok _ _ _ _ _ (get_rid_run _ _ _ _ _ Hh Hi Hkv)).
Qed.

(** X14.  [IxNodeHandle::internal_lookup] fails its assertion on a leaf.
    On an internal node with strictly increasing keys it changes nothing
    and returns the child of a slot [i] such that every later slot has a key
    above the target and slot [i] has a key at or below the target, or is
    slot 0. *)
Theorem internal_lookup_routes (s : IxIndexHandle Key) (h : IxNodeHandle)
    (pg : Page (Node Key)) (key : Key) :
  frame s h = Some pg → strictly_increasing (node_keys (data_ pg)) →
  (is_leaf (data_ pg) = true →
     internal_lookup h key s = Throw (AssertionFailed InInternalLookup) s) ∧
  (is_leaf (data_ pg) = false → pairs (data_ pg) ≠ [] →
     ∃ (i : nat) kv, internal_lookup h key s = Ok (rid_page_no kv.2) s ∧
       pairs (data_ pg) !! i = Some kv ∧
       (i = 0%nat ∨ ix_compare kv.1 key ≤ 0) ∧
       (∀ (j : nat) kj, pairs (data_ pg) !! j = Some kj → (j < i)%nat →
          ix_compare kj.1 key < 0) ∧
       (∀ (j : nat) kj, pairs (data_ pg) !! j = Some kj → (i < j)%nat →
          0 < ix_compare kj.1 key)).
Proof.
  intros Hh Hinc. set (nd := data_ pg) in *.
  unfold internal_lookup. rewrite (bind_ok _ _ _ _ _ (node_of_run _ _ _ Hh)). fold nd.
  split.
  - intros Hleaf. rewrite Hleaf. done.
  - intros Hleaf Hne. rewrite Hleaf. simpl. unfold assert. rewrite ret_bind.
    destruct (upper_bound_cut nd key Hinc) as (Hb & Hle & Hgt).
    assert (∀ (i j : nat) ki kj, pairs nd !! i = Some ki → pairs nd !! j = Some kj →
              (j < i)%nat → ix_compare ki.1 key ≤ 0 → ix_compare kj.1 key < 0) as Hbelow.
    { intros i j ki kj Hi Hj Hji Hki.
      assert (key_lt kj.1 ki.1) as Hlt.
      { apply (Hinc j i); [| | done]; unfold node_keys; rewrite list_lookup_fmap;
          [by rewrite Hj | by rewrite Hi]. }
      destruct (Z.eq_dec (ix_compare ki.1 key) 0) as [He | Hn].
      - apply ix_compare_eq in He. by rewrite <- He.
      - apply (ix_compare_trans kj.1 ki.1 key); [done | lia]. }
    destruct (Z.eqb_spec (upper_bound nd key) 0) as [He | Hn].
    + destruct (pairs nd) as [| kv l] eqn:Hp; [done |].
      exists 0%nat, kv.
      assert (pairs (data_ pg) !! Z.to_nat 0 = Some kv) as Hkv by (fold nd; by rewrite Hp).
      split; [by apply (value_at_run _ _ _ _ _ Hh) |]. split; [done |].
      split; [by left |]. split; [intros; lia |].
      intros j kj Hj Hlt. apply (Hgt j); [done | lia].
    + assert (0 ≤ upper_bound nd key - 1) as H0 by lia.
      destruct (lookup_lt_is_Some_2 (pairs nd) (Z.to_nat (upper_bound nd key - 1)))
        as [kv Hkv]; [unfold num_key in Hb; lia |].
      exists (Z.to_nat (upper_bound nd key - 1)), kv.
      split; [by apply (value_at_run _ _ _ _ _ Hh) |]. split; [done |].
      assert (ix_compare kv.1 key ≤ 0) as Hkle by (apply (Hle _ _ Hkv); lia).
      split; [by right |]. split.
      * intros j kj Hj Hlt. by apply (Hbelow _ j _ _ Hkv).
      * intros j kj Hj Hlt. apply (Hgt j); [done | lia].
Qed.

End NodeOps.

(** * Operations of the index handle on the pages of the file *)

Lemma wp_total {St A} (m : M St A) s (Q : A → St → Prop) :
  wp (λ _, False) m s Q → ∃ a s', m s = Ok a s' ∧ Q a s'.
Proof. unfold wp. destruct (m s) as [a s' |]; [eauto | done]. Qed.

Lemma wp_throws {St A} (m : M St A) s e :
  wp (λ e', e' = e) m s (λ _ _, False) → ∃ s', m s = Throw e s'.
Proof. unfold wp. destruct (m s) as [a s' | e' s']; [done | intros ->; eauto]. Qed.

Section StoreOps.
Context {Key : Type} `{!IxParams Key}.

Implicit Types (σ : gmap page_id_t (Node Key)) (P : gmultiset page_id_t) (D : gset page_id_t).
Implicit Types (s : IxIndexHandle Key).

(** X15.  [fetch_node] of a page of the file that is pinned already or
    finds a frame returns a handle on the page, with its node and its page
    number, and takes one more pin on it.  When a frame can be found and the
    file does not hold the page, the disk manager's error comes out; when
    the page is not pinned and every frame is, the assertion fails. *)
Theorem fetch_node_outcomes σ P D s (p : page_id_t) :
  rep σ P D s →
  (∀ nd, σ !! p = Some nd → p ∈ P ∨ (0 < room (pool s))%nat →
     ∃ h s', fetch_node p s = Ok h s' ∧ node_of h s' = Ok nd s' ∧
       get_page_no h s' = Ok p s' ∧ rep σ (P ⊎ {[+ p +]}) D s' ∧
       file_hdr_ s' = file_hdr_ s) ∧
  (σ !! p = None → (0 < room (pool s))%nat → ∃ s', fetch_node p s = Throw IOError s') ∧
  (p ∉ P → room (pool s) = 0%nat → fetch_node p s = Throw (AssertionFailed InFetchNode) s).
Proof.
  intros Hr. split; [| split].
  - intros nd Hnd Hroom.
    destruct (fetch_node_rep _ _ _ _ _ _ Hr Hnd Hroom)
      as (h & s' & Hrun & Hr' & Hhdr & Hfd & Hh & _).
    exists h, s'. split; [done |].
    destruct (node_of_rep _ _ _ _ _ _ Hr' Hh) as (nd' & Hnd' & Hnode).
    split; [congruence |]. split; [by apply get_page_no_run | done].
  - intros Hnone Hroom. apply wp_throws. eapply wp_fetch_node; [done | by right | | ].
    + right. by left.
    + intros h s' nd Hnd. congruence.
  - intros HpP Hz. pose proof Hr as [(D' & Hok & HD') Hc Hp].
    assert (page_table_ (pool s) !! pid s p = None) as Ht.
    { destruct (page_table_ (pool s) !! pid s p) as [g |] eqn:Hg; [| done].
      pose proof (rep_pin_pid _ _ _ _ p Hr) as Hpp.
      rewrite elem_of_multiplicity in HpP.
      assert (0 < room (pool s))%nat; [| lia].
      eapply unpinned_resident_room; [by apply ok_wf in Hok | done | lia]. }
    destruct (fetch_page_no_room _ _ Ht Hz) as (b' & Hrun).
    pose proof (fetch_page_none_same _ _ _ Hrun) as ->.
    unfold fetch_node, bind, gets. fold (pid s p). rewrite (bpm_ok _ _ _ _ Hrun).
    unfold throw. by destruct s.
Qed.

(** X16.  With a frame to take, [create_node] counts the page in the file
    header and returns a handle, pinned once, on a page that the file did
    not hold; the page is blank and has the next page number of the disk
    manager.  [release_node_handle] only takes the count back: the page
    stays in the file and pinned, and its number is not handed out again. *)
Theorem create_node_fresh σ P D s :
  rep σ P D s → (0 < room (pool s))%nat →
  ∃ h s', create_node s = Ok h s' ∧
    node_of h s' = Ok blank s' ∧ get_page_no h s' = Ok (next_page s) s' ∧
    σ !! next_page s = None ∧ (next_page s ∉ P) ∧
    rep (<[next_page s := blank]> σ) (P ⊎ {[+ next_page s +]}) D s' ∧
    file_hdr_ s' = set_num_pages (num_pages_ (file_hdr_ s) + 1) (file_hdr_ s) ∧
    next_page s' = next_page s + 1 ∧
    ∃ s'', release_node_handle h s' = Ok tt s'' ∧
      file_hdr_ s'' = file_hdr_ s ∧ next_page s'' = next_page s + 1 ∧
      rep (<[next_page s := blank]> σ) (P ⊎ {[+ next_page s +]}) D s''.
Proof.
  intros Hr Hroom.
  destruct (create_node_rep _ _ _ _ Hr Hroom)
    as (h & s' & Hrun & Hnone & HnP & Hnn & Hr' & Hhdr & Hfd & Hh & _ & _ & _ & Hnext).
  exists h, s'. split; [done |].
  destruct (node_of_rep _ _ _ _ _ _ Hr' Hh) as (nd' & Hnd' & Hnode).
  rewrite lookup_insert_eq in Hnd'. injection Hnd' as <-.
  split; [done |]. split; [by apply get_page_no_run |].
  split; [done |]. split; [done |]. split; [done |]. split; [done |]. split; [done |].
  eexists. split; [reflexivity |]. simpl. split; [| split; [done |]].
  - rewrite Hhdr. destruct (file_hdr_ s). unfold set_num_pages. simpl. f_equal. lia.
  - by apply rep_set_hdr.
Qed.

(** X17.  [maintain_child] does nothing on a leaf.  On an internal node it
    writes the page number of the node into the parent field of the child
    in slot [i]; the child is fetched, marked dirty and unpinned again, so
    the pins are as before and nothing else changes. *)
Theorem maintain_child_sets_parent σ P D s (node : IxNodeHandle) (p : page_id_t)
    (nd : Node Key) (i : Z) :
  rep σ P D s → handle s node p → p ∈ P → σ !! p = Some nd →
  (is_leaf nd = true → maintain_child node i s = Ok tt s) ∧
  (is_leaf nd = false →
   ∀ kv cd, entry (pairs nd) i = Some kv → σ !! rid_page_no kv.2 = Some cd →
     rid_page_no kv.2 ∈ P ∨ (0 < room (pool s))%nat →
     ∃ s', maintain_child node i s = Ok tt s' ∧
       rep (<[rid_page_no kv.2 := set_parent p cd]> σ) P (D ∖ {[rid_page_no kv.2]}) s' ∧
       file_hdr_ s' = file_hdr_ s ∧ room (pool s') = room (pool s)).
Proof.
  intros Hr Hh HpP Hnd. split.
  - intros Hleaf.
    destruct (wp_total (maintain_child node i) s (λ _ s', s' = s)) as ([] & s' & Hrun & ->);
      [| done].
    eapply wp_maintain_child; [done | done | done | done |]. by rewrite Hleaf.
  - intros Hleaf kv cd Hkv Hcd Hroom.
    destruct (wp_total (maintain_child node i) s
                (λ _ s', rep (<[rid_page_no kv.2 := set_parent p cd]> σ) P
                             (D ∖ {[rid_page_no kv.2]}) s' ∧
                         file_hdr_ s' = file_hdr_ s ∧ room (pool s') = room (pool s)))
      as ([] & s' & Hrun & HQ); [| by exists s'].
    eapply wp_maintain_child; [done | done | done | done |]. rewrite Hleaf, Hkv.
    split; [left; eauto |]. split; [destruct Hroom; auto |].
    intros s' cd' Hcd' Hr' Hhdr' _ _ Hroom'. assert (cd' = cd) as -> by congruence. done.
Qed.

(** X19.  On an empty index ([root_page_] is [IX_NO_PAGE]) no operation
    touches the buffer pool: [get_value] finds nothing, [insert_entry]
    inserts nothing and returns [IX_NO_PAGE], [delete_entry] returns false,
    and [lower_bound] and [upper_bound] return the position [(-1, -1)]. *)
Theorem empty_index_operations s (fuel : nat) (key : Key) (value : Rid) (transaction : bool) :
  root_page_ (file_hdr_ s) = IX_NO_PAGE →
  get_value fuel key s = Ok (false, []) s ∧
  insert_entry fuel key value s = Ok IX_NO_PAGE s ∧
  delete_entry fuel key transaction s = Ok false s ∧
  IxIndexHandle_lower_bound fuel key s = Ok (mkIid (-1) (-1)) s ∧
  IxIndexHandle_upper_bound fuel key s = Ok (mkIid (-1) (-1)) s.
Proof.
  intros Hroot.
  assert (find_leaf_page fuel key s = Ok None s) as Hfind
    by (unfold find_leaf_page, bind, gets; by rewrite Hroot).
  repeat split.
  - unfold get_value. by rewrite (bind_ok _ _ _ _ _ Hfind).
  - unfold insert_entry. by rewrite (bind_ok _ _ _ _ _ Hfind).
  - unfold delete_entry. by rewrite (bind_ok _ _ _ _ _ Hfind).
  - unfold IxIndexHandle_lower_bound, bind, gets. by rewrite Hroot.
  - unfold IxIndexHandle_upper_bound, bind, gets. by rewrite Hroot.
Qed.

(** The pages after [erase_leaf]: the leaf before [nd] points on to the
    leaf after it, and that one back. *)
Definition unlinked (nd : Node Key) σ : gmap page_id_t (Node Key) :=
  alter (set_prev (prev_leaf nd)) (next_leaf nd)
        (alter (set_next (next_leaf nd)) (prev_leaf nd) σ).

(** X18.  [erase_leaf] fails its assertion on an internal node.  On a leaf
    whose neighbours in the leaf list are pages of the file it makes the
    previous leaf point to the next one and the next one back to the
    previous one, marks both dirty, and leaves the leaf itself, the file
    header and the pins as they are. *)
Theorem erase_leaf_unlinks σ P D s (leaf : IxNodeHandle) (p : page_id_t) (nd : Node Key) :
  rep σ P D s → handle s leaf p → p ∈ P → σ !! p = Some nd →
  (is_leaf nd = false → erase_leaf leaf s = Throw (AssertionFailed InEraseLeaf) s) ∧
  (is_leaf nd = true → is_Some (σ !! prev_leaf nd) → is_Some (σ !! next_leaf nd) →
   (0 < room (pool s))%nat →
     ∃ s', erase_leaf leaf s = Ok tt s' ∧ rep (unlinked nd σ) P D s' ∧
       file_hdr_ s' = file_hdr_ s ∧ room (pool s') = room (pool s)).
Proof.
  intros Hr Hh HpP Hnd. split.
  - intros Hleaf. destruct (node_of_rep _ _ _ _ _ _ Hr Hh) as (nd' & Hnd' & Hnode).
    assert (nd' = nd) as -> by congruence.
    unfold erase_leaf. by rewrite (bind_ok _ _ _ _ _ Hnode), Hleaf.
  - intros Hleaf [pn Hpn] [nn Hnn] Hroom.
    set (pv := prev_leaf nd) in *. set (nx := next_leaf nd) in *.
    destruct (wp_total (erase_leaf leaf) s
                (λ _ s', rep (unlinked nd σ) P D s' ∧ file_hdr_ s' = file_hdr_ s ∧
                         room (pool s') = room (pool s)))
      as ([] & s' & Hrun & HQ); [| by exists s'].
    unfold erase_leaf.
    apply wp_bind. eapply wp_node_of; [done | done |]. intros nd' Hnd'.
    assert (nd' = nd) as -> by congruence. rewrite Hleaf.
    apply wp_bind. apply wp_assert; [done |]. intros _.
    (* the previous leaf *)
    apply wp_bind. eapply wp_fetch_node; [done | left; by eexists | right; by left |].
    fold pv. intros h1 s1 pn' Hpn' Hr1 Hhdr1 Hfd1 Hh1 Hother1 Hwhere1 Hprem1 Hroom1.
    assert (pn' = pn) as -> by congruence.
    assert (∀ g q, handle s g q → q ∈ P → handle s1 g q) as Hkeep1
      by (intros g q; by eapply fetch_keeps_pinned).
    assert (handle s1 leaf p) as Hl1 by (by apply Hkeep1).
    apply wp_bind. eapply wp_node_of; [done | done |]. intros nd' Hnd1.
    assert (nd' = nd) as -> by congruence. fold nx.
    apply wp_bind.
    eapply (wp_update_node _ _ _ _ _ h1 pv pn); [done | done | multiset_solver | done |].
    intros s2 Hr2 Hhdr2 (Hfd2 & Hhs2 & Hroom2 & Hnv2 & _).
    apply wp_bind.
    eapply (wp_unpin_node _ _ _ _ _ h1 pv true);
      [done | by apply Hhs2 | multiset_solver | by left |].
    intros s3 Hr3 Hhdr3 Hfd3 Hhs3 Hroom3 _.
    set (σ1 := <[pv := set_next nx pn]> σ) in *.
    assert (handle s3 leaf p) as Hl3 by (by apply Hhs3, Hhs2).
    assert (rep σ1 P D s3) as Hr3'.
    { eapply rep_proper; [| eapply rep_mono; [| exact Hr3]]; [multiset_solver | set_solver]. }
    assert (room (pool s3) = room (pool s)) as Hroom3'.
    { rewrite Hroom3, Hroom2, Hroom1.
      rewrite multiplicity_disj_union, multiplicity_singleton_eq.
      destruct (decide (pv ∈ P)) as [Hc | Hc].
      - rewrite elem_of_multiplicity in Hc. rewrite decide_False by lia. lia.
      - rewrite elem_of_multiplicity in Hc. rewrite decide_True by lia. lia. }
    assert (∃ nd1, σ1 !! p = Some nd1 ∧ next_leaf nd1 = nx ∧ prev_leaf nd1 = pv) as
      (nd1 & Hnd1' & Hnx1 & Hpv1).
    { unfold σ1. destruct (decide (p = pv)) as [Heq | Hne].
      - rewrite <- Heq, lookup_insert_eq. eexists. split; [done |].
        assert (pn = nd) as -> by congruence. done.
      - rewrite lookup_insert_ne by done. eauto. }
    (* the next leaf *)
    apply wp_bind. eapply wp_node_of; [done | done |]. intros nd' Hnd3.
    assert (nd' = nd1) as -> by congruence. rewrite Hnx1.
    assert (is_Some (σ1 !! nx)) as [nn1 Hnn1].
    { unfold σ1. destruct (decide (nx = pv)) as [-> | Hne].
      - rewrite lookup_insert_eq. by eexists.
      - rewrite lookup_insert_ne by done. by eexists. }
    apply wp_bind. eapply wp_fetch_node; [done | left; by eexists | right; left; lia |].
    intros h2 s4 nn' Hnn' Hr4 Hhdr4 Hfd4 Hh4 Hother4 Hwhere4 Hprem4 Hroom4.
    assert (nn' = nn1) as -> by congruence.
    assert (∀ g q, handle s3 g q → q ∈ P → handle s4 g q) as Hkeep4
      by (intros g q; by eapply fetch_keeps_pinned).
    assert (handle s4 leaf p) as Hl4 by (by apply Hkeep4).
    apply wp_bind. eapply wp_node_of; [done | done |]. intros nd' Hnd4.
    assert (nd' = nd1) as -> by congruence. rewrite Hpv1.
    apply wp_bind.
    eapply (wp_update_node _ _ _ _ _ h2 nx nn1); [done | done | multiset_solver | done |].
    intros s5 Hr5 Hhdr5 (Hfd5 & Hhs5 & Hroom5 & Hnv5 & _).
    apply wp_bind.
    eapply (wp_unpin_node _ _ _ _ _ h2 nx true);
      [done | by apply Hhs5 | multiset_solver | by left |].
    intros s6 Hr6 Hhdr6 Hfd6 Hhs6 Hroom6 _. apply wp_ret.
    split; [| split].
    + eapply rep_store; [| eapply rep_proper; [| eapply rep_mono; [| exact Hr6]]];
        [| multiset_solver |].
      * unfold unlinked. fold pv nx. unfold σ1.
        rewrite <- (insert_as_alter σ pv pn) by done.
        by rewrite <- (insert_as_alter _ nx nn1).
      * set_solver.
    + congruence.
    + rewrite Hroom6, Hroom5, Hroom4, Hroom3'.
      rewrite multiplicity_disj_union, multiplicity_singleton_eq.
      destruct (decide (nx ∈ P)) as [Hc | Hc].
      * rewrite elem_of_multiplicity in Hc. rewrite decide_False by lia. lia.
      * rewrite elem_of_multiplicity in Hc. rewrite decide_True by lia. lia.
Qed.

Lemma wp_leaf_end (E : Error → Prop) σ s nl (Q : Iid → IxIndexHandle Key → Prop) :
  rep σ ∅ ∅ s → σ !! last_leaf_ (file_hdr_ s) = Some nl → (0 < room (pool s))%nat →
  (∀ s', rep σ ∅ ∅ s' → file_hdr_ s' = file_hdr_ s → fd_ s' = fd_ s →
     room (pool s') = room (pool s) →
     Q (mkIid (last_leaf_ (file_hdr_ s)) (num_key nl)) s') →
  wp E leaf_end s Q.
Proof.
  intros Hr Hnl Hroom HQ. unfold leaf_end. set (l := last_leaf_ (file_hdr_ s)) in *.
  apply wp_bind, wp_gets. fold l.
  apply wp_bind. eapply wp_fetch_node; [done | left; by eexists | right; by left |].
  intros h s1 nd' Hnd' Hr1 Hhdr1 Hfd1 Hh1 _ _ _ Hroom1. assert (nd' = nl) as -> by congruence.
  apply wp_bind. eapply wp_get_size; [done | done |]. intros nd' Hnd1.
  assert (nd' = nl) as -> by congruence.
  apply wp_bind.
  eapply (wp_unpin_node _ _ _ _ _ h l false);
    [done | done | multiset_solver | right; left; set_solver |].
  intros s2 Hr2 Hhdr2 Hfd2 _ Hroom2 _. apply wp_ret.
  apply HQ; [| congruence | congruence |].
  - eapply rep_proper; [| exact Hr2]. multiset_solver.
  - rewrite Hroom2, Hroom1. rewrite decide_False by multiset_solver.
    rewrite multiplicity_disj_union, multiplicity_empty, multiplicity_singleton_eq.
    rewrite decide_True by done. lia.
Qed.

(** X23.  [leaf_end] is the position after the last slot of the last
    leaf; the leaf is fetched and unpinned again.  When the file does not
    hold the page that [last_leaf_] names, the disk manager's error comes
    out.  [leaf_begin] is slot 0 of the first leaf and reads no page. *)
Theorem leaf_end_position σ s :
  rep σ ∅ ∅ s → (0 < room (pool s))%nat →
  (∀ nl, σ !! last_leaf_ (file_hdr_ s) = Some nl →
     ∃ s', leaf_end s = Ok (mkIid (last_leaf_ (file_hdr_ s)) (num_key nl)) s' ∧
       rep σ ∅ ∅ s' ∧ file_hdr_ s' = file_hdr_ s) ∧
  (σ !! last_leaf_ (file_hdr_ s) = None → ∃ s', leaf_end s = Throw IOError s') ∧
  leaf_begin s = Ok (mkIid (first_leaf_ (file_hdr_ s)) 0) s.
Proof.
  intros Hr Hroom. split; [| split; [| done]].
  - intros nl Hnl.
    destruct (wp_total leaf_end s
                (λ iid s', iid = mkIid (last_leaf_ (file_hdr_ s)) (num_key nl) ∧
                           rep σ ∅ ∅ s' ∧ file_hdr_ s' = file_hdr_ s))
      as (iid & s' & Hrun & -> & HQ); [| by exists s'].
    eapply wp_leaf_end; [done | done | done |]. by intros.
  - intros Hnone. apply wp_throws. unfold leaf_end.
    apply wp_bind, wp_gets.
    apply wp_bind. eapply wp_fetch_node; [done | by right | right; by left |].
    intros h s' nd Hnd. congruence.
Qed.

End StoreOps.

(** * An index whose root is a leaf *)

Section RootLeaf.
Context {Key : Type} `{!IxParams Key} `{!IxParamsLaws Key}.

Implicit Types (σ : gmap page_id_t (Node Key)) (P : gmultiset page_id_t) (D : gset page_id_t).
Implicit Types (s : IxIndexHandle Key).

(** The rids [get_value] collects from slot [lower_bound] on. *)
Lemma matching_above (l : list (Key * Rid)) (key : Key) :
  Forall (λ kv, key_lt key kv.1) l → matching l key = [].
Proof.
  intros Hall. destruct l as [| kv l]; [done |]. simpl.
  apply Forall_cons in Hall as [Hkv _]. unfold key_lt in Hkv.
  apply ix_compare_lt_gt in Hkv.
  destruct (Z.eqb_spec (ix_compare kv.1 key) 0); [lia | done].
Qed.

Lemma matching_at_lower_bound (nd : Node Key) (key : Key) :
  strictly_increasing (node_keys nd) →
  matching (drop (Z.to_nat (lower_bound nd key)) (pairs nd)) key =
    match pairs nd !! Z.to_nat (lower_bound nd key) with
    | Some (k, r) => if decide (k = key) then [r] else []
    | None => []
    end.
Proof.
  intros Hinc. destruct (lower_bound_cut nd key Hinc) as (_ & _ & _ & Hhi).
  destruct (pairs nd !! Z.to_nat (lower_bound nd key)) as [[k r] |] eqn:Hkv.
  - rewrite (drop_S _ _ _ Hkv). simpl.
    destruct (Z.eqb_spec (ix_compare k key) 0) as [He | Hne].
    + apply ix_compare_eq in He as ->. rewrite decide_True by done.
      by rewrite (matching_above _ _ Hhi).
    + rewrite decide_False; [done |]. intros ->. apply Hne. by apply ix_compare_eq.
  - apply lookup_ge_None in Hkv. by rewrite drop_ge.
Qed.

Lemma num_key_with_entry (nd : Node Key) key value :
  strictly_increasing (node_keys nd) →
  num_key (set_pairs (with_entry key value nd) nd) = num_key nd + 1.
Proof.
  intros Hinc. destruct (lower_bound_cut nd key Hinc) as (Hb & _).
  unfold num_key, with_entry in *. cbn [pairs set_pairs].
  rewrite !length_app, length_take, length_drop. cbn [length]. lia.
Qed.

Lemma num_key_without_entry (nd : Node Key) key :
  strictly_increasing (node_keys nd) → key ∈ node_keys nd →
  num_key (set_pairs (without_entry key nd) nd) = num_key nd - 1.
Proof.
  intros Hinc Hin. destruct (lower_bound_cut nd key Hinc) as (Hb & _).
  destruct (key_at_lower_bound nd key Hinc) as [Hkey _].
  apply Hkey in Hin as [r Hr]. apply lookup_lt_Some in Hr.
  unfold num_key, without_entry in *. cbn [pairs set_pairs].
  rewrite !length_app, length_take, length_drop. lia.
Qed.

Section Rules.
Context (E : Error → Prop).

Lemma wp_node_insert σ P D s h p nd key value (Q : Z → IxIndexHandle Key → Prop) :
  rep σ P D s → handle s h p → p ∈ P → σ !! p = Some nd →
  strictly_increasing (node_keys nd) →
  (key ∈ node_keys nd → Q (num_key nd) s) →
  (key ∉ node_keys nd →
     (num_key nd < max_size_ (file_hdr_ s) ∨ E (AssertionFailed InInsertPairs)) ∧
     ∀ s', rep (<[p := set_pairs (with_entry key value nd) nd]> σ) P (D ∪ {[p]}) s' →
       file_hdr_ s' = file_hdr_ s → frames_same s s' → Q (num_key nd + 1) s') →
  wp E (node_insert h key value) s Q.
Proof.
  intros Hr Hh HpP Hnd Hinc Hold Hnew.
  destruct (handle_frame _ _ _ _ _ _ Hr Hh) as (pg & Hpg & _ & _ & _ & Hdata & _).
  assert (data_ pg = nd) as Hd by congruence.
  unfold wp. rewrite (node_insert_run _ _ _ _ _ Hpg); rewrite Hd; [| done].
  destruct (decide (key ∈ node_keys nd)) as [Hin | Hnot]; [by apply Hold |].
  destruct (Hnew Hnot) as [Hroom HQ].
  destruct (Z.leb_spec (num_key nd + 1) (max_size_ (file_hdr_ s))) as [Hle | Hgt].
  - destruct (update_node_rep _ _ _ _ _ _ _
                (λ _, set_pairs (with_entry key value nd) nd) Hr Hh HpP Hnd) as [_ Hr'].
    apply HQ; [done | apply file_hdr_put_node | apply frames_same_put_node].
  - destruct Hroom as [? | ?]; [lia | done].
Qed.

Lemma wp_node_remove σ P D s h p nd key (Q : Z → IxIndexHandle Key → Prop) :
  rep σ P D s → handle s h p → p ∈ P → σ !! p = Some nd →
  strictly_increasing (node_keys nd) →
  (key ∉ node_keys nd → Q (num_key nd) s) →
  (key ∈ node_keys nd →
     ∀ s', rep (<[p := set_pairs (without_entry key nd) nd]> σ) P (D ∪ {[p]}) s' →
       file_hdr_ s' = file_hdr_ s → frames_same s s' → Q (num_key nd - 1) s') →
  wp E (node_remove h key) s Q.
Proof.
  intros Hr Hh HpP Hnd Hinc Hold Hnew.
  destruct (handle_frame _ _ _ _ _ _ Hr Hh) as (pg & Hpg & _ & _ & _ & Hdata & _).
  assert (data_ pg = nd) as Hd by congruence.
  unfold wp. rewrite (node_remove_run _ _ _ _ Hpg); rewrite Hd; [| done].
  destruct (decide (key ∈ node_keys nd)) as [Hin | Hnot]; [| by apply Hold].
  destruct (update_node_rep _ _ _ _ _ _ _
              (λ _, set_pairs (without_entry key nd) nd) Hr Hh HpP Hnd) as [_ Hr'].
  apply Hnew; [done | done | apply file_hdr_put_node | apply frames_same_put_node].
Qed.

(** [find_leaf_page] when the root is a leaf: the root is fetched and
    comes back. *)
Lemma wp_find_leaf_page_root σ s fuel key nd (Q : option IxNodeHandle → IxIndexHandle Key → Prop) :
  rep σ ∅ ∅ s → root_page_ (file_hdr_ s) ≠ IX_NO_PAGE →
  σ !! root_page_ (file_hdr_ s) = Some nd → is_leaf nd = true →
  (0 < room (pool s))%nat →
  (∀ h s', rep σ {[+ root_page_ (file_hdr_ s) +]} ∅ s' → file_hdr_ s' = file_hdr_ s →
     fd_ s' = fd_ s → handle s' h (root_page_ (file_hdr_ s)) →
     S (room (pool s')) = room (pool s) → Q (Some h) s') →
  wp E (find_leaf_page (S fuel) key) s Q.
Proof.
  intros Hr Hroot Hnd Hleaf Hroom HQ. unfold find_leaf_page.
  apply wp_bind, wp_gets. destruct (Z.eqb_spec (root_page_ (file_hdr_ s)) IX_NO_PAGE); [done |].
  apply wp_bind. eapply wp_fetch_node; [done | left; by eexists | right; by left |].
  intros h s1 nd' Hnd' Hr1 Hhdr1 Hfd1 Hh1 _ _ _ Hroom1. assert (nd' = nd) as -> by congruence.
  apply wp_bind. simpl.
  apply wp_bind. eapply wp_node_of; [done | done |]. intros nd' Hnd1.
  assert (nd' = nd) as -> by congruence. rewrite Hleaf. apply wp_ret, wp_ret.
  apply HQ; [| done | done | done |].
  - eapply rep_proper; [| exact Hr1]. multiset_solver.
  - rewrite Hroom1. rewrite decide_False by multiset_solver. lia.
Qed.

(** What [get_value] returns for a leaf. *)
Definition found_in (nd : Node Key) (key : Key) : bool * list Rid :=
  match pairs nd !! Z.to_nat (lower_bound nd key) with
  | Some (k, r) => if decide (k = key) then (true, [r]) else (false, [])
  | None => (false, [])
  end.

Lemma wp_get_value_root σ s fuel key nd (Q : bool * list Rid → IxIndexHandle Key → Prop) :
  rep σ ∅ ∅ s → root_page_ (file_hdr_ s) ≠ IX_NO_PAGE →
  σ !! root_page_ (file_hdr_ s) = Some nd → is_leaf nd = true →
  strictly_increasing (node_keys nd) → (0 < room (pool s))%nat →
  (∀ s', rep σ ∅ ∅ s' → file_hdr_ s' = file_hdr_ s → fd_ s' = fd_ s →
     room (pool s') = room (pool s) → Q (found_in nd key) s') →
  wp E (get_value (S fuel) key) s Q.
Proof.
  intros Hr Hroot Hnd Hleaf Hinc Hroom HQ. unfold get_value.
  apply wp_bind. eapply wp_find_leaf_page_root; [done | done | done | done | done |].
  intros h s1 Hr1 Hhdr1 Hfd1 Hh1 Hroom1.
  apply wp_bind. eapply wp_node_of; [done | done |]. intros nd' Hnd1.
  assert (nd' = nd) as -> by congruence.
  apply wp_bind.
  eapply (wp_unpin_node _ _ _ _ _ h _ false); [done | done | multiset_solver | right; left; set_solver |].
  intros s2 Hr2 Hhdr2 Hfd2 _ Hroom2 _. apply wp_ret.
  rewrite (matching_at_lower_bound _ _ Hinc).
  assert (room (pool s2) = room (pool s)) as Hroom2'.
  { rewrite Hroom2, multiplicity_singleton_eq, decide_True by done. lia. }
  assert (rep σ ∅ ∅ s2) as Hr2' by (eapply rep_proper; [| exact Hr2]; multiset_solver).
  unfold found_in in HQ.
  destruct (pairs nd !! Z.to_nat (lower_bound nd key)) as [[k r] |].
  - destruct (decide (k = key)); apply HQ; congruence.
  - apply HQ; congruence.
Qed.

(** The file header after [insert_entry] has put a new key into the leaf
    [nd] on page [r]. *)
Definition hdr_after_insert (r : page_id_t) (nd : Node Key) (hdr : IxFileHdr) : IxFileHdr :=
  if (next_leaf nd =? IX_LEAF_HEADER_PAGE) || (r =? last_leaf_ hdr)
  then set_last_leaf (if last_leaf_ hdr =? IX_NO_PAGE then r else last_leaf_ hdr) hdr
  else hdr.

Lemma wp_insert_entry_root σ s fuel key value nd (Q : page_id_t → IxIndexHandle Key → Prop) :
  rep σ ∅ ∅ s → root_page_ (file_hdr_ s) ≠ IX_NO_PAGE →
  σ !! root_page_ (file_hdr_ s) = Some nd → is_leaf nd = true → parent nd = IX_NO_PAGE →
  strictly_increasing (node_keys nd) → (0 < room (pool s))%nat →
  num_key nd + 1 < max_size_ (file_hdr_ s) →
  (∀ s', (if decide (key ∈ node_keys nd)
          then rep σ ∅ ∅ s' ∧ file_hdr_ s' = file_hdr_ s
          else rep (<[root_page_ (file_hdr_ s) := set_pairs (with_entry key value nd) nd]> σ)
                   ∅ ∅ s' ∧
               file_hdr_ s' = hdr_after_insert (root_page_ (file_hdr_ s)) nd (file_hdr_ s)) →
     fd_ s' = fd_ s → room (pool s') = room (pool s) → Q (root_page_ (file_hdr_ s)) s') →
  wp E (insert_entry (S fuel) key value) s Q.
Proof.
  intros Hr Hroot Hnd Hleaf Hparent Hinc Hroom Hmax HQ. unfold insert_entry.
  set (r := root_page_ (file_hdr_ s)) in *.
  apply wp_bind. eapply wp_find_leaf_page_root; [done | done | done | done | done |].
  fold r. intros h s1 Hr1 Hhdr1 Hfd1 Hh1 Hroom1.
  assert (r ∈ ({[+ r +]} : gmultiset page_id_t)) as HrP by multiset_solver.
  apply wp_bind. eapply wp_get_size; [done | done |]. intros nd' Hnd1.
  assert (nd' = nd) as -> by congruence.
  apply wp_bind. eapply wp_node_insert; [done | done | done | done | done | |].
  - (* the key is in the leaf *)
    intros Hin. rewrite Z.eqb_refl.
    apply wp_bind.
    eapply (wp_unpin_node _ _ _ _ _ h r false); [done | done | done | right; left; set_solver |].
    intros s2 Hr2 Hhdr2 Hfd2 Hhs2 Hroom2 _.
    eapply wp_get_page_no; [by apply Hhs2 |].
    apply HQ; [| congruence |].
    + rewrite decide_True by done. split; [| congruence].
      eapply rep_proper; [| exact Hr2]. multiset_solver.
    + rewrite Hroom2, multiplicity_singleton_eq, decide_True by done. lia.
  - (* the key is new *)
    intros Hnot. split; [left; rewrite Hhdr1; lia |].
    intros s2 Hr2 Hhdr2 (Hfd2 & Hhs2 & Hroom2 & _).
    destruct (Z.eqb_spec (num_key nd + 1) (num_key nd)); [lia |].
    set (nd2 := set_pairs (with_entry key value nd) nd) in *.
    assert (handle s2 h r) as Hh2 by (by apply Hhs2).
    assert (<[r := nd2]> σ !! r = Some nd2) as Hnd2 by (by rewrite lookup_insert_eq).
    assert (num_key nd2 = num_key nd + 1) as Hsz.
    { by apply num_key_with_entry. }
    apply wp_bind. eapply wp_get_size; [done | done |]. intros nd' Hnd'.
    assert (nd' = nd2) as -> by congruence.
    apply wp_bind.
    assert ((0 <? num_key nd2) = true) as -> by (apply Z.ltb_lt; unfold num_key in *; lia).
    simpl maintain_parent.
    apply wp_bind. eapply wp_node_of; [done | done |]. intros nd' Hnd''.
    assert (nd' = nd2) as -> by congruence.
    assert (parent nd2 = IX_NO_PAGE) as -> by done. rewrite Z.eqb_refl. apply wp_ret.
    apply wp_bind. eapply wp_get_page_no; [done |].
    apply wp_bind. eapply wp_get_size; [done | done |]. intros nd' Hnd3.
    assert (nd' = nd2) as -> by congruence.
    apply wp_bind. apply wp_get_max_size.
    destruct (Z.leb_spec (max_size_ (file_hdr_ s2)) (num_key nd2)) as [Hle | _];
      [rewrite Hhdr2, Hhdr1 in Hle; lia |].
    apply wp_bind, wp_ret.
    apply wp_bind. eapply wp_node_of; [done | done |]. intros nd' Hnd4.
    assert (nd' = nd2) as -> by congruence.
    apply wp_bind. eapply wp_get_page_no; [done |].
    apply wp_bind, wp_gets.
    assert (next_leaf nd2 = next_leaf nd) as -> by done.
    assert (file_hdr_ s2 = file_hdr_ s) as Hhdr2' by congruence.
    assert (∀ s3, rep (<[r := nd2]> σ) {[+ r +]} (∅ ∪ {[r]}) s3 →
              file_hdr_ s3 = hdr_after_insert r nd (file_hdr_ s) →
              frames_same s2 s3 →
              wp E (unpin_node h true ;; ret r) s3 Q) as Hend.
    { intros s3 Hr3 Hhdr3 (Hfd3 & Hhs3 & Hroom3 & _).
      apply wp_bind.
      eapply (wp_unpin_node _ _ _ _ _ h r true); [done | by apply Hhs3 | done | by left |].
      intros s4 Hr4 Hhdr4 Hfd4 _ Hroom4 _. apply wp_ret.
      apply HQ; [| congruence |].
      - rewrite decide_False by done. split; [| congruence].
        eapply rep_proper; [| eapply rep_mono; [| exact Hr4]]; [multiset_solver | set_solver].
      - rewrite Hroom4, multiplicity_singleton_eq, decide_True by done. lia. }
    rewrite Hhdr2'. unfold hdr_after_insert in Hend.
    destruct ((next_leaf nd =? IX_LEAF_HEADER_PAGE) || (r =? last_leaf_ (file_hdr_ s))).
    + apply wp_bind. eapply wp_set_hdr; [done |]. intros s3 Hr3 Hhdr3 Hsame.
      apply Hend; [done | by rewrite Hhdr3, Hhdr2' | done].
    + apply wp_bind, wp_ret. apply Hend; [done | done |].
      split; [done |]. split; [done |]. by repeat split.
Qed.

(** The file header after [delete_entry] has left the root leaf as
    [nd]: a root leaf without entries is given up. *)
Definition hdr_after_delete (nd : Node Key) (hdr : IxFileHdr) : IxFileHdr :=
  if num_key nd =? 0
  then set_last_leaf IX_NO_PAGE (set_first_leaf IX_NO_PAGE (set_root_page IX_NO_PAGE hdr))
  else hdr.

Lemma fetch_node_fetch_page s s' (p : page_id_t) h :
  fetch_node p s = Ok h s' → bpm (fetch_page (pid s p)) s = Ok (Some h) s'.
Proof.
  unfold fetch_node, bind, gets. fold (pid s p).
  destruct (bpm (fetch_page (pid s p)) s) as [[g |] s'' |]; [| done | done].
  unfold ret. by intros [= -> ->].
Qed.

Lemma wp_delete_entry_root σ s fuel key transaction nd
    (Q : bool → IxIndexHandle Key → Prop) :
  rep σ ∅ ∅ s → root_page_ (file_hdr_ s) ≠ IX_NO_PAGE →
  σ !! root_page_ (file_hdr_ s) = Some nd → is_leaf nd = true → parent nd = IX_NO_PAGE →
  strictly_increasing (node_keys nd) → (0 < room (pool s))%nat →
  (∀ s', (if decide (key ∈ node_keys nd)
          then rep (<[root_page_ (file_hdr_ s) := set_pairs (without_entry key nd) nd]> σ)
                   ∅ ∅ s' ∧
               file_hdr_ s' = hdr_after_delete (set_pairs (without_entry key nd) nd)
                                               (file_hdr_ s)
          else rep σ ∅ ∅ s' ∧ file_hdr_ s' = file_hdr_ s) →
     fd_ s' = fd_ s → room (pool s') = room (pool s) →
     Q (bool_decide (key ∈ node_keys nd)) s') →
  wp E (delete_entry (S fuel) key transaction) s Q.
Proof.
  intros Hr Hroot Hnd Hleaf Hparent Hinc Hroom HQ. unfold delete_entry.
  set (r := root_page_ (file_hdr_ s)) in *.
  apply wp_bind. eapply wp_find_leaf_page_root; [done | done | done | done | done |].
  fold r. intros h s1 Hr1 Hhdr1 Hfd1 Hh1 Hroom1.
  assert (r ∈ ({[+ r +]} : gmultiset page_id_t)) as HrP by multiset_solver.
  apply wp_bind. eapply wp_get_size; [done | done |]. intros nd' Hnd1.
  assert (nd' = nd) as -> by congruence.
  apply wp_bind. eapply wp_node_remove; [done | done | done | done | done | |].
  - (* the key is not in the leaf *)
    intros Hnot.
    apply wp_bind. eapply wp_get_size; [done | done |]. intros nd' Hnd'.
    assert (nd' = nd) as -> by congruence. rewrite Z.eqb_refl.
    apply wp_bind.
    eapply (wp_unpin_node _ _ _ _ _ h r false); [done | done | done | right; left; set_solver |].
    intros s2 Hr2 Hhdr2 Hfd2 Hhs2 Hroom2 _. apply wp_ret.
    rewrite bool_decide_eq_false_2 in HQ by done.
    apply HQ; [| congruence |].
    + rewrite decide_False by done. split; [| congruence].
      eapply rep_proper; [| exact Hr2]. multiset_solver.
    + rewrite Hroom2, multiplicity_singleton_eq, decide_True by done. lia.
  - (* the key is taken out *)
    intros Hin s2 Hr2 Hhdr2 (Hfd2 & Hhs2 & Hroom2 & _).
    set (nd2 := set_pairs (without_entry key nd) nd) in *.
    assert (handle s2 h r) as Hh2 by (by apply Hhs2).
    assert (<[r := nd2]> σ !! r = Some nd2) as Hnd2 by (by rewrite lookup_insert_eq).
    assert (num_key nd2 = num_key nd - 1) as Hsz by (by apply num_key_without_entry).
    assert (file_hdr_ s2 = file_hdr_ s) as Hhdr2' by congruence.
    rewrite bool_decide_eq_true_2 in HQ by done.
    apply wp_bind. eapply wp_get_size; [done | done |]. intros nd' Hnd'.
    assert (nd' = nd2) as -> by congruence.
    destruct (Z.eqb_spec (num_key nd2) (num_key nd)); [lia |].
    apply wp_bind.
    assert (wp E (if 0 <? num_key nd2 then maintain_parent (S fuel) h else ret tt) s2
              (λ _ s', s' = s2)) as Hmp.
    { destruct (0 <? num_key nd2); [| by apply wp_ret]. simpl.
      apply wp_bind. eapply wp_node_of; [done | done |]. intros nd' Hnd''.
      assert (nd' = nd2) as -> by congruence.
      assert (parent nd2 = IX_NO_PAGE) as -> by done. rewrite Z.eqb_refl. by apply wp_ret. }
    eapply wp_mono; [exact Hmp |]. intros [] s2' ->. clear Hmp.
    (* the root is looked after and unpinned *)
    assert (∀ s3, rep (<[r := nd2]> σ) {[+ r +]} (∅ ∪ {[r]}) s3 →
              file_hdr_ s3 = hdr_after_delete nd2 (file_hdr_ s) → frames_same s2 s3 →
              wp E (let* _ := unpin_node h true in ret (num_key nd2 =? 0)) s3
                (λ del s4, del = (num_key nd2 =? 0) ∧ rep (<[r := nd2]> σ) ∅ ∅ s4 ∧
                           file_hdr_ s4 = hdr_after_delete nd2 (file_hdr_ s) ∧
                           fd_ s4 = fd_ s ∧ handle s4 h r ∧
                           room (pool s4) = room (pool s))) as Hunpin.
    { intros s3 Hr3 Hhdr3 (Hfd3 & Hhs3 & Hroom3 & _).
      apply wp_bind.
      eapply (wp_unpin_node _ _ _ _ _ h r true); [done | by apply Hhs3 | done | by left |].
      intros s4 Hr4 Hhdr4 Hfd4 Hhs4 Hroom4 _. apply wp_ret.
      split; [done |]. split; [| split; [congruence | split; [congruence | split]]].
      - eapply rep_proper; [| eapply rep_mono; [| exact Hr4]]; [multiset_solver | set_solver].
      - by apply Hhs4, Hhs3.
      - rewrite Hroom4, multiplicity_singleton_eq, decide_True by done. lia. }
    apply wp_bind. simpl coalesce_or_redistribute.
    eapply (wp_mono _ _ _ (λ del s4, del = (num_key nd2 =? 0) ∧ rep (<[r := nd2]> σ) ∅ ∅ s4 ∧
                           file_hdr_ s4 = hdr_after_delete nd2 (file_hdr_ s) ∧
                           fd_ s4 = fd_ s ∧ handle s4 h r ∧
                           room (pool s4) = room (pool s))).
    { apply wp_bind. eapply wp_node_of; [done | done |]. intros nd' Hnd''.
      assert (nd' = nd2) as -> by congruence.
      assert (parent nd2 = IX_NO_PAGE) as -> by done. rewrite Z.eqb_refl.
      apply wp_bind. unfold adjust_root.
      apply wp_bind. eapply wp_node_of; [done | done |]. intros nd' Hnd3.
      assert (nd' = nd2) as -> by congruence.
      assert (is_leaf nd2 = true) as -> by done. simpl negb. cbn [andb].
      unfold hdr_after_delete in Hunpin |- *.
      destruct (num_key nd2 =? 0).
      - apply wp_bind. unfold update_root_page_no.
        eapply wp_set_hdr; [done |]. intros s3 Hr3 Hhdr3 (Hfd3 & Hhs3 & Hroom3 & Hnv3 & Hnp3).
        apply wp_bind.
        eapply wp_set_hdr; [done |]. intros s4 Hr4 Hhdr4 (Hfd4 & Hhs4 & Hroom4 & Hnv4 & Hnp4).
        apply wp_bind.
        eapply wp_set_hdr; [done |]. intros s5 Hr5 Hhdr5 (Hfd5 & Hhs5 & Hroom5 & Hnv5 & Hnp5).
        apply wp_ret. apply Hunpin; [done | by rewrite Hhdr5, Hhdr4, Hhdr3, Hhdr2' |].
        split; [congruence |]. split; [intros g q; by rewrite Hhs5, Hhs4, Hhs3 |].
        split; [congruence |]. split; congruence.
      - apply wp_ret. apply Hunpin; [done | done |].
        split; [done |]. split; [done |]. by repeat split. }
    intros del s4 (-> & Hr4 & Hhdr4 & Hfd4 & Hh4 & Hroom4).
    assert (Q true s4) as HQ4.
    { apply HQ; [| done | done]. by rewrite decide_True. }
    apply wp_bind.
    destruct ((num_key nd2 =? 0) && transaction); [| by apply wp_ret, wp_ret].
    apply wp_bind. unfold wp at 1. rewrite (get_page_id_handle _ _ _ Hh4).
    destruct (fetch_node_rep _ _ _ _ r _ Hr4 Hnd2)
      as (h5 & s5 & Hrun & Hr5 & Hhdr5 & Hfd5 & Hh5 & _ & _ & Hroom5); [right; lia |].
    apply wp_bind. unfold wp at 1. rewrite (fetch_node_fetch_page _ _ _ _ Hrun).
    apply wp_bind.
    eapply (wp_unpin_node _ _ _ _ _ h5 r false);
      [done | done | multiset_solver | right; left; set_solver |].
    intros s6 Hr6 Hhdr6 Hfd6 _ Hroom6 _. apply wp_ret, wp_ret.
    apply HQ; [| congruence |].
    + rewrite decide_True by done. split; [| congruence].
      eapply rep_proper; [| exact Hr6]. multiset_solver.
    + rewrite Hroom6, Hroom5, Hroom4. rewrite decide_False by multiset_solver.
      rewrite multiplicity_disj_union, multiplicity_empty, multiplicity_singleton_eq.
      rewrite decide_True by done. lia.
Qed.

(** The scan of [lower_bound] and [upper_bound] from the only leaf of the
    index: the slot is in the leaf, or the scan ends at [leaf_end], which is
    the slot after the last one of the same leaf. *)
Lemma wp_bound_scan_only_leaf (bound : Node Key → Key → Z) σ s fuel key l h nd
    (Q : Iid → IxIndexHandle Key → Prop) :
  rep σ {[+ l +]} ∅ s → handle s h l → σ !! l = Some nd →
  last_leaf_ (file_hdr_ s) = l →
  next_leaf nd = IX_LEAF_HEADER_PAGE ∨ next_leaf nd = IX_NO_PAGE →
  0 ≤ bound nd key ≤ num_key nd →
  (∀ s', rep σ ∅ ∅ s' → file_hdr_ s' = file_hdr_ s → fd_ s' = fd_ s →
     room (pool s') = S (room (pool s)) → Q (mkIid l (bound nd key)) s') →
  wp E (bound_scan bound (S fuel) h key) s Q.
Proof.
  intros Hr Hh Hnd Hlast Hnext Hb HQ. simpl.
  assert (l ∈ ({[+ l +]} : gmultiset page_id_t)) as HlP by multiset_solver.
  apply wp_bind. eapply wp_node_of; [done | done |]. intros nd' Hnd'.
  assert (nd' = nd) as -> by congruence.
  apply wp_bind. eapply wp_get_size; [done | done |]. intros nd' Hnd''.
  assert (nd' = nd) as -> by congruence.
  assert (∀ (m : M (IxIndexHandle Key) Iid),
            (∀ s', rep σ ∅ ∅ s' → file_hdr_ s' = file_hdr_ s → fd_ s' = fd_ s →
                   room (pool s') = S (room (pool s)) → wp E m s' Q) →
            wp E (unpin_node h false ;; m) s Q) as Hunpin.
  { intros m Hm. apply wp_bind.
    eapply (wp_unpin_node _ _ _ _ _ h l false); [done | done | done | right; left; set_solver |].
    intros s2 Hr2 Hhdr2 Hfd2 _ Hroom2 _. apply Hm; [| done | done |].
    - eapply rep_proper; [| exact Hr2]. multiset_solver.
    - rewrite Hroom2, multiplicity_singleton_eq, decide_True by done. lia. }
  destruct (Z.ltb_spec (bound nd key) (num_key nd)) as [Hlt | Hge].
  - apply wp_bind. eapply wp_get_page_no; [done |].
    apply Hunpin. intros s2 Hr2 Hhdr2 Hfd2 Hroom2. apply wp_ret. by apply HQ.
  - apply wp_bind. eapply wp_node_of; [done | done |]. intros nd' Hnd3.
    assert (nd' = nd) as -> by congruence.
    apply Hunpin. intros s2 Hr2 Hhdr2 Hfd2 Hroom2.
    assert ((next_leaf nd =? IX_LEAF_HEADER_PAGE) || (next_leaf nd =? IX_NO_PAGE) = true)
      as ->.
    { apply orb_true_iff. destruct Hnext as [-> | ->]; rewrite Z.eqb_refl; auto. }
    eapply wp_leaf_end; [done | by rewrite Hhdr2, Hlast | lia |].
    intros s3 Hr3 Hhdr3 Hfd3 Hroom3. rewrite Hhdr2, Hlast.
    replace (num_key nd) with (bound nd key) by lia.
    apply HQ; [done | congruence | congruence | congruence].
Qed.

Lemma wp_get_rid_at σ s (p : page_id_t) nd (i : Z) (Q : Rid → IxIndexHandle Key → Prop) :
  rep σ ∅ ∅ s → σ !! p = Some nd → (0 < room (pool s))%nat → 0 ≤ i →
  match pairs nd !! Z.to_nat i with
  | Some kv => ∀ s', rep σ ∅ ∅ s' → file_hdr_ s' = file_hdr_ s → fd_ s' = fd_ s →
                     room (pool s') = room (pool s) → Q kv.2 s'
  | None => E IndexEntryNotFoundError
  end →
  wp E (IxIndexHandle_get_rid (mkIid p i)) s Q.
Proof.
  intros Hr Hnd Hroom Hi HQ. unfold IxIndexHandle_get_rid. simpl.
  apply wp_bind. eapply wp_fetch_node; [done | left; by eexists | right; by left |].
  intros h s1 nd' Hnd' Hr1 Hhdr1 Hfd1 Hh1 _ _ _ Hroom1. assert (nd' = nd) as -> by congruence.
  apply wp_bind. eapply wp_get_size; [done | done |]. intros nd' Hnd1.
  assert (nd' = nd) as -> by congruence.
  destruct (Z.leb_spec (num_key nd) i) as [Hle | Hlt].
  - rewrite lookup_ge_None_2 in HQ by (unfold num_key in Hle; lia). by apply wp_throw.
  - destruct (lookup_lt_is_Some_2 (pairs nd) (Z.to_nat i)) as [kv Hkv];
      [unfold num_key in Hlt; lia |].
    rewrite Hkv in HQ.
    apply wp_bind.
    eapply (wp_unpin_node _ _ _ _ _ h p false);
      [done | done | multiset_solver | right; left; set_solver |].
    intros s2 Hr2 Hhdr2 Hfd2 Hhs2 Hroom2 _.
    assert (rep σ ∅ ∅ s2) as Hr2' by (eapply rep_proper; [| exact Hr2]; multiset_solver).
    eapply wp_get_rid; [done | by apply Hhs2 |]. intros nd' Hnd2.
    assert (nd' = nd) as -> by congruence.
    unfold entry. destruct (Z.ltb_spec i 0); [lia |]. rewrite Hkv.
    apply HQ; [done | congruence | congruence |].
    rewrite Hroom2, Hroom1. rewrite decide_False by multiset_solver.
    rewrite multiplicity_disj_union, multiplicity_empty, multiplicity_singleton_eq.
    rewrite decide_True by done. lia.
Qed.

End Rules.

Lemma found_in_spec (nd : Node Key) (key : Key) :
  strictly_increasing (node_keys nd) →
  (∀ rid, (key, rid) ∈ pairs nd → found_in nd key = (true, [rid])) ∧
  (key ∉ node_keys nd → found_in nd key = (false, [])).
Proof.
  intros Hinc. destruct (key_at_lower_bound nd key Hinc) as [Hkey Hpair]. unfold found_in.
  split.
  - intros rid Hin. apply Hpair in Hin. rewrite Hin. by rewrite decide_True.
  - intros Hnot. destruct (pairs nd !! Z.to_nat (lower_bound nd key)) as [[k r] |]; [| done].
    destruct (decide (k = key)) as [-> | ?]; [| done]. exfalso. apply Hnot, Hkey. eauto.
Qed.

Lemma get_value_root_found σ s (fuel : nat) (key : Key) (nd : Node Key) :
  rep σ ∅ ∅ s → root_page_ (file_hdr_ s) ≠ IX_NO_PAGE →
  σ !! root_page_ (file_hdr_ s) = Some nd → is_leaf nd = true →
  strictly_increasing (node_keys nd) → (0 < room (pool s))%nat →
  ∃ s', get_value (S fuel) key s = Ok (found_in nd key) s' ∧
    rep σ ∅ ∅ s' ∧ file_hdr_ s' = file_hdr_ s.
Proof.
  intros Hr Hroot Hnd Hleaf Hinc Hroom.
  destruct (wp_total (get_value (S fuel) key) s
              (λ res s', res = found_in nd key ∧ rep σ ∅ ∅ s' ∧ file_hdr_ s' = file_hdr_ s))
    as (res & s' & Hrun & -> & Hr' & Hhdr'); [| by exists s'].
  eapply wp_get_value_root; [done | done | done | done | done | done |]. by intros.
Qed.

(** X20.  [get_value] on an index whose root is a leaf with strictly
    increasing keys returns true and the one rid stored with the key, or
    false and no rid when the leaf does not hold the key.  The pages, the
    file header and the pins are as before. *)
Theorem get_value_root_leaf σ s (fuel : nat) (key : Key) (nd : Node Key) :
  rep σ ∅ ∅ s → root_page_ (file_hdr_ s) ≠ IX_NO_PAGE →
  σ !! root_page_ (file_hdr_ s) = Some nd → is_leaf nd = true →
  strictly_increasing (node_keys nd) → (0 < room (pool s))%nat →
  ∃ res s', get_value (S fuel) key s = Ok res s' ∧
    rep σ ∅ ∅ s' ∧ file_hdr_ s' = file_hdr_ s ∧
    (∀ rid, (key, rid) ∈ pairs nd → res = (true, [rid])) ∧
    (key ∉ node_keys nd → res = (false, [])).
Proof.
  intros Hr Hroot Hnd Hleaf Hinc Hroom.
  destruct (get_value_root_found σ s fuel key nd) as (s' & Hrun & Hr' & Hhdr');
    [done | done | done | done | done | done |].
  exists (found_in nd key), s'. split; [done |]. split; [done |]. split; [done |].
  by apply found_in_spec.
Qed.

(** X21.  [insert_entry] into an index whose root is a leaf with room for
    two more entries returns the page of the root.  A key that the leaf
    holds already changes nothing; a new key is put into the leaf, whose
    keys stay strictly increasing, and the other entries stay.  The pins are
    given back, and a [get_value] of the key then finds the rid that is
    stored with it. *)
Theorem insert_entry_root_leaf σ s (fuel : nat) (key : Key) (value : Rid) (nd : Node Key) :
  rep σ ∅ ∅ s → root_page_ (file_hdr_ s) ≠ IX_NO_PAGE →
  σ !! root_page_ (file_hdr_ s) = Some nd → is_leaf nd = true → parent nd = IX_NO_PAGE →
  strictly_increasing (node_keys nd) → (0 < room (pool s))%nat →
  num_key nd + 1 < max_size_ (file_hdr_ s) →
  ∃ s1, insert_entry (S fuel) key value s = Ok (root_page_ (file_hdr_ s)) s1 ∧
    root_page_ (file_hdr_ s1) = root_page_ (file_hdr_ s) ∧
    (key ∈ node_keys nd → rep σ ∅ ∅ s1 ∧ file_hdr_ s1 = file_hdr_ s) ∧
    (key ∉ node_keys nd →
       ∃ l, rep (<[root_page_ (file_hdr_ s) := set_pairs l nd]> σ) ∅ ∅ s1 ∧
         strictly_increasing l.*1 ∧
         ∀ kv, kv ∈ l ↔ kv = (key, value) ∨ kv ∈ pairs nd) ∧
    ∃ v s2, get_value (S fuel) key s1 = Ok (true, [v]) s2 ∧
      (key ∉ node_keys nd → v = value) ∧ (key ∈ node_keys nd → (key, v) ∈ pairs nd).
Proof.
  intros Hr Hroot Hnd Hleaf Hparent Hinc Hroom Hmax. set (r := root_page_ (file_hdr_ s)) in *.
  destruct (wp_total (insert_entry (S fuel) key value) s
              (λ p s', p = r ∧
                 (if decide (key ∈ node_keys nd)
                  then rep σ ∅ ∅ s' ∧ file_hdr_ s' = file_hdr_ s
                  else rep (<[r := set_pairs (with_entry key value nd) nd]> σ) ∅ ∅ s' ∧
                       file_hdr_ s' = hdr_after_insert r nd (file_hdr_ s)) ∧
                 room (pool s') = room (pool s)))
    as (p & s1 & Hrun & -> & Hcase & Hroom1).
  { eapply wp_insert_entry_root; [done | done | done | done | done | done | done | done |].
    by intros. }
  exists s1. split; [done |].
  assert (root_page_ (hdr_after_insert r nd (file_hdr_ s)) = r) as Hroot'.
  { unfold hdr_after_insert. by destruct (_ || _). }
  destruct (decide (key ∈ node_keys nd)) as [Hin | Hnot].
  - destruct Hcase as [Hr1 Hhdr1]. split; [by rewrite Hhdr1 |]. split; [done |].
    split; [done |].
    destruct (key_at_lower_bound nd key Hinc) as [Hkey Hpair].
    destruct (Hkey) as [Hk _]. destruct (Hk Hin) as [v Hv].
    destruct (get_value_root_found σ s1 fuel key nd) as (s2 & Hget & _);
      [done | by rewrite Hhdr1 | by rewrite Hhdr1 | done | done | lia |].
    exists v, s2. rewrite Hget.
    destruct (found_in_spec nd key Hinc) as [Hsome _]. rewrite (Hsome v) by (by apply Hpair).
    split; [done |]. split; [done |]. intros _. by apply Hpair.
  - destruct Hcase as [Hr1 Hhdr1]. split; [by rewrite Hhdr1 |]. split; [done |].
    split.
    { intros _. exists (with_entry key value nd). split; [done |].
      split; [by apply with_entry_sorted | apply elem_of_with_entry]. }
    set (nd1 := set_pairs (with_entry key value nd) nd) in *.
    assert (strictly_increasing (node_keys nd1)) as Hinc1 by (by apply with_entry_sorted).
    destruct (get_value_root_found (<[r := nd1]> σ) s1 fuel key nd1) as (s2 & Hget & _);
      [done | by rewrite Hhdr1, Hroot' | by rewrite Hhdr1, Hroot', lookup_insert_eq | done
       | done | lia |].
    exists value, s2. rewrite Hget.
    destruct (found_in_spec nd1 key Hinc1) as [Hsome _].
    rewrite (Hsome value) by (apply elem_of_with_entry; by left). done.
Qed.

(** X22.  [delete_entry] on an index whose root is a leaf returns whether
    the leaf held the key.  A key that is not there changes nothing.
    Otherwise exactly the entry of the key goes and the pins are given back;
    when other entries are left the file header stays and [get_value] no
    longer finds the key; when the last entry goes the root is given up, and
    from then on [insert_entry] inserts nothing. *)
Theorem delete_entry_root_leaf σ s (fuel : nat) (key : Key) (transaction : bool)
    (nd : Node Key) :
  rep σ ∅ ∅ s → root_page_ (file_hdr_ s) ≠ IX_NO_PAGE →
  σ !! root_page_ (file_hdr_ s) = Some nd → is_leaf nd = true → parent nd = IX_NO_PAGE →
  strictly_increasing (node_keys nd) → (0 < room (pool s))%nat →
  ∃ s1, delete_entry (S fuel) key transaction s = Ok (bool_decide (key ∈ node_keys nd)) s1 ∧
    (key ∉ node_keys nd → rep σ ∅ ∅ s1 ∧ file_hdr_ s1 = file_hdr_ s) ∧
    (key ∈ node_keys nd →
       (∃ l, rep (<[root_page_ (file_hdr_ s) := set_pairs l nd]> σ) ∅ ∅ s1 ∧
          ∀ kv, kv ∈ l ↔ kv ∈ pairs nd ∧ kv.1 ≠ key) ∧
       (1 < num_key nd → file_hdr_ s1 = file_hdr_ s ∧
          ∃ s2, get_value (S fuel) key s1 = Ok (false, []) s2) ∧
       (num_key nd = 1 →
          file_hdr_ s1 = set_last_leaf IX_NO_PAGE
                           (set_first_leaf IX_NO_PAGE
                              (set_root_page IX_NO_PAGE (file_hdr_ s))) ∧
          ∀ fuel' k v, insert_entry fuel' k v s1 = Ok IX_NO_PAGE s1)).
Proof.
  intros Hr Hroot Hnd Hleaf Hparent Hinc Hroom. set (r := root_page_ (file_hdr_ s)) in *.
  set (nd1 := set_pairs (without_entry key nd) nd).
  destruct (wp_total (delete_entry (S fuel) key transaction) s
              (λ b s', b = bool_decide (key ∈ node_keys nd) ∧
                 (if decide (key ∈ node_keys nd)
                  then rep (<[r := nd1]> σ) ∅ ∅ s' ∧
                       file_hdr_ s' = hdr_after_delete nd1 (file_hdr_ s)
                  else rep σ ∅ ∅ s' ∧ file_hdr_ s' = file_hdr_ s) ∧
                 room (pool s') = room (pool s)))
    as (b & s1 & Hrun & -> & Hcase & Hroom1).
  { eapply wp_delete_entry_root; [done | done | done | done | done | done | done |].
    by intros. }
  exists s1. split; [done |].
  destruct (decide (key ∈ node_keys nd)) as [Hin | Hnot]; [| by split].
  destruct Hcase as [Hr1 Hhdr1]. split; [done |]. intros _.
  assert (num_key nd1 = num_key nd - 1) as Hsz by (by apply num_key_without_entry).
  assert (strictly_increasing (node_keys nd1)) as Hinc1 by (by apply without_entry_sorted).
  split; [| split].
  - exists (without_entry key nd). split; [done |]. intros kv. by apply elem_of_without_entry.
  - intros Hmany. unfold hdr_after_delete in Hhdr1.
    destruct (Z.eqb_spec (num_key nd1) 0) as [? | _]; [lia |]. split; [done |].
    destruct (get_value_root_found (<[r := nd1]> σ) s1 fuel key nd1) as (s2 & Hget & _);
      [done | by rewrite Hhdr1 | by rewrite Hhdr1, lookup_insert_eq | done | done | lia |].
    exists s2. rewrite Hget. destruct (found_in_spec nd1 key Hinc1) as [_ Hnone].
    rewrite Hnone; [done |]. unfold node_keys. intros Hk.
    apply list_elem_of_fmap in Hk as ([k v] & -> & Hkv).
    apply (elem_of_without_entry nd k (k, v) Hinc Hin) in Hkv as [_ Hne]. done.
  - intros Hone. unfold hdr_after_delete in Hhdr1.
    destruct (Z.eqb_spec (num_key nd1) 0) as [_ | ?]; [| lia]. split; [done |].
    intros fuel' k v. unfold insert_entry, find_leaf_page, bind, gets. by rewrite Hhdr1.
Qed.

(** X24.  On an index with one leaf, [lower_bound] returns the first slot
    of the leaf whose key is at least the target and [upper_bound] the first
    slot whose key is above it, or the slot after the last one; nothing
    stays pinned.  [get_rid] of the position gives the rid of that slot, and
    throws [IndexEntryNotFoundError] for the slot after the last one. *)
Theorem bounds_only_leaf σ s (fuel : nat) (key : Key) (nd : Node Key) :
  rep σ ∅ ∅ s → root_page_ (file_hdr_ s) ≠ IX_NO_PAGE →
  σ !! root_page_ (file_hdr_ s) = Some nd → is_leaf nd = true →
  strictly_increasing (node_keys nd) → (0 < room (pool s))%nat →
  last_leaf_ (file_hdr_ s) = root_page_ (file_hdr_ s) →
  next_leaf nd = IX_LEAF_HEADER_PAGE ∨ next_leaf nd = IX_NO_PAGE →
  ∃ s1 s2,
    IxIndexHandle_lower_bound (S fuel) key s
      = Ok (mkIid (root_page_ (file_hdr_ s)) (lower_bound nd key)) s1 ∧
    IxIndexHandle_upper_bound (S fuel) key s
      = Ok (mkIid (root_page_ (file_hdr_ s)) (upper_bound nd key)) s2 ∧
    rep σ ∅ ∅ s1 ∧ rep σ ∅ ∅ s2 ∧
    file_hdr_ s1 = file_hdr_ s ∧ file_hdr_ s2 = file_hdr_ s ∧
    match pairs nd !! Z.to_nat (lower_bound nd key) with
    | Some kv =>
        0 ≤ ix_compare kv.1 key ∧
        ∃ s3, IxIndexHandle_get_rid (mkIid (root_page_ (file_hdr_ s)) (lower_bound nd key)) s1
              = Ok kv.2 s3
    | None =>
        ∃ s3, IxIndexHandle_get_rid (mkIid (root_page_ (file_hdr_ s)) (lower_bound nd key)) s1
              = Throw IndexEntryNotFoundError s3
    end.
Proof.
  intros Hr Hroot Hnd Hleaf Hinc Hroom Hlast Hnext. set (r := root_page_ (file_hdr_ s)) in *.
  destruct (lower_bound_cut nd key Hinc) as (Hlb & _ & Hge & _).
  destruct (upper_bound_cut nd key Hinc) as (Hub & _).
  assert (∀ bound, 0 ≤ bound nd key ≤ num_key nd →
            wp (λ _, False)
               (let* leaf := find_leaf_page (S fuel) key in
                match leaf with
                | Some leaf => bound_scan bound (S fuel) leaf key
                | None => ret (mkIid (-1) (-1))
                end) s
               (λ iid s', iid = mkIid r (bound nd key) ∧ rep σ ∅ ∅ s' ∧
                          file_hdr_ s' = file_hdr_ s ∧ room (pool s') = room (pool s)))
    as Hscan.
  { intros bound Hb.
    apply wp_bind. eapply wp_find_leaf_page_root; [done | done | done | done | done |].
    fold r. intros h s1 Hr1 Hhdr1 Hfd1 Hh1 Hroom1.
    eapply wp_bound_scan_only_leaf; [done | done | done | by rewrite Hhdr1 | done | done |].
    intros s2 Hr2 Hhdr2 Hfd2 Hroom2. split; [done |]. split; [done |].
    split; [congruence | lia]. }
  destruct (wp_total _ _ _ (Hscan lower_bound Hlb)) as (i1 & s1 & Hrun1 & -> & Hr1 & Hhdr1 & Hroom1).
  destruct (wp_total _ _ _ (Hscan upper_bound Hub)) as (i2 & s2 & Hrun2 & -> & Hr2 & Hhdr2 & _).
  exists s1, s2.
  split.
  { unfold IxIndexHandle_lower_bound. unfold bind at 1. unfold gets. fold r.
    destruct (Z.eqb_spec r IX_NO_PAGE); [done | exact Hrun1]. }
  split.
  { unfold IxIndexHandle_upper_bound. unfold bind at 1. unfold gets. fold r.
    destruct (Z.eqb_spec r IX_NO_PAGE); [done | exact Hrun2]. }
  split; [done |]. split; [done |]. split; [done |]. split; [done |].
  destruct (pairs nd !! Z.to_nat (lower_bound nd key)) as [kv |] eqn:Hkv.
  - split.
    + rewrite Forall_forall in Hge. apply Hge.
      apply list_elem_of_lookup. exists 0%nat. by rewrite lookup_drop, Nat.add_0_r.
    + destruct (wp_total (IxIndexHandle_get_rid (mkIid r (lower_bound nd key))) s1
                  (λ rid _, rid = kv.2)) as (rid & s3 & Hrun3 & ->); [| by exists s3].
      eapply wp_get_rid_at; [done | done | lia | lia |]. rewrite Hkv. by intros.
  - apply wp_throws. eapply wp_get_rid_at; [done | done | lia | lia |]. by rewrite Hkv.
Qed.

End RootLeaf.

(** C3 on a run over a file of three pages: two of its pages are fetched,
    a fourth is created, one is unpinned, flushed and deleted. *)
Lemma page_table_matches_frames_witness :
  let files : gmap Z (list (Node Z)) := {[ 0 := [blank; blank; blank] ]} in
  let ops := [FetchPage (mkPageId 0 0); FetchPage (mkPageId 0 2); NewPage 0;
              UnpinPage (mkPageId 0 2) true; FlushPage (mkPageId 0 2);
              DeletePage (mkPageId 0 2); FlushAllPages 0] in
  ∃ b : BufferPoolManager (Node Z),
    run_ops ops (bpm_init 2 (disk_of_files files)) = Ok tt b ∧ frames_match_table b.
Proof.
  intros files ops.
  destruct (run_ops ops (bpm_init 2 (disk_of_files files))) as [[] b |] eqn:Hrun;
    [| by vm_compute in Hrun].
  exists b. split; [done |]. exact (page_table_matches_frames 2 files ops b Hrun).
Defined.

(** C3 as stated fails in two ways, shown on a pool of two frames over a
    file with the pages 0, 1 and 2.

    A call that throws: [fetch_page] of page 3, which the file does not
    hold, takes frame 0, enters page 3 in the page table and then throws
    when the disk manager cannot read the page; frame 0 is left recording
    page 3.  The [new_page] that follows is given page number 3 and
    installs it in frame 1, so two frames record page 3 of the file.

    An invalid page id: after [new_page], [unpin_page] and [delete_page] of
    the new page, which all return, frame 0 records the invalid page id of
    the file, and that is no key of the page table. *)
Lemma failed_fetch_page_leaves_two_frames :
  let b0 : BufferPoolManager (Node Z) :=
    bpm_init 2 (disk_of_files {[ 0 := [blank; blank; blank] ]}) in
  (∃ b1 b2,
     fetch_page (mkPageId 0 3) b0 = Throw IOError b1 ∧
     new_page 0 b1 = Ok (Some (1%nat, mkPageId 0 3)) b2 ∧
     holds b2 0 (mkPageId 0 3) ∧ holds b2 1 (mkPageId 0 3)) ∧
  (∃ b3,
     run_ops [NewPage 0; UnpinPage (mkPageId 0 3) false; DeletePage (mkPageId 0 3)] b0
       = Ok tt b3 ∧
     holds b3 0 (mkPageId 0 INVALID_PAGE_ID) ∧
     page_table_ b3 !! mkPageId 0 INVALID_PAGE_ID = None).
Proof.
  intros b0. split.
  - eexists _, _. split; [vm_compute; reflexivity |].
    split; [vm_compute; reflexivity |].
    split; eexists; (split; [vm_compute; reflexivity | reflexivity]).
  - eexists. split; [vm_compute; reflexivity |].
    split; [eexists; (split; [vm_compute; reflexivity | reflexivity]) |].
    vm_compute. reflexivity.
Qed.

(** The disk of the examples: pages 0, 1 and 2 of file 0, all blank. *)
Definition three_pages : DiskManager (Node Z) :=
  mkDisk (<[mkPageId 0 0 := blank]> (<[mkPageId 0 1 := blank]> (<[mkPageId 0 2 := blank]> ∅)))
         (<[0 := 3]> ∅).


(** C6 on a pool of one frame: the second unpin of a page pinned once is
    refused and changes nothing, the first one makes the frame evictable. *)
Lemma unpin_page_spec_witness :
  ∃ b b1 : BufferPoolManager (Node Z),
    fetch_page (mkPageId 0 1) (bpm_init 1 three_pages) = Ok (Some 0%nat) b ∧
    unpin_page (mkPageId 0 1) true b = Ok true b1 ∧
    replacer_ b1 = [0%nat] ∧
    unpin_page (mkPageId 0 1) false b1 = Ok false b1 ∧
    unpin_page (mkPageId 0 2) false b1 = Ok false b1.
Proof.
  destruct (fetch_page (mkPageId 0 1) (bpm_init 1 three_pages)) as [r b |] eqn:Hf;
    [| by vm_compute in Hf].
  assert (r = Some 0%nat) as -> by (vm_compute in Hf; congruence).
  assert (page_table_ b !! mkPageId 0 1 = Some 0%nat) as Ht
    by (vm_compute in Hf; injection Hf as <-; reflexivity).
  assert (pages_ b !! 0%nat = Some (mkPage (mkPageId 0 1) blank false 1)) as Hpg
    by (vm_compute in Hf; injection Hf as <-; reflexivity).
  destruct (unpin_page_spec b (mkPageId 0 1) true) as (_ & _ & H3).
  destruct (H3 _ _ Ht Hpg) as (b1 & Hb1 & Hpages & Hrep & Htab & _); [simpl; lia |].
  exists b, b1. split; [done |]. split; [done |].
  assert (replacer_ b1 = [0%nat]) as Hr.
  { unfold unpin_page, bind, get in Hb1. rewrite Ht, (page_at_ok _ _ _ Hpg) in Hb1.
    simpl in Hb1. injection Hb1 as <-. vm_compute in Hf. injection Hf as <-. reflexivity. }
  split; [done |].
  destruct (unpin_page_spec b1 (mkPageId 0 1) false) as (_ & H2 & _).
  destruct (unpin_page_spec b1 (mkPageId 0 2) false) as (H1 & _).
  split.
  - eapply H2; [by rewrite Htab | rewrite Hpages; apply list_lookup_insert_eq;
                                  by eapply lookup_lt_Some | simpl; lia].
  - apply H1. rewrite Htab. vm_compute in Hf. injection Hf as <-. reflexivity.
Defined.


(** A file whose page [i] holds the [i]-th of [nodes], and whose next new
    page comes after them. *)
Definition file_disk (f : Z) (nodes : list (Node Z)) : DiskManager (Node Z) :=
  mkDisk (list_to_map (imap (λ i nd, (mkPageId f (Z.of_nat i), nd)) nodes))
         {[ f := Z.of_nat (length nodes) ]}.

Lemma file_disk_wf (f : Z) (nodes : list (Node Z)) (pool_size : nat) :
  pool_wf (bpm_init pool_size (file_disk f nodes)).
Proof.
  apply bpm_init_wf.
  - intros p [x Hx]. unfold file_disk in Hx. simpl in Hx.
    apply elem_of_list_to_map_2, elem_of_lookup_imap in Hx as (i & nd & Heq & Hi).
    injection Heq as -> ->. apply lookup_lt_Some in Hi.
    unfold allocated, next_page_no. simpl. rewrite lookup_singleton_eq. simpl. lia.
  - intros g. unfold next_page_no, file_disk. simpl.
    destruct (decide (f = g)) as [<- | Hne].
    + rewrite lookup_singleton_eq. simpl. lia.
    + by rewrite lookup_singleton_ne.
Qed.

(** The index of the examples: file 7 with the file header on page 0, the
    leaf header on page 1 and the root on page 2, read through a pool of
    [pool_size] frames. *)
Definition example_index_on (root : Node Z) (pool_size : nat) (max_size : Z) :
    IxIndexHandle Z :=
  mkIx (mkFileHdr 2 2 2 3 max_size)
       (bpm_init pool_size (file_disk 7 [blank; mkNode true IX_NO_PAGE 2 2 []; root])) 7.

(** The index as it is created: the root is an empty leaf. *)
Definition example_index : nat → Z → IxIndexHandle Z :=
  example_index_on (mkNode true IX_NO_PAGE 1 1 []).

Lemma example_index_on_wf (root : Node Z) (pool_size : nat) (max_size : Z) :
  pool_wf (buffer_pool_manager_ (example_index_on root pool_size max_size)).
Proof. apply file_disk_wf. Qed.

Lemma example_index_wf (pool_size : nat) (max_size : Z) :
  pool_wf (buffer_pool_manager_ (example_index pool_size max_size)).
Proof. apply example_index_on_wf. Qed.



(** C9 on the example index with nodes of four entries: five insertions
    (the fourth splits the root) and a deletion each leave every pin count
    of the pool as it was. *)
Lemma index_operations_restore_pins_witness :
  let I := int_params true in
  let s0 := example_index 8 4 in
  ∃ s1 s2 s3 s4 s5 s6 p1 p2 p3 p4 p5 b6,
    insert_entry 30 10 (mkRid 10 0) s0 = Ok p1 s1 ∧
    insert_entry 30 20 (mkRid 20 0) s1 = Ok p2 s2 ∧
    insert_entry 30 30 (mkRid 30 0) s2 = Ok p3 s3 ∧
    insert_entry 30 40 (mkRid 40 0) s3 = Ok p4 s4 ∧
    insert_entry 30 50 (mkRid 50 0) s4 = Ok p5 s5 ∧
    delete_entry 30 10 false s5 = Ok b6 s6 ∧
    ∀ q, pin_count_of (buffer_pool_manager_ s6) q = 0.
Proof.
  intros I s0.
  pose proof (example_index_wf 8 4) as H0. fold s0 in H0.
  destruct (insert_entry 30 10 (mkRid 10 0) s0) as [r1 s1 |] eqn:E1; [| by vm_compute in E1].
  destruct (index_operations_restore_pins s0 H0) as (_ & Hi & _).
  destruct (Hi _ _ _ _ _ E1) as [H1 P1]. clear Hi.
  destruct (insert_entry 30 20 (mkRid 20 0) s1) as [r2 s2 |] eqn:E2;
    [| by vm_compute in E1; injection E1 as <- <-; vm_compute in E2].
  destruct (index_operations_restore_pins s1 H1) as (_ & Hi & _).
  destruct (Hi _ _ _ _ _ E2) as [H2 P2]. clear Hi.
  destruct (insert_entry 30 30 (mkRid 30 0) s2) as [r3 s3 |] eqn:E3;
    [| by vm_compute in E1; injection E1 as <- <-; vm_compute in E2; injection E2 as <- <-;
          vm_compute in E3].
  destruct (index_operations_restore_pins s2 H2) as (_ & Hi & _).
  destruct (Hi _ _ _ _ _ E3) as [H3 P3]. clear Hi.
  destruct (insert_entry 30 40 (mkRid 40 0) s3) as [r4 s4 |] eqn:E4;
    [| by vm_compute in E1; injection E1 as <- <-; vm_compute in E2; injection E2 as <- <-;
          vm_compute in E3; injection E3 as <- <-; vm_compute in E4].
  destruct (index_operations_restore_pins s3 H3) as (_ & Hi & _).
  destruct (Hi _ _ _ _ _ E4) as [H4 P4]. clear Hi.
  destruct (insert_entry 30 50 (mkRid 50 0) s4) as [r5 s5 |] eqn:E5;
    [| by vm_compute in E1; injection E1 as <- <-; vm_compute in E2; injection E2 as <- <-;
          vm_compute in E3; injection E3 as <- <-; vm_compute in E4; injection E4 as <- <-;
          vm_compute in E5].
  destruct (index_operations_restore_pins s4 H4) as (_ & Hi & _).
  destruct (Hi _ _ _ _ _ E5) as [H5 P5]. clear Hi.
  destruct (delete_entry 30 10 false s5) as [r6 s6 |] eqn:E6;
    [| by vm_compute in E1; injection E1 as <- <-; vm_compute in E2; injection E2 as <- <-;
          vm_compute in E3; injection E3 as <- <-; vm_compute in E4; injection E4 as <- <-;
          vm_compute in E5; injection E5 as <- <-; vm_compute in E6].
  destruct (index_operations_restore_pins s5 H5) as (_ & _ & Hd).
  destruct (Hd _ _ _ _ _ E6) as [H6 P6]. clear Hd.
  exists s1, s2, s3, s4, s5, s6, r1, r2, r3, r4, r5, r6. repeat (split; [done |]).
  intros q. unfold pool in *. rewrite P6, P5, P4, P3, P2, P1.
  unfold pin_count_of. simpl. by rewrite lookup_empty.
Defined.

Lemma fetch_node_wf `{!IxParams Key} (s s' : IxIndexHandle Key) p h :
  pool_wf (buffer_pool_manager_ s) → fetch_node p s = Ok h s' →
  pool_wf (buffer_pool_manager_ s').
Proof.
  intros Hwf H.
  destruct (fetch_node_ledger _ _ _ _ _ _ (ledger_start s Hwf) H) as [Hl _].
  by destruct Hl.
Qed.

(** C7 on three roots.  An internal root on page 2 whose only child is the
    leaf on page 3: the leaf becomes the root and loses its parent.  An
    empty leaf root: the tree is cleared.  A leaf root with an entry:
    nothing happens. *)
Lemma adjust_root_spec_witness :
  let I := int_params true in
  let leaf := mkNode true 2 1 1 [(10, mkRid 10 0)] in
  let s0 := mkIx (mkFileHdr 2 3 3 4 4)
              (bpm_init 4 (file_disk 7 [blank; mkNode true IX_NO_PAGE 3 3 [];
                                        mkNode false IX_NO_PAGE 0 0 [(10, mkRid 3 0)]; leaf])) 7 in
  let s1 := example_index 4 4 in
  let s2 := example_index_on (mkNode true IX_NO_PAGE 1 1 [(10, mkRid 10 0)]) 4 4 in
  (∃ h s s', fetch_node 2 s0 = Ok h s ∧ adjust_root h s = Ok true s' ∧
     root_page_ (file_hdr_ s') = 3 ∧
     page_content (buffer_pool_manager_ s') (mkPageId 7 3)
       = Some (mkNode true IX_NO_PAGE 1 1 [(10, mkRid 10 0)])) ∧
  (∃ h s, fetch_node 2 s1 = Ok h s ∧
     adjust_root h s = Ok true (mkIx (mkFileHdr IX_NO_PAGE IX_NO_PAGE IX_NO_PAGE 3 4)
                                  (buffer_pool_manager_ s) 7)) ∧
  (∃ h s, fetch_node 2 s2 = Ok h s ∧ adjust_root h s = Ok false s).
Proof.
  intros I leaf s0 s1 s2. split; [| split].
  - destruct (fetch_node 2 s0) as [h s |] eqn:Hf; [| by vm_compute in Hf].
    pose proof (fetch_node_wf s0 _ _ _ (file_disk_wf _ _ _) Hf) as Hwf.
    vm_compute in Hf. injection Hf as <- <-.
    match type of Hwf with pool_wf (buffer_pool_manager_ ?s) => set (s' := s) in * end.
    destruct (adjust_root_spec s' 0%nat
                (mkPage (mkPageId 7 2) (mkNode false IX_NO_PAGE 0 0 [(10, mkRid 3 0)]) false 1)
                Hwf eq_refl) as (H1 & _ & _).
    destruct (H1 10 (mkRid 3 0) leaf eq_refl eq_refl) as (s'' & Hrun & Hhdr & _ & Hc & _).
    + done.
    + by vm_compute.
    + right. left. by vm_compute.
    + exists 0%nat, s', s''. split; [done |]. split; [done |].
      split; [by rewrite Hhdr |]. exact Hc.
  - destruct (fetch_node 2 s1) as [h s |] eqn:Hf; [| by vm_compute in Hf].
    pose proof (fetch_node_wf s1 _ _ _ (file_disk_wf _ _ _) Hf) as Hwf.
    vm_compute in Hf. injection Hf as <- <-.
    match type of Hwf with pool_wf (buffer_pool_manager_ ?s) => set (s' := s) in * end.
    destruct (adjust_root_spec s' 0%nat
                (mkPage (mkPageId 7 2) (mkNode true IX_NO_PAGE 1 1 []) false 1)
                Hwf eq_refl) as (_ & H2 & _).
    exists 0%nat, s'. split; [done |]. by apply H2.
  - destruct (fetch_node 2 s2) as [h s |] eqn:Hf; [| by vm_compute in Hf].
    pose proof (fetch_node_wf s2 _ _ _ (file_disk_wf _ _ _) Hf) as Hwf.
    vm_compute in Hf. injection Hf as <- <-.
    match type of Hwf with pool_wf (buffer_pool_manager_ ?s) => set (s' := s) in * end.
    destruct (adjust_root_spec s' 0%nat
                (mkPage (mkPageId 7 2) (mkNode true IX_NO_PAGE 1 1 [(10, mkRid 10 0)]) false 1)
                Hwf eq_refl) as (_ & _ & H3).
    exists 0%nat, s'. split; [done |]. apply H3; simpl; intros [? ?]; done.
Defined.
(** ** The pool properties on the example disk *)

Lemma three_pages_alloc_ok : disk_alloc_ok three_pages.
Proof.
  intros p [x Hx]. unfold three_pages in Hx. simpl in Hx.
  destruct (decide (mkPageId 0 0 = p)) as [<- | H0]; [by vm_compute |].
  rewrite lookup_insert_ne in Hx by done.
  destruct (decide (mkPageId 0 1 = p)) as [<- | H1]; [by vm_compute |].
  rewrite lookup_insert_ne in Hx by done.
  destruct (decide (mkPageId 0 2 = p)) as [<- | H2]; [by vm_compute |].
  rewrite lookup_insert_ne in Hx by done. by rewrite lookup_empty in Hx.
Qed.

Lemma three_pages_next f : 0 ≤ next_page_no three_pages f.
Proof.
  unfold next_page_no, three_pages. simpl.
  destruct (decide (0 = f)) as [<- | Hf].
  - by rewrite lookup_insert_eq.
  - rewrite lookup_insert_ne, lookup_empty by done. done.
Qed.

Lemma three_pages_ok (pool_size : nat) : pool_ok ∅ (bpm_init pool_size three_pages).
Proof. apply bpm_init_ok; [apply three_pages_alloc_ok | apply three_pages_next]. Qed.

Lemma three_pages_wf (pool_size : nat) : pool_wf (bpm_init pool_size three_pages).
Proof. apply bpm_init_wf; [apply three_pages_alloc_ok | apply three_pages_next]. Qed.

(** X1 on a pool of two frames: after the run frame 0 is free, frame 1 is
    pinned, and the next victim is frame 0. *)
Lemma victims_are_unpinned_witness :
  let files : gmap Z (list (Node Z)) := {[ 0 := [blank; blank; blank] ]} in
  ∃ b : BufferPoolManager (Node Z),
    run_ops [FetchPage (mkPageId 0 0); NewPage 0; UnpinPage (mkPageId 0 0) false;
             FetchPage (mkPageId 0 2); UnpinPage (mkPageId 0 2) true;
             DeletePage (mkPageId 0 0)]
            (bpm_init 2 (disk_of_files files)) = Ok tt b ∧
    NoDup (free_list_ b ++ replacer_ b) ∧
    ∀ v b', find_victim_page b = Ok (Some v) b' →
      ∃ pg, pages_ b !! v = Some pg ∧ pin_count_ pg = 0.
Proof.
  intros files.
  destruct (run_ops [FetchPage (mkPageId 0 0); NewPage 0; UnpinPage (mkPageId 0 0) false;
                     FetchPage (mkPageId 0 2); UnpinPage (mkPageId 0 2) true;
                     DeletePage (mkPageId 0 0)]
                    (bpm_init 2 (disk_of_files files))) as [[] b |] eqn:Hrun;
    [| by vm_compute in Hrun].
  exists b. split; [done |].
  by destruct (victims_are_unpinned 2 files _ b Hrun) as (_ & _ & Hnd & Hv).
Defined.

(** X2 on a pool of one frame: page 0 is evicted by the fetch of page 1 and
    keeps its bytes. *)
Lemma pool_keeps_the_bytes_of_pages_witness :
  ∃ b : BufferPoolManager (Node Z),
    run_ops [FetchPage (mkPageId 0 0); UnpinPage (mkPageId 0 0) true;
             FetchPage (mkPageId 0 1); UnpinPage (mkPageId 0 1) false]
            (bpm_init 1 three_pages) = Ok tt b ∧
    page_content b (mkPageId 0 0) = Some blank.
Proof.
  destruct (run_ops [FetchPage (mkPageId 0 0); UnpinPage (mkPageId 0 0) true;
                     FetchPage (mkPageId 0 1); UnpinPage (mkPageId 0 1) false]
                    (bpm_init 1 three_pages)) as [[] b |] eqn:Hrun; [| by vm_compute in Hrun].
  exists b. split; [done |].
  by destruct (pool_keeps_the_bytes_of_pages _ _ b (mkPageId 0 0) blank (three_pages_ok 1) Hrun
                 eq_refl) as [? _].
Defined.

(** X3 on a pool of one frame: a node written into page 1 is read back
    after the frame has held page 2. *)
Lemma dirty_page_survives_witness :
  let nd := mkNode true 5 1 1 [(10, mkRid 10 0)] in
  ∃ (f : frame_id_t) (b b1 : BufferPoolManager (Node Z)),
    fetch_page (mkPageId 0 1) (bpm_init 1 three_pages) = Ok (Some f) b ∧
    unpin_page (mkPageId 0 1) true
      (set_pages (λ l, <[f := mkPage (mkPageId 0 1) nd false 1]> l) b) = Ok true b1 ∧
    ∀ b2 f' b3,
      run_ops [FetchPage (mkPageId 0 2); UnpinPage (mkPageId 0 2) false] b1 = Ok tt b2 →
      fetch_page (mkPageId 0 1) b2 = Ok (Some f') b3 →
      ∃ pg', pages_ b3 !! f' = Some pg' ∧ id_ pg' = mkPageId 0 1 ∧ data_ pg' = nd.
Proof.
  intros nd.
  destruct (fetch_page_ok ∅ (bpm_init 1 three_pages) (mkPageId 0 1) blank (three_pages_ok 1)
              eq_refl) as (f & b & Hf & Hok & _ & Ht & Hpg & _); [right; vm_compute; lia |].
  destruct (dirty_page_survives b (mkPageId 0 1) f _ nd
              [FetchPage (mkPageId 0 2); UnpinPage (mkPageId 0 2) false] Hok Ht Hpg)
    as (b1 & Hb1 & Hread); [by vm_compute |].
  exists f, b, b1. split; [done |]. split; [exact Hb1 | exact Hread].
Defined.

(** X4 on a pool of two frames that hold the pinned pages 0 and 1: the
    fetch of page 2 returns null and changes nothing. *)
Lemma fetch_page_null_iff_witness :
  ∃ b : BufferPoolManager (Node Z),
    run_ops [FetchPage (mkPageId 0 0); FetchPage (mkPageId 0 1)] (bpm_init 2 three_pages)
      = Ok tt b ∧
    fetch_page (mkPageId 0 2) b = Ok None b.
Proof.
  destruct (run_ops [FetchPage (mkPageId 0 0); FetchPage (mkPageId 0 1)]
                    (bpm_init 2 three_pages)) as [[] b |] eqn:Hrun; [| by vm_compute in Hrun].
  pose proof (run_ops_wf _ _ _ (three_pages_wf 2) Hrun) as Hwf.
  exists b. split; [done |].
  destruct (fetch_page_null_iff b (mkPageId 0 2) Hwf) as [[_ Hnull] Hsame].
  destruct Hnull as [b' Hb'].
  - vm_compute in Hrun. injection Hrun as <-. split; [reflexivity |].
    intros [| [| f]] pg Hpg; simpl in Hpg; [| | by rewrite lookup_nil in Hpg];
      injection Hpg as <-; simpl; lia.
  - by rewrite Hb', (Hsame _ Hb').
Defined.

(** X25 on a pool of two frames: page 7 is not in the file; its fetch
    throws and leaves frame 0 with the page id, unpinned and unlisted. *)
Lemma fetch_page_read_fails_witness :
  ∃ b' : BufferPoolManager (Node Z),
    fetch_page (mkPageId 0 7) (bpm_init 2 three_pages) = Throw IOError b' ∧
    pages_ b' !! 0%nat = Some (mkPage (mkPageId 0 7) blank false 0) ∧
    free_list_ b' = [1%nat] ∧ replacer_ b' = [].
Proof.
  destruct (fetch_page_read_fails ∅ (bpm_init 2 three_pages) (mkPageId 0 7) 0
              (three_pages_ok 2) eq_refl eq_refl) as (b' & Hrun & _ & Hpg & _).
  exists b'. split; [exact Hrun |]. split; [exact Hpg |].
  vm_compute in Hrun. injection Hrun as <-. split; reflexivity.
Defined.

(** X5 on a pool of two frames: page 0 stays pinned in its frame while
    other pages come and go. *)
Lemma pinned_page_stays_witness :
  ∃ (g : frame_id_t) pg (b : BufferPoolManager (Node Z)),
    fetch_page (mkPageId 0 0) (bpm_init 2 three_pages) = Ok (Some g) b ∧
    pages_ b !! g = Some pg ∧
    ∀ q f b', q ≠ mkPageId 0 0 → fetch_page q b = Ok (Some f) b' →
      page_table_ b' !! mkPageId 0 0 = Some g ∧ pages_ b' !! g = Some pg.
Proof.
  destruct (fetch_page (mkPageId 0 0) (bpm_init 2 three_pages)) as [[g |] b |] eqn:Hf;
    [| by vm_compute in Hf | by vm_compute in Hf].
  destruct (fetch_page_spec _ _ _ _ (three_pages_wf 2) Hf)
    as (Hwf & Ht & (pg & Hpg & Hid & Hpin) & _).
  exists g, pg, b. split; [done |]. split; [done |].
  by destruct (pinned_page_stays b _ g pg Hwf Ht Hpg Hpin) as [? _].
Defined.


(** X7 on a pool of one frame: a pinned page is written back. *)
Lemma flush_page_writes_back_witness :
  ∃ (f : frame_id_t) (b b' : BufferPoolManager (Node Z)),
    new_page 0 (bpm_init 1 three_pages) = Ok (Some (f, mkPageId 0 3)) b ∧
    flush_page (mkPageId 0 3) b = Ok true b' ∧
    pages_ b' !! f = Some (mkPage (mkPageId 0 3) blank false 1) ∧
    disk_pages (disk_manager_ b') !! mkPageId 0 3 = Some blank.
Proof.
  destruct (new_page 0 (bpm_init 1 three_pages)) as [[[f p] |] b |] eqn:H1;
    [| by vm_compute in H1 | by vm_compute in H1].
  destruct (new_page_spec _ _ _ _ _ (three_pages_wf 1) H1) as (Hwf & -> & _ & Ht & Hpg & _).
  change (next_page_no (disk_manager_ (bpm_init 1 three_pages)) 0) with 3 in *.
  destruct (flush_page_writes_back b (mkPageId 0 3) Hwf) as [_ Hhit].
  destruct (Hhit f Ht) as (pg & b' & Hpg' & Hfl & _ & Hfr & _ & Hdk & _).
  assert (pg = mkPage (mkPageId 0 3) blank true 1) as -> by congruence.
  exists f, b, b'. split; [done |]. split; [done |]. split; [exact Hfr | exact Hdk].
Defined.

(** X8 on a pool of one frame: an unpinned dirty page is deleted from the
    pool and can still be read. *)
Lemma delete_page_frees_frame_keeps_bytes_witness :
  ∃ (b b' : BufferPoolManager (Node Z)),
    run_ops [NewPage 0; UnpinPage (mkPageId 0 3) false] (bpm_init 1 three_pages) = Ok tt b ∧
    delete_page (mkPageId 0 3) b = Ok true b' ∧
    page_table_ b' !! mkPageId 0 3 = None ∧
    page_content b' (mkPageId 0 3) = Some blank.
Proof.
  destruct (run_ops [NewPage 0; UnpinPage (mkPageId 0 3) false] (bpm_init 1 three_pages))
    as [[] b |] eqn:Hrun; [| by vm_compute in Hrun].
  destruct (run_ops_keeps_content _ _ _ (three_pages_ok 1) Hrun) as [Hok _].
  destruct (delete_page_frees_frame_keeps_bytes ∅ b (mkPageId 0 3) Hok)
    as (r & b' & Hdel & _ & Hr & _ & Htrue & Hc & _).
  assert (pin_count_of b (mkPageId 0 3) = 0) as Hz
    by (vm_compute in Hrun; injection Hrun as <-; reflexivity).
  assert (page_content b (mkPageId 0 3) = Some blank) as Hb
    by (vm_compute in Hrun; injection Hrun as <-; reflexivity).
  destruct r; [| destruct Hr as [Hr _]; specialize (Hr eq_refl); lia].
  exists b, b'. split; [done |]. split; [done |].
  split; [by destruct (Htrue eq_refl) | by rewrite Hc].
Defined.

(** X9 on a pool of two frames: the new page of file 0 is written to the
    disk while it is pinned. *)
Lemma flush_all_pages_writes_file_witness :
  ∃ (b b' : BufferPoolManager (Node Z)),
    run_ops [NewPage 0; FetchPage (mkPageId 0 1)] (bpm_init 2 three_pages) = Ok tt b ∧
    flush_all_pages 0 b = Ok tt b' ∧
    disk_pages (disk_manager_ b') !! mkPageId 0 3 = Some blank.
Proof.
  destruct (run_ops [NewPage 0; FetchPage (mkPageId 0 1)] (bpm_init 2 three_pages))
    as [[] b |] eqn:Hrun; [| by vm_compute in Hrun].
  pose proof (run_ops_wf _ _ _ (three_pages_wf 2) Hrun) as Hwf.
  destruct (flush_all_pages_writes_file 0 b Hwf) as (b' & Hfl & _ & _ & Hdk & _).
  exists b, b'. split; [done |]. split; [done |].
  rewrite Hdk. simpl. vm_compute in Hrun. injection Hrun as <-. reflexivity.
Defined.

(** ** The node operations on a leaf of integer keys *)

(** The index of the examples with its root pinned in frame 0 of a pool of
    one frame. *)
Definition one_node_index (nd : Node Z) (max_size : Z) : IxIndexHandle Z :=
  mkIx (mkFileHdr 2 2 2 3 max_size)
       (mkBpm [mkPage (mkPageId 7 2) nd false 1] {[mkPageId 7 2 := 0%nat]} [] []
              (file_disk 7 [blank; mkNode true IX_NO_PAGE 2 2 []; nd])) 7.

Definition leaf_10_30 : Node Z :=
  mkNode true IX_NO_PAGE 1 1 [(10, mkRid 10 0); (30, mkRid 30 0)].

Lemma leaf_10_30_increasing bin : @strictly_increasing Z (int_params bin) (node_keys leaf_10_30).
Proof.
  apply (@strictly_increasing_sorted Z (int_params bin)).
  repeat constructor.
Qed.

Lemma not_in_10_30 (k : Z) : k ≠ 10 → k ≠ 30 → k ∉ node_keys leaf_10_30.
Proof.
  intros H1 H2 Hin. unfold node_keys, leaf_10_30 in Hin. simpl in Hin.
  repeat (apply elem_of_cons in Hin as [Hin | Hin]; [done |]). by apply elem_of_nil in Hin.
Qed.

(** X10 on the leaf with keys 10 and 30. *)
Lemma node_insert_sorted_witness :
  let I := int_params true in
  let s := one_node_index leaf_10_30 4 in
  node_insert 0%nat 10 (mkRid 99 9) s = Ok 2 s ∧
  (∃ l, node_insert 0%nat 20 (mkRid 20 0) s = Ok 3 (put_node 0%nat (set_pairs l leaf_10_30) s) ∧
        strictly_increasing l.*1 ∧ (20, mkRid 20 0) ∈ l) ∧
  node_insert 0%nat 20 (mkRid 20 0) (one_node_index leaf_10_30 2)
  = Throw (AssertionFailed InInsertPairs) (one_node_index leaf_10_30 2).
Proof.
  intros I s.
  destruct (@node_insert_sorted Z I (int_params_laws true) s 0%nat _ 10 (mkRid 99 9) eq_refl
              (leaf_10_30_increasing true)) as (Hold & _ & _).
  destruct (@node_insert_sorted Z I (int_params_laws true) s 0%nat _ 20 (mkRid 20 0) eq_refl
              (leaf_10_30_increasing true)) as (_ & _ & Hnew).
  destruct (@node_insert_sorted Z I (int_params_laws true) (one_node_index leaf_10_30 2) 0%nat _
              20 (mkRid 20 0) eq_refl (leaf_10_30_increasing true)) as (_ & Hfull & _).
  split; [apply Hold; by left |]. split.
  - destruct Hnew as (l & Hl & Hinc & Hmem); [by apply not_in_10_30 | by vm_compute |].
    exists l. split; [exact Hl |]. split; [done |]. apply Hmem. by left.
  - apply Hfull; [by apply not_in_10_30 | by vm_compute].
Defined.

(** X11 on the leaf with keys 10 and 30. *)
Lemma node_remove_sorted_witness :
  let I := int_params false in
  let s := one_node_index leaf_10_30 4 in
  node_remove 0%nat 20 s = Ok 2 s ∧
  ∃ l, node_remove 0%nat 30 s = Ok 1 (put_node 0%nat (set_pairs l leaf_10_30) s) ∧
       (10, mkRid 10 0) ∈ l ∧ (30, mkRid 30 0) ∉ l.
Proof.
  intros I s.
  destruct (@node_remove_sorted Z I (int_params_laws false) s 0%nat _ 20 eq_refl
              (leaf_10_30_increasing false)) as (Hnot & _).
  destruct (@node_remove_sorted Z I (int_params_laws false) s 0%nat _ 30 eq_refl
              (leaf_10_30_increasing false)) as (_ & Hin).
  split; [apply Hnot; by apply not_in_10_30 |].
  destruct Hin as (l & Hl & _ & Hmem); [by right; left |].
  exists l. split; [exact Hl |]. split.
  - apply Hmem. split; [by left | done].
  - intros H30. apply Hmem in H30 as [_ Hne]. done.
Defined.

(** X12 on the leaf with keys 10 and 30. *)
Lemma leaf_lookup_finds_witness :
  let I := int_params true in
  let s := one_node_index leaf_10_30 4 in
  leaf_lookup 0%nat 30 s = Ok (Some (mkRid 30 0)) s ∧ leaf_lookup 0%nat 20 s = Ok None s.
Proof.
  intros I s.
  destruct (@leaf_lookup_finds Z I (int_params_laws true) s 0%nat _ 30 eq_refl
              (leaf_10_30_increasing true)) as (r & Hr & Hsome & _).
  destruct (@leaf_lookup_finds Z I (int_params_laws true) s 0%nat _ 20 eq_refl
              (leaf_10_30_increasing true)) as (r' & Hr' & _ & Hnone).
  split.
  - rewrite Hr. f_equal. apply Hsome. by right; left.
  - rewrite Hr'. f_equal. apply Hnone. by apply not_in_10_30.
Defined.

(** X13 on the leaf with keys 10 and 30. *)
Lemma node_insert_lookup_remove_witness :
  let I := int_params true in
  let s := one_node_index leaf_10_30 4 in
  ∃ s1, node_insert 0%nat 20 (mkRid 20 5) s = Ok 3 s1 ∧
    leaf_lookup 0%nat 20 s1 = Ok (Some (mkRid 20 5)) s1 ∧
    node_remove 0%nat 20 s1 = Ok 2 s.
Proof.
  intros I s.
  destruct (@node_insert_lookup_remove Z I (int_params_laws true) s 0%nat _ 20 (mkRid 20 5)
              eq_refl (leaf_10_30_increasing true)) as (s1 & H1 & H2 & _ & H3);
    [by apply not_in_10_30 | by vm_compute |].
  exists s1. split; [exact H1 |]. split; [exact H2 | exact H3].
Defined.

(** X14 on an internal node with the children 4, 5 and 6. *)
Lemma internal_lookup_routes_witness :
  let I := int_params true in
  let nd := mkNode false IX_NO_PAGE (-1) (-1) [(10, mkRid 4 0); (20, mkRid 5 0); (30, mkRid 6 0)] in
  (∃ (i : nat) kv, internal_lookup 0%nat 25 (one_node_index nd 4) = Ok (rid_page_no kv.2)
                     (one_node_index nd 4) ∧
     pairs nd !! i = Some kv ∧ (i = 0%nat ∨ ix_compare kv.1 25 ≤ 0)) ∧
  internal_lookup 0%nat 25 (one_node_index leaf_10_30 4)
  = Throw (AssertionFailed InInternalLookup) (one_node_index leaf_10_30 4).
Proof.
  intros I nd.
  assert (@strictly_increasing Z I (node_keys nd)) as Hinc.
  { apply (@strictly_increasing_sorted Z I). repeat constructor. }
  destruct (@internal_lookup_routes Z I (int_params_laws true) (one_node_index nd 4) 0%nat _ 25
              eq_refl Hinc) as (_ & Hint).
  destruct (@internal_lookup_routes Z I (int_params_laws true) (one_node_index leaf_10_30 4)
              0%nat _ 25 eq_refl (leaf_10_30_increasing true)) as (Hleaf & _).
  split; [| by apply Hleaf].
  destruct Hint as (i & kv & Hrun & Hkv & Hi & _); [done | done |].
  exists i, kv. split; [exact Hrun |]. split; [exact Hkv | exact Hi].
Defined.

(** ** The index operations on the example index *)

(** What the pages of the example index hold. *)
Definition example_store (root : Node Z) : gmap page_id_t (Node Z) :=
  <[0 := blank]> (<[1 := mkNode true IX_NO_PAGE 2 2 []]> (<[2 := root]> ∅)).

Lemma file_disk_ok (f : Z) (nodes : list (Node Z)) (pool_size : nat) :
  pool_ok ∅ (bpm_init pool_size (file_disk f nodes)).
Proof.
  apply bpm_init_ok.
  - intros p [x Hx]. unfold file_disk in Hx. simpl in Hx.
    apply elem_of_list_to_map_2, elem_of_lookup_imap in Hx as (i & nd & Heq & Hi).
    injection Heq as -> ->. apply lookup_lt_Some in Hi.
    unfold allocated, next_page_no. simpl. rewrite lookup_singleton_eq. simpl. lia.
  - intros g. unfold next_page_no, file_disk. simpl.
    destruct (decide (f = g)) as [<- | Hne].
    + rewrite lookup_singleton_eq. simpl. lia.
    + by rewrite lookup_singleton_ne.
Qed.

Lemma example_rep (root : Node Z) (pool_size : nat) (max_size : Z) :
  rep (example_store root) ∅ ∅ (example_index_on root pool_size max_size).
Proof.
  split.
  - exists ∅. split; [apply file_disk_ok | set_solver].
  - intros p. unfold page_content, pid, example_index_on, pool, file_disk, example_store. simpl.
    rewrite lookup_empty.
    destruct (decide (p = 0)) as [-> | H0]; [by rewrite !lookup_insert_eq |].
    rewrite (lookup_insert_ne _ 0 p) by done.
    rewrite lookup_insert_ne by (intros [=]; done).
    destruct (decide (p = 1)) as [-> | H1]; [by rewrite !lookup_insert_eq |].
    rewrite (lookup_insert_ne _ 1 p) by done.
    rewrite lookup_insert_ne by (intros [=]; done).
    destruct (decide (p = 2)) as [-> | H2]; [by rewrite !lookup_insert_eq |].
    rewrite (lookup_insert_ne _ 2 p) by done.
    rewrite lookup_insert_ne by (intros [=]; done). done.
  - intros q. unfold pin_count_of, example_index_on, pool. simpl. rewrite lookup_empty.
    destruct (decide _); [by rewrite multiplicity_empty | done].
Qed.

(** X15 on the example index: the root is read through a pool of two
    frames, page 9 is not in the file, and a pool without frames has no room. *)
Lemma fetch_node_outcomes_witness :
  let I := int_params true in
  (∃ h s', fetch_node 2 (example_index 2 4) = Ok h s' ∧
           node_of h s' = Ok (mkNode true IX_NO_PAGE 1 1 []) s') ∧
  (∃ s', fetch_node 9 (example_index 2 4) = Throw IOError s') ∧
  fetch_node 2 (example_index 0 4) = Throw (AssertionFailed InFetchNode) (example_index 0 4).
Proof.
  intros I.
  destruct (fetch_node_outcomes _ _ _ _ 2 (example_rep (mkNode true IX_NO_PAGE 1 1 []) 2 4))
    as (Hok & _ & _).
  destruct (fetch_node_outcomes _ _ _ _ 9 (example_rep (mkNode true IX_NO_PAGE 1 1 []) 2 4))
    as (_ & Hio & _).
  destruct (fetch_node_outcomes _ _ _ _ 2 (example_rep (mkNode true IX_NO_PAGE 1 1 []) 0 4))
    as (_ & _ & Hfull).
  split; [| split].
  - destruct (Hok _ eq_refl) as (h & s' & Hrun & Hnode & _); [right; vm_compute; lia |].
    by exists h, s'.
  - apply Hio; [done | vm_compute; lia].
  - apply Hfull; [multiset_solver | done].
Defined.

(** X16 on the example index, whose file has three pages. *)
Lemma create_node_fresh_witness :
  let I := int_params true in
  ∃ h s' s'', create_node (example_index 1 4) = Ok h s' ∧ get_page_no h s' = Ok 3 s' ∧
    num_pages_ (file_hdr_ s') = 4 ∧ release_node_handle h s' = Ok tt s'' ∧
    num_pages_ (file_hdr_ s'') = 3.
Proof.
  intros I.
  destruct (create_node_fresh _ _ _ _ (example_rep (mkNode true IX_NO_PAGE 1 1 []) 1 4))
    as (h & s' & Hrun & _ & Hno & _ & _ & _ & Hhdr & _ & s'' & Hrel & Hhdr'' & _);
    [vm_compute; lia |].
  exists h, s', s''. split; [done |]. split; [exact Hno |].
  split; [by rewrite Hhdr |]. split; [done | by rewrite Hhdr''].
Defined.

(** X17 on an internal root whose second child is page 1. *)
Lemma maintain_child_sets_parent_witness :
  let I := int_params true in
  let root := mkNode false IX_NO_PAGE (-1) (-1) [(10, mkRid 0 0); (20, mkRid 1 0)] in
  ∃ h s1 s2, fetch_node 2 (example_index_on root 2 4) = Ok h s1 ∧
    maintain_child h 1 s1 = Ok tt s2 ∧
    rep (<[1 := set_parent 2 (mkNode true IX_NO_PAGE 2 2 [])]> (example_store root))
        {[+ 2 +]} ∅ s2.
Proof.
  intros I root.
  destruct (fetch_node_rep _ _ _ _ 2 root (example_rep root 2 4) eq_refl)
    as (h & s1 & Hrun & Hr1 & _ & _ & Hh1 & _ & _ & Hroom1); [right; vm_compute; lia |].
  destruct (maintain_child_sets_parent _ _ _ _ h 2 root 1 Hr1 Hh1) as (_ & Hint);
    [multiset_solver | done |].
  destruct (Hint eq_refl (20, mkRid 1 0) (mkNode true IX_NO_PAGE 2 2 []) eq_refl eq_refl)
    as (s2 & Hmc & Hr2 & _); [right; rewrite Hroom1; vm_compute; lia |].
  exists h, s1, s2. split; [done |]. split; [done |].
  eapply rep_proper; [| eapply rep_mono; [| exact Hr2]]; [multiset_solver | set_solver].
Defined.

(** X18 on the example index: the only leaf is taken out of the leaf
    list, so that the leaf header page points to itself. *)
Lemma erase_leaf_unlinks_witness :
  let I := int_params true in
  let root := mkNode true IX_NO_PAGE 1 1 [] in
  (∃ h s1 s2, fetch_node 2 (example_index 2 4) = Ok h s1 ∧ erase_leaf h s1 = Ok tt s2 ∧
     rep (<[1 := mkNode true IX_NO_PAGE 1 1 []]> (example_store root)) {[+ 2 +]} ∅ s2).
Proof.
  intros I root.
  destruct (fetch_node_rep _ _ _ _ 2 root (example_rep root 2 4) eq_refl)
    as (h & s1 & Hrun & Hr1 & _ & _ & Hh1 & _ & _ & Hroom1); [right; vm_compute; lia |].
  destruct (erase_leaf_unlinks _ _ _ _ h 2 root Hr1 Hh1) as (_ & Hleaf);
    [multiset_solver | done |].
  destruct Hleaf as (s2 & Herase & Hr2 & _);
    [done | by eexists | by eexists | rewrite Hroom1; vm_compute; lia |].
  exists h, s1, s2. split; [done |]. split; [done |].
  eapply rep_store; [| exact Hr2]. unfold unlinked. simpl.
  apply map_eq. intros p. unfold example_store.
  destruct (decide (p = 1)) as [-> | H1].
  - rewrite lookup_insert_eq, lookup_alter_eq, lookup_alter_eq.
    rewrite lookup_insert_ne, lookup_insert_eq by done. done.
  - rewrite lookup_insert_ne, !lookup_alter_ne by done. done.
Defined.

(** X19 on an index without root. *)
Lemma empty_index_operations_witness :
  let I := int_params true in
  let s := mkIx (mkFileHdr IX_NO_PAGE 1 1 2 4) (bpm_init 1 three_pages) 0 in
  get_value 3 10 s = Ok (false, []) s ∧
  insert_entry 3 10 (mkRid 10 0) s = Ok IX_NO_PAGE s ∧
  delete_entry 3 10 true s = Ok false s.
Proof.
  intros I s.
  destruct (empty_index_operations s 3 10 (mkRid 10 0) true eq_refl) as (H1 & H2 & H3 & _).
  done.
Defined.

(** X20 on a root leaf with the keys 10 and 30. *)
Lemma get_value_root_leaf_witness :
  let I := int_params true in
  let s := example_index_on leaf_10_30 2 4 in
  (∃ s', get_value 1 30 s = Ok (true, [mkRid 30 0]) s') ∧
  (∃ s', get_value 1 20 s = Ok (false, []) s').
Proof.
  intros I s.
  destruct (@get_value_root_leaf Z I (int_params_laws true) _ s 0 30 leaf_10_30
              (example_rep leaf_10_30 2 4)) as (res & s' & Hrun & _ & _ & Hsome & _);
    [done | done | done | apply leaf_10_30_increasing | vm_compute; lia |].
  destruct (@get_value_root_leaf Z I (int_params_laws true) _ s 0 20 leaf_10_30
              (example_rep leaf_10_30 2 4)) as (res' & s'' & Hrun' & _ & _ & _ & Hnone);
    [done | done | done | apply leaf_10_30_increasing | vm_compute; lia |].
  split.
  - exists s'. rewrite Hrun. f_equal. apply Hsome. by right; left.
  - exists s''. rewrite Hrun'. f_equal. apply Hnone. by apply not_in_10_30.
Defined.

(** X21 on a root leaf with the keys 10 and 30. *)
Lemma insert_entry_root_leaf_witness :
  let I := int_params true in
  let s := example_index_on leaf_10_30 2 4 in
  ∃ s1 s2, insert_entry 1 20 (mkRid 20 7) s = Ok 2 s1 ∧
    get_value 1 20 s1 = Ok (true, [mkRid 20 7]) s2.
Proof.
  intros I s.
  destruct (@insert_entry_root_leaf Z I (int_params_laws true) _ s 0 20 (mkRid 20 7) leaf_10_30
              (example_rep leaf_10_30 2 4))
    as (s1 & Hrun & _ & _ & _ & v & s2 & Hget & Hv & _);
    [done | done | done | done | apply leaf_10_30_increasing | vm_compute; lia
     | by vm_compute |].
  exists s1, s2. split; [exact Hrun |]. rewrite Hget, Hv; [done |]. by apply not_in_10_30.
Defined.

(** X22 on a root leaf with the keys 10 and 30, and on one with the key
    10 only, which is given up. *)
Lemma delete_entry_root_leaf_witness :
  let I := int_params true in
  let only_10 := mkNode true IX_NO_PAGE 1 1 [(10, mkRid 10 0)] in
  (∃ s1 s2, delete_entry 1 30 false (example_index_on leaf_10_30 2 4) = Ok true s1 ∧
            get_value 1 30 s1 = Ok (false, []) s2) ∧
  (∃ s1, delete_entry 1 10 true (example_index_on only_10 2 4) = Ok true s1 ∧
         root_page_ (file_hdr_ s1) = IX_NO_PAGE ∧
         insert_entry 5 10 (mkRid 10 0) s1 = Ok IX_NO_PAGE s1).
Proof.
  intros I only_10.
  assert (@strictly_increasing Z I (node_keys only_10)) as Hinc.
  { apply (@strictly_increasing_sorted Z I). repeat constructor. }
  destruct (@delete_entry_root_leaf Z I (int_params_laws true) _
              (example_index_on leaf_10_30 2 4) 0 30 false leaf_10_30
              (example_rep leaf_10_30 2 4)) as (s1 & Hrun & _ & Hin);
    [done | done | done | done | apply leaf_10_30_increasing | vm_compute; lia |].
  destruct (@delete_entry_root_leaf Z I (int_params_laws true) _
              (example_index_on only_10 2 4) 0 10 true only_10
              (example_rep only_10 2 4)) as (s1' & Hrun' & _ & Hin');
    [done | done | done | done | done | vm_compute; lia |].
  split.
  - destruct Hin as (_ & Hmany & _); [by right; left |].
    destruct Hmany as (_ & s2 & Hget); [by vm_compute |].
    exists s1, s2. split; [| done]. rewrite Hrun. reflexivity.
  - destruct Hin' as (_ & _ & Hone); [by left |].
    destruct Hone as (Hhdr & Hins); [done |].
    exists s1'. split; [| split; [by rewrite Hhdr | apply Hins]].
    rewrite Hrun'. reflexivity.
Defined.

(** X23 on a root leaf with the keys 10 and 30. *)
Lemma leaf_end_position_witness :
  let I := int_params true in
  let s := example_index_on leaf_10_30 2 4 in
  (∃ s', leaf_end s = Ok (mkIid 2 2) s') ∧ leaf_begin s = Ok (mkIid 2 0) s.
Proof.
  intros I s.
  destruct (@leaf_end_position Z _ s (example_rep leaf_10_30 2 4))
    as (Hend & _ & Hbegin);
    [vm_compute; lia |].
  split; [| exact Hbegin].
  destruct (Hend leaf_10_30 eq_refl) as (s' & Hrun & _). by exists s'.
Defined.

(** X24 on a root leaf with the keys 10 and 30. *)
Lemma bounds_only_leaf_witness :
  let I := int_params true in
  let s := example_index_on leaf_10_30 2 4 in
  ∃ s1 s2 s3, IxIndexHandle_lower_bound 1 20 s = Ok (mkIid 2 1) s1 ∧
    IxIndexHandle_upper_bound 1 30 s = Ok (mkIid 2 2) s2 ∧
    IxIndexHandle_get_rid (mkIid 2 1) s1 = Ok (mkRid 30 0) s3.
Proof.
  intros I s.
  destruct (@bounds_only_leaf Z I (int_params_laws true) _ s 0 20 leaf_10_30
              (example_rep leaf_10_30 2 4)) as (s1 & _ & Hlb & _ & _ & _ & _ & _ & Hrid);
    [done | done | done | apply leaf_10_30_increasing | vm_compute; lia | done | by left |].
  destruct (@bounds_only_leaf Z I (int_params_laws true) _ s 0 30 leaf_10_30
              (example_rep leaf_10_30 2 4)) as (_ & s2 & _ & Hub & _);
    [done | done | done | apply leaf_10_30_increasing | vm_compute; lia | done | by left |].
  change (pairs leaf_10_30 !! Z.to_nat (@lower_bound Z I leaf_10_30 20))
    with (Some (30, mkRid 30 0)) in Hrid.
  destruct Hrid as (_ & s3 & Hget).
  exists s1, s2, s3. split; [exact Hlb |]. split; [exact Hub | exact Hget].
Defined.
